(* ===== verification/_CoqProject ===== *)
-Q . S2P
Prelude.v
PyStr.v
PyVal.v
Env.v
PyDate.v
PyFormat.v
Ui.v
Scripted.v
Session.v
AnalysisPage.v
HistoryPage.v
QuotePage.v
TaskPage.v
ConfigPage.v
App.v
Protocol.v
Contract.v
Outcome.v
Ids.v
Process.v
Rules.v
Busy.v
Report.v
Printing.v
Controller.v
