(* ===== verification/Prelude.v ===== *)
(** * Verification of the Streamlit dashboard [src/streamlit_app.py]

    ** The program

    [src/streamlit_app.py] is the web front end of a stock analysis
    system.  Streamlit runs the script from top to bottom on every user
    interaction.  A run configures the page, fills [st.session_state]
    on the first run of a session (the configuration and one handle per
    service), renders the sidebar with a navigation radio, and calls the
    page function of the selected label.  Each of the five pages renders
    its widgets, and on a button asks one collaborator (analysis,
    history, quote, task queue, system configuration) inside
    [try]/[except Exception], most of them under [with st.spinner], and
    renders the answer or the error.  Before all this, at the top of
    the module, every run calls [setup_env()], sets the proxy variables
    of the process when [USE_PROXY] asks for it, and calls
    [setup_logging].  The collaborators, pandas and Streamlit itself
    are outside the repository.

    ** The model

    One run is a computation of the monad [ui W A] of [Ui]:
    [state W -> state W * trace * res signal A].  The state is the world
    [W] in which the collaborators, the clock and the id generator live,
    with the session state (a [Record] of optional attributes).  The
    trace is the page as a tree: the [st.*] calls in order, containers
    ([with col:], the sidebar, expanders) holding what was rendered in
    them, the switching of the busy indicator, every collaborator call
    with its answer, every log record.  A run ends with a value, with an
    exception ([Exn], which [try_except] catches) or with the rerun
    request of [st.rerun()] ([Rerun], which it does not catch).  The
    collaborators are the class [Backend]: any function from a call and
    a world to an answer or an exception and a new world.  Every theorem
    about a page is proved for every instance; [Scripted] has the two
    instances in which the witnesses are evaluated.

    The values the collaborators return are Python values ([PyVal]):
    [None], booleans, integers, floats, strings, lists, dicts in
    insertion order, opaque handles.  The pages apply [in], [.get],
    [[]], [len], iteration, truthiness, [==], [/] and formatting to
    them; each operation is defined on every value and raises the
    exception Python raises.  So the behaviour of a page on an answer of
    the wrong shape is part of the model.  Strings are lists of code
    points ([PyStr]), literals are read from UTF-8.

    ** The files

    - [Prelude] (this file): the hint and rewrite databases, the shared
      tactics, [res] (a value or an error) with its monad, the list
      lemmas behind [strip] and the bounded check [all_from];
    - [PyStr]: [str]: the substring test, [strip], [lower], slices;
    - [PyVal]: values, exceptions and the dynamic operations, [==] and
      hashability;
    - [Env]: [os.environ] as a finite map, the proxy block of lines
      27-33 ([configure_proxy]) and the head of the script
      ([script_head]), with [setup_env] as a parameter of class
      [SetupEnv];
    - [PyDate]: dates as proleptic Gregorian ordinals, with the
      arithmetic of CPython's [datetime], printed by [strftime_ymd] and
      read back by [parse_ymd];
    - [Ui]: the monad, its combinators, the observers of a trace
      ([calls], [errors], [logs], [shows], [expanders], [balanced]), the
      predicates [renders], [behaves], [tidy], [returns], [calls_in],
      [preserves] with their closure lemmas (hint database [py]), the
      class [Page] (what [main] asks of the page it renders; each page
      file has its instance, and [App] proves the guarantees of [main]
      from the class), and the run equations ([run_bind_ok],
      [run_call_in_try], ...);
    - [Scripted]: a world that answers from a script, and a steady one;
    - [Session]: the initialisation block, lines 64-70 ([init_session]);
    - [AnalysisPage]: [show_analysis_page], lines 104-199;
    - [HistoryPage]: [show_history_page], lines 202-266;
    - [QuotePage]: [show_stock_quote_page], lines 269-335;
    - [TaskPage]: [show_task_monitor_page], lines 338-384, with the
      grouping loop [group_tasks] and its reference [group_by_status];
    - [ConfigPage]: [show_config_page], lines 387-427, with
      [is_sensitive] and [mask_secret];
    - [App]: [set_page_config], [main] (lines 73-101: [sidebar],
      [dispatch]), one run of the script ([streamlit_app]) and a
      session as a sequence of runs ([session_runs]);
    - [Protocol]: the rerun protocol of Streamlit as a step relation:
      the values kept for the widgets (a [gmap]), the widgets on the
      page (a [gset], read off the trace by [visible_of]), the actions
      of a user, the render cycle an action causes ([cycle], [settle])
      and the configurations a user can reach ([step], [reachable]);
    - [Contract]: the parts the design of the dashboard names and the
      script has no function for, each as a definition of its own: the
      router ([route]), the life of a session ([phase], [evolves]), the
      request builders ([buildAnalysisRequest], [buildHistoryQuery],
      [buildQuoteRequest]); with the theorems that the script
      implements them, or where it does not;
    - [Outcome]: the protocol every view follows: the outcomes of a
      run (idle, rejected, failed, no data, shown), read off the marks
      of its trace ([marks]: the answers of the collaborators and the
      log records, [happened]), the frames of the messages the user
      sees ([frames]), and the table [framed] of the frames of each
      outcome on each page; the class [Answers] is what the protocol
      asks of the rendering and the handler of a [try] block, and
      each page is an instance;
    - [Ids]: the query ids: the class [FreshIds] of the worlds whose
      generator never returns an id again, the property [careful] of
      a computation that sends only ids it drew, with its closure
      lemmas and the tactic [careful_page];
    - [Process]: the process that serves the sessions: its environment,
      the calls of [setup_logging], the world of the collaborators and
      a session state per session; one run of the whole module for a
      session ([run_script]: the head, line 52, the page configuration,
      the session block, the guarded call of [main] of lines 430-431)
      and the runs of a schedule of sessions ([process_runs]);
    - [PyFormat]: [str] of an integer and the format spec [.2f] as
      strings ([print_int], [print_fixed2]: correct rounding, ties to
      the even digit), with the functions that read them back;
    - [Printing]: the texts of the pages as the user reads them
      ([print_text]), for the pieces whose printed form does not depend
      on the interpreter;
    - [Report]: the page of an analysis result as a function of the
      answer: the table of the optional fields of a report ([fields],
      [key_of], [heading], [body]), the page of a report
      ([report_page]), of a result ([result_page]) and of an answer
      with the message of the [except] branch ([answer_page]);
    - [Busy]: the calls of a run made while no busy indicator shows
      ([uncovered]), the rules on the calls a block may make under
      the indicators showing ([under], [by_kind]), and the property
      [cover] of a block that keeps a rule, with its closure lemmas
      and the tactic [cover_auto];
    - [Rules]: the rules of Streamlit under which the [st.*] calls of
      the script do not raise: the widgets of a run, each by its kind
      and its label ([wids]), the property [confined] of a block
      whose widgets are among a given list, with its closure lemmas
      and the tactic [confined_page] that builds the list, and the
      list of the widgets of each page as the source creates them.

    A page function is one definition, built from one definition per
    block of the source (the widgets, the body of the [try], the
    [except] branch, the rendering of each part of the answer), with
    the guards and early returns of the code.  The values of the
    widgets are the input of a run ([analysis_input], [history_input],
    [quote_input], [app_input]).

    ** What is proved

    - For each page: the number of collaborator calls of a run, that no
      exception leaves the page, that the busy indicator is removed on
      every path, that the session state is not written
      ([analysis_at_most_one_call], [analysis_never_raises],
      [analysis_spinner_cleared], [history_one_call_and_tidy],
      [quote_calls_bound], [task_page_outcome], [config_page_outcome],
      and for the whole of [main]: [main_calls_bound], [main_outcome]).
      These follow from the structure of the page by the closure lemmas
      of [Ui].
    - For each page: what a run does on each branch, as an equation or
      through the observers: the validation of the input
      ([empty_code_rejected], [blank_code_reaches_collaborator]), the
      request sent ([history_query_shape], [filter_of_spec]), the
      rendering of a failure, of an empty answer and of a full answer
      ([collaborator_failure_shown], [empty_result_shown_as_error],
      [history_empty_is_info], [history_records_shown],
      [quote_empty_is_error],
      [kline_failure_is_warning], [tasks_failure_shown],
      [task_groups_shown], [config_sections_shown]).
    - The dates: an ordinal and its calendar date determine each other
      ([ymd2ord_ord2ymd], [ord2ymd_ymd2ord]) and a printed date reads
      back ([parse_strftime_ymd]), so the start date of the history
      query denotes the day asked for ([start_date_reads_back]).
    - The formatting: [classify_advice_spec], [show_score_bounds],
      [change_metric_spec], [record_without_meta]; the grouping loop
      equals its reference and is a partition ([group_tasks_spec],
      [group_tasks_partition]); the mask of a secret depends on its
      first eight code points only ([mask_secret_str],
      [mask_secret_hides], [config_view_only]), except for lists
      ([mask_secret_list]).
    - The session: initialisation is idempotent and complete when no
      constructor raises ([init_session_idempotent],
      [init_session_completes]); the session state is written once
      over any sequence of runs ([session_written_once]); a
      constructor that raises leaves the flag set
      ([init_failure_leaves_flag]) and the session broken for good
      ([failed_init_is_permanent], [main_without_config]).
    - Navigation: a value outside the five labels renders nothing
      ([dispatch_unknown]).
    - The protocol, by induction on [step]: no reachable configuration
      keeps a value for a widget created under a button
      ([nested_values_dropped]), so every run reads the detail selector
      of the history page and the K-line check box of the quote page at
      their defaults ([nested_inputs_default]) and the price history is
      never requested ([kline_never_requested]); a render cycle ends
      ([rerun_settles]); the values kept for the widgets are values the
      widgets accept ([inputs_well_formed]).
    - The contract: the dispatch chain renders the view [route] selects
      ([dispatch_refines_route]); every run is a step of the session
      ([session_evolves]); the calls of the pages are the requests the
      builders build, except for an input of white space
      ([analysis_refines_builder], [history_refines_builder],
      [quote_refines_builder]); and in a session that has its
      configuration no run a user can cause ends with an exception or
      a pending rerun ([session_never_crashes]), and every view stays
      within reach ([every_view_reachable]).

    - The outcome of a view: every run of each of the five views has
      the frames of the table, whatever the input, the session and the
      collaborators ([view_protocol], from [answered_told] for the
      block and one [Answers] instance for each page); every view
      keeps to its budget of calls, removes its busy indicator and
      leaves the session state alone ([view_budget]); a view that was
      not asked or whose input was rejected calls nobody
      ([unasked_calls_nobody]); and the frames tell an empty answer
      from a failure on the history page, the task monitor and the
      configuration page and on no other ([empty_told_from_failure]).
    - The query ids: for a generator that never returns an id again,
      no id is sent twice in a session
      ([query_ids_never_reused]), nor in the runs of all the sessions
      of a process, however they are interleaved
      ([ids_unique_across_sessions]).
    - The environment: the proxy block on every branch
      ([configure_proxy_run], [configure_proxy_spec],
      [configure_proxy_raises]), what it leaves untouched
      ([configure_proxy_frame]), that it is idempotent
      ([configure_proxy_idempotent]; the decision and the address
      depend on the variables it reads only, which are [Proper]
      instances for [same_inputs]), and that the runs after the first
      change nothing ([reruns_stable]).
    - The process: a run of the whole module is the run of
      [streamlit_app] on the state of its session
      ([script_refines_app]), so the theorems about [streamlit_app]
      hold for the script as Streamlit runs it; the sessions do not
      interfere in any interleaving of their runs
      ([sessions_isolated]); the services are constructed once for
      each session ([constructed_once_per_session]) while
      [setup_logging] is called in every run ([logging_every_run]);
      the environment is the one the first run left
      ([environment_settles]).
    - The report: [show_report] is the loop of one block over the
      table of fields, up to the equivalence of [Ui]
      ([show_report_loop]), and renders [report_page]
      ([show_report_spec]); [show_result] renders [result_page]
      ([show_result_spec]) and the page of a submission is the form,
      the indicator, the call and [answer_page]
      ([analysis_page_spec]).  A field the report lacks leaves the
      other sections as they are ([absent_field_suppressed]), a
      report whose values can be rendered is rendered whole
      ([renderable_parts]), and the first value that cannot ends the
      report under its heading ([first_failure_ends]).
    - What the user reads: every integer and every rational is read
      back from what is printed ([number_decimal], [read_print_int],
      [read_print_fixed2]), the format [.2f] loses at most half a
      hundredth ([fixed2_close]) and rounding is monotone
      ([round_half_even_mono]); the change metric shows the change and
      the percentage within that bound ([change_shown_close]); a field
      the quote lacks reads [N/A] and a null field reads [None]
      ([metric_reads], [null_field_reads_None]).
    - The busy indicator: the calls of the analysis, the history and
      the quote page are all made while the indicator of [st.spinner]
      shows, those of the task monitor, of the configuration page and
      of the initialisation with none ([busy_while_calling],
      [init_session_uncovered]); in a run of the whole script the
      calls made with no indicator are exactly the calls to the
      constructors, the task queue and the configuration service
      ([script_uncovered]).
    - The rules of Streamlit: no run creates two widgets of one kind
      with one label, and the widgets of a run are those of the sidebar
      and of the selected page in the order of the source
      ([widgets_unique]; the analysis page and the quote page label a
      text input alike, [code_input_twice], and are kept apart by the
      if/elif chain); [st.set_page_config] is the first element of
      every run and the only one of its kind ([page_config_first]).
      No run creates a widget of the rerun protocol twice, so the
      store and the set of visible widgets of [Protocol] lose nothing
      of the page ([protocol_widgets_unique]).

    Several of these theorems state behaviour that differs from what
    the specification of the dashboard asks for, or that is a defect:
    the flag set before the constructors, the emptiness tests made
    before [strip], the second call of the quote page, empty answers
    shown as errors, the mask of a list, the format of a missing or
    null change, the widgets created under a button, the calls made
    with no busy indicator.  They are stated
    as the code behaves.

    ** Bounds and idealisations

    No definition uses fuel: every recursion is structural, on a list,
    a string or the digits of a number, so every run of the model
    terminates and the theorems need no fuel hypothesis.  The round
    trip of the calendar is proved for every ordinal: on the first
    period of 400 years by arithmetic on the quotients [ord2ymd]
    computes ([cycle_decomposition], [year_in_cycle]) and by evaluating
    [month_day] on the days of a common and of a leap year
    ([cycle_ok_spec]), on the other periods by the shift lemmas
    ([ord2ymd_shift], [ymd2ord_shift]).  The printed form is read back
    for the years 1000 to 9999, where [%Y] has four digits; the digits
    of these 9000 years are checked by evaluation ([years_checked]).  Floats are
    exact rationals: there is no rounding, no NaN and no infinity, so
    [score / 100] is the exact quotient.  [lower] is exact on ASCII,
    which covers the keys of the section table.  Dates range over the
    ordinals 1 to [MAXORDINAL] (years 1 to 9999) as in CPython, and
    leaving the range raises [OverflowError]; the year is printed
    without padding, as glibc prints [%Y].  Slicing a dict raises
    [TypeError] (Python before 3.12).  Text built from a value that is
    not a string is kept symbolic in the pages ([FRepr], [FFixed2],
    [FExn]); [Printing] prints [None], booleans, integers and numbers
    formatted with [.2f], an integer formatted with [.2f] only up to
    [2 ^ 53], where its conversion to a float is exact.  The [str] of a
    float, of a container and of an exception is not printed.

    ** What is not modelled

    - The imports of lines 17-19 and 35-49, and what [setup_env] and
      [setup_logging] do: their code is outside the repository.
      [setup_env] is a parameter ([SetupEnv]), [setup_logging] is
      recorded as a call.  The environment is modelled where the
      script reads and writes it; how the operating system hands it to
      child processes is not.
    - Threads: Streamlit runs the scripts of two sessions in separate
      threads.  [Process] takes a run as one step; the interleaving of
      the statements of two runs is not modelled.
    - The collaborators, pandas and uuid: code outside the repository;
      they are the parameters of [Backend].  That uuid4 does not
      repeat an id is the assumption [FreshIds], under which the
      theorems about query ids are proved; it is not a theorem about
      uuid4, whose ids are random.
    - The arguments of widgets that only change their look
      ([placeholder], [help], [type], [use_container_width]), and the
      parts of Streamlit's widget protocol the script does not use
      (keys, callbacks, forms).  The page functions take the values of
      their widgets as input, whatever they are; [Protocol] says which
      values the runs of a session can meet.
    - Time of day and time zones: the history page uses the date only. *)

From Stdlib Require Export ZArith Lia.
From stdpp Require Export base tactics option list numbers.

(** ** Hint databases and tactics of the development *)

(** [py] collects the resolution hints on strings, values and traces;
    [pysimpl] the rewrite rules that normalise them. *)
Create HintDb py discriminated.
Create Rewrite HintDb pysimpl.

(** [invert H] inverts [H] and cleans up, the way rule inductions need it. *)
Ltac invert H := inversion H; subst; clear H.

(** [bool_to_prop] turns the boolean facts of the context into the
    propositions they decide. *)
Ltac bool_to_prop :=
  repeat match goal with
  | H : _ && _ = true |- _ => apply andb_true_iff in H; destruct H
  | H : _ || _ = false |- _ => apply orb_false_iff in H; destruct H
  | H : negb _ = true |- _ => apply negb_true_iff in H
  | H : negb _ = false |- _ => apply negb_false_iff in H
  | H : bool_decide _ = true |- _ => apply bool_decide_eq_true in H
  | H : bool_decide _ = false |- _ => apply bool_decide_eq_false in H
  end.

(** ** Results: a value or an error

    Python calls either return or raise; [res E A] is the outcome of one,
    with [E] the type of what is raised. *)

Inductive res (E A : Type) : Type :=
| Ok (a : A)
| Err (e : E).
Arguments Ok {E A} a.
Arguments Err {E A} e.

#[export] Instance res_eq_dec {E A} `{EqDecision E, EqDecision A} :
  EqDecision (res E A).
Proof. solve_decision. Defined.

Definition is_ok {E A} (r : res E A) : bool :=
  match r with Ok _ => true | Err _ => false end.

Definition res_bind {E A B} (r : res E A) (k : A -> res E B) : res E B :=
  match r with Ok a => k a | Err e => Err e end.

Definition res_catch {E A} (r : res E A) (h : E -> res E A) : res E A :=
  match r with Ok a => Ok a | Err e => h e end.

#[export] Instance res_ret {E} : MRet (res E) := fun _ a => Ok a.
#[export] Instance res_mbind {E} : MBind (res E) := fun _ _ k r => res_bind r k.

Section res_laws.
Context {E A B C : Type}.
Implicit Types (r : res E A) (k : A -> res E B) (g : B -> res E C).

Lemma res_bind_ok a k : res_bind (Ok a) k = k a.
Proof. reflexivity. Qed.

Lemma res_bind_err (e : E) k : res_bind (Err e) k = Err e.
Proof. reflexivity. Qed.

Lemma res_bind_ret r : res_bind r Ok = r.
Proof. by destruct r. Qed.

Lemma res_bind_assoc r k g :
  res_bind (res_bind r k) g = res_bind r (fun a => res_bind (k a) g).
Proof. by destruct r. Qed.

Lemma res_bind_inv_ok r k b :
  res_bind r k = Ok b -> exists a, r = Ok a /\ k a = Ok b.
Proof. destruct r; naive_solver. Qed.

Lemma res_catch_ok r h : is_ok r = true -> res_catch r h = r.
Proof. by destruct r. Qed.

Lemma res_catch_total r (h : E -> res E A) :
  (forall e, is_ok (h e) = true) -> is_ok (res_catch r h) = true.
Proof. destruct r; simpl; auto. Qed.

End res_laws.

#[export] Hint Rewrite @res_bind_ok @res_bind_err @res_bind_ret : pysimpl.

(** ** Scanning a list from its ends

    [drop_while p l] removes the longest prefix of [l] whose elements
    satisfy [p]; [rdrop_while] does the same from the right.  Python's
    [str.lstrip], [str.rstrip] and [str.strip] are these at the
    whitespace predicate. *)

Section drop_while.
Context {A : Type} (p : A -> bool).
Implicit Types l : list A.

Fixpoint take_while l : list A :=
  match l with
  | x :: l' => if p x then x :: take_while l' else []
  | [] => []
  end.

Fixpoint drop_while l : list A :=
  match l with
  | x :: l' => if p x then drop_while l' else l
  | [] => []
  end.

Definition rdrop_while l : list A := reverse (drop_while (reverse l)).

Lemma take_drop_while l : take_while l ++ drop_while l = l.
Proof. induction l as [|x l IH]; simpl; [done|]. destruct (p x); simpl; congruence. Qed.

Lemma take_while_Forall l : Forall (fun x => p x = true) (take_while l).
Proof.
  induction l as [|x l IH]; simpl; [constructor|].
  destruct (p x) eqn:E; by constructor.
Qed.

Lemma drop_while_head l x : head (drop_while l) = Some x -> p x = false.
Proof.
  induction l as [|y l IH]; simpl; [done|].
  destruct (p y) eqn:E; simpl; [done|]. by intros [= <-].
Qed.

Lemma drop_while_nil_iff l : drop_while l = [] <-> Forall (fun x => p x = true) l.
Proof.
  induction l as [|y l IH]; simpl; [by split; auto|].
  destruct (p y) eqn:E.
  - rewrite IH. split; [by constructor | by inversion 1].
  - split; [done|]. inversion 1; congruence.
Qed.

Lemma drop_while_fix l :
  (forall x, head l = Some x -> p x = false) -> drop_while l = l.
Proof. destruct l as [|y l]; simpl; [done|]. intros H. by rewrite (H y). Qed.

Lemma drop_while_idemp l : drop_while (drop_while l) = drop_while l.
Proof. apply drop_while_fix, drop_while_head. Qed.

Lemma drop_while_app_keep l1 l2 x :
  head (drop_while l1) = Some x -> drop_while (l1 ++ l2) = drop_while l1 ++ l2.
Proof.
  induction l1 as [|y l1 IH]; simpl; [done|].
  destruct (p y); simpl; auto.
Qed.

Lemma drop_while_suffix l : drop_while l `suffix_of` l.
Proof. exists (take_while l). by rewrite take_drop_while. Qed.

Lemma rdrop_while_prefix l : rdrop_while l `prefix_of` l.
Proof.
  unfold rdrop_while. destruct (drop_while_suffix (reverse l)) as [k Hk].
  exists (reverse k). apply (inj reverse).
  by rewrite reverse_app, !reverse_involutive.
Qed.

Lemma rdrop_while_last l x : list.last (rdrop_while l) = Some x -> p x = false.
Proof.
  unfold rdrop_while. rewrite last_reverse. apply drop_while_head.
Qed.

Lemma rdrop_while_nil_iff l : rdrop_while l = [] <-> Forall (fun x => p x = true) l.
Proof.
  unfold rdrop_while.
  rewrite <- (Forall_reverse _ l), <- drop_while_nil_iff.
  split; [|by intros ->].
  intros H. apply (f_equal reverse) in H. by rewrite reverse_involutive in H.
Qed.

Lemma rdrop_while_idemp l : rdrop_while (rdrop_while l) = rdrop_while l.
Proof.
  unfold rdrop_while. by rewrite reverse_involutive, drop_while_idemp.
Qed.

Lemma rdrop_while_head l x :
  head l = Some x -> p x = false -> head (rdrop_while l) = Some x.
Proof.
  intros Hh Hp. destruct l as [|y l]; simplify_eq/=.
  unfold rdrop_while. rewrite reverse_cons.
  destruct (drop_while (reverse l)) as [|z k] eqn:Hd.
  - apply drop_while_nil_iff in Hd.
    assert (drop_while (reverse l ++ [x]) = [x]) as ->; [|done].
    induction Hd as [|z k Hz _ IH]; simpl; [by rewrite Hp|by rewrite Hz].
  - rewrite (drop_while_app_keep _ _ z) by (by rewrite Hd).
    rewrite Hd, reverse_app. done.
Qed.

End drop_while.

#[export] Hint Resolve take_while_Forall drop_while_suffix rdrop_while_prefix : py.
#[export] Hint Rewrite @take_drop_while @drop_while_idemp @rdrop_while_idemp : pysimpl.

(** ** [existsb] as [Forall] and [Exists] *)

Section existsb.
Context {A : Type} (f : A -> bool).

Lemma existsb_false l : existsb f l = false <-> Forall (fun x => f x = false) l.
Proof.
  induction l as [|x l IH]; simpl; [by split|].
  rewrite orb_false_iff, IH, Forall_cons_iff. done.
Qed.

Lemma existsb_true l : existsb f l = true <-> Exists (fun x => f x = true) l.
Proof.
  induction l as [|x l IH]; simpl.
  - split; [done | by intros H%Exists_nil].
  - by rewrite orb_true_iff, IH, Exists_cons.
Qed.

Lemma existsb_snoc l x : existsb f (l ++ [x]) = existsb f l || f x.
Proof. rewrite existsb_app. simpl. by rewrite orb_false_r. Qed.

End existsb.

(** ** Bounded checks

    [all_from f k n] tests [f] on the [n] integers from [k] on.  A
    property of an integer function that is periodic is proved on one
    period by evaluating this test. *)
Fixpoint all_from (f : Z -> bool) (k : Z) (n : nat) : bool :=
  match n with
  | O => true
  | S n' => f k && all_from f (k + 1)%Z n'
  end.

Lemma all_from_spec f k n :
  all_from f k n = true -> forall i, (k <= i < k + Z.of_nat n)%Z -> f i = true.
Proof.
  revert k. induction n as [|n IH]; intros k H i Hi; [lia|].
  simpl in H. apply andb_prop in H as [Hk H].
  destruct (decide (i = k)) as [->|]; [done|]. apply (IH (k + 1)%Z); [done|lia].
Qed.

