(* ===== verification/PyStr.v ===== *)
(** * Python strings as sequences of code points

    A Python [str] is a sequence of Unicode code points: [len], slicing
    and [in] count code points, not bytes.  This file models a [str] as a
    list of code points ([N]) and defines the string operations that
    [src/streamlit_app.py] applies: the substring test [needle in hay],
    [str.strip()], [str.lower()], the slice [s[:n]] and truthiness.
    String literals of the source are read from UTF-8 by [utf8], so that
    the model carries the literals as the source spells them. *)

From Stdlib Require Import Ascii String.
From S2P Require Import Prelude.

(** A code point, and a string: a list of them. *)
Abbreviation codepoint := N (only parsing).
Abbreviation pystr := (list N) (only parsing).

Declare Scope py_scope.
Delimit Scope py_scope with py.

(** ** Reading literals: UTF-8 decoding *)

(** The payload of a continuation byte (its low six bits). *)
Definition cont (c : ascii) : N := N.land (N_of_ascii c) 63.

(** [utf8 s] decodes the bytes of [s] (a literal of this development, as
    the file is UTF-8) into code points.  A truncated sequence decodes to
    its lead byte; literals of the source never are. *)
Fixpoint utf8 (s : string) : pystr :=
  match s with
  | EmptyString => []
  | String c r =>
    let b := N_of_ascii c in
    if (b <? 128)%N then b :: utf8 r
    else if (b <? 224)%N then
      match r with
      | String c1 r1 => (N.land b 31 * 64 + cont c1)%N :: utf8 r1
      | _ => [b]
      end
    else if (b <? 240)%N then
      match r with
      | String c1 (String c2 r2) =>
          ((N.land b 15 * 64 + cont c1) * 64 + cont c2)%N :: utf8 r2
      | _ => [b]
      end
    else
      match r with
      | String c1 (String c2 (String c3 r3)) =>
          (((N.land b 7 * 64 + cont c1) * 64 + cont c2) * 64 + cont c3)%N
            :: utf8 r3
      | _ => [b]
      end
  end.
Arguments utf8 s%_string : simpl never.

Notation "'u8' s" := (utf8 s%string) (at level 1, s at level 0, only parsing) : py_scope.
Open Scope py_scope.

(** ** Truthiness and length *)

(** [bool(s)]: a string is true iff it is not empty. *)
Definition str_truthy (s : pystr) : bool :=
  match s with [] => false | _ => true end.

(** ** The substring test [needle in hay] *)

Fixpoint starts_with (s p : pystr) : bool :=
  match p, s with
  | [], _ => true
  | a :: p', b :: s' => bool_decide (a = b) && starts_with s' p'
  | _ :: _, [] => false
  end.

(** [str_contains hay needle] is Python's [needle in hay]. *)
Fixpoint str_contains (hay needle : pystr) : bool :=
  starts_with hay needle ||
  match hay with
  | [] => false
  | _ :: hay' => str_contains hay' needle
  end.

(** ** Whitespace and [strip] *)

(** [str.isspace] on one code point: the code points Python's
    [str.strip()] removes (Unicode White_Space as CPython tables it). *)
Definition is_space (c : N) : bool :=
  ((9 <=? c) && (c <=? 13) || (28 <=? c) && (c <=? 32)
   || (c =? 133) || (c =? 160) || (c =? 5760)
   || (8192 <=? c) && (c <=? 8202)
   || (c =? 8232) || (c =? 8233) || (c =? 8239) || (c =? 8287)
   || (c =? 12288))%N.

Definition lstrip (s : pystr) : pystr := drop_while is_space s.
Definition rstrip (s : pystr) : pystr := rdrop_while is_space s.

(** [strip s] is Python's [s.strip()]. *)
Definition strip (s : pystr) : pystr := rstrip (lstrip s).

(** ** [lower]

    [str.lower()] on ASCII: the letters A-Z map to a-z and every other
    code point below 128 is kept.  The source applies [lower] only to
    the keys of its literal section table, which are ASCII
    ([is_ascii]); on other code points this definition is the identity
    and is not claimed to agree with Python. *)
Definition lower_cp (c : N) : N :=
  if ((65 <=? c) && (c <=? 90))%N then (c + 32)%N else c.

Definition lower (s : pystr) : pystr := map lower_cp s.

Definition is_ascii (s : pystr) : bool := forallb (fun c => (c <? 128)%N) s.

(** ** Slices *)

(** [slice_to n s] is Python's [s[:n]] for [n >= 0]. *)
Definition slice_to (n : nat) (s : pystr) : pystr := take n s.

(** * Properties *)

(** ** Literals *)

(** The two tokens the dashboard looks for, as code points. *)
Example utf8_buy : u8 "买入" = [20080; 20837]%N.
Proof. reflexivity. Qed.

Example utf8_sell : u8 "卖出" = [21334; 20986]%N.
Proof. reflexivity. Qed.

Example utf8_four_bytes : u8 "📈" = [128200]%N.
Proof. reflexivity. Qed.

(** ** Substring test *)

Lemma starts_with_spec s p : starts_with s p = true <-> p `prefix_of` s.
Proof.
  revert s. induction p as [|a p IH]; intros [|b s]; simpl.
  - split; [intros _; apply prefix_nil | done].
  - split; [intros _; apply prefix_nil | done].
  - split; [done | intros H; by apply prefix_nil_not in H].
  - rewrite andb_true_iff, bool_decide_eq_true, IH. split.
    + intros [-> H]. by apply prefix_cons.
    + intros H. split; [by apply prefix_cons_inv_1 in H | by apply prefix_cons_inv_2 in H].
Qed.

(** [needle in hay] holds exactly when [hay] splits around [needle]. *)
Lemma str_contains_spec hay needle :
  str_contains hay needle = true <-> exists a b, hay = a ++ needle ++ b.
Proof.
  induction hay as [|c hay IH]; cbn [str_contains].
  - rewrite orb_false_r, starts_with_spec. split.
    + intros [k Hk]. exists [], k. done.
    + intros (a & b & H). symmetry in H.
      apply app_eq_nil in H as [-> H]. apply app_eq_nil in H as [-> ->].
      done.
  - rewrite orb_true_iff, starts_with_spec, IH. split.
    + intros [[k Hk] | (a & b & ->)]; [by exists [], k | by exists (c :: a), b].
    + intros ([|c' a] & b & H); simplify_eq/=.
      * left. by exists b.
      * right. by exists a, b.
Qed.

Lemma str_contains_nil hay : str_contains hay [] = true.
Proof. destruct hay; done. Qed.

Lemma str_contains_app_l hay needle pre :
  str_contains hay needle = true -> str_contains (pre ++ hay) needle = true.
Proof.
  rewrite !str_contains_spec. intros (a & b & ->).
  exists (pre ++ a), b. by rewrite <- app_assoc.
Qed.

Lemma str_contains_app_r hay needle post :
  str_contains hay needle = true -> str_contains (hay ++ post) needle = true.
Proof.
  rewrite !str_contains_spec. intros (a & b & ->).
  exists a, (b ++ post). by rewrite <- !app_assoc.
Qed.

Lemma str_contains_length hay needle :
  str_contains hay needle = true -> length needle <= length hay.
Proof.
  rewrite str_contains_spec. intros (a & b & ->).
  rewrite !length_app. lia.
Qed.

#[export] Hint Resolve str_contains_nil str_contains_app_l str_contains_app_r : py.

(** ** [strip] *)

Definition all_space (s : pystr) : Prop := Forall (fun c => is_space c = true) s.

#[export] Instance all_space_dec s : Decision (all_space s).
Proof. apply Forall_dec. intros c. exact (decide (is_space c = true)). Defined.

Lemma lstrip_head s c : head (lstrip s) = Some c -> is_space c = false.
Proof. apply drop_while_head. Qed.

Lemma strip_head s c : head (strip s) = Some c -> is_space c = false.
Proof.
  unfold strip, rstrip. intros H.
  destruct (rdrop_while_prefix is_space (lstrip s)) as [k Hk].
  apply (lstrip_head s). rewrite Hk.
  rewrite head_app, H. done.
Qed.

Lemma strip_last s c : list.last (strip s) = Some c -> is_space c = false.
Proof. apply rdrop_while_last. Qed.

(** [strip] removes a whitespace prefix and a whitespace suffix, and
    nothing else. *)
Lemma strip_decompose s :
  exists l r, s = l ++ strip s ++ r /\ all_space l /\ all_space r.
Proof.
  exists (take_while is_space s),
    (reverse (take_while is_space (reverse (lstrip s)))).
  split_and!.
  - unfold strip, rstrip, rdrop_while.
    rewrite <- reverse_app, take_drop_while, reverse_involutive.
    unfold lstrip. by rewrite take_drop_while.
  - apply take_while_Forall.
  - apply Forall_reverse, take_while_Forall.
Qed.

Lemma strip_nil_iff s : strip s = [] <-> all_space s.
Proof.
  unfold strip, rstrip, lstrip. rewrite rdrop_while_nil_iff.
  split.
  - intros H. rewrite <- (take_drop_while is_space s).
    apply Forall_app. split; [apply take_while_Forall | done].
  - intros H. apply (proj2 (drop_while_nil_iff _ _)) in H. rewrite H. constructor.
Qed.

Lemma strip_idemp s : strip (strip s) = strip s.
Proof.
  unfold strip at 1. unfold lstrip.
  rewrite drop_while_fix by apply strip_head.
  unfold strip, rstrip. apply rdrop_while_idemp.
Qed.

(** A string with no whitespace at its ends is left as it is. *)
Lemma strip_fix s :
  (forall c, head s = Some c -> is_space c = false) ->
  (forall c, list.last s = Some c -> is_space c = false) ->
  strip s = s.
Proof.
  intros Hh Hl. unfold strip, lstrip. rewrite drop_while_fix by done.
  unfold rstrip, rdrop_while.
  rewrite drop_while_fix; [apply reverse_involutive|].
  intros c. rewrite head_reverse. apply Hl.
Qed.

#[export] Hint Rewrite strip_idemp : pysimpl.

(** ** [lower] *)

Lemma lower_cp_idemp c : lower_cp (lower_cp c) = lower_cp c.
Proof.
  unfold lower_cp.
  destruct ((65 <=? c) && (c <=? 90))%N eqn:E; [|by rewrite E].
  apply andb_true_iff in E as [E1 E2].
  apply N.leb_le in E1, E2.
  destruct (65 <=? c + 32)%N eqn:E3; simpl; [|done].
  destruct (c + 32 <=? 90)%N eqn:E4; [|done].
  apply N.leb_le in E4. lia.
Qed.

Lemma lower_idemp s : lower (lower s) = lower s.
Proof.
  unfold lower. rewrite <- list_fmap_compose.
  apply list_fmap_ext. intros _ c _. apply lower_cp_idemp.
Qed.

Lemma lower_length s : length (lower s) = length s.
Proof. apply length_fmap. Qed.

(** ** Slices *)

Lemma slice_to_length n s : length (slice_to n s) = n `min` length s.
Proof. apply length_take. Qed.

Lemma slice_to_prefix n s : slice_to n s `prefix_of` s.
Proof. exists (drop n s). symmetry. apply take_drop. Qed.

#[export] Hint Resolve slice_to_prefix : py.
#[export] Hint Rewrite slice_to_length lower_length : pysimpl.
