(* ===== verification/PyVal.v ===== *)
(** * Python values and the dynamic operations on them

    The collaborators of [src/streamlit_app.py] return JSON-shaped Python
    values (dicts, lists, strings, numbers, [None]) and the pages inspect
    them with [in], [.get], [[]], [isinstance], [len], truthiness and
    [/].  Each of these is defined on every value and raises on the
    types Python raises on; the pages are written against these
    operations, so a page's behaviour on an ill-shaped response is part
    of the model.

    - [pyval]: the values; a [dict] is an association list in insertion
      order (Python dicts iterate in insertion order), keyed by strings.
    - [pyexn]: the exceptions the pages can meet.
    - [py_truthy], [py_in], [py_get], [py_getitem], [py_index], [py_len],
      [py_iter], [py_div100], [py_fixed2]: the operations, with values in
      [res pyexn _]. *)

From Stdlib Require Import String QArith.
From S2P Require Import Prelude PyStr.
Open Scope py_scope.

(** ** Values *)

Unset Elimination Schemes.
Inductive pyval : Type :=
| VNone
| VBool (b : bool)
| VInt (z : Z)
| VFloat (q : Q)
| VStr (s : pystr)
| VList (l : list pyval)
| VDict (d : list (pystr * pyval))
| VObj (id : N).
Set Elimination Schemes.

(** A dict's items, in insertion order. *)
Abbreviation items := (list (pystr * pyval)) (only parsing).

(** ** Induction on values, through the lists *)

Section pyval_ind.
Variable P : pyval -> Prop.
Hypothesis HNone : P VNone.
Hypothesis HBool : forall b, P (VBool b).
Hypothesis HInt : forall z, P (VInt z).
Hypothesis HFloat : forall q, P (VFloat q).
Hypothesis HStr : forall s, P (VStr s).
Hypothesis HList : forall l, Forall P l -> P (VList l).
Hypothesis HDict : forall d, Forall (fun kv => P kv.2) d -> P (VDict d).
Hypothesis HObj : forall id, P (VObj id).

Fixpoint pyval_ind (v : pyval) : P v :=
  match v with
  | VNone => HNone
  | VBool b => HBool b
  | VInt z => HInt z
  | VFloat q => HFloat q
  | VStr s => HStr s
  | VList l =>
      HList l ((fix go (l : list pyval) : Forall P l :=
        match l with
        | [] => Forall_nil P
        | x :: l' => Forall_cons P x l' (pyval_ind x) (go l')
        end) l)
  | VDict d =>
      HDict d ((fix go (d : items) : Forall (fun kv => P kv.2) d :=
        match d with
        | [] => Forall_nil _
        | kv :: d' => Forall_cons (fun kv => P kv.2) kv d' (pyval_ind kv.2) (go d')
        end) d)
  | VObj id => HObj id
  end.
End pyval_ind.

(** ** Decidable equality *)

Definition Q_eqb (p q : Q) : bool :=
  (Qnum p =? Qnum q)%Z && (Qden p =? Qden q)%positive.

Fixpoint pyval_eqb (x y : pyval) : bool :=
  match x, y with
  | VNone, VNone => true
  | VBool a, VBool b => bool_decide (a = b)
  | VInt a, VInt b => (a =? b)%Z
  | VFloat a, VFloat b => Q_eqb a b
  | VStr a, VStr b => bool_decide (a = b)
  | VList a, VList b =>
      (fix go (a b : list pyval) : bool :=
         match a, b with
         | [], [] => true
         | x :: a', y :: b' => pyval_eqb x y && go a' b'
         | _, _ => false
         end) a b
  | VDict a, VDict b =>
      (fix go (a b : items) : bool :=
         match a, b with
         | [], [] => true
         | (k, x) :: a', (k', y) :: b' =>
             bool_decide (k = k') && pyval_eqb x y && go a' b'
         | _, _ => false
         end) a b
  | VObj a, VObj b => (a =? b)%N
  | _, _ => false
  end.

Lemma Q_eqb_eq p q : Q_eqb p q = true <-> p = q.
Proof.
  unfold Q_eqb. destruct p as [a b], q as [c d]; simpl.
  rewrite andb_true_iff, Z.eqb_eq, Pos.eqb_eq. intuition congruence.
Qed.

Lemma pyval_eqb_eq x y : pyval_eqb x y = true <-> x = y.
Proof.
  revert y. induction x as [| | | | |l IH|d IH|] using pyval_ind;
    intros [| | | | |l'|d'|]; simpl; try (split; [done|congruence]).
  - rewrite bool_decide_eq_true. intuition congruence.
  - rewrite Z.eqb_eq. intuition congruence.
  - rewrite Q_eqb_eq. intuition congruence.
  - rewrite bool_decide_eq_true. intuition congruence.
  - revert l'. induction IH as [|x l Hx _ IHl]; intros [|y l'];
      try (split; [done|congruence]).
    rewrite andb_true_iff, Hx, IHl.
    split; [intros [-> [= ->]]; done | intros [= -> ->]; done].
  - revert d'. induction IH as [|[k x] d Hx _ IHd]; intros [|[k' y] d'];
      try (split; [done|congruence]).
    simpl in Hx. rewrite !andb_true_iff, bool_decide_eq_true, Hx, IHd.
    split; [intros [[-> ->] [= ->]]; done | intros [= -> -> ->]; done].
  - rewrite N.eqb_eq. intuition congruence.
Qed.

#[export] Instance pyval_eq_dec : EqDecision pyval.
Proof.
  intros x y. destruct (pyval_eqb x y) eqn:E.
  - left. by apply pyval_eqb_eq.
  - right. intros H. apply pyval_eqb_eq in H. congruence.
Defined.

(** The exceptions of the model.  [Raised msg] is an exception raised
    by a collaborator, with [str(e) = msg]; the others are raised by the
    operations of this file and by Streamlit. *)
Inductive pyexn : Type :=
| KeyError (k : pyval)
| IndexError
| TypeError
| ValueError
| OverflowError
| AttributeError (attr : pystr)
| StreamlitAPIException
| Raised (msg : pystr).

#[export] Instance pyexn_eq_dec : EqDecision pyexn.
Proof. solve_decision. Defined.

(** ** Dicts as insertion-ordered association lists *)

(** The value stored under [k], the first one if the list repeats [k]. *)
Fixpoint assoc (k : pystr) (d : items) : option pyval :=
  match d with
  | [] => None
  | (k', v) :: d' => if decide (k = k') then Some v else assoc k d'
  end.

Definition keys (d : items) : list pystr := d.*1.

(** A dict holds each key once. *)
Definition dict_ok (d : items) : Prop := NoDup (keys d).

(** ** Truthiness: [bool(v)] *)

Definition py_truthy (v : pyval) : bool :=
  match v with
  | VNone => false
  | VBool b => b
  | VInt z => negb (z =? 0)%Z
  | VFloat q => negb (Qnum q =? 0)%Z
  | VStr s => str_truthy s
  | VList l => match l with [] => false | _ => true end
  | VDict d => match d with [] => false | _ => true end
  | VObj _ => true
  end.

(** ** [isinstance(v, dict)] *)

Definition is_dict (v : pyval) : bool :=
  match v with VDict _ => true | _ => false end.

(** ** [k in v] for a string [k]

    On a dict: key membership.  On a string: the substring test.  On a
    list: some element equals the string.  Other values are not
    iterable: [TypeError]. *)
Definition py_in (k : pystr) (v : pyval) : res pyexn bool :=
  match v with
  | VDict d => Ok (bool_decide (is_Some (assoc k d)))
  | VStr s => Ok (str_contains s k)
  | VList l => Ok (existsb (fun x => bool_decide (x = VStr k)) l)
  | _ => Err TypeError
  end.

(** ** [v.get(k, default)]: only dicts have [.get]. *)
Definition py_get (v : pyval) (k : pystr) (dflt : pyval) : res pyexn pyval :=
  match v with
  | VDict d => Ok (default dflt (assoc k d))
  | _ => Err (AttributeError (u8 "get"))
  end.

(** ** [v[k]] for a string [k]

    On a dict: the value, or [KeyError].  A list or a string is indexed
    by integers and slices only, and the other values are not
    subscriptable: [TypeError]. *)
Definition py_getitem (v : pyval) (k : pystr) : res pyexn pyval :=
  match v with
  | VDict d =>
      match assoc k d with
      | Some x => Ok x
      | None => Err (KeyError (VStr k))
      end
  | _ => Err TypeError
  end.

(** ** [v[i]] for a natural number [i]

    On a list: the element or [IndexError]; on a string: the
    one-character string or [IndexError]; on a dict, whose keys are all
    strings: [KeyError]; [TypeError] on every other value. *)
Definition py_index (v : pyval) (i : nat) : res pyexn pyval :=
  match v with
  | VList l =>
      match l !! i with
      | Some x => Ok x
      | None => Err IndexError
      end
  | VStr s =>
      match s !! i with
      | Some c => Ok (VStr [c])
      | None => Err IndexError
      end
  | VDict _ => Err (KeyError (VInt (Z.of_nat i)))
  | _ => Err TypeError
  end.

(** ** [len(v)] *)
Definition py_len (v : pyval) : res pyexn nat :=
  match v with
  | VStr s => Ok (length s)
  | VList l => Ok (length l)
  | VDict d => Ok (length d)
  | _ => Err TypeError
  end.

(** ** [for x in v]: the elements iterated over *)
Definition py_iter (v : pyval) : res pyexn (list pyval) :=
  match v with
  | VList l => Ok l
  | VDict d => Ok (VStr <$> keys d)
  | VStr s => Ok ((fun c => VStr [c]) <$> s)
  | _ => Err TypeError
  end.

(** ** [v / 100]

    True division: an [int] (and a [bool], which is an [int]) or a
    [float] divided by 100 is a [float], here the exact rational;
    anything else is a [TypeError]. *)
Definition py_div100 (v : pyval) : res pyexn Q :=
  match v with
  | VInt z => Ok (z # 100)
  | VBool b => Ok ((if b then 1 else 0) # 100)
  | VFloat q => Ok (q / 100)%Q
  | _ => Err TypeError
  end.

(** ** The format spec [:.2f]

    [format(v, ".2f")] is defined on numbers; a string raises
    [ValueError] (unknown format code) and every other value
    [TypeError] (unsupported format string). *)
Definition py_fixed2 (v : pyval) : res pyexn pyval :=
  match v with
  | VInt _ | VBool _ | VFloat _ => Ok v
  | VStr _ => Err ValueError
  | _ => Err TypeError
  end.

(** ** [x == y]

    Numbers compare by value across [bool], [int] and [float]
    ([True == 1 == 1.0]); strings by their code points; [None] and
    object handles by identity; lists element by element; dicts as
    mappings, whatever the insertion order. *)
Definition num_of (v : pyval) : option Q :=
  match v with
  | VBool b => Some (inject_Z (if b then 1 else 0))
  | VInt z => Some (inject_Z z)
  | VFloat q => Some q
  | _ => None
  end.

Fixpoint py_eq (x y : pyval) : bool :=
  match num_of x, num_of y with
  | Some p, Some q => Qeq_bool p q
  | _, _ =>
    match x, y with
    | VNone, VNone => true
    | VStr a, VStr b => bool_decide (a = b)
    | VObj a, VObj b => (a =? b)%N
    | VList a, VList b =>
        (fix go (a b : list pyval) : bool :=
           match a, b with
           | [], [] => true
           | x :: a', y :: b' => py_eq x y && go a' b'
           | _, _ => false
           end) a b
    | VDict a, VDict b =>
        (length a =? length b)%nat &&
        (fix go (a : items) : bool :=
           match a with
           | [] => true
           | (k, x) :: a' =>
               match assoc k b with
               | Some y => py_eq x y
               | None => false
               end && go a'
           end) a
    | _, _ => false
    end
  end.

(** ** [hash(v)] is defined: lists and dicts are not hashable, and
    using one as a dict key raises [TypeError]. *)
Definition py_hashable (v : pyval) : bool :=
  match v with
  | VList _ | VDict _ => false
  | _ => true
  end.

(** * Properties of [==] on hashable values *)

Lemma py_eq_num x y p q :
  num_of x = Some p -> num_of y = Some q -> py_eq x y = Qeq_bool p q.
Proof. intros Hx Hy. destruct x, y; simpl in *; by simplify_eq. Qed.

Lemma py_eq_refl x : py_hashable x = true -> py_eq x x = true.
Proof.
  destruct x; simpl; try done; intros _;
    try (apply Qeq_bool_iff; reflexivity).
  - by apply bool_decide_eq_true.
  - by apply N.eqb_eq.
Qed.

Lemma py_eq_sym x y :
  py_hashable x = true -> py_hashable y = true -> py_eq x y = py_eq y x.
Proof.
  destruct x, y; simpl; try done; intros _ _;
    try (apply eq_true_iff_eq; rewrite !Qeq_bool_iff; split; intros H; by symmetry).
  - apply bool_decide_ext. split; congruence.
  - apply N.eqb_sym.
Qed.

Lemma py_eq_trans x y z :
  py_hashable x = true -> py_hashable y = true -> py_hashable z = true ->
  py_eq x y = true -> py_eq y z = true -> py_eq x z = true.
Proof.
  destruct x, y; simpl; try done; destruct z; simpl; try done; intros _ _ _;
    rewrite ?Qeq_bool_iff, ?bool_decide_eq_true, ?N.eqb_eq;
    try congruence; intros H1 H2; by rewrite H1.
Qed.

(** On strings [==] is equality of the code points. *)
Lemma py_eq_str a b : py_eq (VStr a) (VStr b) = bool_decide (a = b).
Proof. reflexivity. Qed.

Example py_eq_true_one : py_eq (VBool true) (VFloat 1) = true.
Proof. reflexivity. Qed.

Example py_eq_dict_order :
  py_eq (VDict [(u8 "a", VInt 1); (u8 "b", VNone)])
        (VDict [(u8 "b", VNone); (u8 "a", VBool true)]) = true.
Proof. reflexivity. Qed.
