(* ===== verification/Env.v ===== *)
(** * The environment of the process: the proxy block

    Before its imports the script calls [setup_env()] and then, unless
    it runs under GitHub Actions, reads [USE_PROXY] and sets the two
    proxy variables of the process (lines 21-33 of
    [src/streamlit_app.py]).  Streamlit runs the script on every
    interaction, so the block runs again in every run.

    [os.environ] is a finite map from names to values ([gmap]).
    Assigning to it raises [ValueError] for a name or a value the
    platform cannot store: an empty name, a name with ['='], a NUL in
    either.  [setup_env], which is outside the repository, is a
    variable of the section that composes the block with it. *)

From Stdlib Require Import String.
From stdpp Require Import gmap.
From S2P Require Import Prelude PyStr PyVal.
Open Scope py_scope.

(** ** [os.environ] *)

Abbreviation environ := (gmap (list N) (list N)) (only parsing).

(** [os.getenv(key)] and [os.getenv(key, default)]. *)
Definition getenv (e : environ) (key : pystr) : option pystr := e !! key.

Definition getenv_or (e : environ) (key dflt : pystr) : pystr :=
  default dflt (e !! key).

(** A string without NUL, and a name: not empty, without NUL and
    without ['=']. *)
Definition env_str (s : pystr) : bool := negb (bool_decide (0%N ∈ s)).

Definition env_name (s : pystr) : bool :=
  str_truthy s && env_str s && negb (bool_decide (61%N ∈ s)).

(** [os.environ[key] = value]. *)
Definition setenv (key value : pystr) (e : environ) : res pyexn environ :=
  if env_name key && env_str value then Ok (<[key := value]> e)
  else Err ValueError.

(** The environment of a process: what [setenv] can have stored. *)
Definition env_ok (e : environ) : Prop :=
  map_Forall (fun k v => env_name k = true /\ env_str v = true) e.

(** ** The proxy block *)

(** The condition of line 27: not under GitHub Actions, and
    [USE_PROXY] is "true" in any case of its letters. *)
Definition proxy_wanted (e : environ) : bool :=
  negb (bool_decide (getenv e (u8 "GITHUB_ACTIONS") = Some (u8 "true")))
  && bool_decide (lower (getenv_or e (u8 "USE_PROXY") (u8 "false")) = u8 "true").

(** [f"http://{proxy_host}:{proxy_port}"]. *)
Definition proxy_url (e : environ) : pystr :=
  let proxy_host := getenv_or e (u8 "PROXY_HOST") (u8 "127.0.0.1") in
  let proxy_port := getenv_or e (u8 "PROXY_PORT") (u8 "10809") in
  u8 "http://" ++ proxy_host ++ u8 ":" ++ proxy_port.

(** Lines 27-33. *)
Definition configure_proxy (e : environ) : res pyexn environ :=
  if proxy_wanted e then
    let url := proxy_url e in
    e1 ← setenv (u8 "http_proxy") url e;
    setenv (u8 "https_proxy") url e1
  else Ok e.

(** The variables the block reads and those it writes. *)
Definition proxy_inputs : list pystr :=
  [u8 "GITHUB_ACTIONS"; u8 "USE_PROXY"; u8 "PROXY_HOST"; u8 "PROXY_PORT"].

Definition proxy_outputs : list pystr := [u8 "http_proxy"; u8 "https_proxy"].

(** Two environments that agree on the variables the block reads. *)
Definition same_inputs (e e' : environ) : Prop :=
  Forall (fun k => e !! k = e' !! k) proxy_inputs.

(** The environment the block leaves when it sets the variables. *)
Definition with_proxy (url : pystr) (e : environ) : environ :=
  <[u8 "https_proxy" := url]> (<[u8 "http_proxy" := url]> e).

(** ** The head of the script *)

(** What the script relies on of [setup_env]: it leaves an environment
    of the process, and it only adds variables, so that an environment
    that has every name it would define is left as it is. *)
Class SetupEnv (setup_env : environ -> environ) : Prop := {
  setup_env_ok e : env_ok e -> env_ok (setup_env e);
  setup_env_settled e e' : dom (setup_env e) ⊆ dom e' -> setup_env e' = e'
}.

Section head.
Variable setup_env : environ -> environ.

(** Lines 22-33: [setup_env()], then the proxy block. *)
Definition script_head (e : environ) : res pyexn environ :=
  configure_proxy (setup_env e).

(** The environment after [n] runs of the script. *)
Fixpoint after_runs (n : nat) (e : environ) : res pyexn environ :=
  match n with
  | O => Ok e
  | S n' => e' ← script_head e; after_runs n' e'
  end.

End head.

(** [setup_env] as [load_dotenv] does it by default: the variables of
    the [.env] file that the process does not have yet are added. *)
Definition load_dotenv (file : environ) (e : environ) : environ := e ∪ file.

(** ** Environments of the examples *)

(** A developer's machine: the proxy is asked for, on a port of its own. *)
Definition dev_env : environ :=
  <[u8 "USE_PROXY" := u8 "True"]> (<[u8 "PROXY_PORT" := u8 "7890"]> ∅).

(** The same under GitHub Actions. *)
Definition ci_env : environ := <[u8 "GITHUB_ACTIONS" := u8 "true"]> dev_env.

(** A [.env] file that asks for the proxy. *)
Definition dotenv_file : environ :=
  <[u8 "USE_PROXY" := u8 "true"]> (<[u8 "PROXY_HOST" := u8 "10.0.0.2"]> ∅).

(** An environment no process has: a NUL in the host. *)
Definition nul_env : environ :=
  <[u8 "USE_PROXY" := u8 "true"]> (<[u8 "PROXY_HOST" := [0%N]]> ∅).

(** * Properties *)

(** ** Reading *)

Lemma getenv_or_insert_ne e k k' v d :
  k <> k' -> getenv_or (<[k := v]> e) k' d = getenv_or e k' d.
Proof. intros Hk. unfold getenv_or. by rewrite lookup_insert_ne. Qed.

Lemma getenv_insert_ne (e : environ) k k' v :
  k <> k' -> getenv (<[k := v]> e) k' = getenv e k'.
Proof. intros Hk. unfold getenv. by rewrite lookup_insert_ne. Qed.

(** Environments that agree on the inputs of the block give the same
    decision and the same address. *)
#[export] Instance same_inputs_equiv : Equivalence same_inputs.
Proof.
  unfold same_inputs. split.
  - intros e. by apply Forall_true.
  - intros e e' H. eapply list.Forall_impl; [exact H|]. by intros k ->.
  - intros e1 e2 e3 H1 H2. rewrite list.Forall_forall in *.
    intros k Hk. by rewrite (H1 k Hk), (H2 k Hk).
Qed.

Lemma same_inputs_lookup e e' k :
  same_inputs e e' -> k ∈ proxy_inputs -> e !! k = e' !! k.
Proof. unfold same_inputs. rewrite list.Forall_forall. auto. Qed.

#[export] Instance proxy_wanted_proper : Proper (same_inputs ==> eq) proxy_wanted.
Proof.
  intros e e' H. unfold proxy_wanted, getenv, getenv_or.
  by rewrite !(same_inputs_lookup e e' _ H) by (unfold proxy_inputs; set_solver).
Qed.

#[export] Instance proxy_url_proper : Proper (same_inputs ==> eq) proxy_url.
Proof.
  intros e e' H. unfold proxy_url, getenv_or.
  by rewrite !(same_inputs_lookup e e' _ H) by (unfold proxy_inputs; set_solver).
Qed.

(** The block writes none of the variables it reads. *)
Lemma with_proxy_inputs url e : same_inputs (with_proxy url e) e.
Proof.
  unfold same_inputs, with_proxy. apply list.Forall_forall. intros k Hk.
  rewrite !lookup_insert_ne; [done|..];
    intros <-; by apply (bool_decide_pack _) in Hk.
Qed.

Lemma proxy_wanted_with_proxy url e : proxy_wanted (with_proxy url e) = proxy_wanted e.
Proof. by rewrite with_proxy_inputs. Qed.

Lemma proxy_url_with_proxy url e : proxy_url (with_proxy url e) = proxy_url e.
Proof. by rewrite with_proxy_inputs. Qed.

(** ** Writing *)

Lemma setenv_ok key value e :
  env_name key = true -> env_str value = true ->
  setenv key value e = Ok (<[key := value]> e).
Proof. intros Hk Hv. unfold setenv. by rewrite Hk, Hv. Qed.

Lemma setenv_env_ok key value e e' :
  env_ok e -> setenv key value e = Ok e' -> env_ok e'.
Proof.
  unfold setenv. intros He. destruct (env_name key && env_str value) eqn:E; [|done].
  apply andb_prop in E as [Hk Hv]. intros [= <-]. by apply map_Forall_insert_2.
Qed.

Lemma env_str_app s t : env_str (s ++ t) = env_str s && env_str t.
Proof.
  unfold env_str. rewrite <- negb_orb. f_equal.
  apply eq_true_iff_eq. rewrite orb_true_iff, !bool_decide_eq_true. set_solver.
Qed.

Lemma getenv_or_env_str (e : environ) k d :
  env_ok e -> env_str d = true -> env_str (getenv_or e k d) = true.
Proof.
  intros He Hd. unfold getenv_or. destruct (e !! k) as [v|] eqn:E; [|done].
  by destruct (He k v E).
Qed.

(** The address built from an environment of the process can be stored. *)
Lemma proxy_url_env_str e : env_ok e -> env_str (proxy_url e) = true.
Proof.
  intros He. unfold proxy_url. cbv zeta.
  by rewrite !env_str_app, !getenv_or_env_str.
Qed.

(** ** The block, branch by branch *)

Lemma proxy_names : env_name (u8 "http_proxy") = true /\ env_name (u8 "https_proxy") = true.
Proof. by vm_compute. Qed.

(** What the block returns in each case: the environment as it is when
    the proxy is not wanted, [ValueError] of the first assignment when
    the address has a NUL, the two variables set otherwise. *)
Lemma configure_proxy_run e :
  configure_proxy e =
    if proxy_wanted e then
      if env_str (proxy_url e) then Ok (with_proxy (proxy_url e) e) else Err ValueError
    else Ok e.
Proof.
  unfold configure_proxy, setenv, with_proxy. destruct proxy_names as [-> ->].
  cbv zeta. by repeat case_match.
Qed.

Lemma with_proxy_env_ok url e : env_str url = true -> env_ok e -> env_ok (with_proxy url e).
Proof.
  intros Hu He. destruct proxy_names. unfold with_proxy.
  by repeat apply map_Forall_insert_2.
Qed.

Lemma with_proxy_twice url e : with_proxy url (with_proxy url e) = with_proxy url e.
Proof.
  unfold with_proxy. apply map_eq. intros k.
  destruct (decide (k = u8 "https_proxy")) as [->|]; [by rewrite !lookup_insert_eq|].
  destruct (decide (k = u8 "http_proxy")) as [->|];
    by repeat (rewrite lookup_insert_eq || rewrite lookup_insert_ne by done).
Qed.

Lemma with_proxy_dom url e : dom e ⊆ dom (with_proxy url e).
Proof. unfold with_proxy. rewrite !dom_insert. set_solver. Qed.

(** What the block leaves has every name it started from. *)
Lemma configure_proxy_dom e e' : configure_proxy e = Ok e' -> dom e ⊆ dom e'.
Proof.
  rewrite configure_proxy_run. repeat case_match; intros [= <-]; [|done].
  apply with_proxy_dom.
Qed.

(** ** [load_dotenv] is a [setup_env] *)

Lemma load_dotenv_setup file : env_ok file -> SetupEnv (load_dotenv file).
Proof.
  intros Hf. unfold load_dotenv. split.
  - intros e He. by apply map_Forall_union_2.
  - intros e e' Hd. apply map_eq. intros k. rewrite lookup_union.
    destruct (e' !! k) as [v|] eqn:E; [by destruct (file !! k)|].
    apply not_elem_of_dom in E.
    assert (file !! k = None) as ->; [|done].
    apply not_elem_of_dom. rewrite dom_union in Hd. set_solver.
Qed.

(** ** The proxy block on the environment of a process *)

Lemma configure_proxy_ok e :
  env_ok e ->
  configure_proxy e = Ok (if proxy_wanted e then with_proxy (proxy_url e) e else e).
Proof.
  intros He. rewrite configure_proxy_run, proxy_url_env_str by done. by case_match.
Qed.

Lemma configure_proxy_again e e' : configure_proxy e = Ok e' -> configure_proxy e' = Ok e'.
Proof.
  rewrite (configure_proxy_run e).
  destruct (proxy_wanted e) eqn:Hw; [|by intros [= <-]; rewrite configure_proxy_run, Hw].
  destruct (env_str (proxy_url e)) eqn:Hu; intros [= <-].
  by rewrite configure_proxy_run, proxy_wanted_with_proxy, proxy_url_with_proxy, Hw, Hu,
    with_proxy_twice.
Qed.

Lemma configure_proxy_keeps e :
  env_ok e -> exists e', configure_proxy e = Ok e' /\ env_ok e'.
Proof.
  intros He. eexists. split; [by apply configure_proxy_ok|].
  case_match; [|done]. by apply with_proxy_env_ok; [apply proxy_url_env_str|].
Qed.

(** C29: the proxy block never raises on the environment of a process:
    it leaves the environment as it is when the proxy is not wanted,
    and otherwise the environment in which [http_proxy] and
    [https_proxy] are the address built from [PROXY_HOST] and
    [PROXY_PORT]. *)
Theorem configure_proxy_spec e :
  env_ok e ->
  configure_proxy e = Ok (if proxy_wanted e then with_proxy (proxy_url e) e else e).
Proof. apply configure_proxy_ok. Qed.

(** What the proxy block leaves is again the environment of a
    process. *)
Theorem configure_proxy_env_ok e :
  env_ok e -> exists e', configure_proxy e = Ok e' /\ env_ok e'.
Proof. apply configure_proxy_keeps. Qed.

(** The proxy block is idempotent: run on the environment it left,
    it leaves that environment. *)
Theorem configure_proxy_idempotent e e' :
  configure_proxy e = Ok e' -> configure_proxy e' = Ok e'.
Proof. apply configure_proxy_again. Qed.

(** The proxy block changes no variable other than [http_proxy] and
    [https_proxy]. *)
Theorem configure_proxy_frame e e' k :
  configure_proxy e = Ok e' -> k ∉ proxy_outputs -> getenv e' k = getenv e k.
Proof.
  rewrite configure_proxy_run. unfold proxy_outputs, with_proxy, getenv. intros H Hk.
  repeat case_match; simplify_eq; [|done].
  rewrite !lookup_insert_ne; [done|..]; set_solver.
Qed.

(** The block raises exactly when the proxy is wanted and the
    address has a NUL, and what it raises is [ValueError]. *)
Theorem configure_proxy_raises e x :
  configure_proxy e = Err x <->
  x = ValueError /\ proxy_wanted e = true /\ env_str (proxy_url e) = false.
Proof.
  rewrite configure_proxy_run.
  destruct (proxy_wanted e), (env_str (proxy_url e)); split;
    try done; try (by intros (_ & ? & ?)).
  - by intros [= <-].
  - by intros (-> & _).
Qed.

(** When the block raises, it is the first assignment that does: the
    environment is as [setup_env] left it. *)
Lemma configure_proxy_fails_first e x :
  configure_proxy e = Err x -> setenv (u8 "http_proxy") (proxy_url e) e = Err x.
Proof.
  intros (-> & _ & Hu)%configure_proxy_raises. unfold setenv.
  by rewrite Hu, andb_false_r.
Qed.

(** Under GitHub Actions the block does nothing, whatever [USE_PROXY] is. *)
Lemma skipped_on_ci e :
  getenv e (u8 "GITHUB_ACTIONS") = Some (u8 "true") -> configure_proxy e = Ok e.
Proof.
  intros H. rewrite configure_proxy_run. unfold proxy_wanted.
  by rewrite H, bool_decide_eq_true_2.
Qed.

(** The proxy is off by default. *)
Lemma proxy_off_by_default e :
  getenv e (u8 "USE_PROXY") = None -> configure_proxy e = Ok e.
Proof.
  unfold getenv. intros H. rewrite configure_proxy_run. unfold proxy_wanted, getenv_or.
  rewrite H. cbn [default]. rewrite (bool_decide_eq_false_2 (lower _ = _)), andb_false_r; [done|].
  by vm_compute.
Qed.

(** ** The head of the script, run after run *)

Section head_props.
Context (setup_env : environ -> environ) `{!SetupEnv setup_env}.

Lemma script_head_ok e :
  env_ok e -> exists e', script_head setup_env e = Ok e' /\ env_ok e' /\ setup_env e' = e'.
Proof.
  intros He. unfold script_head.
  destruct (configure_proxy_keeps (setup_env e)) as (e' & Hr & He');
    [by apply setup_env_ok|].
  exists e'. split_and!; [done..|].
  by apply (setup_env_settled e), configure_proxy_dom.
Qed.

Lemma script_head_again e e' :
  script_head setup_env e = Ok e' -> script_head setup_env e' = Ok e'.
Proof.
  unfold script_head. intros H.
  rewrite (setup_env_settled e e') by by apply configure_proxy_dom.
  by apply (configure_proxy_again (setup_env e)).
Qed.

Lemma after_runs_settled n e e' :
  script_head setup_env e = Ok e' -> after_runs setup_env (S n) e = Ok e'.
Proof.
  intros H. cbn [after_runs]. rewrite H. cbn. apply script_head_again in H.
  induction n as [|n IH]; [done|]. cbn [after_runs]. by rewrite H.
Qed.

(** On the environment of a process the head of the script never
    raises, and every run leaves the environment the first run left:
    running the script again and again changes nothing more. *)
Theorem reruns_stable e :
  env_ok e ->
  exists e1, env_ok e1 /\ forall n, after_runs setup_env (S n) e = Ok e1.
Proof.
  intros (e1 & H & He1 & _)%script_head_ok. exists e1. split; [done|].
  intros n. by apply after_runs_settled.
Qed.

End head_props.

(** ** Examples *)

Lemma dev_env_ok : env_ok dev_env.
Proof. unfold dev_env. repeat apply map_Forall_insert_2; by try apply map_Forall_empty. Qed.

Lemma dotenv_file_ok : env_ok dotenv_file.
Proof. unfold dotenv_file. repeat apply map_Forall_insert_2; by try apply map_Forall_empty. Qed.

#[export] Instance dotenv_setup : SetupEnv (load_dotenv dotenv_file) :=
  load_dotenv_setup dotenv_file dotenv_file_ok.

(** [USE_PROXY] is read in any case of its letters; the port is the
    one of the environment, the host the default. *)
Example dev_proxy :
  proxy_wanted dev_env = true /\ proxy_url dev_env = u8 "http://127.0.0.1:7890".
Proof. by vm_compute. Qed.

(** [GITHUB_ACTIONS] is compared as it is: ["True"] does not skip the block. *)
Example ci_is_case_sensitive :
  proxy_wanted ci_env = false
  /\ proxy_wanted (<[u8 "GITHUB_ACTIONS" := u8 "True"]> dev_env) = true.
Proof. by vm_compute. Qed.

(** A NUL in the host: the first assignment raises. *)
Example nul_rejected : configure_proxy nul_env = Err ValueError.
Proof. by vm_compute. Qed.

Lemma configure_proxy_spec_witness :
  configure_proxy dev_env =
    Ok (if proxy_wanted dev_env then with_proxy (proxy_url dev_env) dev_env else dev_env).
Proof. exact (configure_proxy_spec dev_env dev_env_ok). Defined.

Lemma configure_proxy_env_ok_witness :
  exists e', configure_proxy dev_env = Ok e' /\ env_ok e'.
Proof. exact (configure_proxy_env_ok dev_env dev_env_ok). Defined.

Lemma configure_proxy_idempotent_witness :
  configure_proxy (with_proxy (proxy_url dev_env) dev_env)
  = Ok (with_proxy (proxy_url dev_env) dev_env).
Proof. apply (configure_proxy_idempotent dev_env). by vm_compute. Defined.

Lemma configure_proxy_frame_witness :
  getenv (with_proxy (proxy_url dev_env) dev_env) (u8 "PROXY_PORT")
  = getenv dev_env (u8 "PROXY_PORT").
Proof.
  apply (configure_proxy_frame dev_env); [by vm_compute|].
  apply (bool_decide_unpack _). by vm_compute.
Defined.

Lemma configure_proxy_raises_witness : configure_proxy nul_env = Err ValueError.
Proof. apply configure_proxy_raises. by vm_compute. Defined.

Lemma reruns_stable_witness :
  exists e1, env_ok e1 /\ forall n, after_runs (load_dotenv dotenv_file) (S n) dev_env = Ok e1.
Proof.
  exact (reruns_stable (load_dotenv dotenv_file) dev_env dev_env_ok).
Defined.
