(* ===== verification/PyDate.v ===== *)
(** * Dates: [datetime.now() - timedelta(days=n)] and [strftime("%Y-%m-%d")]

    The history page computes its start date by subtracting a number of
    days from the current date and printing the result as
    year-month-day.  A date is modelled by its proleptic Gregorian
    ordinal (day 1 is 1 January of year 1), as Python's [datetime] does
    internally ([toordinal]); [ord2ymd] is Python's conversion of an
    ordinal to a calendar date and [ymd2ord] its inverse.  The file
    proves the two round trips between ordinals and dates, and that a
    date printed by [strftime_ymd] is read back by [parse_ymd]. *)

From Stdlib Require Import String.
From S2P Require Import Prelude PyStr.
Open Scope py_scope.
Local Open Scope Z_scope.

(** ** The calendar *)

(** Days in 400, 100 and 4 years. *)
Definition DI400Y : Z := 146097.
Definition DI100Y : Z := 36524.
Definition DI4Y : Z := 1461.

(** The largest ordinal, 31 December 9999. *)
Definition MAXORDINAL : Z := 3652059.

Definition is_leap (year : Z) : bool :=
  (year mod 4 =? 0) && (negb (year mod 100 =? 0) || (year mod 400 =? 0)).

(** Days of the year before the first of [month], in a common year. *)
Definition days_before_month_common (month : Z) : Z :=
  match month with
  | 1 => 0 | 2 => 31 | 3 => 59 | 4 => 90 | 5 => 120 | 6 => 151
  | 7 => 181 | 8 => 212 | 9 => 243 | 10 => 273 | 11 => 304 | 12 => 334
  | _ => 0
  end.

Definition days_in_month_common (month : Z) : Z :=
  match month with
  | 2 => 28
  | 4 | 6 | 9 | 11 => 30
  | _ => 31
  end.

Definition days_before_year (year : Z) : Z :=
  let y := year - 1 in y * 365 + y / 4 - y / 100 + y / 400.

Definition days_before_month (year month : Z) : Z :=
  days_before_month_common month
  + (if (2 <? month) && is_leap year then 1 else 0).

(** [date(year, month, day).toordinal()]. *)
Definition ymd2ord (year month day : Z) : Z :=
  days_before_year year + days_before_month year month + day.

(** [date.fromordinal(n)] as (year, month, day), following the
    arithmetic of [datetime]: the 400-, 100-, 4- and 1-year cycles
    before [n], then the month estimated from the day of the year. *)
Definition ord2ymd (n : Z) : Z * Z * Z :=
  let n := n - 1 in
  let n400 := n / DI400Y in
  let n := n mod DI400Y in
  let year := n400 * 400 + 1 in
  let n100 := n / DI100Y in
  let n := n mod DI100Y in
  let n4 := n / DI4Y in
  let n := n mod DI4Y in
  let n1 := n / 365 in
  let n := n mod 365 in
  let year := year + n100 * 100 + n4 * 4 + n1 in
  if (n1 =? 4) || (n100 =? 4) then (year - 1, 12, 31)
  else
    let leapyear := (n1 =? 3) && (negb (n4 =? 24) || (n100 =? 3)) in
    let month := Z.shiftr (n + 50) 5 in
    let preceding :=
      days_before_month_common month
      + (if (2 <? month) && leapyear then 1 else 0) in
    if n <? preceding then
      let month := month - 1 in
      let preceding :=
        preceding - (days_in_month_common month
                     + (if (month =? 2) && leapyear then 1 else 0)) in
      (year, month, n - preceding + 1)
    else (year, month, n - preceding + 1).

(** ** Printing *)

(** The decimal digits of a natural number, as code points. *)
Fixpoint digits_of_uint (d : Decimal.uint) : pystr :=
  match d with
  | Decimal.Nil => []
  | Decimal.D0 d' => 48%N :: digits_of_uint d'
  | Decimal.D1 d' => 49%N :: digits_of_uint d'
  | Decimal.D2 d' => 50%N :: digits_of_uint d'
  | Decimal.D3 d' => 51%N :: digits_of_uint d'
  | Decimal.D4 d' => 52%N :: digits_of_uint d'
  | Decimal.D5 d' => 53%N :: digits_of_uint d'
  | Decimal.D6 d' => 54%N :: digits_of_uint d'
  | Decimal.D7 d' => 55%N :: digits_of_uint d'
  | Decimal.D8 d' => 56%N :: digits_of_uint d'
  | Decimal.D9 d' => 57%N :: digits_of_uint d'
  end.

Definition decimal (n : Z) : pystr := digits_of_uint (N.to_uint (Z.to_N n)).

(** Two digits, zero padded: the [%m] and [%d] of [strftime]. *)
Definition pad2 (n : Z) : pystr :=
  [Z.to_N (48 + n / 10); Z.to_N (48 + n mod 10)].

(** [d.strftime("%Y-%m-%d")] for the date of ordinal [n].  The year is
    printed in decimal, without padding, as the C library of the
    platform prints [%Y]; from year 1000 on these are four digits. *)
Definition strftime_ymd (n : Z) : pystr :=
  let '(y, m, d) := ord2ymd n in
  decimal y ++ [45%N] ++ pad2 m ++ [45%N] ++ pad2 d.

(** ** Calendar dates *)

(** [_days_in_month(year, month)]. *)
Definition days_in_month (year month : Z) : Z :=
  days_in_month_common month + (if (month =? 2) && is_leap year then 1 else 0).

Definition days_in_year (year : Z) : Z := if is_leap year then 366 else 365.

(** The dates of the calendar: what [date(year, month, day)] accepts,
    the bound on the year apart. *)
Definition valid_date (year month day : Z) : bool :=
  (1 <=? month) && (month <=? 12) && (1 <=? day)
  && (day <=? days_in_month year month).

(** The first ordinal of a four-digit year, 1 January 1000: from there
    to [MAXORDINAL] a date prints in ten characters. *)
Definition MINORDINAL4 : Z := 364878.

(** ** Reading *)

Definition digit (c : N) : option Z :=
  if ((48 <=? c) && (c <=? 57))%N then Some (Z.of_N c - 48) else None.

(** The number a string of decimal digits denotes. *)
Definition number (s : pystr) : option Z :=
  foldl (fun acc c => a ← acc; d ← digit c; Some (10 * a + d)) (Some 0) s.

(** Reads a date printed as [YYYY-MM-DD], the inverse of
    [strftime("%Y-%m-%d")] on four-digit years. *)
Definition parse_ymd (s : pystr) : option (Z * Z * Z) :=
  match s with
  | [y1; y2; y3; y4; 45%N; m1; m2; 45%N; d1; d2] =>
      y ← number [y1; y2; y3; y4];
      m ← number [m1; m2];
      d ← number [d1; d2];
      Some (y, m, d)
  | _ => None
  end.

(** The ordinal a printed date denotes. *)
Definition ordinal_of (s : pystr) : option Z :=
  '(y, m, d) ← parse_ymd s; Some (ymd2ord y m d).

(** ** One period of the calendar

    The calendar repeats every 400 years, [DI400Y] days.  [cycle_ok r]
    states the conversion of the day [r] of the first period. *)
Definition cycle_ok (r : Z) : bool :=
  let '(y, m, d) := ord2ymd (r + 1) in
  (ymd2ord y m d =? r + 1) && valid_date y m d.

(** The month and the day of the day [n] of a year, counted from 0:
    the last step of [ord2ymd]. *)
Definition month_day (leapyear : bool) (n : Z) : Z * Z :=
  let month := Z.shiftr (n + 50) 5 in
  let preceding :=
    days_before_month_common month
    + (if (2 <? month) && leapyear then 1 else 0) in
  if n <? preceding then
    let month := month - 1 in
    let preceding :=
      preceding - (days_in_month_common month
                   + (if (month =? 2) && leapyear then 1 else 0)) in
    (month, n - preceding + 1)
  else (month, n - preceding + 1).

(** The check of [month_day] on one day of a year. *)
Definition month_day_ok (leapyear : bool) (k : Z) : bool :=
  let '(m, d) := month_day leapyear k in
  (1 <=? m) && (m <=? 12) && (1 <=? d)
  && (d <=? days_in_month_common m + (if (m =? 2) && leapyear then 1 else 0))
  && (days_before_month_common m + (if (2 <? m) && leapyear then 1 else 0) + d
      =? k + 1).

Definition year_ok (y : Z) : bool :=
  match decimal y with
  | [a; b; c; d] => bool_decide (number [a; b; c; d] = Some y)
  | _ => false
  end.

Definition pad2_ok (k : Z) : bool := bool_decide (number (pad2 k) = Some k).

(** * Properties *)

Example ord2ymd_first : ord2ymd 1 = (1, 1, 1).
Proof. reflexivity. Qed.

Example ord2ymd_leap_day : ord2ymd (ymd2ord 2024 2 29) = (2024, 2, 29).
Proof. reflexivity. Qed.

Example ord2ymd_century : ord2ymd (ymd2ord 2000 12 31) = (2000, 12, 31).
Proof. reflexivity. Qed.

Example ord2ymd_max : ord2ymd MAXORDINAL = (9999, 12, 31).
Proof. reflexivity. Qed.

Example strftime_example : strftime_ymd (ymd2ord 2026 11 8) = u8 "2026-11-08".
Proof. reflexivity. Qed.

(** Thirty days before 8 November 2026. *)
Example thirty_days_back : strftime_ymd (ymd2ord 2026 11 8 - 30) = u8 "2026-10-09".
Proof. reflexivity. Qed.

Example first_four_digit_day : ymd2ord 1000 1 1 = MINORDINAL4.
Proof. reflexivity. Qed.

(** ** The period of 400 years *)

Lemma ord2ymd_shift n q :
  ord2ymd (n + DI400Y * q) = let '(y, m, d) := ord2ymd n in (y + 400 * q, m, d).
Proof.
  unfold ord2ymd. cbv zeta.
  replace (n + DI400Y * q - 1) with (n - 1 + q * DI400Y) by lia.
  rewrite Z.div_add, Z.mod_add by done.
  repeat match goal with |- context [if ?b then _ else _] => destruct b end;
    repeat apply (f_equal2 pair); lia.
Qed.

Lemma is_leap_shift y q : is_leap (y + 400 * q) = is_leap y.
Proof.
  unfold is_leap.
  replace (y + 400 * q) with (y + (100 * q) * 4) at 1 by lia.
  replace (y + 400 * q) with (y + (4 * q) * 100) at 1 by lia.
  replace (y + 400 * q) with (y + q * 400) by lia.
  by rewrite !Z.mod_add.
Qed.

Lemma days_before_year_shift y q :
  days_before_year (y + 400 * q) = days_before_year y + DI400Y * q.
Proof. unfold days_before_year, DI400Y. cbv zeta. Z.div_mod_to_equations. lia. Qed.

Lemma ymd2ord_shift y m d q :
  ymd2ord (y + 400 * q) m d = ymd2ord y m d + DI400Y * q.
Proof.
  unfold ymd2ord, days_before_month.
  rewrite days_before_year_shift, is_leap_shift. lia.
Qed.

Lemma valid_date_shift y m d q : valid_date (y + 400 * q) m d = valid_date y m d.
Proof. unfold valid_date, days_in_month. by rewrite is_leap_shift. Qed.

(** ** One period

    [ord2ymd] finds the year by counting the centuries, the groups of
    four years and the years before the day, and the month and the day
    by [month_day]. *)
Lemma ord2ymd_month_day n :
  ord2ymd n =
    let n := n - 1 in
    let n400 := n / DI400Y in
    let n := n mod DI400Y in
    let n100 := n / DI100Y in
    let n := n mod DI100Y in
    let n4 := n / DI4Y in
    let n := n mod DI4Y in
    let n1 := n / 365 in
    let n := n mod 365 in
    let year := n400 * 400 + 1 + n100 * 100 + n4 * 4 + n1 in
    if (n1 =? 4) || (n100 =? 4) then (year - 1, 12, 31)
    else
      let '(m, d) :=
        month_day ((n1 =? 3) && (negb (n4 =? 24) || (n100 =? 3))) n in
      (year, m, d).
Proof.
  unfold ord2ymd, month_day. cbv zeta.
  repeat match goal with |- context [if ?b then _ else _] => destruct b end;
    reflexivity.
Qed.

(** [month_day] on every day of a common year and of a leap year,
    checked by evaluation. *)
Lemma common_year_checked : all_from (month_day_ok false) 0 365 = true.
Proof. vm_compute. reflexivity. Qed.

Lemma leap_year_checked : all_from (month_day_ok true) 0 366 = true.
Proof. vm_compute. reflexivity. Qed.

Lemma month_day_spec y k :
  0 <= k < days_in_year y ->
  let '(m, d) := month_day (is_leap y) k in
  valid_date y m d = true /\ days_before_month y m + d = k + 1.
Proof.
  unfold days_in_year, valid_date, days_in_month, days_before_month. intros Hk.
  assert (Hc : month_day_ok (is_leap y) k = true).
  { destruct (is_leap y);
      [apply (all_from_spec _ _ _ leap_year_checked)
      |apply (all_from_spec _ _ _ common_year_checked)]; lia. }
  unfold month_day_ok in Hc. destruct (month_day _ _) as [m d].
  apply andb_prop in Hc as [Hc ?%Z.eqb_eq]. by rewrite Hc.
Qed.

(** The year that [n100] centuries, [n4] groups of four years and [n1]
    years precede. *)
Lemma year_in_cycle n100 n4 n1 :
  0 <= n100 <= 3 -> 0 <= n4 <= 24 -> 0 <= n1 <= 3 ->
  let y := 1 + n100 * 100 + n4 * 4 + n1 in
  days_before_year y = DI100Y * n100 + DI4Y * n4 + 365 * n1
  /\ is_leap y = (n1 =? 3) && (negb (n4 =? 24) || (n100 =? 3)).
Proof.
  intros ???. cbv zeta. split.
  - unfold days_before_year, DI100Y, DI4Y. cbv zeta. Z.div_mod_to_equations. lia.
  - unfold is_leap.
    repeat match goal with |- context [?a =? ?b] => destruct (Z.eqb_spec a b) end;
      simpl; try done; exfalso; Z.div_mod_to_equations; lia.
Qed.

(** The quotients and remainders [ord2ymd] computes for a day of the
    first period. *)
Lemma cycle_decomposition r :
  0 <= r < DI400Y ->
  let n100 := r / DI100Y in
  let n4 := (r mod DI100Y) / DI4Y in
  let n1 := ((r mod DI100Y) mod DI4Y) / 365 in
  let n := ((r mod DI100Y) mod DI4Y) mod 365 in
  r = DI100Y * n100 + DI4Y * n4 + 365 * n1 + n
  /\ 0 <= n < 365 /\ 0 <= n1 /\ 0 <= n4 <= 24 /\ 0 <= n100
  /\ (n100 <> 4 -> n100 <= 3)
  /\ (n100 = 4 -> n4 = 0 /\ n1 = 0 /\ n = 0)
  /\ (n1 <> 4 -> n1 <= 3)
  /\ (n1 = 4 -> n = 0 /\ n4 <= 23).
Proof. unfold DI400Y, DI100Y, DI4Y. cbv zeta. intros. Z.div_mod_to_equations. lia. Qed.

Lemma last_of_year y : is_leap y = true -> ymd2ord y 12 31 = days_before_year y + 366.
Proof. unfold ymd2ord, days_before_month. intros ->. simpl. lia. Qed.

(** Every day of the first period converts to a date of the calendar
    and back. *)
Lemma cycle_ok_spec r : 0 <= r < DI400Y -> cycle_ok r = true.
Proof.
  intros Hr. unfold cycle_ok. rewrite ord2ymd_month_day. cbv zeta.
  replace (r + 1 - 1) with r by lia.
  rewrite (Z.div_small r DI400Y), (Z.mod_small r DI400Y) by done.
  pose proof (cycle_decomposition r Hr) as Hd. cbv zeta in Hd. revert Hd.
  generalize (r / DI100Y) ((r mod DI100Y) / DI4Y)
    (((r mod DI100Y) mod DI4Y) / 365) (((r mod DI100Y) mod DI4Y) mod 365).
  intros n100 n4 n1 n (Hd & Hn & Hn1 & Hn4 & Hn100 & H100 & H100' & H1 & H1').
  destruct (Z.eqb_spec n100 4) as [->|Hne100].
  { destruct H100' as (-> & -> & ->); [done|]. subst r. rewrite orb_true_r. reflexivity. }
  destruct (Z.eqb_spec n1 4) as [->|Hne1]; simpl orb; cbv iota.
  - destruct H1' as [-> ?]; [done|].
    destruct (year_in_cycle n100 n4 3) as [Hy Hl]; [lia..|].
    replace (0 * 400 + 1 + n100 * 100 + n4 * 4 + 4 - 1)
      with (1 + n100 * 100 + n4 * 4 + 3) by lia.
    assert (Hleap : is_leap (1 + n100 * 100 + n4 * 4 + 3) = true).
    { rewrite Hl. simpl. destruct (Z.eqb_spec n4 24); [lia|done]. }
    rewrite last_of_year by done. unfold valid_date, days_in_month.
    rewrite Hleap, Hy. simpl. rewrite andb_true_r. apply Z.eqb_eq.
    unfold DI100Y, DI4Y in *. lia.
  - destruct (year_in_cycle n100 n4 n1) as [Hy Hl]; [lia..|].
    replace (0 * 400 + 1 + n100 * 100 + n4 * 4 + n1)
      with (1 + n100 * 100 + n4 * 4 + n1) by lia.
    rewrite <- Hl.
    pose proof (month_day_spec (1 + n100 * 100 + n4 * 4 + n1) n) as Hm.
    destruct (month_day _ n) as [m d].
    destruct Hm as [-> Hm]; [unfold days_in_year; case_match; lia|].
    rewrite andb_true_r. apply Z.eqb_eq. unfold ymd2ord. lia.
Qed.

(** An ordinal in its period. *)
Lemma ordinal_in_cycle n :
  n = (n - 1) mod DI400Y + 1 + DI400Y * ((n - 1) / DI400Y)
  /\ 0 <= (n - 1) mod DI400Y < DI400Y.
Proof. unfold DI400Y. Z.div_mod_to_equations. lia. Qed.

(** ** Round trips *)

(** The date of an ordinal is a date of the calendar, and its ordinal is
    the one converted: [date.fromordinal(n).toordinal() == n]. *)
Theorem ymd2ord_ord2ymd n :
  let '(y, m, d) := ord2ymd n in ymd2ord y m d = n /\ valid_date y m d = true.
Proof.
  destruct (ordinal_in_cycle n) as [Hn Hr]. revert Hn Hr.
  generalize ((n - 1) mod DI400Y) ((n - 1) / DI400Y). intros r q -> Hr.
  rewrite ord2ymd_shift.
  pose proof (cycle_ok_spec _ Hr) as Hc. unfold cycle_ok in Hc.
  destruct (ord2ymd _) as [[y m] d].
  apply andb_prop in Hc as [Hc ?]. apply Z.eqb_eq in Hc.
  rewrite ymd2ord_shift, valid_date_shift. split; [lia|done].
Qed.

Corollary ord2ymd_inj n n' : ord2ymd n = ord2ymd n' -> n = n'.
Proof.
  intros H. pose proof (ymd2ord_ord2ymd n) as Hn.
  pose proof (ymd2ord_ord2ymd n') as Hn'. rewrite H in Hn.
  destruct (ord2ymd n') as [[y m] d]. lia.
Qed.

(** ** Years and days of the year *)

Lemma day_of_year_bounds y m d :
  valid_date y m d = true -> 1 <= days_before_month y m + d <= days_in_year y.
Proof.
  unfold valid_date, days_in_month, days_before_month, days_in_year.
  intros H. repeat (apply andb_prop in H as [H ?]).
  assert (Hm : m = 1 \/ m = 2 \/ m = 3 \/ m = 4 \/ m = 5 \/ m = 6 \/ m = 7
               \/ m = 8 \/ m = 9 \/ m = 10 \/ m = 11 \/ m = 12) by lia.
  destruct (is_leap y); destruct_or!; subst m; simpl in *; lia.
Qed.

Lemma days_before_year_succ y :
  days_before_year (y + 1) = days_before_year y + days_in_year y.
Proof.
  unfold days_before_year, days_in_year, is_leap. cbv zeta.
  replace (y + 1 - 1) with y by lia.
  destruct (Z.eqb_spec (y mod 4) 0), (Z.eqb_spec (y mod 100) 0),
    (Z.eqb_spec (y mod 400) 0); simpl; Z.div_mod_to_equations; lia.
Qed.

Lemma days_before_year_mono y y' :
  y <= y' -> days_before_year y <= days_before_year y'.
Proof. unfold days_before_year. cbv zeta. intros. Z.div_mod_to_equations. lia. Qed.

(** A date lies within its year. *)
Lemma ymd2ord_in_year y m d :
  valid_date y m d = true ->
  days_before_year y < ymd2ord y m d <= days_before_year (y + 1).
Proof.
  intros H%day_of_year_bounds. rewrite days_before_year_succ.
  unfold ymd2ord. lia.
Qed.

(** The year of a date is determined by its ordinal. *)
Lemma ymd2ord_year y m d y' m' d' :
  valid_date y m d = true -> valid_date y' m' d' = true ->
  ymd2ord y m d = ymd2ord y' m' d' -> y = y'.
Proof.
  intros H%ymd2ord_in_year H'%ymd2ord_in_year Heq.
  destruct (Z.lt_trichotomy y y') as [?|[?|?]]; [|done|].
  - pose proof (days_before_year_mono (y + 1) y'). lia.
  - pose proof (days_before_year_mono (y' + 1) y). lia.
Qed.

Lemma month_range y m d :
  valid_date y m d = true ->
  m = 1 \/ m = 2 \/ m = 3 \/ m = 4 \/ m = 5 \/ m = 6 \/ m = 7
  \/ m = 8 \/ m = 9 \/ m = 10 \/ m = 11 \/ m = 12.
Proof. unfold valid_date. intros H. repeat (apply andb_prop in H as [H ?]). lia. Qed.

(** Within a year, the month and the day are determined by the day of
    the year. *)
Lemma day_of_year_inj y m d m' d' :
  valid_date y m d = true -> valid_date y m' d' = true ->
  days_before_month y m + d = days_before_month y m' + d' ->
  m = m' /\ d = d'.
Proof.
  intros H H'. pose proof (month_range _ _ _ H) as Hm.
  pose proof (month_range _ _ _ H') as Hm'. revert H H'.
  unfold valid_date, days_in_month, days_before_month.
  destruct (is_leap y); destruct_or!; subst m m'; simpl;
    intros H H'; repeat (apply andb_prop in H as [H ?]);
    repeat (apply andb_prop in H' as [H' ?]); lia.
Qed.

Lemma ymd2ord_inj y m d y' m' d' :
  valid_date y m d = true -> valid_date y' m' d' = true ->
  ymd2ord y m d = ymd2ord y' m' d' -> (y, m, d) = (y', m', d').
Proof.
  intros H H' Heq. pose proof (ymd2ord_year _ _ _ _ _ _ H H' Heq) as <-.
  destruct (day_of_year_inj y m d m' d' H H') as [-> ->]; [|done].
  unfold ymd2ord in Heq. lia.
Qed.

(** [date.fromordinal(date(y, m, d).toordinal()) == date(y, m, d)]. *)
Theorem ord2ymd_ymd2ord y m d :
  valid_date y m d = true -> ord2ymd (ymd2ord y m d) = (y, m, d).
Proof.
  intros H. pose proof (ymd2ord_ord2ymd (ymd2ord y m d)) as Hn.
  destruct (ord2ymd _) as [[y' m'] d']. destruct Hn as [Hn H'].
  by apply ymd2ord_inj.
Qed.

(** The ordinals of the four-digit years. *)
Lemma ord2ymd_year_bounds n :
  MINORDINAL4 <= n <= MAXORDINAL ->
  let '(y, _, _) := ord2ymd n in 1000 <= y <= 9999.
Proof.
  intros Hn. pose proof (ymd2ord_ord2ymd n) as Hr.
  destruct (ord2ymd n) as [[y m] d]. destruct Hr as [<- H%ymd2ord_in_year].
  destruct (decide (y <= 999)).
  { pose proof (days_before_year_mono (y + 1) 1000).
    change (days_before_year 1000) with 364877 in *.
    unfold MINORDINAL4 in Hn. lia. }
  destruct (decide (10000 <= y)); [|lia].
  pose proof (days_before_year_mono 10000 y).
  change (days_before_year 10000) with MAXORDINAL in *. lia.
Qed.

(** ** Printing and reading *)

Lemma years_checked : all_from year_ok 1000 (Z.to_nat 9000) = true.
Proof. vm_compute. reflexivity. Qed.

Lemma pad2_checked : all_from pad2_ok 0 (Z.to_nat 100) = true.
Proof. vm_compute. reflexivity. Qed.

(** A year of four digits prints as four digits that read back. *)
Lemma decimal_year y :
  1000 <= y <= 9999 ->
  exists a b c d, decimal y = [a; b; c; d] /\ number [a; b; c; d] = Some y.
Proof.
  intros Hy. assert (Hc : year_ok y = true)
    by (apply (all_from_spec _ _ _ years_checked); lia).
  unfold year_ok in Hc. destruct (decimal y) as [|a [|b [|c [|d [|]]]]]; try done.
  exists a, b, c, d. split; [done|]. by apply bool_decide_eq_true in Hc.
Qed.

Lemma number_pad2 k : 0 <= k < 100 -> number (pad2 k) = Some k.
Proof.
  intros Hk. eapply bool_decide_eq_true_1.
  apply (all_from_spec _ _ _ pad2_checked). lia.
Qed.

Lemma valid_date_below_100 y m d :
  valid_date y m d = true -> 0 <= m < 100 /\ 0 <= d < 100.
Proof.
  intros H. pose proof (month_range _ _ _ H) as Hm. revert H.
  unfold valid_date, days_in_month.
  destruct (is_leap y); destruct_or!; subst m; simpl;
    intros H; repeat (apply andb_prop in H as [H ?]); lia.
Qed.

(** A date of a four-digit year prints in the form [YYYY-MM-DD], and
    reading the print gives the date back. *)
Theorem parse_strftime_ymd n :
  MINORDINAL4 <= n <= MAXORDINAL -> parse_ymd (strftime_ymd n) = Some (ord2ymd n).
Proof.
  intros Hn. pose proof (ord2ymd_year_bounds n Hn) as Hy.
  pose proof (ymd2ord_ord2ymd n) as Hv. unfold strftime_ymd.
  destruct (ord2ymd n) as [[y m] d]. destruct Hv as [_ Hv].
  destruct (decimal_year y Hy) as (a & b & c & e & -> & Hnum).
  destruct (valid_date_below_100 _ _ _ Hv) as [Hm Hd].
  pose proof (number_pad2 m Hm) as Hpm. pose proof (number_pad2 d Hd) as Hpd.
  unfold pad2 in *. cbn [app parse_ymd]. by rewrite Hnum, Hpm, Hpd.
Qed.

Corollary strftime_ymd_length n :
  MINORDINAL4 <= n <= MAXORDINAL -> length (strftime_ymd n) = 10%nat.
Proof.
  intros H%parse_strftime_ymd. revert H. generalize (strftime_ymd n).
  intros [|? [|? [|? [|? [|? [|? [|? [|? [|? [|? [|]]]]]]]]]]]; try done;
    simpl; by repeat case_match.
Qed.

(** Different days print differently. *)
Corollary strftime_ymd_inj n n' :
  MINORDINAL4 <= n <= MAXORDINAL -> MINORDINAL4 <= n' <= MAXORDINAL ->
  strftime_ymd n = strftime_ymd n' -> n = n'.
Proof.
  intros H%parse_strftime_ymd H'%parse_strftime_ymd Heq.
  rewrite Heq, H' in H. apply ord2ymd_inj. congruence.
Qed.

Corollary ordinal_of_strftime n :
  MINORDINAL4 <= n <= MAXORDINAL -> ordinal_of (strftime_ymd n) = Some n.
Proof.
  intros H%parse_strftime_ymd. unfold ordinal_of. rewrite H. simpl.
  pose proof (ymd2ord_ord2ymd n) as Hr. destruct (ord2ymd n) as [[y m] d].
  simpl. f_equal. tauto.
Qed.
