(* ===== verification/PyFormat.v ===== *)
(** * Numbers as the page prints them

    [str(n)] of an integer and [format(x, ".2f")] of a number, as
    strings, with the functions that read them back.

    [format(x, ".2f")] is correctly rounded: of the decimals with two
    digits after the point it prints the one nearest to [x], and the
    one with an even last digit when [x] is half way between two
    ([round_half_even]); the sign of a negative number is kept when it
    rounds to zero.  The quote page formats the change and its
    percentage this way (lines 298-300 of [src/streamlit_app.py]).

    The theorems are the round trips of the two printers, for every
    integer and every rational, and the bound on what the rounding
    loses. *)

From Stdlib Require Import String QArith Lqa Qround Qabs DecimalPos DecimalN.
From S2P Require Import Prelude PyStr PyVal PyDate.
Open Scope py_scope.

(** ** Integers *)

(** [str(z)]. *)
Definition print_int (z : Z) : pystr :=
  if (z <? 0)%Z then 45%N :: decimal (- z) else decimal z.

(** A non-empty string of digits. *)
Definition read_nat (s : pystr) : option Z :=
  match s with [] => None | _ => number s end.

(** [int(s)] on what [str] prints: an optional sign and digits. *)
Definition read_int (s : pystr) : option Z :=
  match s with
  | 45%N :: s' => z ← read_nat s'; Some (- z)%Z
  | _ => read_nat s
  end.

(** ** Two decimals *)

(** The integer nearest to [q], the even one of the two when [q] is
    half way. *)
Definition round_half_even (q : Q) : Z :=
  let f := Qfloor q in
  match (q - inject_Z f ?= 1 # 2)%Q with
  | Lt => f
  | Gt => (f + 1)%Z
  | Eq => if Z.even f then f else (f + 1)%Z
  end.

Definition is_negative (q : Q) : bool := negb (Qle_bool 0 q).

(** The hundredths [format(q, ".2f")] prints, without the sign. *)
Definition hundredths (q : Q) : Z := round_half_even (Qabs q * 100).

Definition print_hundredths (h : Z) : pystr :=
  decimal (h / 100) ++ [46%N] ++ pad2 (h mod 100).

(** [format(q, ".2f")]. *)
Definition print_fixed2 (q : Q) : pystr :=
  (if is_negative q then [45%N] else []) ++ print_hundredths (hundredths q).

(** The number [format(q, ".2f")] denotes. *)
Definition fixed2_value (q : Q) : Q :=
  if is_negative q then (- (hundredths q # 100))%Q else (hundredths q # 100)%Q.

Definition read_hundredths (s : pystr) : option Z :=
  match reverse s with
  | d2 :: d1 :: 46%N :: whole =>
      a ← read_nat (reverse whole); b ← number [d1; d2]; Some (100 * a + b)%Z
  | _ => None
  end.

(** [float(s)] on what [".2f"] prints. *)
Definition read_fixed2 (s : pystr) : option Q :=
  match s with
  | 45%N :: s' => h ← read_hundredths s'; Some (- (h # 100))%Q
  | _ => h ← read_hundredths s; Some (h # 100)%Q
  end.

(** * Properties *)

(** ** Digits *)

Lemma digits_from_pos u p :
  foldl (fun acc c => a ← acc; d ← digit c; Some (10 * a + d)%Z) (Some (Z.pos p))
    (digits_of_uint u) = Some (Z.pos (Pos.of_uint_acc u p)).
Proof.
  revert p. induction u; intros p; simpl; try done; rewrite <- IHu; do 2 f_equal; lia.
Qed.

Lemma number_digits u : number (digits_of_uint u) = Some (Z.of_N (Pos.of_uint u)).
Proof.
  unfold number. induction u; cbn [digits_of_uint Pos.of_uint]; try done;
    apply (digits_from_pos u).
Qed.

(** Every natural number is read back from its digits. *)
Lemma number_decimal n : (0 <= n)%Z -> number (decimal n) = Some n.
Proof.
  intros Hn. unfold decimal. rewrite number_digits. f_equal.
  change (Pos.of_uint ?u) with (N.of_uint u). rewrite DecimalN.Unsigned.of_to. lia.
Qed.

Lemma digits_of_uint_digits u :
  Forall (fun c => (48 <= c <= 57)%N) (digits_of_uint u).
Proof. induction u; constructor; (lia || done). Qed.

Lemma digits_of_uint_nil u : digits_of_uint u = [] -> u = Decimal.Nil.
Proof. by destruct u. Qed.

(** The digits of a number: at least one, and none is a sign. *)
Lemma decimal_head n : exists c s, decimal n = c :: s /\ (48 <= c <= 57)%N.
Proof.
  unfold decimal. pose proof (digits_of_uint_digits (N.to_uint (Z.to_N n))) as Hd.
  destruct (digits_of_uint _) as [|c s] eqn:Hs.
  - apply digits_of_uint_nil in Hs. destruct (Z.to_N n); [done|].
    by apply DecimalPos.Unsigned.to_uint_nonnil in Hs.
  - exists c, s. split; [done|]. by inversion Hd.
Qed.

Lemma read_nat_decimal n : (0 <= n)%Z -> read_nat (decimal n) = Some n.
Proof.
  intros Hn. destruct (decimal_head n) as (c & s & Hs & _).
  unfold read_nat. rewrite Hs, <- Hs. by apply number_decimal.
Qed.

(** ** Integers *)

(** A string that does not start with the sign is read as it is. *)
Lemma read_int_unsigned c s : c <> 45%N -> read_int (c :: s) = read_nat (c :: s).
Proof.
  intros Hc. unfold read_int. destruct c as [|p]; [done|].
  by do 6 (destruct p as [p|p|]; try done).
Qed.

Lemma read_fixed2_unsigned c s :
  c <> 45%N -> read_fixed2 (c :: s) = h ← read_hundredths (c :: s); Some (h # 100)%Q.
Proof.
  intros Hc. unfold read_fixed2. destruct c as [|p]; [done|].
  by do 6 (destruct p as [p|p|]; try done).
Qed.

(** [int(str(z)) == z]. *)
Theorem read_print_int z : read_int (print_int z) = Some z.
Proof.
  unfold print_int. destruct (Z.ltb_spec z 0).
  - unfold read_int. rewrite read_nat_decimal by lia. cbn. f_equal. lia.
  - destruct (decimal_head z) as (c & s & Hs & Hc).
    rewrite Hs, read_int_unsigned, <- Hs by lia. by apply read_nat_decimal.
Qed.

Lemma print_int_inj z1 z2 : print_int z1 = print_int z2 -> z1 = z2.
Proof.
  intros H. apply (f_equal read_int) in H. rewrite !read_print_int in H. by injection H.
Qed.

(** ** Rounding *)

(** The rounding loses at most one half. *)
Lemma round_half_even_close q : (Qabs (inject_Z (round_half_even q) - q) <= 1 # 2)%Q.
Proof.
  unfold round_half_even. pose proof (Qfloor_le q) as Hl. pose proof (Qlt_floor q) as Hu.
  rewrite inject_Z_plus in Hu. change (inject_Z 1) with 1%Q in Hu. apply Qabs_Qle_condition.
  destruct (Qcompare_spec (q - inject_Z (Qfloor q)) (1 # 2)) as [He|Hlt|Hgt];
    [destruct (Z.even (Qfloor q))|..];
    rewrite ?inject_Z_plus; change (inject_Z 1) with 1%Q; split; lra.
Qed.

(** An integer is its own rounding. *)
Lemma round_half_even_Z z : round_half_even (inject_Z z) = z.
Proof.
  unfold round_half_even. rewrite Qfloor_Z.
  assert ((inject_Z z - inject_Z z ?= 1 # 2)%Q = Lt) as ->; [|done].
  rewrite <- Qlt_alt. lra.
Qed.

Lemma round_half_even_nonneg q : (0 <= q)%Q -> (0 <= round_half_even q)%Z.
Proof.
  intros Hq. unfold round_half_even.
  assert (0 <= Qfloor q)%Z by (change 0%Z with (Qfloor 0); by apply Qfloor_resp_le).
  destruct (_ ?= _)%Q; [destruct (Z.even _)|..]; lia.
Qed.

(** Rounding is monotone. *)
Lemma round_half_even_mono p q : (p <= q)%Q -> (round_half_even p <= round_half_even q)%Z.
Proof.
  intros Hpq. pose proof (Qfloor_resp_le _ _ Hpq) as Hf.
  destruct (decide (Qfloor p = Qfloor q)) as [He|Hne].
  - unfold round_half_even. rewrite He.
    destruct (Qcompare_spec (p - inject_Z (Qfloor q)) (1 # 2)),
      (Qcompare_spec (q - inject_Z (Qfloor q)) (1 # 2)),
      (Z.even (Qfloor q)); try lia; lra.
  - assert (round_half_even p <= Qfloor p + 1)%Z.
    { unfold round_half_even. destruct (_ ?= _)%Q; [destruct (Z.even _)|..]; lia. }
    assert (Qfloor q <= round_half_even q)%Z.
    { unfold round_half_even. destruct (_ ?= _)%Q; [destruct (Z.even _)|..]; lia. }
    lia.
Qed.

Lemma hundredths_nonneg q : (0 <= hundredths q)%Z.
Proof.
  apply round_half_even_nonneg. pose proof (Qabs_nonneg q). nra.
Qed.

(** ** Two decimals *)

Lemma reverse_point (whole : pystr) d1 d2 :
  reverse (whole ++ [46%N] ++ [d1; d2]) = d2 :: d1 :: 46%N :: reverse whole.
Proof. by rewrite !reverse_app. Qed.

Lemma read_print_hundredths h :
  (0 <= h)%Z -> read_hundredths (print_hundredths h) = Some h.
Proof.
  intros Hh. unfold read_hundredths, print_hundredths.
  rewrite (reverse_point _ (Z.to_N (48 + h mod 100 / 10)) (Z.to_N (48 + (h mod 100) mod 10))).
  rewrite reverse_involutive, read_nat_decimal by (apply Z.div_pos; lia).
  pose proof (Z.mod_pos_bound h 100 eq_refl) as Hm.
  change (number _) with (number (pad2 (h mod 100))).
  rewrite number_pad2 by done. cbn. f_equal. pose proof (Z.div_mod h 100). lia.
Qed.

Lemma print_hundredths_head h :
  exists c s, print_hundredths h = c :: s /\ c <> 45%N.
Proof.
  unfold print_hundredths. destruct (decimal_head (h / 100)) as (c & s & -> & Hc).
  exists c, (s ++ [46%N] ++ pad2 (h mod 100)). split; [done | lia].
Qed.

(** What [".2f"] prints is read back as the number it denotes. *)
Theorem read_print_fixed2 q : read_fixed2 (print_fixed2 q) = Some (fixed2_value q).
Proof.
  unfold print_fixed2, fixed2_value. pose proof (hundredths_nonneg q) as Hh.
  destruct (is_negative q); cbn [app].
  - unfold read_fixed2. by rewrite read_print_hundredths.
  - destruct (print_hundredths_head (hundredths q)) as (c & s & Hs & Hc).
    rewrite Hs, read_fixed2_unsigned, <- Hs by done. by rewrite read_print_hundredths.
Qed.

(** The number printed is within half a hundredth of the number
    formatted. *)
Theorem fixed2_close q : (Qabs (fixed2_value q - q) <= 1 # 200)%Q.
Proof.
  unfold fixed2_value, hundredths, is_negative.
  pose proof (round_half_even_close (Qabs q * 100)) as Hr.
  apply Qabs_Qle_condition in Hr. apply Qabs_Qle_condition.
  set (h := round_half_even (Qabs q * 100)) in *.
  assert (inject_Z h == (h # 100) * 100)%Q as Hd.
  { rewrite (Qmake_Qdiv h 100). change (inject_Z (Z.pos 100)) with 100%Q. field. }
  generalize dependent (h # 100)%Q. generalize dependent (inject_Z h). intros y Hr x Hd.
  destruct (Qle_bool 0 q) eqn:Hq; cbn [negb].
  - apply Qle_bool_iff in Hq. rewrite (Qabs_pos q Hq) in Hr. split; lra.
  - assert (q <= 0)%Q as Hn.
    { destruct (Qlt_le_dec q 0) as [?|Hp]; [lra|]. apply Qle_bool_iff in Hp. congruence. }
    rewrite (Qabs_neg q Hn) in Hr. split; lra.
Qed.

(** An integer is printed with [.00]. *)
Lemma print_fixed2_int z :
  print_fixed2 (inject_Z z) = print_int z ++ [46%N; 48%N; 48%N].
Proof.
  unfold print_fixed2, print_int, is_negative, hundredths.
  assert (Qabs (inject_Z z) * 100 == inject_Z (Z.abs z * 100))%Q as He.
  { rewrite inject_Z_mult. by destruct z. }
  assert (round_half_even (Qabs (inject_Z z) * 100) = (Z.abs z * 100)%Z) as ->.
  { rewrite <- round_half_even_Z. unfold round_half_even.
    by rewrite (Qfloor_comp _ _ He), He. }
  unfold print_hundredths. rewrite Z.div_mul, Z.mod_mul by done.
  assert (Qle_bool 0 (inject_Z z) = negb (z <? 0)%Z) as ->.
  { destruct (Z.ltb_spec z 0); apply eq_true_iff_eq;
      rewrite Qle_bool_iff; unfold Qle; simpl; split; (lia || done). }
  destruct (Z.ltb_spec z 0); cbn [negb app].
  - by rewrite Z.abs_neq by lia.
  - by rewrite Z.abs_eq by lia.
Qed.

Example two_and_a_half : print_fixed2 (5 # 2) = u8 "2.50".
Proof. reflexivity. Qed.

(** Half way between two decimals the even one is printed: [0.125] and
    [0.375] are floats. *)
Example ties_to_even :
  print_fixed2 (1 # 8) = u8 "0.12" /\ print_fixed2 (3 # 8) = u8 "0.38".
Proof. split; reflexivity. Qed.

(** A negative change that rounds to zero keeps its sign. *)
Example negative_zero : print_fixed2 (- 1 # 1000) = u8 "-0.00".
Proof. reflexivity. Qed.

Example minus_twelve : print_int (-12) = u8 "-12" /\ read_int (u8 "-12") = Some (-12)%Z.
Proof. split; reflexivity. Qed.
