(* ===== verification/Ui.v ===== *)
(** * The page monad: rendering, collaborator calls and exceptions

    A Streamlit script is run top to bottom on every interaction.  Each
    [st.*] call appends an element to the page, a [with] block opens a
    container or a busy indicator, a collaborator call may raise, and
    [try]/[except Exception] catches what is raised.  This file models
    one such run as a computation [ui A] that threads the world [W] the
    collaborators live in, accumulates the trace of [event]s produced, and
    ends with a value or a [signal] (an exception, or [st.rerun()]).

    - [frag], [text]: the strings handed to Streamlit, kept symbolic
      where Python formats a non-string value;
    - [call]: the collaborator operations the pages invoke;
    - [event]: one rendered element, container, call or log record;
    - [Backend]: what the world provides (the interface of the
      collaborators, the clock and the id generator);
    - [ui] and its combinators [emit], [raise], [lift], [invoke],
      [try_except], [within], [with_spinner], [rerun], [for_each];
    - the observers of a trace: [flat], [calls], [errors], [logs],
      [shows], [expanders], [balanced], [quiet];
    - the predicates on computations, each with its closure lemmas:
      [renders] (no call, no change of state), [behaves n] (at most [n]
      calls, session kept, indicator balanced, no rerun), [tidy n]
      (the same without the last), [returns], [calls_in P],
      [preserves P];
    - the run equations of the combinators, by which a run is computed
      step by step ([run_bind_ok], [try_prepend], [run_call_in_try]). *)

From Stdlib Require Import String QArith.
From S2P Require Import Prelude PyStr PyVal.
Open Scope py_scope.

(** ** Text *)

(** One piece of an f-string. *)
Inductive frag : Type :=
| FLit (s : pystr)       (* literal text, or an interpolated [str] *)
| FRepr (v : pyval)      (* [str(v)] of a value that is not a [str] *)
| FFixed2 (v : pyval)    (* [format(v, ".2f")] of a number *)
| FExn (e : pyexn).      (* [str(e)] of an exception of the model *)

Abbreviation text := (list frag) (only parsing).

(** A literal of the source as text. *)
Definition lit (s : string) : text := [FLit (utf8 s)].
Arguments lit s%_string : simpl never.

(** [f"{v}"]: a [str] is interpolated as it is. *)
Definition fstr (v : pyval) : frag :=
  match v with VStr s => FLit s | _ => FRepr v end.

(** [str(e)]: a collaborator's exception carries its message. *)
Definition fexn (e : pyexn) : frag :=
  match e with Raised msg => FLit msg | _ => FExn e end.

#[export] Instance frag_eq_dec : EqDecision frag.
Proof. solve_decision. Defined.

(** ** Collaborator operations *)

Inductive service : Type :=
| AnalysisService | HistoryService | StockService | SystemConfigService.

#[export] Instance service_eq_dec : EqDecision service.
Proof. solve_decision. Defined.

(** The operations of the collaborators, with the arguments the pages
    pass.  [svc] is the handle the operation is invoked on. *)
Inductive call : Type :=
| get_config
| new_service (k : service)
| analyze_stock (svc : pyval) (stock_code report_type : pystr)
    (force_refresh : bool) (query_id : pystr) (send_notification : bool)
| get_history_list (svc : pyval) (stock_code : option pystr)
    (start_date : pystr) (page limit : Z)
| get_realtime_quote (svc : pyval) (stock_code : pystr)
| get_history_data (svc : pyval) (stock_code period : pystr) (days : Z)
| get_task_queue
| list_tasks (queue : pyval) (limit : Z)
| sys_get_config (svc : pyval) (include_schema : bool).

#[export] Instance call_eq_dec : EqDecision call.
Proof. solve_decision. Defined.

(** ** Events *)

(** The containers a [with] block renders into. *)
Inductive container : Type :=
| in_sidebar
| in_column (i : nat)
| in_expander (label : text) (expanded : bool).

(** What one statement of a page produces: an element rendered by an
    [st.*] call, a change of the busy indicator, a collaborator call
    with its outcome, or a log record. *)
Inductive element : Type :=
(* display elements *)
| st_page_config (page_title page_icon layout initial_sidebar_state : pystr)
| st_title (t : text)
| st_markdown (t : text)
| st_subheader (t : text)
| st_caption (t : text)
| st_text (t : text)
| st_error (t : text)
| st_success (t : text)
| st_info (t : text)
| st_warning (t : text)
| st_progress (v : Q)
| st_metric (label : pystr) (value : text) (delta : option text)
| st_dataframe (rows : list items)
| st_line_chart (data : pyval)
(* input widgets *)
| st_text_input (label : pystr) (value : option text) (disabled : bool)
| st_selectbox (label : pystr) (options : list text)
| st_checkbox (label : pystr) (value : bool)
| st_button (label : pystr)
| st_radio (label : pystr) (options : list pystr)
(* the busy indicator of [with st.spinner(...)] *)
| spinner_on (t : text)
| spinner_off
(* what leaves the page *)
| called (c : call) (r : res pyexn pyval)
| logged (msg : pystr) (e : pyexn).

(** The page as a tree: elements, and containers with what was
    rendered inside them. *)
Unset Elimination Schemes.
Inductive event : Type :=
| leaf (e : element)
| box (c : container) (body : list event).
Set Elimination Schemes.

Coercion leaf : element >-> event.

Abbreviation trace := (list event) (only parsing).

(** [flat_event e] lists the elements of [e] in rendering order, those
    inside containers included. *)
Fixpoint flat_event (e : event) : list element :=
  match e with
  | leaf x => [x]
  | box _ b =>
      (fix go (b : trace) : list element :=
         match b with
         | [] => []
         | x :: b' => flat_event x ++ go b'
         end) b
  end.

Definition flat (tr : trace) : list element := tr ≫= flat_event.

#[export] Instance Q_eq_dec : EqDecision Q.
Proof. solve_decision. Defined.

#[export] Instance container_eq_dec : EqDecision container.
Proof. solve_decision. Defined.

#[export] Instance element_eq_dec : EqDecision element.
Proof. solve_decision. Defined.

(** ** The world *)

(** What a run reads from outside the script.  [backend_call] performs
    a collaborator operation: it returns or raises, and may change the
    world.  [uuid4_hex] is [uuid.uuid4().hex] and [today] the date of
    [datetime.now()] as a proleptic Gregorian ordinal.  [chart_series]
    is what pandas makes of the history data for the line chart: the
    ["close"] column indexed by ["date"], or the exception it raises.
    The three status constants are the members of the task queue's
    status enumeration the monitor compares with. *)
Class Backend (W : Type) : Type := {
  backend_call : call -> W -> res pyexn pyval * W;
  uuid4_hex : W -> pystr * W;
  today : W -> Z * W;
  chart_series : pyval -> res pyexn pyval;
  status_running : pyval;
  status_completed : pyval;
  status_failed : pyval
}.

(** ** The session state

    [st.session_state] holds the attributes the script assigns at its
    top: the [initialized] flag, the configuration and the four service
    handles.  An attribute that was never assigned is [None] here, and
    reading it raises [AttributeError]. *)
Record session : Type := Session {
  initialized : option pyval;
  config : option pyval;
  analysis_service : option pyval;
  history_service : option pyval;
  stock_service : option pyval;
  system_config_service : option pyval
}.

Definition empty_session : session := Session None None None None None None.

#[export] Instance session_eq_dec : EqDecision session.
Proof. solve_decision. Defined.

(** The state a run works on: the world outside and the session state,
    which Streamlit keeps from one run of the script to the next. *)
Record state (W : Type) : Type := State { world : W; sess : session }.
Arguments State {W} world sess.
Arguments world {W} s.
Arguments sess {W} s.

(** ** The monad *)

(** How a computation ends when it does not return: an exception that
    [except Exception] catches, or the rerun request of [st.rerun()],
    which it does not. *)
Inductive signal : Type :=
| Exn (e : pyexn)
| Rerun.

#[export] Instance signal_eq_dec : EqDecision signal.
Proof. solve_decision. Defined.

Definition ui (W A : Type) : Type := state W -> state W * trace * res signal A.

Section ui.
Context {W : Type} `{!Backend W}.

Definition ui_ret {A} (a : A) : ui W A := fun s => (s, [], Ok a).

Definition ui_bind {A B} (m : ui W A) (k : A -> ui W B) : ui W B :=
  fun s =>
    match m s with
    | (s1, t1, Ok a) => let '(s2, t2, r) := k a s1 in (s2, t1 ++ t2, r)
    | (s1, t1, Err x) => (s1, t1, Err x)
    end.

(** One [st.*] call. *)
Definition emit (e : element) : ui W unit := fun s => (s, [leaf e], Ok tt).

Definition raise {A} (e : pyexn) : ui W A := fun s => (s, [], Err (Exn e)).

(** [st.rerun()]. *)
Definition rerun {A} : ui W A := fun s => (s, [], Err Rerun).

(** The outcome of an operation on values. *)
Definition lift {A} (r : res pyexn A) : ui W A :=
  fun s => (s, [], match r with Ok a => Ok a | Err e => Err (Exn e) end).

(** A collaborator call: performed in the world, recorded in the trace,
    and raising what the collaborator raises. *)
Definition invoke (c : call) : ui W pyval :=
  fun s =>
    let '(r, w') := backend_call c (world s) in
    (State w' (sess s), [leaf (called c r)],
     match r with Ok v => Ok v | Err e => Err (Exn e) end).

(** [uuid.uuid4().hex]. *)
Definition fresh_uuid : ui W pystr :=
  fun s => let '(u, w') := uuid4_hex (world s) in (State w' (sess s), [], Ok u).

(** The date of [datetime.now()]. *)
Definition read_today : ui W Z :=
  fun s => let '(d, w') := today (world s) in (State w' (sess s), [], Ok d).

(** [st.session_state.name], for the attribute read by [field]. *)
Definition session_get (field : session -> option pyval) (name : string) : ui W pyval :=
  fun s =>
    match field (sess s) with
    | Some v => (s, [], Ok v)
    | None => (s, [], Err (Exn (AttributeError (utf8 name))))
    end.

(** [st.session_state.name = v], as the update [upd] of the record. *)
Definition session_set (upd : session -> session) : ui W unit :=
  fun s => (State (world s) (upd (sess s)), [], Ok tt).

(** [try: m except Exception as e: h e]. *)
Definition try_except {A} (m : ui W A) (h : pyexn -> ui W A) : ui W A :=
  fun s =>
    match m s with
    | (s1, t1, Err (Exn e)) => let '(s2, t2, r) := h e s1 in (s2, t1 ++ t2, r)
    | out => out
    end.

(** [with container: m]: what [m] renders goes into the container, also
    when [m] raises half way. *)
Definition within {A} (c : container) (m : ui W A) : ui W A :=
  fun s => let '(s1, t1, r) := m s in (s1, [box c t1], r).

(** [with st.spinner(t): m]: the indicator is shown while [m] runs and
    removed when the block is left, however it is left. *)
Definition with_spinner {A} (t : text) (m : ui W A) : ui W A :=
  fun s => let '(s1, t1, r) := m s in (s1, leaf (spinner_on t) :: t1 ++ [leaf spinner_off], r).

(** [for x in l: f x]. *)
Fixpoint for_each {A} (l : list A) (f : A -> ui W unit) : ui W unit :=
  match l with
  | [] => ui_ret tt
  | x :: l' => ui_bind (f x) (fun _ => for_each l' f)
  end.

(** [[f x for x in l]]. *)
Fixpoint map_m {A B} (f : A -> ui W B) (l : list A) : ui W (list B) :=
  match l with
  | [] => ui_ret []
  | x :: l' =>
      ui_bind (f x) (fun y => ui_bind (map_m f l') (fun ys => ui_ret (y :: ys)))
  end.

(** [st.progress(v)] for a float [v]: Streamlit accepts [0.0 <= v <= 1.0]
    and raises otherwise. *)
Definition progress (v : Q) : ui W unit :=
  if (Qle_bool 0 v && Qle_bool v 1)%bool then emit (st_progress v)
  else raise StreamlitAPIException.

(** [if k in d: f(d[k])], the pattern of every optional field. *)
Definition when_key (k : string) (d : pyval) (f : pyval -> ui W unit) : ui W unit :=
  ui_bind (lift (py_in (utf8 k) d)) (fun has =>
  if has : bool then ui_bind (lift (py_getitem d (utf8 k))) f else ui_ret tt).

(** The components of a run's outcome. *)
Definition state_of {A} (o : state W * trace * res signal A) : state W := o.1.1.
Definition trace_of {A} (o : state W * trace * res signal A) : trace := o.1.2.
Definition result_of {A} (o : state W * trace * res signal A) : res signal A := o.2.

End ui.

#[export] Instance ui_mret {W} : MRet (ui W) := @ui_ret W.
#[export] Instance ui_mbind {W} : MBind (ui W) := fun _ _ k m => ui_bind m k.

(** ** Observing a trace *)

(** The collaborator calls of a trace, in order. *)
Definition call_of (e : element) : option call :=
  match e with called c _ => Some c | _ => None end.

Definition calls (tr : trace) : list call := omap call_of (flat tr).

(** The texts shown by [st.error], in order. *)
Definition error_of (e : element) : option text :=
  match e with st_error t => Some t | _ => None end.

Definition errors (tr : trace) : list text := omap error_of (flat tr).

(** The records written by [logger.exception]. *)
Definition log_of (e : element) : option pyexn :=
  match e with logged _ x => Some x | _ => None end.

Definition logs (tr : trace) : list pyexn := omap log_of (flat tr).

(** [shows e tr]: the element [e] is on the page, at any depth. *)
(** The calls of the initialisation block, and the calls of the pages. *)
Definition constructor_call (c : call) : bool :=
  match c with get_config | new_service _ => true | _ => false end.

Definition page_call (c : call) : bool := negb (constructor_call c).

(** The labels of the expanders of a page, in the order in which they
    are rendered. *)
Definition expander_of (e : event) : option text :=
  match e with box (in_expander label _) _ => Some label | _ => None end.

Definition expanders (tr : trace) : list text := omap expander_of tr.

Definition shows (e : element) (tr : trace) : Prop := e ∈ flat tr.

#[export] Instance shows_dec e tr : Decision (shows e tr).
Proof. unfold shows. apply _. Defined.

(** The busy indicator along a trace: [spin n tr] is the number of
    indicators shown after [tr], starting from [n], or [None] if one is
    removed that was never shown. *)
Fixpoint spin (n : nat) (tr : list element) : option nat :=
  match tr with
  | [] => Some n
  | spinner_on _ :: tr' => spin (S n) tr'
  | spinner_off :: tr' => match n with 0 => None | S n' => spin n' tr' end
  | _ :: tr' => spin n tr'
  end.

(** Every indicator shown is removed by the end of the trace. *)
Definition balanced (tr : trace) : Prop := spin 0 (flat tr) = Some 0.

#[export] Instance balanced_dec tr : Decision (balanced tr).
Proof. unfold balanced. apply _. Defined.

(** ** Equivalence of computations

    Two computations are equivalent when they run alike in every
    world; the laws of the monad hold up to this equivalence. *)

#[export] Instance ui_equiv {W A} : Equiv (ui W A) :=
  fun m1 m2 => forall s, m1 s = m2 s.

#[export] Instance ui_equivalence {W A} : Equivalence (≡@{ui W A}).
Proof.
  split.
  - by intros m w.
  - intros m1 m2 H w. by rewrite H.
  - intros m1 m2 m3 H1 H2 w. by rewrite H1, H2.
Qed.

(** * Reasoning about traces *)

Section traces.
Implicit Types (tr b : trace) (e : event) (x : element).

Lemma flat_nil : flat [] = [].
Proof. reflexivity. Qed.

Lemma flat_cons e tr : flat (e :: tr) = flat_event e ++ flat tr.
Proof. reflexivity. Qed.

Lemma flat_app tr1 tr2 : flat (tr1 ++ tr2) = flat tr1 ++ flat tr2.
Proof. apply bind_app. Qed.

Lemma flat_leaf x : flat [leaf x] = [x].
Proof. reflexivity. Qed.

Lemma flat_event_box c b : flat_event (box c b) = flat b.
Proof.
  simpl. induction b as [|e b IH]; [done|]. rewrite flat_cons. by f_equal.
Qed.

Lemma flat_box c b : flat [box c b] = flat b.
Proof. by rewrite flat_cons, flat_event_box, app_nil_r. Qed.

Lemma calls_app tr1 tr2 : calls (tr1 ++ tr2) = calls tr1 ++ calls tr2.
Proof. unfold calls. by rewrite flat_app, omap_app. Qed.

Lemma errors_app tr1 tr2 : errors (tr1 ++ tr2) = errors tr1 ++ errors tr2.
Proof. unfold errors. by rewrite flat_app, omap_app. Qed.

Lemma logs_app tr1 tr2 : logs (tr1 ++ tr2) = logs tr1 ++ logs tr2.
Proof. unfold logs. by rewrite flat_app, omap_app. Qed.

Lemma expanders_app tr1 tr2 : expanders (tr1 ++ tr2) = expanders tr1 ++ expanders tr2.
Proof. apply omap_app. Qed.

Lemma calls_box c b : calls [box c b] = calls b.
Proof. unfold calls. by rewrite flat_box. Qed.

Lemma errors_box c b : errors [box c b] = errors b.
Proof. unfold errors. by rewrite flat_box. Qed.

Lemma logs_box c b : logs [box c b] = logs b.
Proof. unfold logs. by rewrite flat_box. Qed.

Lemma shows_app x tr1 tr2 : shows x (tr1 ++ tr2) <-> shows x tr1 \/ shows x tr2.
Proof. unfold shows. rewrite flat_app. apply elem_of_app. Qed.

Lemma shows_cons x y tr : shows x (leaf y :: tr) <-> x = y \/ shows x tr.
Proof. unfold shows. rewrite flat_cons. simpl. apply elem_of_cons. Qed.

Lemma shows_box x c b : shows x [box c b] <-> shows x b.
Proof. unfold shows. by rewrite flat_box. Qed.

Lemma spin_app n (l1 l2 : list element) :
  spin n (l1 ++ l2) = spin n l1 ≫= fun k => spin k l2.
Proof.
  revert n. induction l1 as [|x l1 IH]; intros n; [done|].
  destruct x; simpl; try apply IH. destruct n; [done | apply IH].
Qed.

(** A trace with no error and no log record. *)
Definition quiet (tr : trace) : Prop := errors tr = [] /\ logs tr = [].

Lemma quiet_nil : quiet [].
Proof. done. Qed.

Lemma quiet_app tr1 tr2 : quiet tr1 -> quiet tr2 -> quiet (tr1 ++ tr2).
Proof. unfold quiet. rewrite errors_app, logs_app. by intros [-> ->] [-> ->]. Qed.

Lemma quiet_box c b : quiet [box c b] <-> quiet b.
Proof. unfold quiet. by rewrite errors_box, logs_box. Qed.

(** An element that is neither a call nor a change of the busy
    indicator. *)
Definition plain (x : element) : bool :=
  match x with
  | called _ _ | spinner_on _ | spinner_off => false
  | _ => true
  end.

(** A trace that only renders and logs, at every depth. *)
Definition plain_trace (tr : trace) : Prop :=
  Forall (fun x => plain x = true) (flat tr).

Lemma plain_trace_nil : plain_trace [].
Proof. constructor. Qed.

Lemma plain_trace_app tr1 tr2 :
  plain_trace (tr1 ++ tr2) <-> plain_trace tr1 /\ plain_trace tr2.
Proof. unfold plain_trace. rewrite flat_app. apply Forall_app. Qed.

Lemma plain_trace_leaf x : plain x = true -> plain_trace [leaf x].
Proof. intros Hp. by repeat constructor. Qed.

Lemma plain_trace_box c b : plain_trace [box c b] <-> plain_trace b.
Proof. unfold plain_trace. by rewrite flat_box. Qed.

Lemma plain_calls tr : plain_trace tr -> calls tr = [].
Proof.
  unfold plain_trace, calls. generalize (flat tr).
  induction 1 as [|x l Hx _ IH]; [done|].
  destruct x; try discriminate Hx; exact IH.
Qed.

Lemma plain_spin tr n : plain_trace tr -> spin n (flat tr) = Some n.
Proof.
  unfold plain_trace. generalize (flat tr).
  induction 1 as [|x l Hx _ IH]; [done|].
  destruct x; try discriminate Hx; exact IH.
Qed.

Lemma plain_balanced tr : plain_trace tr -> balanced tr.
Proof. apply plain_spin. Qed.

Lemma balanced_box c b : balanced [box c b] <-> balanced b.
Proof. unfold balanced. by rewrite flat_box. Qed.

Lemma balanced_app tr1 tr2 : balanced tr1 -> balanced tr2 -> balanced (tr1 ++ tr2).
Proof. unfold balanced. intros H1 H2. by rewrite flat_app, spin_app, H1. Qed.

(** Bracketing a balanced trace by the indicator keeps it balanced. *)
Lemma balanced_spinner t tr :
  balanced tr -> balanced (leaf (spinner_on t) :: tr ++ [leaf spinner_off]).
Proof.
  unfold balanced. intros H.
  rewrite flat_cons, flat_app. simpl. rewrite spin_app.
  assert (spin 1 (flat tr) = Some 1) as ->; [|done].
  revert H. generalize 0 at 1 3. generalize (flat tr).
  induction l as [|x l IH]; intros n H; simpl in *; [congruence|].
  destruct x; auto. destruct n; [done|]. auto.
Qed.

Lemma calls_spinner t tr :
  calls (leaf (spinner_on t) :: tr ++ [leaf spinner_off]) = calls tr.
Proof.
  change (leaf (spinner_on t) :: tr ++ [leaf spinner_off])
    with ([leaf (spinner_on t)] ++ tr ++ [leaf spinner_off]).
  rewrite !calls_app. unfold calls at 1 3. simpl. by rewrite app_nil_r.
Qed.

Lemma errors_spinner t tr :
  errors (leaf (spinner_on t) :: tr ++ [leaf spinner_off]) = errors tr.
Proof.
  change (leaf (spinner_on t) :: tr ++ [leaf spinner_off])
    with ([leaf (spinner_on t)] ++ tr ++ [leaf spinner_off]).
  rewrite !errors_app. unfold errors at 1 3. simpl. by rewrite app_nil_r.
Qed.

Lemma logs_spinner t tr :
  logs (leaf (spinner_on t) :: tr ++ [leaf spinner_off]) = logs tr.
Proof.
  change (leaf (spinner_on t) :: tr ++ [leaf spinner_off])
    with ([leaf (spinner_on t)] ++ tr ++ [leaf spinner_off]).
  rewrite !logs_app. unfold logs at 1 3. simpl. by rewrite app_nil_r.
Qed.

End traces.

#[export] Hint Resolve plain_trace_nil plain_balanced balanced_spinner balanced_app
  quiet_nil quiet_app : py.
#[export] Hint Rewrite flat_app calls_app errors_app logs_app calls_box errors_box
  logs_box calls_spinner errors_spinner logs_spinner : pysimpl.

(** * Reasoning about computations

    Three properties of a computation, each closed under the
    combinators, so that a page's properties follow its structure:

    - [renders m]: [m] only renders and logs; it leaves the state as it
      is, calls no collaborator and does not touch the busy indicator;
    - [behaves n m]: [m] calls collaborators at most [n] times, leaves
      the session state as it is, removes every busy indicator it shows
      and does not ask for a rerun;
    - [returns m]: [m] ends by returning: no exception and no rerun
      request leaves it. *)

(** [simpl_run] exposes the components of the outcomes in sight. *)
Ltac simpl_run := unfold state_of, trace_of, result_of in *; simpl in *.

(** [shows_here] finds an element among the leading elements of a page. *)
Ltac shows_here :=
  repeat first [ by (apply shows_cons; left) | apply shows_cons; right ].

Section props.
Context {W : Type} `{!Backend W}.

Definition renders {A} (m : ui W A) : Prop :=
  forall s, state_of (m s) = s /\ plain_trace (trace_of (m s))
            /\ result_of (m s) <> Err Rerun.

Definition behaves {A} (n : nat) (m : ui W A) : Prop :=
  forall s, length (calls (trace_of (m s))) <= n
            /\ sess (state_of (m s)) = sess s
            /\ balanced (trace_of (m s))
            /\ result_of (m s) <> Err Rerun.

Definition returns {A} (m : ui W A) : Prop :=
  forall s, is_ok (result_of (m s)) = true.

(** The run of a bind, by cases on the first computation. *)
Lemma run_bind {A B} (m : ui W A) (k : A -> ui W B) s :
  (m ≫= k) s =
  match m s with
  | (s1, t1, Ok a) => let '(s2, t2, r) := k a s1 in (s2, t1 ++ t2, r)
  | (s1, t1, Err x) => (s1, t1, Err x)
  end.
Proof. reflexivity. Qed.

(** ** [renders] *)

Lemma renders_ret {A} (a : A) : renders (mret a : ui W A).
Proof. intros s. split_and!; [done | constructor | done]. Qed.

Lemma renders_emit x : plain x = true -> renders (emit x).
Proof. intros Hp s. split_and!; [done | by apply plain_trace_leaf | done]. Qed.

Lemma renders_raise {A} e : renders (raise e : ui W A).
Proof. intros s. split_and!; [done | constructor | done]. Qed.

Lemma renders_lift {A} (r : res pyexn A) : renders (lift r).
Proof. intros s. split_and!; [done | constructor | by destruct r]. Qed.

Lemma renders_session_get f name : renders (session_get f name).
Proof.
  intros s. unfold session_get.
  destruct (f (sess s)); (split_and!; [done | constructor | done]).
Qed.

Lemma renders_bind {A B} (m : ui W A) (k : A -> ui W B) :
  renders m -> (forall a, renders (k a)) -> renders (m ≫= k).
Proof.
  intros Hm Hk s. rewrite run_bind. destruct (Hm s) as (Hs & Ht & Hr).
  destruct (m s) as [[s1 t1] [a|x]]; simpl_run; subst;
    [|split_and!; [done..|congruence]].
  destruct (Hk a s) as (Hs' & Ht' & Hr').
  destruct (k a s) as [[s2 t2] r]; simpl_run.
  split_and!; [done | by apply plain_trace_app | done].
Qed.

Lemma renders_try {A} (m : ui W A) h :
  renders m -> (forall e, renders (h e)) -> renders (try_except m h).
Proof.
  intros Hm Hh s. unfold try_except. destruct (Hm s) as (Hs & Ht & Hr).
  destruct (m s) as [[s1 t1] [a|[e|]]]; simpl_run; subst; [done| |done].
  destruct (Hh e s) as (Hs' & Ht' & Hr').
  destruct (h e s) as [[s2 t2] r]; simpl_run.
  split_and!; [done | by apply plain_trace_app | done].
Qed.

Lemma renders_within {A} c (m : ui W A) : renders m -> renders (within c m).
Proof.
  intros Hm s. unfold within. destruct (Hm s) as (Hs & Ht & Hr).
  destruct (m s) as [[s1 t1] r]; simpl_run.
  split_and!; [done | by apply plain_trace_box | done].
Qed.

Lemma renders_progress v : renders (progress v).
Proof.
  unfold progress. destruct (_ && _)%bool;
    [by apply renders_emit | apply renders_raise].
Qed.

Lemma renders_for_each {A} (l : list A) f :
  (forall x, renders (f x)) -> renders (for_each l f).
Proof.
  intros Hf. induction l as [|x l IH]; [apply renders_ret|].
  by apply (renders_bind (f x)).
Qed.

Lemma renders_map_m {A B} (f : A -> ui W B) l :
  (forall x, renders (f x)) -> renders (map_m f l).
Proof.
  intros Hf. induction l as [|x l IH]; [apply (renders_ret [])|].
  apply (renders_bind (f x)); [done|]. intros y.
  apply (renders_bind (map_m f l)); [done|]. intros ys. apply (renders_ret (y :: ys)).
Qed.

Lemma renders_when_key k d (f : pyval -> ui W unit) :
  (forall v, renders (f v)) -> renders (when_key k d f).
Proof.
  intros Hf. unfold when_key. apply (renders_bind (lift _)); [apply renders_lift|].
  intros [|]; [|apply (renders_ret tt)].
  apply (renders_bind (lift _)); [apply renders_lift | done].
Qed.

End props.

#[export] Hint Resolve renders_ret renders_raise renders_lift renders_session_get
  renders_bind renders_try renders_within renders_progress renders_for_each
  renders_map_m renders_when_key : py.
#[export] Hint Extern 1 (renders (emit _)) =>
  apply renders_emit; reflexivity : py.
#[export] Hint Extern 3 (renders (if ?b then _ else _)) => destruct b : py.
#[export] Hint Extern 3 (renders (match ?x with _ => _ end)) => destruct x : py.

Section props_behaves.
Context {W : Type} `{!Backend W}.

(** ** [behaves] *)

Lemma renders_behaves {A} (m : ui W A) : renders m -> behaves 0 m.
Proof.
  intros Hm s. destruct (Hm s) as (Hs & Ht & Hr).
  rewrite Hs, (plain_calls _ Ht). split_and!; auto with py.
Qed.

Lemma behaves_mono {A} n n' (m : ui W A) : n <= n' -> behaves n m -> behaves n' m.
Proof. intros Hn Hm s. destruct (Hm s) as (Hc & ?). split; [lia | done]. Qed.

Lemma behaves_no_rerun {A} n (m : ui W A) s :
  behaves n m -> result_of (m s) <> Err Rerun.
Proof. intros Hm. apply Hm. Qed.

Lemma behaves_invoke c : behaves 1 (invoke c).
Proof.
  intros s. unfold invoke. destruct (backend_call c (world s)) as [r w'].
  simpl_run. split_and!; [done | done | done | by destruct r].
Qed.

Lemma behaves_fresh_uuid : behaves 0 fresh_uuid.
Proof.
  intros s. unfold fresh_uuid. destruct (uuid4_hex (world s)) as [u w'].
  by simpl_run.
Qed.

Lemma behaves_read_today : behaves 0 read_today.
Proof.
  intros s. unfold read_today. destruct (today (world s)) as [u w'].
  by simpl_run.
Qed.

Lemma behaves_bind {A B} n1 n2 (m : ui W A) (k : A -> ui W B) :
  behaves n1 m -> (forall a, behaves n2 (k a)) -> behaves (n1 + n2) (m ≫= k).
Proof.
  intros Hm Hk s. rewrite run_bind. destruct (Hm s) as (Hc & Hs & Hb & Hr).
  destruct (m s) as [[s1 t1] [a|x]]; simpl_run;
    [|split_and!; [lia | done | done | congruence]].
  destruct (Hk a s1) as (Hc' & Hs' & Hb' & Hr').
  destruct (k a s1) as [[s2 t2] r]; simpl_run.
  rewrite calls_app, length_app.
  split_and!; [lia | congruence | by apply balanced_app | done].
Qed.

Lemma behaves_try {A} n1 n2 (m : ui W A) h :
  behaves n1 m -> (forall e, behaves n2 (h e)) -> behaves (n1 + n2) (try_except m h).
Proof.
  intros Hm Hh s. unfold try_except. destruct (Hm s) as (Hc & Hs & Hb & Hr).
  destruct (m s) as [[s1 t1] [a|[e|]]]; simpl_run;
    [split_and!; [lia | done..] | | done].
  destruct (Hh e s1) as (Hc' & Hs' & Hb' & Hr').
  destruct (h e s1) as [[s2 t2] r]; simpl_run.
  rewrite calls_app, length_app.
  split_and!; [lia | congruence | by apply balanced_app | done].
Qed.

Lemma behaves_within {A} n c (m : ui W A) : behaves n m -> behaves n (within c m).
Proof.
  intros Hm s. unfold within. destruct (Hm s) as (Hc & Hs & Hb & Hr).
  destruct (m s) as [[s1 t1] r]; simpl_run.
  rewrite calls_box, balanced_box. done.
Qed.

Lemma behaves_spinner {A} n t (m : ui W A) :
  behaves n m -> behaves n (with_spinner t m).
Proof.
  intros Hm s. unfold with_spinner. destruct (Hm s) as (Hc & Hs & Hb & Hr).
  destruct (m s) as [[s1 t1] r]; simpl_run.
  rewrite calls_spinner. split_and!; auto with py.
Qed.

(** A rendering step before or after does not add calls. *)
Lemma behaves_after_render {A B} n (m : ui W A) (k : A -> ui W B) :
  renders m -> (forall a, behaves n (k a)) -> behaves n (m ≫= k).
Proof. intros Hm Hk. apply (behaves_bind 0 n); [by apply renders_behaves | done]. Qed.

Lemma behaves_before_render {A B} n (m : ui W A) (k : A -> ui W B) :
  behaves n m -> (forall a, renders (k a)) -> behaves n (m ≫= k).
Proof.
  intros Hm Hk. rewrite <- (Nat.add_0_r n).
  apply behaves_bind; [done|]. intros a. by apply renders_behaves.
Qed.

(** A [try] whose handlers only render adds no call. *)
Lemma behaves_try_render {A} n (m : ui W A) h :
  behaves n m -> (forall e, renders (h e)) -> behaves n (try_except m h).
Proof.
  intros Hm Hh. rewrite <- (Nat.add_0_r n).
  apply behaves_try; [done|]. intros e. by apply renders_behaves.
Qed.

Lemma behaves_ret {A} n (a : A) : behaves n (mret a : ui W A).
Proof. apply (behaves_mono 0); [lia|]. apply renders_behaves, renders_ret. Qed.

(** The session handle, then the call, then rendering: one call. *)
Lemma behaves_call {A} get name (c : pyval -> call) (show : pyval -> ui W A) :
  (forall v, renders (show v)) ->
  behaves 1 (session_get get name ≫= fun svc => invoke (c svc) ≫= show).
Proof.
  intros Hs. apply behaves_after_render; [apply renders_session_get|].
  intros svc. apply behaves_before_render; [apply behaves_invoke | done].
Qed.

(** ** [tidy]: [behaves] without the promise not to ask for a rerun *)

Definition tidy {A} (n : nat) (m : ui W A) : Prop :=
  forall s, length (calls (trace_of (m s))) <= n
            /\ sess (state_of (m s)) = sess s
            /\ balanced (trace_of (m s)).

Lemma behaves_tidy {A} n (m : ui W A) : behaves n m -> tidy n m.
Proof. intros Hm s. destruct (Hm s) as (? & ? & ? & _). done. Qed.

Lemma renders_tidy {A} n (m : ui W A) : renders m -> tidy n m.
Proof. intros Hm. apply behaves_tidy, (behaves_mono 0); [lia|by apply renders_behaves]. Qed.

Lemma tidy_rerun {A} n : tidy n (rerun : ui W A).
Proof. intros s. split_and!; [simpl; lia | done | done]. Qed.

Lemma tidy_bind {A B} n1 n2 (m : ui W A) (k : A -> ui W B) :
  tidy n1 m -> (forall a, tidy n2 (k a)) -> tidy (n1 + n2) (m ≫= k).
Proof.
  intros Hm Hk s. rewrite run_bind. destruct (Hm s) as (Hc & Hs & Hb).
  destruct (m s) as [[s1 t1] [a|x]]; simpl_run; [|split_and!; [lia | done | done]].
  destruct (Hk a s1) as (Hc' & Hs' & Hb').
  destruct (k a s1) as [[s2 t2] r]; simpl_run.
  rewrite calls_app, length_app.
  split_and!; [lia | congruence | by apply balanced_app].
Qed.

Lemma tidy_after_render {A B} n (m : ui W A) (k : A -> ui W B) :
  renders m -> (forall a, tidy n (k a)) -> tidy n (m ≫= k).
Proof. intros Hm Hk. apply (tidy_bind 0 n); [by apply renders_tidy | done]. Qed.

Lemma tidy_mono {A} n n' (m : ui W A) : n <= n' -> tidy n m -> tidy n' m.
Proof. intros Hn Hm s. destruct (Hm s) as (? & ? & ?). split_and!; [lia | done..]. Qed.

(** ** [calls_in]: every call of a computation is one of [P] *)

Definition calls_in {A} (P : call -> bool) (m : ui W A) : Prop :=
  forall s, Forall (fun c => P c = true) (calls (trace_of (m s))).

Lemma calls_in_quiet {A} P (m : ui W A) : behaves 0 m -> calls_in P m.
Proof.
  intros Hm s. destruct (Hm s) as (Hc & _).
  destruct (calls _); [constructor | simpl in Hc; lia].
Qed.

Lemma calls_in_renders {A} P (m : ui W A) : renders m -> calls_in P m.
Proof. intros Hm. by apply calls_in_quiet, renders_behaves. Qed.

Lemma calls_in_invoke P c : P c = true -> calls_in P (invoke c).
Proof.
  intros Hc s. unfold invoke. destruct (backend_call c (world s)) as [r w].
  by repeat constructor.
Qed.

Lemma calls_in_rerun {A} P : calls_in P (rerun : ui W A).
Proof. intros s. constructor. Qed.

Lemma calls_in_bind {A B} P (m : ui W A) (k : A -> ui W B) :
  calls_in P m -> (forall a, calls_in P (k a)) -> calls_in P (m ≫= k).
Proof.
  intros Hm Hk s. rewrite run_bind. specialize (Hm s).
  destruct (m s) as [[s1 t1] [a|x]]; simpl_run; [|done].
  specialize (Hk a s1). destruct (k a s1) as [[s2 t2] r]; simpl_run.
  rewrite calls_app. by apply Forall_app.
Qed.

Lemma calls_in_try {A} P (m : ui W A) h :
  calls_in P m -> (forall e, calls_in P (h e)) -> calls_in P (try_except m h).
Proof.
  intros Hm Hh s. unfold try_except. specialize (Hm s).
  destruct (m s) as [[s1 t1] [a|[e|]]]; simpl_run; [done| |done].
  specialize (Hh e s1). destruct (h e s1) as [[s2 t2] r]; simpl_run.
  rewrite calls_app. by apply Forall_app.
Qed.

Lemma calls_in_within {A} P c (m : ui W A) : calls_in P m -> calls_in P (within c m).
Proof.
  intros Hm s. unfold within. specialize (Hm s).
  destruct (m s) as [[s1 t1] r]; simpl_run. by rewrite calls_box.
Qed.

Lemma calls_in_spinner {A} P t (m : ui W A) :
  calls_in P m -> calls_in P (with_spinner t m).
Proof.
  intros Hm s. unfold with_spinner. specialize (Hm s).
  destruct (m s) as [[s1 t1] r]; simpl_run. by rewrite calls_spinner.
Qed.

(** The block of a page: the handle, the call, the rendering. *)
Lemma calls_in_call {A} P get name (c : pyval -> call) (show : pyval -> ui W A) :
  (forall svc, P (c svc) = true) -> (forall v, calls_in P (show v)) ->
  calls_in P (session_get get name ≫= fun svc => invoke (c svc) ≫= show).
Proof.
  intros Hc Hs. apply calls_in_bind; [apply calls_in_renders, renders_session_get|].
  intros svc. apply calls_in_bind; [by apply calls_in_invoke | done].
Qed.

(** ** [emits]: every element of a computation's page is one of [P] *)

Definition emits {A} (P : element -> bool) (m : ui W A) : Prop :=
  forall s, Forall (fun x => P x = true) (flat (trace_of (m s))).

Lemma emits_nothing {A} P (m : ui W A) : (forall s, trace_of (m s) = []) -> emits P m.
Proof. intros Hm s. rewrite Hm. constructor. Qed.

Lemma emits_ret {A} P (a : A) : emits P (mret a : ui W A).
Proof. by apply emits_nothing. Qed.

Lemma emits_raise {A} P e : emits P (raise e : ui W A).
Proof. by apply emits_nothing. Qed.

Lemma emits_rerun {A} P : emits P (rerun : ui W A).
Proof. by apply emits_nothing. Qed.

Lemma emits_lift {A} P (r : res pyexn A) : emits P (lift r).
Proof. by apply emits_nothing. Qed.

Lemma emits_session_get P f name : emits P (session_get f name).
Proof. apply emits_nothing. intros s. unfold session_get. by destruct (f (sess s)). Qed.

Lemma emits_fresh_uuid P : emits P fresh_uuid.
Proof. apply emits_nothing. intros s. unfold fresh_uuid. by destruct (uuid4_hex _). Qed.

Lemma emits_read_today P : emits P read_today.
Proof. apply emits_nothing. intros s. unfold read_today. by destruct (today _). Qed.

Lemma emits_session_set P upd : emits P (session_set upd).
Proof. by apply emits_nothing. Qed.

Lemma emits_emit P x : P x = true -> emits P (emit x).
Proof. intros Hx s. by repeat constructor. Qed.

Lemma emits_invoke P c : (forall r, P (called c r) = true) -> emits P (invoke c).
Proof.
  intros Hc s. unfold invoke. destruct (backend_call c (world s)) as [r w].
  by repeat constructor.
Qed.

Lemma emits_bind {A B} P (m : ui W A) (k : A -> ui W B) :
  emits P m -> (forall a, emits P (k a)) -> emits P (m ≫= k).
Proof.
  intros Hm Hk s. rewrite run_bind. specialize (Hm s).
  destruct (m s) as [[s1 t1] [a|x]]; simpl_run; [|done].
  specialize (Hk a s1). destruct (k a s1) as [[s2 t2] r]; simpl_run.
  rewrite flat_app. by apply Forall_app.
Qed.

Lemma emits_try {A} P (m : ui W A) h :
  emits P m -> (forall e, emits P (h e)) -> emits P (try_except m h).
Proof.
  intros Hm Hh s. unfold try_except. specialize (Hm s).
  destruct (m s) as [[s1 t1] [a|[e|]]]; simpl_run; [done| |done].
  specialize (Hh e s1). destruct (h e s1) as [[s2 t2] r]; simpl_run.
  rewrite flat_app. by apply Forall_app.
Qed.

Lemma emits_within {A} P c (m : ui W A) : emits P m -> emits P (within c m).
Proof.
  intros Hm s. unfold within. specialize (Hm s).
  destruct (m s) as [[s1 t1] r]. unfold trace_of in *. cbn [fst snd] in *.
  by rewrite flat_box.
Qed.

Lemma emits_spinner {A} P t (m : ui W A) :
  P (spinner_on t) = true -> P spinner_off = true -> emits P m ->
  emits P (with_spinner t m).
Proof.
  intros Hon Hoff Hm s. unfold with_spinner. specialize (Hm s).
  destruct (m s) as [[s1 t1] r]. unfold trace_of in *. cbn [fst snd] in *.
  rewrite flat_cons, flat_app. cbn [flat_event app]. constructor; [done|].
  apply Forall_app. split; [done|]. by repeat constructor.
Qed.

Lemma emits_for_each {A} P (l : list A) (f : A -> ui W unit) :
  (forall x, emits P (f x)) -> emits P (for_each l f).
Proof.
  intros Hf. induction l as [|x l IH]; [apply (emits_ret P tt)|].
  by apply (emits_bind P (f x)).
Qed.

Lemma emits_map_m {A B} P (f : A -> ui W B) l :
  (forall x, emits P (f x)) -> emits P (map_m f l).
Proof.
  intros Hf. induction l as [|x l IH]; [apply (emits_ret P [])|].
  apply (emits_bind P (f x)); [done|]. intros y.
  apply (emits_bind P (map_m f l)); [done|]. intros ys. apply (emits_ret P (y :: ys)).
Qed.

Lemma emits_when_key P k d (f : pyval -> ui W unit) :
  (forall v, emits P (f v)) -> emits P (when_key k d f).
Proof.
  intros Hf. unfold when_key. apply (emits_bind P (lift _)); [apply emits_lift|].
  intros [|]; [|apply (emits_ret P tt)].
  apply (emits_bind P (lift _)); [apply emits_lift | done].
Qed.

Lemma emits_progress P v : P (st_progress v) = true -> emits P (progress v).
Proof.
  intros Hv. unfold progress. destruct (_ && _)%bool;
    [by apply emits_emit | apply emits_raise].
Qed.

(** The calls of a computation are among its elements. *)
Definition calling (P : call -> bool) (x : element) : bool :=
  match x with called c _ => P c | _ => true end.

Lemma emits_calls_in {A} P (m : ui W A) : emits (calling P) m -> calls_in P m.
Proof.
  intros Hm s. specialize (Hm s). unfold calls. revert Hm. generalize (flat (trace_of (m s))).
  induction 1 as [|x l Hx _ IH]; [constructor|].
  destruct x; simpl; try done. by constructor.
Qed.

(** ** [settles]: the computation does not ask for a rerun *)

Definition settles {A} (m : ui W A) : Prop :=
  forall s, result_of (m s) <> Err Rerun.

Lemma behaves_settles {A} n (m : ui W A) : behaves n m -> settles m.
Proof. intros Hm s. apply (behaves_no_rerun n), Hm. Qed.

Lemma renders_settles {A} (m : ui W A) : renders m -> settles m.
Proof. intros Hm. by apply (behaves_settles 0), renders_behaves. Qed.

Lemma settles_bind {A B} (m : ui W A) (k : A -> ui W B) :
  settles m -> (forall a, settles (k a)) -> settles (m ≫= k).
Proof.
  intros Hm Hk s. rewrite run_bind. specialize (Hm s).
  destruct (m s) as [[s1 t1] [a|x]]; simpl_run; [|congruence].
  specialize (Hk a s1). by destruct (k a s1) as [[s2 t2] r].
Qed.

Lemma settles_session_set upd : settles (session_set upd).
Proof. by intros s. Qed.

(** ** [returns] *)

Lemma returns_ret {A} (a : A) : returns (mret a : ui W A).
Proof. by intros s. Qed.

Lemma returns_emit x : returns (emit x : ui W unit).
Proof. by intros s. Qed.

Lemma returns_bind {A B} (m : ui W A) (k : A -> ui W B) :
  returns m -> (forall a, returns (k a)) -> returns (m ≫= k).
Proof.
  intros Hm Hk s. rewrite run_bind. specialize (Hm s).
  destruct (m s) as [[s1 t1] [a|x]]; simpl_run; [|done].
  specialize (Hk a s1). by destruct (k a s1) as [[s2 t2] r].
Qed.

(** A [try] whose handlers return absorbs every exception. *)
Lemma returns_try {A} (m : ui W A) h :
  (forall s, result_of (m s) <> Err Rerun) -> (forall e, returns (h e)) ->
  returns (try_except m h).
Proof.
  intros Hm Hh s. unfold try_except. specialize (Hm s).
  destruct (m s) as [[s1 t1] [a|[e|]]]; simpl_run; [done| |done].
  specialize (Hh e s1). by destruct (h e s1) as [[s2 t2] r].
Qed.

Lemma returns_within {A} c (m : ui W A) : returns m -> returns (within c m).
Proof.
  intros Hm s. unfold within. specialize (Hm s).
  by destruct (m s) as [[s1 t1] r].
Qed.

Lemma returns_spinner {A} t (m : ui W A) : returns m -> returns (with_spinner t m).
Proof.
  intros Hm s. unfold with_spinner. specialize (Hm s).
  by destruct (m s) as [[s1 t1] r].
Qed.

Lemma returns_for_each_on {A} (l : list A) (f : A -> ui W unit) :
  Forall (fun x => returns (f x)) l -> returns (for_each l f).
Proof.
  induction 1 as [|x l Hx _ IH]; [apply returns_ret|].
  by apply (returns_bind (f x)).
Qed.

Lemma returns_for_each {A} (l : list A) (f : A -> ui W unit) :
  (forall x, returns (f x)) -> returns (for_each l f).
Proof. intros Hf. by apply returns_for_each_on, Forall_true. Qed.

(** A computation that renders and returns: its run. *)
Lemma run_renders (m : ui W unit) s :
  renders m -> returns m -> m s = (s, trace_of (m s), Ok tt).
Proof.
  intros Hm Hr. specialize (Hr s). destruct (Hm s) as (Hs & _ & _).
  destruct (m s) as [[s1 t1] [[]|x]]; simpl_run; by subst.
Qed.

(** ** What the script asks of a page

    [main] renders one page in a run.  What it guarantees of a run it
    guarantees for every page that keeps this contract: at most two
    collaborator calls, none of them a constructor, the session state
    left as it was and every busy indicator removed.  Each page file
    provides its instance. *)
Class Page {A} (p : ui W A) : Prop := {
  page_tidy : tidy 2 p;
  page_calls : calls_in page_call p
}.

(** A computation that renders is a page. *)
Lemma renders_page {A} (m : ui W A) : renders m -> Page m.
Proof. intros Hm. split; [by apply renders_tidy | by apply calls_in_renders]. Qed.

#[export] Instance ret_page {A} (a : A) : Page (mret a : ui W A).
Proof. apply renders_page, renders_ret. Qed.

(** What is rendered before a page leaves it a page. *)
Lemma page_after_render {A B} (m : ui W A) (k : A -> ui W B) :
  renders m -> (forall a, Page (k a)) -> Page (m ≫= k).
Proof.
  intros Hm Hk. split.
  - apply tidy_after_render; [done|]. intros a. apply page_tidy.
  - apply calls_in_bind; [by apply calls_in_renders|]. intros a. apply page_calls.
Qed.

(** A computation with at most two calls that behaves is a page. *)
Lemma behaves_page {A} n (m : ui W A) :
  n <= 2 -> behaves n m -> calls_in page_call m -> Page m.
Proof. intros Hn Hm Hc. split; [by eapply tidy_mono, behaves_tidy | done]. Qed.

End props_behaves.

#[export] Hint Resolve behaves_invoke behaves_fresh_uuid behaves_read_today
  behaves_within behaves_spinner renders_behaves behaves_ret behaves_call : py.
#[export] Hint Resolve behaves_after_render | 2 : py.
#[export] Hint Resolve behaves_try_render | 2 : py.
#[export] Hint Resolve behaves_before_render | 3 : py.
#[export] Hint Resolve emits_ret emits_raise emits_rerun emits_lift emits_session_get
  emits_fresh_uuid emits_read_today emits_bind emits_try emits_within emits_for_each
  emits_map_m emits_when_key : py.
#[export] Hint Extern 1 (emits _ (emit _)) =>
  apply emits_emit; first [reflexivity | by vm_compute] : py.
#[export] Hint Extern 1 (emits _ (invoke _)) =>
  apply emits_invoke; intros; reflexivity : py.
#[export] Hint Extern 1 (emits _ (progress _)) =>
  apply emits_progress; reflexivity : py.
#[export] Hint Extern 1 (emits _ (with_spinner _ _)) =>
  apply emits_spinner; [reflexivity | reflexivity | ] : py.
#[export] Hint Extern 3 (emits _ (if ?b then _ else _)) => destruct b : py.
#[export] Hint Extern 3 (emits _ (match ?x with _ => _ end)) => destruct x : py.
#[export] Hint Resolve calls_in_invoke calls_in_rerun calls_in_bind calls_in_try
  calls_in_within calls_in_spinner calls_in_call : py.
#[export] Hint Resolve calls_in_renders | 5 : py.
#[export] Hint Extern 3 (calls_in _ (if ?b then _ else _)) => destruct b : py.
#[export] Hint Resolve returns_ret returns_emit returns_bind returns_within
  returns_spinner returns_for_each : py.
#[export] Hint Extern 3 (returns (if ?b then _ else _)) => destruct b : py.
#[export] Hint Extern 3 (returns (match ?x with _ => _ end)) => destruct x : py.
#[export] Hint Extern 3 (behaves _ (if ?b then _ else _)) => destruct b : py.

(** * Running a computation step by step

    The equations that evaluate a run whose first steps are known:
    [prepend p o] is the outcome [o] with [p] rendered before it. *)

(** [emits_auto] proves [emits P m] by the structure of [m], unfolding
    the blocks of the page on its way. *)
Ltac emits_step :=
  lazymatch goal with
  | |- emits _ (_ ≫= _) => apply emits_bind; [|intros ?]
  | |- emits _ (mret _) => apply emits_ret
  | |- emits _ (ui_ret _) => apply emits_ret
  | |- emits _ (emit _) => apply emits_emit; first [reflexivity | by vm_compute]
  | |- emits _ (raise _) => apply emits_raise
  | |- emits _ rerun => apply emits_rerun
  | |- emits _ (lift _) => apply emits_lift
  | |- emits _ (session_get _ _) => apply emits_session_get
  | |- emits _ (session_set _) => apply emits_session_set
  | |- emits _ fresh_uuid => apply emits_fresh_uuid
  | |- emits _ read_today => apply emits_read_today
  | |- emits _ (invoke _) => apply emits_invoke; intros; reflexivity
  | |- emits _ (try_except _ _) => apply emits_try; [|intros ?]
  | |- emits _ (within _ _) => apply emits_within
  | |- emits _ (with_spinner _ _) => apply emits_spinner; [reflexivity | reflexivity |]
  | |- emits _ (for_each _ _) => apply emits_for_each; intros ?
  | |- emits _ (map_m _ _) => apply emits_map_m; intros ?
  | |- emits _ (when_key _ _ _) => apply emits_when_key; intros ?
  | |- emits _ (progress _) => apply emits_progress; reflexivity
  | |- emits _ (if ?b then _ else _) => destruct b
  | |- emits _ (match ?x with _ => _ end) => destruct x
  | |- emits _ (?f _ _ _ _) => unfold f
  | |- emits _ (?f _ _ _) => unfold f
  | |- emits _ (?f _ _) => unfold f
  | |- emits _ (?f _) => unfold f
  | |- emits _ ?f => unfold f
  end.

Ltac emits_auto := repeat emits_step.

Section runs.
Context {W : Type} `{!Backend W}.

Definition prepend {A} (p : trace) (o : state W * trace * res signal A) :
  state W * trace * res signal A :=
  (state_of o, p ++ trace_of o, result_of o).

Lemma prepend_nil {A} (o : state W * trace * res signal A) : prepend [] o = o.
Proof. by destruct o as [[s t] r]. Qed.

Lemma prepend_prepend {A} p q (o : state W * trace * res signal A) :
  prepend p (prepend q o) = prepend (p ++ q) o.
Proof. unfold prepend. simpl_run. by rewrite app_assoc. Qed.

Lemma run_bind_ok {A B} (m : ui W A) (k : A -> ui W B) s s1 t1 a :
  m s = (s1, t1, Ok a) -> (m ≫= k) s = prepend t1 (k a s1).
Proof. intros H. rewrite run_bind, H. by destruct (k a s1) as [[s2 t2] r]. Qed.

Lemma run_bind_err {A B} (m : ui W A) (k : A -> ui W B) s s1 t1 x :
  m s = (s1, t1, Err x) -> (m ≫= k) s = (s1, t1, Err x).
Proof. intros H. by rewrite run_bind, H. Qed.

Lemma bind_prepend {A B} (m m' : ui W A) (k : A -> ui W B) s s' p :
  m s = prepend p (m' s') -> (m ≫= k) s = prepend p ((m' ≫= k) s').
Proof.
  intros H. rewrite !run_bind, H. unfold prepend.
  destruct (m' s') as [[s1 t1] [a|x]]; simpl_run; [|done].
  destruct (k a s1) as [[s2 t2] r]. simpl_run.
  by rewrite app_assoc.
Qed.

Lemma try_prepend {A} (m m' : ui W A) h s s' p :
  m s = prepend p (m' s') ->
  try_except m h s = prepend p (try_except m' h s').
Proof.
  intros H. unfold try_except. rewrite H. unfold prepend.
  destruct (m' s') as [[s1 t1] [a|[e|]]]; simpl_run; try done.
  destruct (h e s1) as [[s2 t2] r]. simpl_run.
  by rewrite app_assoc.
Qed.

Lemma run_spinner {A} t (m : ui W A) s :
  with_spinner t m s =
  (state_of (m s), leaf (spinner_on t) :: trace_of (m s) ++ [leaf spinner_off],
   result_of (m s)).
Proof. unfold with_spinner. by destruct (m s) as [[s1 t1] r]. Qed.

Lemma run_within {A} c (m : ui W A) s :
  within c m s = (state_of (m s), [box c (trace_of (m s))], result_of (m s)).
Proof. unfold within. by destruct (m s) as [[s1 t1] r]. Qed.

Lemma run_fresh_uuid s u w :
  uuid4_hex (world s) = (u, w) -> fresh_uuid s = (State w (sess s), [], Ok u).
Proof. intros H. unfold fresh_uuid. by rewrite H. Qed.

Lemma run_read_today s d w :
  today (world s) = (d, w) -> read_today s = (State w (sess s), [], Ok d).
Proof. intros H. unfold read_today. by rewrite H. Qed.

Lemma run_session_get f name (s : state W) v :
  f (sess s) = Some v -> session_get f name s = (s, [], Ok v).
Proof. intros H. unfold session_get. by rewrite H. Qed.

Lemma run_session_get_none f name (s : state W) :
  f (sess s) = None ->
  session_get f name s = (s, [], Err (Exn (AttributeError (utf8 name)))).
Proof. intros H. unfold session_get. by rewrite H. Qed.

(** A call is recorded, then behaves as its answer. *)
Lemma run_invoke c s r w :
  backend_call c (world s) = (r, w) ->
  invoke c s = prepend [leaf (called c r)] (lift r (State w (sess s))).
Proof. intros H. unfold invoke. by rewrite H. Qed.

Lemma state_of_mk {A} (s : state W) t (r : res signal A) : state_of (s, t, r) = s.
Proof. reflexivity. Qed.

Lemma trace_of_mk {A} (s : state W) t (r : res signal A) : trace_of (s, t, r) = t.
Proof. reflexivity. Qed.

Lemma result_of_mk {A} (s : state W) t (r : res signal A) : result_of (s, t, r) = r.
Proof. reflexivity. Qed.

(** What a [try] block does once its collaborator has answered [r]:
    render the answer with [show], or handle what was raised with [h]. *)
Definition answered {A} (r : res pyexn pyval) (show : pyval -> ui W A)
    (h : pyexn -> ui W A) : ui W A :=
  try_except (lift r ≫= show) h.

Lemma answered_renders {A} r (show : pyval -> ui W A) h :
  (forall v, renders (show v)) -> (forall e, renders (h e)) ->
  renders (answered r show h).
Proof. intros. unfold answered. auto with py. Qed.

Lemma answered_err {A} e (show : pyval -> ui W A) h s :
  answered (Err e) show h s = h e s.
Proof.
  unfold answered, try_except. rewrite run_bind. cbn.
  by destruct (h e s) as [[s2 t2] r].
Qed.

Lemma answered_ok {A} v (show : pyval -> ui W A) h s :
  answered (Ok v) show h s = try_except (show v) h s.
Proof.
  unfold answered, try_except. rewrite (run_bind_ok _ _ s s [] v) by done.
  by rewrite prepend_nil.
Qed.

(** The block [try: v = handle.operation(...); show(v) except: h] run
    in a session that holds the handle: the call is recorded, then the
    block continues as [answered]. *)
Lemma run_call_in_try {A} get name (c : pyval -> call)
    (show : pyval -> ui W A) h s svc r w :
  get (sess s) = Some svc ->
  backend_call (c svc) (world s) = (r, w) ->
  try_except (session_get get name ≫= fun svc => invoke (c svc) ≫= show) h s
  = prepend [leaf (called (c svc) r)] (answered r show h (State w (sess s))).
Proof.
  intros Hs Hb. apply try_prepend.
  rewrite (run_bind_ok _ _ _ _ _ _ (run_session_get _ _ s svc Hs)), prepend_nil.
  by apply bind_prepend, run_invoke.
Qed.

(** A computation of type [unit] that returns, returns [()]. *)
Lemma returns_unit (m : ui W unit) s : returns m -> result_of (m s) = Ok tt.
Proof. intros Hm. specialize (Hm s). by destruct (result_of _) as [[]|]. Qed.

(** ** Properties of the session that a computation keeps *)

Definition preserves {A} (P : session -> Prop) (m : ui W A) : Prop :=
  forall s, P (sess s) -> P (sess (state_of (m s))).

Lemma preserves_bind {A B} P (m : ui W A) (k : A -> ui W B) :
  preserves P m -> (forall a, preserves P (k a)) -> preserves P (m ≫= k).
Proof.
  intros Hm Hk s Hs. rewrite run_bind. specialize (Hm s Hs).
  destruct (m s) as [[s1 t1] [a|x]]; simpl_run; [|done].
  specialize (Hk a s1 Hm). by destruct (k a s1) as [[s2 t2] r].
Qed.

Lemma tidy_preserves {A} P n (m : ui W A) : tidy n m -> preserves P m.
Proof. intros Hm s Hs. destruct (Hm s) as (_ & -> & _). done. Qed.

Lemma preserves_session_set P upd :
  (forall x, P x -> P (upd x)) -> preserves P (session_set upd).
Proof. intros Hu s Hs. by apply Hu. Qed.

Lemma preserves_invoke P c : preserves P (invoke c).
Proof. apply (tidy_preserves P 1), behaves_tidy, behaves_invoke. Qed.

(** ** Computations up to their runs

    [m1 ≡ m2] when the two computations run alike in every state.  The
    combinators respect it, so a block of a page can be rewritten inside
    the page, and the laws of the monad hold up to it. *)

#[export] Instance bind_proper {A B} :
  Proper (pointwise_relation A (≡) ==> (≡) ==> (≡)) (mbind (M := ui W) (A := A) (B := B)).
Proof.
  intros k1 k2 Hk m1 m2 Hm s. rewrite !run_bind, Hm.
  destruct (m2 s) as [[s1 t1] [a|x]]; [|done]. by rewrite (Hk a s1).
Qed.

#[export] Instance try_except_proper {A} :
  Proper ((≡) ==> pointwise_relation pyexn (≡) ==> (≡)) (try_except (W := W) (A := A)).
Proof.
  intros m1 m2 Hm h1 h2 Hh s. unfold try_except. rewrite Hm.
  destruct (m2 s) as [[s1 t1] [a|[e|]]]; [done| |done]. by rewrite (Hh e s1).
Qed.

#[export] Instance within_proper {A} c : Proper ((≡) ==> (≡)) (within (W := W) (A := A) c).
Proof. intros m1 m2 Hm s. unfold within. by rewrite Hm. Qed.

#[export] Instance with_spinner_proper {A} t :
  Proper ((≡) ==> (≡)) (with_spinner (W := W) (A := A) t).
Proof. intros m1 m2 Hm s. unfold with_spinner. by rewrite Hm. Qed.

#[export] Instance renders_proper {A} : Proper ((≡) ==> iff) (renders (W := W) (A := A)).
Proof.
  intros m1 m2 Hm. unfold renders.
  split; intros H s; [rewrite <- Hm | rewrite Hm]; apply H.
Qed.

#[export] Instance behaves_proper {A} n : Proper ((≡) ==> iff) (behaves (W := W) (A := A) n).
Proof.
  intros m1 m2 Hm. unfold behaves.
  split; intros H s; [rewrite <- Hm | rewrite Hm]; apply H.
Qed.

Lemma bind_ret_l {A B} (a : A) (k : A -> ui W B) : (mret a ≫= k) ≡ k a.
Proof. intros s. rewrite run_bind. simpl. by destruct (k a s) as [[s2 t2] r]. Qed.

Lemma bind_ret_r {A} (m : ui W A) : (m ≫= mret) ≡ m.
Proof.
  intros s. rewrite run_bind. destruct (m s) as [[s1 t1] [a|x]]; [|done].
  simpl. by rewrite app_nil_r.
Qed.

Lemma bind_assoc {A B C} (m : ui W A) (k : A -> ui W B) (k' : B -> ui W C) :
  ((m ≫= k) ≫= k') ≡ (m ≫= fun a => k a ≫= k').
Proof.
  intros s. rewrite !run_bind. destruct (m s) as [[s1 t1] [a|x]]; [|done].
  rewrite run_bind. destruct (k a s1) as [[s2 t2] [b|x]]; [|done].
  destruct (k' b s2) as [[s3 t3] r]. by rewrite app_assoc.
Qed.

(** A [try] around a block that returns does nothing; around a block
    that raises it is the handler; a rerun request passes through. *)
Lemma try_ret {A} (a : A) h : try_except (mret a : ui W A) h ≡ mret a.
Proof. by intros s. Qed.

Lemma try_raise {A} e (h : pyexn -> ui W A) : try_except (raise e) h ≡ h e.
Proof. intros s. unfold try_except, raise. by destruct (h e s) as [[s2 t2] r]. Qed.

Lemma try_rerun {A} (h : pyexn -> ui W A) : try_except rerun h ≡ rerun.
Proof. by intros s. Qed.

(** A block that cannot raise needs no [try]. *)
Lemma try_returns {A} (m : ui W A) h : returns m -> try_except m h ≡ m.
Proof.
  intros Hm s. specialize (Hm s). unfold try_except.
  by destruct (m s) as [[s1 t1] [a|x]].
Qed.

(** ** Loops *)

(** A loop whose turns return in the state they start from does so too,
    and its trace has every property [P] of the turns' traces that the
    empty trace has and concatenation keeps. *)
Lemma for_each_run {A} (l : list A) (f : A -> ui W unit) (P : trace -> Prop) s :
  P [] -> (forall t1 t2, P t1 -> P t2 -> P (t1 ++ t2)) ->
  Forall (fun x => f x s = (s, trace_of (f x s), Ok tt) /\ P (trace_of (f x s))) l ->
  for_each l f s = (s, trace_of (for_each l f s), Ok tt)
  /\ P (trace_of (for_each l f s)).
Proof.
  intros Hnil Happ. induction 1 as [|x l [Hx Px] _ [IH IP]]; [done|].
  cbn [for_each]. change (ui_bind ?m ?k) with (m ≫= k).
  rewrite (run_bind_ok _ _ _ _ _ _ Hx), IH. unfold prepend.
  rewrite !state_of_mk, !trace_of_mk, !result_of_mk. auto.
Qed.

(** Loops with the same turns run alike. *)
Lemma for_each_ext {A} (l : list A) (f g : A -> ui W unit) :
  Forall (fun x => forall s, f x s = g x s) l ->
  forall s, for_each l f s = for_each l g s.
Proof.
  induction 1 as [|x l Hx _ IH]; intros s; [done|].
  cbn [for_each]. unfold ui_bind. rewrite Hx.
  destruct (g x s) as [[s1 t1] [[]|e]]; [|done]. by rewrite IH.
Qed.

Lemma within_ext {A} c (m m' : ui W A) s : m s = m' s -> within c m s = within c m' s.
Proof. unfold within. by intros ->. Qed.

(** A loop of pure steps that all succeed collects their values. *)
Lemma map_m_lift {A B} (f : A -> res pyexn B) (l : list A) (ys : list B) (s : state W) :
  Forall2 (fun x y => f x = Ok y) l ys ->
  map_m (fun x => lift (f x)) l s = (s, [], Ok ys).
Proof.
  induction 1 as [|x y l ys Hx _ IH]; [done|].
  cbn [map_m]. change (ui_bind ?m ?k) with (m ≫= k).
  rewrite (run_bind_ok _ _ s s [] y) by (unfold lift; by rewrite Hx).
  change (ui_bind ?m ?k) with (m ≫= k).
  by rewrite prepend_nil, (run_bind_ok _ _ _ _ _ _ IH).
Qed.

(** A rendering computation run in state [s] ends in [s]. *)
Lemma renders_state {A} (m : ui W A) s : renders m -> state_of (m s) = s.
Proof. intros H. apply H. Qed.

End runs.

#[export] Hint Resolve answered_renders : py.

#[export] Hint Rewrite @prepend_nil @prepend_prepend @state_of_mk @trace_of_mk
  @result_of_mk : pysimpl.

(** [run_unfold] exposes a run down to the reads of the world and the
    tests of the page, for runs short enough to be evaluated in place. *)
Ltac run_unfold :=
  unfold when_key, progress, within, with_spinner, try_except, session_get,
    session_set, invoke, fresh_uuid, read_today, lift, raise, rerun, emit,
    mbind, ui_mbind, ui_bind, mret, ui_mret, ui_ret;
  cbv beta.
