(* ===== verification/Scripted.v ===== *)
(** * A scripted world

    An instance of [Backend] in which the collaborators answer from a
    list of responses prepared in advance, the id generator counts, and
    the clock stands still.  The witnesses of the development run the
    pages in it; no theorem about the pages depends on it. *)

From Stdlib Require Import String QArith.
From S2P Require Import Prelude PyStr PyVal Ui.
Open Scope py_scope.

(** The responses still to be given, the next id, and the date. *)
Record script : Type := Script {
  responses : list (res pyexn pyval);
  next_id : N;
  date : Z
}.

(** One hexadecimal digit as a code point. *)
Definition hex_digit (d : N) : N :=
  if (d <? 10)%N then (48 + d)%N else (87 + d)%N.

(** The [n] low hexadecimal digits of [x], most significant first. *)
Fixpoint hex (n : nat) (x : N) : pystr :=
  match n with
  | 0 => []
  | S n' => hex n' (x / 16)%N ++ [hex_digit (x mod 16)%N]
  end.

(** The chart data of a list of records: the ["close"] of each record,
    provided every record has a ["date"] and a ["close"]. *)
Definition close_of (x : pyval) : res pyexn pyval :=
  res_bind (py_getitem x (u8 "date")) (fun _ => py_getitem x (u8 "close")).

Fixpoint closes_of (l : list pyval) : res pyexn (list pyval) :=
  match l with
  | [] => Ok []
  | x :: l' =>
      res_bind (close_of x) (fun c =>
      res_bind (closes_of l') (fun cs => Ok (c :: cs)))
  end.

Definition closes (data : pyval) : res pyexn pyval :=
  match data with
  | VList l => res_bind (closes_of l) (fun cs => Ok (VList cs))
  | _ => Err ValueError
  end.

(** The next response, or an exception when the script has run out. *)
Definition answer (c : call) (w : script) : res pyexn pyval * script :=
  match responses w with
  | r :: rs => (r, Script rs (next_id w) (date w))
  | [] => (Err (Raised (u8 "no response scripted")), w)
  end.

#[export] Instance scripted : Backend script := {
  backend_call := answer;
  uuid4_hex w := (hex 32 (next_id w), Script (responses w) (next_id w + 1)%N (date w));
  today w := (date w, w);
  chart_series := closes;
  status_running := VStr (u8 "running");
  status_completed := VStr (u8 "completed");
  status_failed := VStr (u8 "failed")
}.

(** ** A steady world

    A second instance, with no state: every constructor returns its
    handle and every other operation returns [None]. *)

Definition steady_answer (c : call) : pyval :=
  match c with
  | get_config => VObj 0
  | new_service AnalysisService => VObj 1
  | new_service HistoryService => VObj 2
  | new_service StockService => VObj 3
  | new_service SystemConfigService => VObj 4
  | get_task_queue => VObj 5
  | _ => VNone
  end.

#[export] Instance steady : Backend unit := {
  backend_call c w := (Ok (steady_answer c), w);
  uuid4_hex w := (hex 32 0, w);
  today w := (739000%Z, w);
  chart_series := closes;
  status_running := VStr (u8 "running");
  status_completed := VStr (u8 "completed");
  status_failed := VStr (u8 "failed")
}.

(** A session as the initialisation leaves it, with handles 1 to 4. *)
Definition ready : session :=
  Session (Some (VBool true)) (Some (VObj 0))
    (Some (VObj 1)) (Some (VObj 2)) (Some (VObj 3)) (Some (VObj 4)).

(** The state in which the collaborators will answer [rs]. *)
Definition scripted_state (rs : list (res pyexn pyval)) : state script :=
  State (Script rs 0 739000) ready.

Lemma hex_length n x : length (hex n x) = n.
Proof.
  revert x. induction n as [|n IH]; intros x; simpl; [done|].
  rewrite length_app, IH. simpl. lia.
Qed.

Lemma hex_digit_inj a b : (a < 16)%N -> (b < 16)%N -> hex_digit a = hex_digit b -> a = b.
Proof.
  unfold hex_digit. intros Ha Hb.
  destruct (N.ltb_spec a 10), (N.ltb_spec b 10); lia.
Qed.

(** Ids below [16^n] are told apart by their [n] digits. *)
Lemma hex_inj n x y :
  (x < 16 ^ N.of_nat n)%N -> (y < 16 ^ N.of_nat n)%N -> hex n x = hex n y -> x = y.
Proof.
  revert x y. induction n as [|n IH]; intros x y Hx Hy H.
  - simpl in Hx, Hy. lia.
  - simpl in H. apply app_inj_2 in H as [H1 H2]; [|done].
    injection H2 as H2.
    rewrite Nat2N.inj_succ, N.pow_succ_r' in Hx, Hy.
    apply hex_digit_inj in H2; [|by apply N.mod_lt..].
    apply IH in H1; [|apply N.Div0.div_lt_upper_bound; lia..].
    rewrite (N.div_mod x 16), (N.div_mod y 16) by lia. congruence.
Qed.
