(* ===== verification/Session.v ===== *)
(** * Session initialisation

    The script starts by filling [st.session_state] on the first run of
    a session: it sets the [initialized] flag, then stores the
    configuration and one handle per service, each obtained from a
    constructor that may raise.  Later runs find the flag and skip the
    block.  This file models that block ([init_session]) and proves
    when the session it leaves is complete. *)

From Stdlib Require Import String QArith.
From S2P Require Import Prelude PyStr PyVal Ui Scripted.
Open Scope py_scope.

(** ** Assignments to the attributes of [st.session_state] *)

Definition set_initialized (v : pyval) (x : session) : session :=
  Session (Some v) (config x) (analysis_service x) (history_service x)
    (stock_service x) (system_config_service x).

Definition set_config (v : pyval) (x : session) : session :=
  Session (initialized x) (Some v) (analysis_service x) (history_service x)
    (stock_service x) (system_config_service x).

Definition set_analysis_service (v : pyval) (x : session) : session :=
  Session (initialized x) (config x) (Some v) (history_service x)
    (stock_service x) (system_config_service x).

Definition set_history_service (v : pyval) (x : session) : session :=
  Session (initialized x) (config x) (analysis_service x) (Some v)
    (stock_service x) (system_config_service x).

Definition set_stock_service (v : pyval) (x : session) : session :=
  Session (initialized x) (config x) (analysis_service x) (history_service x)
    (Some v) (system_config_service x).

Definition set_system_config_service (v : pyval) (x : session) : session :=
  Session (initialized x) (config x) (analysis_service x) (history_service x)
    (stock_service x) (Some v).

(** A session in which every attribute the pages read is set. *)
Definition complete (x : session) : Prop :=
  is_Some (config x) /\ is_Some (analysis_service x)
  /\ is_Some (history_service x) /\ is_Some (stock_service x)
  /\ is_Some (system_config_service x).

(** The invariant the pages rely on: a session that carries the flag
    is complete. *)
Definition session_ok (x : session) : Prop :=
  is_Some (initialized x) -> complete x.

#[export] Instance complete_dec x : Decision (complete x).
Proof. unfold complete. apply _. Defined.

#[export] Instance session_ok_dec x : Decision (session_ok x).
Proof. unfold session_ok. apply _. Defined.

Section init.
Context {W : Type} `{!Backend W}.

(** ["initialized" in st.session_state]. *)
Definition is_initialized : ui W bool :=
  fun s => (s, [], Ok (bool_decide (is_Some (initialized (sess s))))).

(** One [st.session_state.attr = constructor()] line. *)
Definition construct (c : call) (set : pyval -> session -> session) : ui W unit :=
  v ← invoke c; session_set (set v).

(** The initialisation block at the top of the script. *)
Definition init_session : ui W unit :=
  present ← is_initialized;
  if present : bool then mret tt
  else
    session_set (set_initialized (VBool true));;
    construct get_config set_config;;
    construct (new_service AnalysisService) set_analysis_service;;
    construct (new_service HistoryService) set_history_service;;
    construct (new_service StockService) set_stock_service;;
    construct (new_service SystemConfigService) set_system_config_service.

End init.

(** * Properties *)

Section init_props.
Context {W : Type} `{!Backend W}.

(** The constructors of the initialisation, in the order of the block. *)
Definition constructors : list call :=
  [get_config; new_service AnalysisService; new_service HistoryService;
   new_service StockService; new_service SystemConfigService].

Lemma run_construct c set (s : state W) r w :
  backend_call c (world s) = (r, w) ->
  construct c set s =
  (State w (match r with Ok v => set v (sess s) | Err _ => sess s end),
   [leaf (called c r)],
   match r with Ok _ => Ok tt | Err e => Err (Exn e) end).
Proof.
  intros H. unfold construct.
  rewrite (bind_prepend _ (lift r) _ s (State w (sess s)) [leaf (called c r)])
    by by apply run_invoke.
  by destruct r.
Qed.

Lemma run_construct_err c set (s : state W) e w :
  backend_call c (world s) = (Err e, w) ->
  construct c set s = (State w (sess s), [leaf (called c (Err e))], Err (Exn e)).
Proof. apply run_construct. Qed.

Lemma init_session_idempotent_run (s : state W) :
  is_Some (initialized (sess s)) -> init_session s = (s, [], Ok tt).
Proof.
  intros H. unfold init_session.
  rewrite (run_bind_ok _ _ s s [] true); [done|].
  unfold is_initialized. by rewrite bool_decide_eq_true_2.
Qed.

(** C6: initialisation is idempotent: in a session that carries the
    flag the block does nothing, constructs nothing and calls nothing. *)
Theorem init_session_idempotent (s : state W) :
  is_Some (initialized (sess s)) ->
  init_session s = (s, [], Ok tt).
Proof. apply init_session_idempotent_run. Qed.

(** The block in a session without the flag: the flag is set, then the
    constructors run. *)
Definition build : ui W unit :=
  construct get_config set_config;;
  construct (new_service AnalysisService) set_analysis_service;;
  construct (new_service HistoryService) set_history_service;;
  construct (new_service StockService) set_stock_service;;
  construct (new_service SystemConfigService) set_system_config_service.

Lemma init_session_first (s : state W) :
  initialized (sess s) = None ->
  init_session s = build (State (world s) (set_initialized (VBool true) (sess s))).
Proof.
  intros H. unfold init_session.
  rewrite (run_bind_ok _ _ s s [] false), prepend_nil.
  - by rewrite (run_bind_ok _ _ s
                   (State (world s) (set_initialized (VBool true) (sess s))) [] tt),
         prepend_nil.
  - unfold is_initialized. rewrite bool_decide_eq_false_2; [done|].
    rewrite H. by intros [? ?].
Qed.

(** The flag, once set, stays: the constructors assign other
    attributes. *)
Definition flagged (x : session) : Prop := is_Some (initialized x).

Lemma construct_keeps_flag c set :
  (forall v x, initialized (set v x) = initialized x) ->
  preserves flagged (construct c set : ui W unit).
Proof.
  intros Hset. unfold construct. apply preserves_bind; [apply preserves_invoke|].
  intros v. apply preserves_session_set. intros x. unfold flagged. by rewrite Hset.
Qed.

Lemma build_keeps_flag : preserves flagged (build : ui W unit).
Proof.
  unfold build.
  repeat (apply preserves_bind; [by apply construct_keeps_flag|intros _]).
  by apply construct_keeps_flag.
Qed.

(** After the block the session carries the flag, however the block
    was left. *)
Lemma init_session_flagged (s : state W) : flagged (sess (state_of (init_session s))).
Proof.
  destruct (initialized (sess s)) as [v|] eqn:E.
  - rewrite init_session_idempotent_run by (rewrite E; by eexists).
    unfold flagged. rewrite state_of_mk, E. by eexists.
  - rewrite init_session_first by done. apply build_keeps_flag. by eexists.
Qed.

(** No collaborator of the list [cs] ever raises. *)
Definition never_fails (cs : list call) : Prop :=
  forall c w, c ∈ cs -> is_ok (backend_call c w).1 = true.

(** [step_construct] runs the next constructor of the goal, naming its
    answer; under [never_fails] the answer is a value. *)
Ltac step_construct Hnf v w :=
  match goal with
  | |- context [(construct ?c ?set ≫= ?k) ?s] =>
      let r := fresh "r" in
      let Hc := fresh "Hc" in
      let Hr := fresh "Hr" in
      destruct (backend_call c (world s)) as [r w] eqn:Hc;
      pose proof (Hnf c (world s) ltac:(by apply (bool_decide_unpack _))) as Hr;
      rewrite Hc in Hr; destruct r as [v|]; [clear Hr|done];
      rewrite (run_bind_ok _ _ _ _ _ _ (run_construct c set s _ _ Hc))
  end.

(** The constructors in turn, when none raises: each is called once, in
    the order of the block, and every attribute is set. *)
Lemma build_complete (s : state W) :
  never_fails constructors ->
  result_of (build s) = Ok tt
  /\ calls (trace_of (build s)) = constructors
  /\ initialized (sess (state_of (build s))) = initialized (sess s)
  /\ complete (sess (state_of (build s))).
Proof.
  intros Hnf. unfold build.
  step_construct Hnf v0 w0. step_construct Hnf v1 w1.
  step_construct Hnf v2 w2. step_construct Hnf v3 w3.
  match goal with |- context [construct ?c ?set ?s'] =>
    destruct (backend_call c (world s')) as [r w4] eqn:Hlast;
    pose proof (Hnf c (world s') ltac:(by apply (bool_decide_unpack _))) as Hv;
    rewrite Hlast in Hv; destruct r as [v4|]; [|done];
    rewrite (run_construct c set s' _ _ Hlast)
  end.
  split_and!; [reflexivity..|]. repeat split; by eexists.
Qed.

(** C31: when the constructors do not raise, the first run of a session
    calls each of them once, in the order of the block, and leaves a
    complete session carrying the flag. *)
Theorem init_session_completes (s : state W) :
  never_fails constructors -> sess s = empty_session ->
  let o := init_session s in
  result_of o = Ok tt
  /\ calls (trace_of o) = constructors
  /\ initialized (sess (state_of o)) = Some (VBool true)
  /\ complete (sess (state_of o)).
Proof.
  intros Hnf Hs o. subst o. rewrite init_session_first by by rewrite Hs.
  by apply build_complete.
Qed.

(** When a constructor raises, the exception leaves the block with
    the flag already set: the session carries the flag and is not
    complete. *)
Theorem init_failure_leaves_flag (s : state W) e w :
  sess s = empty_session ->
  backend_call get_config (world s) = (Err e, w) ->
  let o := init_session s in
  result_of o = Err (Exn e)
  /\ initialized (sess (state_of o)) = Some (VBool true)
  /\ ~ session_ok (sess (state_of o)).
Proof.
  intros Hs Hc o. subst o. rewrite init_session_first by by rewrite Hs.
  unfold build.
  erewrite run_bind_err; [|by apply run_construct_err].
  rewrite Hs. split_and!; [done..|].
  intros Hok. destruct Hok as ([? [=]] & _). by exists (VBool true).
Qed.

End init_props.

(** ** Witnesses *)

(** A fresh session in the scripted world. *)
Definition fresh_state (rs : list (res pyexn pyval)) : state script :=
  State (Script rs 0 739000) empty_session.

Lemma init_session_idempotent_witness :
  init_session (scripted_state []) = (scripted_state [], [], Ok tt).
Proof. apply init_session_idempotent. by eexists. Defined.

Lemma init_session_completes_witness :
  let o := init_session (State tt empty_session) in
  result_of o = Ok tt
  /\ calls (trace_of o) = constructors
  /\ initialized (sess (state_of o)) = Some (VBool true)
  /\ complete (sess (state_of o)).
Proof. apply (init_session_completes (State tt empty_session)); [by intros c []|done]. Defined.

Lemma init_failure_leaves_flag_witness :
  let o := init_session (fresh_state [Err (Raised (u8 "no .env"))]) in
  result_of o = Err (Exn (Raised (u8 "no .env")))
  /\ initialized (sess (state_of o)) = Some (VBool true)
  /\ ~ session_ok (sess (state_of o)).
Proof.
  apply (init_failure_leaves_flag (fresh_state [Err (Raised (u8 "no .env"))])
           (Raised (u8 "no .env")) (Script [] 0 739000)); reflexivity.
Defined.
