(* ===== verification/AnalysisPage.v ===== *)
(** * The analysis page: [show_analysis_page]

    The page collects a stock code and three options, and on the button
    calls the analysis collaborator once, inside a busy indicator and a
    [try]/[except], then renders the report it returns: a dict whose
    optional fields are rendered one by one, or any other value as
    markdown.  The definitions follow [show_analysis_page] of
    [src/streamlit_app.py] statement by statement. *)

From Stdlib Require Import String QArith.
From S2P Require Import Prelude PyStr PyVal Ui Scripted.
Open Scope py_scope.

(** ** Advice classification (the [if]/[elif]/[else] on the advice) *)

Inductive advice_kind : Type := Buy | Sell | Neutral.

#[export] Instance advice_kind_eq_dec : EqDecision advice_kind.
Proof. solve_decision. Defined.

(** [Buy] if the buy token occurs in the advice, else [Sell] if the sell
    token does, else [Neutral]; the buy test comes first. *)
Definition classify_advice (advice : pyval) : res pyexn advice_kind :=
  res_bind (py_in (u8 "买入") advice) (fun buy =>
  if buy : bool then Ok Buy
  else res_bind (py_in (u8 "卖出") advice) (fun sell =>
       Ok (if sell : bool then Sell else Neutral))).

(** ** What the user entered *)

(** The values of the page's widgets in one run: the text input, the
    select box, the two check boxes, and whether the button was
    pressed. *)
Record analysis_input : Type := AnalysisInput {
  stock_code : pystr;
  report_type : pystr;
  force_refresh : bool;
  send_notification : bool;
  start_clicked : bool
}.

(** The options of the report-type select box. *)
Definition report_types : list pystr := [u8 "detailed"; u8 "simple"].

(** The select box returns one of its options. *)
Definition input_ok (i : analysis_input) : Prop := report_type i ∈ report_types.

Section page.
Context {W : Type} `{!Backend W}.

(** The advice, framed by its classification. *)
Definition show_advice (advice : pyval) : ui W unit :=
  kind ← lift (classify_advice advice);
  let t := [FLit (u8 "**"); fstr advice; FLit (u8 "**")] in
  match kind with
  | Buy => emit (st_success t)
  | Sell => emit (st_error t)
  | Neutral => emit (st_warning t)
  end.

(** The score as a progress bar and a caption. *)
Definition show_score (score : pyval) : ui W unit :=
  v ← lift (py_div100 score);
  progress v;;
  emit (st_caption [FLit (u8 "评分: "); fstr score; FLit (u8 "/100")]).

(** The report: a dict field by field, anything else as markdown. *)
Definition show_report (report : pyval) : ui W unit :=
  if is_dict report then
    when_key "summary" report (fun summary =>
      emit (st_markdown (lit "### 📋 分析摘要"));;
      emit (st_info [fstr summary]));;
    when_key "operation_advice" report (fun advice =>
      emit (st_markdown (lit "### 💡 操作建议"));;
      show_advice advice);;
    when_key "sentiment_score" report (fun score =>
      emit (st_markdown (lit "### 📊 情绪评分"));;
      show_score score);;
    when_key "trend_prediction" report (fun trend =>
      emit (st_markdown (lit "### 🔮 趋势预测"));;
      emit (st_info [fstr trend]));;
    when_key "full_report" report (fun full =>
      emit (st_markdown (lit "### 📄 完整报告"));;
      emit (st_markdown [fstr full]))
  else
    emit (st_markdown [fstr report]).

(** The result of a successful call. *)
Definition show_result (result : pyval) (query_id : pystr) : ui W unit :=
  if py_truthy result then
    emit (st_success (lit "分析完成！"));;
    emit (st_markdown (lit "---"));;
    name ← lift (py_get result (u8 "stock_name") (VStr (u8 "N/A")));
    code ← lift (py_get result (u8 "stock_code") (VStr (u8 "N/A")));
    emit (st_subheader [FLit (u8 "📈 "); fstr name; FLit (u8 " ("); fstr code; FLit (u8 ")")]);;
    when_key "report" result show_report;;
    emit (st_caption [FLit (u8 "查询 ID: "); FLit query_id])
  else
    emit (st_error (lit "分析失败，请检查股票代码是否正确或查看日志")).

(** The body of the [try]: the query id, the call, the rendering. *)
Definition analyze (i : analysis_input) : ui W unit :=
  query_id ← fresh_uuid;
  svc ← session_get analysis_service "analysis_service";
  result ← invoke (analyze_stock svc (strip (stock_code i)) (report_type i)
                     (force_refresh i) query_id (send_notification i));
  show_result result query_id.

(** The [except Exception as e] branch. *)
Definition analysis_failed (e : pyexn) : ui W unit :=
  emit (st_error [FLit (u8 "分析过程中发生错误: "); fexn e]);;
  emit (logged (u8 "Analysis error") e).

(** The widgets of the page, rendered on every run. *)
Definition analysis_form : ui W unit :=
  emit (st_title (lit "📊 股票分析"));;
  emit (st_markdown (lit "触发 AI 智能分析，获取股票决策建议"));;
  within (in_column 1) (emit (st_text_input (u8 "股票代码") None false));;
  within (in_column 2) (emit (st_selectbox (u8 "报告类型") (lit <$> ["detailed"; "simple"]%string)));;
  within (in_column 3) (emit (st_checkbox (u8 "强制刷新") false));;
  within (in_column 4) (emit (st_checkbox (u8 "发送通知") true));;
  emit (st_button (u8 "开始分析")).

(** [show_analysis_page]. *)
Definition show_analysis_page (i : analysis_input) : ui W unit :=
  analysis_form;;
  if start_clicked i then
    if negb (str_truthy (stock_code i)) then
      emit (st_error (lit "请输入股票代码"))
    else
      with_spinner [FLit (u8 "正在分析 "); FLit (stock_code i); FLit (u8 "...")]
        (try_except (analyze i) analysis_failed)
  else mret tt.

End page.

(** * Properties *)

(** ** Classification *)

Section classify.
Implicit Types s : pystr.

Lemma classify_advice_str s :
  classify_advice (VStr s) =
  Ok (if str_contains s (u8 "买入") then Buy
      else if str_contains s (u8 "卖出") then Sell else Neutral).
Proof. unfold classify_advice. simpl. by destruct (str_contains s _). Qed.

(** C33: on a string the classification is total and decided by the two
    tokens, the buy token first: an advice that contains both is a buy
    advice; it is a sell advice only if the buy token is absent. *)
Theorem classify_advice_spec s k :
  classify_advice (VStr s) = Ok k <->
  match k with
  | Buy => str_contains s (u8 "买入") = true
  | Sell => str_contains s (u8 "买入") = false /\ str_contains s (u8 "卖出") = true
  | Neutral => str_contains s (u8 "买入") = false /\ str_contains s (u8 "卖出") = false
  end.
Proof.
  rewrite classify_advice_str.
  destruct (str_contains s (u8 "买入")), (str_contains s (u8 "卖出")), k;
    intuition congruence.
Qed.

(** The cases of the specification's test list. *)
Example classify_both : classify_advice (VStr (u8 "建议买入并卖出")) = Ok Buy.
Proof. reflexivity. Qed.

Example classify_sell : classify_advice (VStr (u8 "建议卖出")) = Ok Sell.
Proof. reflexivity. Qed.

Example classify_hold : classify_advice (VStr (u8 "持有观望")) = Ok Neutral.
Proof. reflexivity. Qed.

(** An advice that is not a string, a list or a dict cannot be searched:
    the classification raises, as [in] does. *)
Lemma classify_advice_none : classify_advice VNone = Err TypeError.
Proof. reflexivity. Qed.

End classify.

(** ** The structure of the page *)

Section page_props.
Context {W : Type} `{!Backend W}.

Lemma show_advice_renders advice : renders (show_advice advice : ui W unit).
Proof. unfold show_advice. eauto 10 with py. Qed.

Lemma show_score_renders score : renders (show_score score : ui W unit).
Proof. unfold show_score. eauto 10 with py. Qed.

#[local] Hint Resolve show_advice_renders show_score_renders : py.

Lemma show_report_renders report : renders (show_report report : ui W unit).
Proof. unfold show_report. eauto 20 with py. Qed.

#[local] Hint Resolve show_report_renders : py.

Lemma show_result_renders result query_id :
  renders (show_result result query_id : ui W unit).
Proof. unfold show_result. eauto 20 with py. Qed.

Lemma analysis_failed_renders e : renders (analysis_failed e : ui W unit).
Proof. unfold analysis_failed. eauto 10 with py. Qed.

Lemma analysis_form_renders : renders (analysis_form : ui W unit).
Proof. unfold analysis_form. eauto 20 with py. Qed.

#[local] Hint Resolve show_result_renders analysis_failed_renders
  analysis_form_renders : py.

Lemma analyze_behaves i : behaves 1 (analyze i : ui W unit).
Proof.
  unfold analyze.
  apply (behaves_bind 0 1); [apply behaves_fresh_uuid|]. intros query_id.
  apply behaves_after_render; [auto with py|]. intros svc.
  apply behaves_before_render; auto with py.
Qed.

Lemma show_analysis_page_behaves i : behaves 1 (show_analysis_page i : ui W unit).
Proof.
  unfold show_analysis_page.
  apply behaves_after_render; [auto with py|]. intros _.
  destruct (start_clicked i); [|apply (behaves_mono 0); auto with py].
  destruct (negb _); [apply (behaves_mono 0); auto 10 with py|].
  apply behaves_spinner. rewrite <- (Nat.add_0_r 1).
  apply behaves_try; [apply analyze_behaves|auto with py].
Qed.

Lemma show_analysis_page_returns i : returns (show_analysis_page i : ui W unit).
Proof.
  unfold show_analysis_page.
  apply returns_bind; [|intros _].
  - unfold analysis_form. eauto 20 with py.
  - destruct (start_clicked i); [|auto with py].
    destruct (negb _); [auto with py|].
    apply returns_spinner, returns_try.
    + intros s. apply (behaves_no_rerun 1), analyze_behaves.
    + intros e. unfold analysis_failed. auto with py.
Qed.

(** ** The guarantees of the page, for every input and every world *)

Lemma show_analysis_page_calls i : calls_in page_call (show_analysis_page i : ui W unit).
Proof.
  unfold show_analysis_page.
  apply calls_in_bind; [apply calls_in_renders, analysis_form_renders|]. intros _.
  destruct (start_clicked i); [|auto with py]. destruct (negb _); [auto with py|].
  apply calls_in_spinner, calls_in_try;
    [|intros e; apply calls_in_renders, analysis_failed_renders].
  unfold analyze. apply calls_in_bind; [apply calls_in_quiet, behaves_fresh_uuid|].
  intros query_id. apply calls_in_call; [done|].
  intros v. apply calls_in_renders, show_result_renders.
Qed.

(** C2: whatever the user entered and whatever the collaborator
    answers, one run of the analysis page calls collaborators at most
    once. *)
Theorem analysis_at_most_one_call (i : analysis_input) (s : state W) :
  length (calls (trace_of (show_analysis_page i s))) <= 1.
Proof. apply show_analysis_page_behaves. Qed.

(** C3: the busy indicator shown while the analysis runs is removed on
    every path out of the page: success, empty result, collaborator
    failure and a failure while rendering. *)
Theorem analysis_spinner_cleared (i : analysis_input) (s : state W) :
  balanced (trace_of (show_analysis_page i s)).
Proof. apply show_analysis_page_behaves. Qed.

(** C1: no exception leaves the analysis page: every failure, of the
    collaborator or of the rendering of an ill-shaped response, ends in
    a rendered page and a normal return. *)
Theorem analysis_never_raises (i : analysis_input) (s : state W) :
  result_of (show_analysis_page i s) = Ok tt.
Proof.
  pose proof (show_analysis_page_returns i s) as H.
  by destruct (result_of _) as [[]|].
Qed.

(** The analysis page leaves the session state as it found it. *)
Theorem analysis_keeps_session (i : analysis_input) (s : state W) :
  sess (state_of (show_analysis_page i s)) = sess s.
Proof. apply show_analysis_page_behaves. Qed.

(** ** One run, step by step *)

(** The form renders its widgets and returns. *)
Lemma analysis_form_run (s : state W) :
  analysis_form s = (s, trace_of (analysis_form s), Ok tt).
Proof. reflexivity. Qed.

(** What follows the collaborator's answer [r] inside the [try]. *)
Definition after_answer (r : res pyexn pyval) (query_id : pystr) : ui W unit :=
  try_except (v ← lift r; show_result v query_id) analysis_failed.

Lemma after_answer_renders r query_id : renders (after_answer r query_id).
Proof. unfold after_answer. eauto 10 with py. Qed.

(** The text of the busy indicator. *)
Definition busy_text (i : analysis_input) : text :=
  [FLit (u8 "正在分析 "); FLit (stock_code i); FLit (u8 "...")].

(** The call the page makes for input [i], handle [svc] and id [u]. *)
Definition the_call (i : analysis_input) (svc : pyval) (u : pystr) : call :=
  analyze_stock svc (strip (stock_code i)) (report_type i)
    (force_refresh i) u (send_notification i).

(** The body of the [try] once the id and the handle are known: the
    call, then what its answer leads to. *)
Lemma analyze_run i s svc u w1 r w2 :
  analysis_service (sess s) = Some svc ->
  uuid4_hex (world s) = (u, w1) ->
  backend_call (the_call i svc u) w1 = (r, w2) ->
  analyze i s =
    prepend [leaf (called (the_call i svc u) r)]
      ((v ← lift r; show_result v u) (State w2 (sess s))).
Proof.
  intros Hs Hu Hb. unfold analyze.
  rewrite (run_bind_ok _ _ _ _ _ _ (run_fresh_uuid _ _ _ Hu)), prepend_nil.
  rewrite (run_bind_ok _ _ _ _ _ _
             (run_session_get _ _ (State w1 (sess s)) svc Hs)), prepend_nil.
  apply bind_prepend, (run_invoke _ (State w1 (sess s))), Hb.
Qed.

(** A run with the button pressed, a non-empty code and an initialised
    session: the form, the indicator, the call, what follows the
    answer, the end of the indicator. *)
Lemma analysis_run i s svc u w1 r w2 :
  start_clicked i = true -> stock_code i <> [] ->
  analysis_service (sess s) = Some svc ->
  uuid4_hex (world s) = (u, w1) ->
  backend_call (the_call i svc u) w1 = (r, w2) ->
  show_analysis_page i s =
    (State w2 (sess s),
     trace_of (analysis_form s) ++
       [leaf (spinner_on (busy_text i)); leaf (called (the_call i svc u) r)] ++
       trace_of (after_answer r u (State w2 (sess s))) ++ [leaf spinner_off],
     result_of (after_answer r u (State w2 (sess s)))).
Proof.
  intros Hc Hne Hs Hu Hb. unfold show_analysis_page.
  erewrite run_bind_ok by apply analysis_form_run.
  rewrite Hc. destruct (stock_code i) as [|c code] eqn:Hcode; [done|].
  cbn [str_truthy negb]. rewrite run_spinner, <- Hcode.
  erewrite try_prepend by (by eapply analyze_run).
  fold (after_answer r u). unfold prepend.
  by rewrite (renders_state _ _ (after_answer_renders r u)).
Qed.

(** The form shows no error, makes no call and logs nothing. *)
Lemma analysis_form_quiet (s : state W) :
  calls (trace_of (analysis_form s)) = [] /\
  errors (trace_of (analysis_form s)) = [] /\
  logs (trace_of (analysis_form s)) = [].
Proof. by vm_compute. Qed.

(** What follows a raised answer: the message and the log record. *)
Lemma after_answer_err e u (s : state W) :
  after_answer (Err e) u s =
  (s, [leaf (st_error [FLit (u8 "分析过程中发生错误: "); fexn e]);
       leaf (logged (u8 "Analysis error") e)], Ok tt).
Proof. reflexivity. Qed.

(** What follows a falsy answer: the failure message alone. *)
Lemma after_answer_falsy v u (s : state W) :
  py_truthy v = false ->
  after_answer (Ok v) u s =
  (s, [leaf (st_error (lit "分析失败，请检查股票代码是否正确或查看日志"))], Ok tt).
Proof.
  intros Hv. unfold after_answer, try_except.
  rewrite (run_bind_ok _ _ _ s [] v) by done.
  unfold show_result. by rewrite Hv.
Qed.

(** ** Validation *)

(** C4: with an empty stock code the page shows the validation error
    and stops: no id is drawn, no collaborator is called, the state is
    as before. *)
Theorem empty_code_rejected (i : analysis_input) (s : state W) :
  start_clicked i = true -> stock_code i = [] ->
  show_analysis_page i s =
    (s, trace_of (analysis_form s) ++ [leaf (st_error (lit "请输入股票代码"))], Ok tt)
  /\ calls (trace_of (show_analysis_page i s)) = [].
Proof.
  intros Hc Hs.
  assert (show_analysis_page i s =
    (s, trace_of (analysis_form s) ++ [leaf (st_error (lit "请输入股票代码"))], Ok tt)) as ->.
  { unfold show_analysis_page.
    erewrite run_bind_ok by apply analysis_form_run. by rewrite Hc, Hs. }
  split; [done|]. rewrite trace_of_mk, calls_app. by destruct (analysis_form_quiet s) as (-> & _).
Qed.

(** A stock code of white space only passes the emptiness test, and
    the collaborator is called with the empty string. *)
Theorem blank_code_reaches_collaborator
    (i : analysis_input) (s : state W) svc u w1 :
  start_clicked i = true -> stock_code i <> [] -> all_space (stock_code i) ->
  analysis_service (sess s) = Some svc ->
  uuid4_hex (world s) = (u, w1) ->
  calls (trace_of (show_analysis_page i s)) =
    [analyze_stock svc [] (report_type i) (force_refresh i) u (send_notification i)].
Proof.
  intros Hc Hne Hsp Hs Hu.
  destruct (backend_call (the_call i svc u) w1) as [r w2] eqn:Hb.
  rewrite (analysis_run i s svc u w1 r w2) by done.
  rewrite trace_of_mk, !calls_app.
  destruct (analysis_form_quiet s) as (-> & _).
  destruct (after_answer_renders r u (State w2 (sess s))) as (_ & Hp & _).
  rewrite (plain_calls _ Hp). unfold the_call.
  by rewrite (proj2 (strip_nil_iff _) Hsp).
Qed.

(** ** Failure and empty results *)

(** C5: when the collaborator raises, the page shows one error with the
    exception's message, logs the exception, and returns; the session
    state is untouched. *)
Theorem collaborator_failure_shown
    (i : analysis_input) (s : state W) svc u w1 e w2 :
  start_clicked i = true -> stock_code i <> [] ->
  analysis_service (sess s) = Some svc ->
  uuid4_hex (world s) = (u, w1) ->
  backend_call (the_call i svc u) w1 = (Err e, w2) ->
  let o := show_analysis_page i s in
  errors (trace_of o) = [[FLit (u8 "分析过程中发生错误: "); fexn e]]
  /\ logs (trace_of o) = [e]
  /\ result_of o = Ok tt
  /\ state_of o = State w2 (sess s).
Proof.
  intros Hc Hne Hs Hu Hb o. subst o.
  rewrite (analysis_run i s svc u w1 (Err e) w2) by done.
  rewrite after_answer_err, !trace_of_mk, result_of_mk, state_of_mk.
  rewrite !errors_app, !logs_app.
  destruct (analysis_form_quiet s) as (_ & -> & ->). done.
Qed.

(** A falsy answer ([None], an empty dict) is reported with
    [st.error], the element also used for failures, and nothing is
    logged. *)
Theorem empty_result_shown_as_error
    (i : analysis_input) (s : state W) svc u w1 v w2 :
  start_clicked i = true -> stock_code i <> [] ->
  analysis_service (sess s) = Some svc ->
  uuid4_hex (world s) = (u, w1) ->
  backend_call (the_call i svc u) w1 = (Ok v, w2) ->
  py_truthy v = false ->
  let o := show_analysis_page i s in
  errors (trace_of o) = [lit "分析失败，请检查股票代码是否正确或查看日志"]
  /\ logs (trace_of o) = [].
Proof.
  intros Hc Hne Hs Hu Hb Hv o. subst o.
  rewrite (analysis_run i s svc u w1 (Ok v) w2) by done.
  rewrite after_answer_falsy, !trace_of_mk by done.
  rewrite !errors_app, !logs_app.
  destruct (analysis_form_quiet s) as (_ & -> & ->). done.
Qed.

End page_props.

(** An input with the button pressed and the given code. *)
Definition pressed (code : pystr) : analysis_input :=
  AnalysisInput code (u8 "detailed") false true true.

(** ** The sentiment score *)

Section score.
Context {W : Type} `{!Backend W}.

(** [z / 100] lies in the unit interval exactly when [0 <= z <= 100]. *)
Lemma unit_interval_int z :
  (Qle_bool 0 (z # 100) && Qle_bool (z # 100) 1)%bool
  = ((0 <=? z)%Z && (z <=? 100)%Z)%bool.
Proof. unfold Qle_bool. simpl. by rewrite !Z.mul_1_r. Qed.

(** C35: an integer score from 0 to 100 is rendered as the fraction
    [score / 100] and its caption; any other integer makes
    [st.progress] raise, and nothing of the score is rendered. *)
Theorem show_score_bounds (z : Z) (s : state W) :
  show_score (VInt z) s =
  if ((0 <=? z)%Z && (z <=? 100)%Z)%bool then
    (s, [leaf (st_progress (z # 100));
         leaf (st_caption [FLit (u8 "评分: "); FRepr (VInt z); FLit (u8 "/100")])], Ok tt)
  else (s, [], Err (Exn StreamlitAPIException)).
Proof.
  unfold show_score. rewrite (run_bind_ok _ _ _ s [] (z # 100)) by done.
  rewrite prepend_nil, run_bind. unfold progress.
  rewrite unit_interval_int. by destruct (_ && _)%bool.
Qed.

End score.

(** The fractions of the specification's test list. *)
Example score_75 : (75 # 100 == 3 # 4)%Q.
Proof. reflexivity. Qed.

Example score_75_run :
  trace_of (show_score (VInt 75) (scripted_state [])) =
  [leaf (st_progress (75 # 100));
   leaf (st_caption [FLit (u8 "评分: "); FRepr (VInt 75); FLit (u8 "/100")])].
Proof. reflexivity. Qed.

(** A score of 175: the page has announced success when [st.progress]
    raises, and ends with the error of the [except] branch. *)
Example score_175_run :
  let report := VDict [(u8 "sentiment_score", VInt 175)] in
  let result := VDict [(u8 "report", report)] in
  let o := show_analysis_page (pressed (u8 "600519")) (scripted_state [Ok result]) in
  shows (st_success (lit "分析完成！")) (trace_of o)
  /\ errors (trace_of o) = [[FLit (u8 "分析过程中发生错误: "); FExn StreamlitAPIException]]
  /\ result_of o = Ok tt.
Proof.
  intros report result o. split_and!; [|reflexivity..].
  apply (bool_decide_unpack _). by vm_compute.
Qed.

(** ** Witnesses in the scripted world *)

Lemma empty_code_rejected_witness :
  show_analysis_page (pressed []) (scripted_state []) =
    (scripted_state [],
     trace_of (analysis_form (scripted_state [])) ++ [leaf (st_error (lit "请输入股票代码"))],
     Ok tt)
  /\ calls (trace_of (show_analysis_page (pressed []) (scripted_state []))) = [].
Proof. apply empty_code_rejected; reflexivity. Defined.

Lemma blank_code_reaches_collaborator_witness :
  calls (trace_of (show_analysis_page (pressed (u8 "  ")) (scripted_state [Ok VNone]))) =
    [analyze_stock (VObj 1) [] (u8 "detailed") false (hex 32 0) true].
Proof.
  apply (blank_code_reaches_collaborator (pressed (u8 "  "))
           (scripted_state [Ok VNone]) (VObj 1) (hex 32 0)
           (Script [Ok VNone] 1 739000));
    [reflexivity | discriminate | by repeat constructor | reflexivity | reflexivity].
Defined.

Lemma collaborator_failure_shown_witness :
  let o := show_analysis_page (pressed (u8 "600519"))
             (scripted_state [Err (Raised (u8 "timeout"))]) in
  errors (trace_of o) = [[FLit (u8 "分析过程中发生错误: "); FLit (u8 "timeout")]]
  /\ logs (trace_of o) = [Raised (u8 "timeout")]
  /\ result_of o = Ok tt
  /\ state_of o = State (Script [] 1 739000) ready.
Proof.
  apply (collaborator_failure_shown (pressed (u8 "600519"))
           (scripted_state [Err (Raised (u8 "timeout"))]) (VObj 1) (hex 32 0)
           (Script [Err (Raised (u8 "timeout"))] 1 739000)
           (Raised (u8 "timeout")) (Script [] 1 739000));
    [reflexivity | discriminate | reflexivity | reflexivity | reflexivity].
Defined.

Lemma empty_result_shown_as_error_witness :
  let o := show_analysis_page (pressed (u8 "600519")) (scripted_state [Ok VNone]) in
  errors (trace_of o) = [lit "分析失败，请检查股票代码是否正确或查看日志"]
  /\ logs (trace_of o) = [].
Proof.
  apply (empty_result_shown_as_error (pressed (u8 "600519"))
           (scripted_state [Ok VNone]) (VObj 1) (hex 32 0)
           (Script [Ok VNone] 1 739000) VNone (Script [] 1 739000));
    [reflexivity | discriminate | reflexivity | reflexivity | reflexivity | reflexivity].
Defined.

Lemma classify_advice_spec_witness :
  classify_advice (VStr (u8 "建议买入并卖出")) = Ok Buy.
Proof. apply classify_advice_spec. reflexivity. Defined.

(** ** The page keeps the contract of a page *)

#[export] Instance analysis_page `{!Backend W} i : Page (show_analysis_page i : ui W unit).
Proof.
  apply (behaves_page 1); [lia|apply show_analysis_page_behaves|apply show_analysis_page_calls].
Qed.
