(* ===== verification/HistoryPage.v ===== *)
(** * The history page: [show_history_page]

    The page reads a code filter, a time range and a page size, computes
    the start date on every run, and on the button asks the history
    collaborator for the first page of records.  A non-empty result is
    shown as a table, followed by a selector whose labels are computed
    from every record and by the report of the selected record; an empty
    result is shown as information.  The definitions follow
    [show_history_page] of [src/streamlit_app.py]. *)

From Stdlib Require Import String QArith.
From S2P Require Import Prelude PyStr PyVal PyDate Ui Scripted.
Open Scope py_scope.

(** ** What the user entered *)

Record history_input : Type := HistoryInput {
  stock_code_filter : pystr;
  days_back : Z;
  page_size : Z;
  query_clicked : bool;
  selected_idx : nat
}.

(** The options of the two select boxes. *)
Definition days_options : list Z := [7; 30; 90; 180; 365]%Z.
Definition page_sizes : list Z := [10; 20; 50; 100]%Z.

(** A select box returns one of its options. *)
Definition history_input_ok (i : history_input) : Prop :=
  days_back i ∈ days_options /\ page_size i ∈ page_sizes.

(** The value of a select box over [range(n)] whose stored choice is [i]:
    the choice if it is an option, else the first option, and [None]
    when there is no option. *)
Definition selectbox_value (n i : nat) : option nat :=
  if (i <? n)%nat then Some i
  else match n with 0%nat => None | _ => Some 0%nat end.

(** The text shown for a missing field. *)
Definition NA : pyval := VStr (u8 "N/A").

(** The code filter sent to the collaborator: the stripped input, or
    [None] when the input is empty. *)
Definition filter_of (f : pystr) : option pystr :=
  if str_truthy f then Some (strip f) else None.

(** ** Records of the expected shape *)

(** The [meta] of a record that is a dict with a dict under ["meta"]. *)
Definition meta_of (item : pyval) : option items :=
  match item with
  | VDict d => match assoc (u8 "meta") d with Some (VDict m) => Some m | _ => None end
  | _ => None
  end.

(** The row of the table and the label of the selector for a [meta]:
    each field, or "N/A" without it. *)
Definition row_of (m : items) : items :=
  [(u8 "股票代码", default NA (assoc (u8 "stock_code") m));
   (u8 "股票名称", default NA (assoc (u8 "stock_name") m));
   (u8 "分析时间", default NA (assoc (u8 "created_at") m));
   (u8 "操作建议", default NA (assoc (u8 "operation_advice") m));
   (u8 "情绪评分", default NA (assoc (u8 "sentiment_score") m))].

Definition label_text (m : items) : text :=
  [fstr (default NA (assoc (u8 "stock_name") m)); FLit (u8 " - ");
   fstr (default NA (assoc (u8 "created_at") m))].

(** The report of a record, as the page shows it. *)
Definition report_shown (item : pyval) : trace :=
  match item with
  | VDict d =>
      match assoc (u8 "report") d with
      | Some report => [leaf (st_markdown [fstr report])]
      | None => []
      end
  | _ => []
  end.

Section page.
Context {W : Type} `{!Backend W}.

(** [(datetime.now() - timedelta(days=d)).strftime("%Y-%m-%d")]: the
    subtraction raises when it leaves the range of dates. *)
Definition start_date_of (d : Z) : ui W pystr :=
  now ← read_today;
  if (now - d <? 1)%Z then raise OverflowError
  else mret (strftime_ymd (now - d)).

(** The widgets of the page; the start date is computed in the second
    column, on every run. *)
Definition history_form (i : history_input) : ui W pystr :=
  emit (st_title (lit "📚 历史记录"));;
  emit (st_markdown (lit "查看历史分析记录"));;
  within (in_column 1) (emit (st_text_input (u8 "股票代码筛选") None false));;
  start_date ← within (in_column 2)
    (emit (st_selectbox (u8 "时间范围") ((fun d => [FRepr (VInt d)]) <$> days_options));;
     start_date_of (days_back i));
  within (in_column 3)
    (emit (st_selectbox (u8 "每页数量") ((fun d => [FRepr (VInt d)]) <$> page_sizes)));;
  emit (st_button (u8 "查询"));;
  mret start_date.

(** [result and "items" in result and result["items"]]. *)
Definition has_records (result : pyval) : res pyexn bool :=
  if py_truthy result then
    res_bind (py_in (u8 "items") result) (fun has =>
    if has : bool then
      res_bind (py_getitem result (u8 "items")) (fun its => Ok (py_truthy its))
    else Ok false)
  else Ok false.

(** One row of the table, from the record's [meta]. *)
Definition history_row (item : pyval) : res pyexn items :=
  res_bind (py_get item (u8 "meta") (VDict [])) (fun meta =>
  res_bind (py_get meta (u8 "stock_code") NA) (fun code =>
  res_bind (py_get meta (u8 "stock_name") NA) (fun name =>
  res_bind (py_get meta (u8 "created_at") NA) (fun created =>
  res_bind (py_get meta (u8 "operation_advice") NA) (fun advice =>
  res_bind (py_get meta (u8 "sentiment_score") NA) (fun score =>
  Ok [(u8 "股票代码", code); (u8 "股票名称", name); (u8 "分析时间", created);
      (u8 "操作建议", advice); (u8 "情绪评分", score)])))))).

(** The label of record [x] in the selector: the [format_func]. *)
Definition record_label (its : pyval) (x : nat) : res pyexn text :=
  res_bind (py_index its x) (fun item =>
  res_bind (py_getitem item (u8 "meta")) (fun meta =>
  res_bind (py_get meta (u8 "stock_name") NA) (fun name =>
  res_bind (py_get meta (u8 "created_at") NA) (fun created =>
  Ok [fstr name; FLit (u8 " - "); fstr created])))).

(** The selector and the report of the selected record. *)
Definition show_details (its : pyval) (i : history_input) : ui W unit :=
  emit (st_markdown (lit "---"));;
  emit (st_subheader (lit "📄 查看详细报告"));;
  n ← lift (py_len its);
  labels ← map_m (fun x => lift (record_label its x)) (seq 0 n);
  emit (st_selectbox (u8 "选择记录") labels);;
  match selectbox_value n (selected_idx i) with
  | Some x =>
      selected_item ← lift (py_index its x);
      when_key "report" selected_item (fun report => emit (st_markdown [fstr report]))
  | None => mret tt
  end.

(** A non-empty result: the count, the table, the details. *)
Definition show_records (result : pyval) (i : history_input) : ui W unit :=
  total ← lift (py_get result (u8 "total") (VInt 0));
  emit (st_success [FLit (u8 "找到 "); fstr total; FLit (u8 " 条记录")]);;
  its ← lift (py_getitem result (u8 "items"));
  elems ← lift (py_iter its);
  df_data ← map_m (fun item => lift (history_row item)) elems;
  match df_data with
  | [] => mret tt
  | _ => emit (st_dataframe df_data);; show_details its i
  end.

(** What follows the collaborator's answer. *)
Definition show_history (result : pyval) (i : history_input) : ui W unit :=
  found ← lift (has_records result);
  if found : bool then show_records result i
  else emit (st_info (lit "暂无历史记录")).

(** The body of the [try]. *)
Definition query_history (i : history_input) (start_date : pystr) : ui W unit :=
  svc ← session_get history_service "history_service";
  result ← invoke (get_history_list svc (filter_of (stock_code_filter i))
                     start_date 1 (page_size i));
  show_history result i.

(** The [except Exception as e] branch. *)
Definition history_failed (e : pyexn) : ui W unit :=
  emit (st_error [FLit (u8 "查询失败: "); fexn e]);;
  emit (logged (u8 "History query error") e).

(** [show_history_page]. *)
Definition show_history_page (i : history_input) : ui W unit :=
  start_date ← history_form i;
  if query_clicked i then
    with_spinner (lit "正在加载历史记录...")
      (try_except (query_history i start_date) history_failed)
  else mret tt.

End page.

(** * Properties *)

Section page_props.
Context {W : Type} `{!Backend W}.

(** ** The structure of the page *)

Lemma show_details_renders its i : renders (show_details its i : ui W unit).
Proof. unfold show_details. eauto 20 with py. Qed.

#[local] Hint Resolve show_details_renders : py.

Lemma show_records_renders result i : renders (show_records result i : ui W unit).
Proof. unfold show_records. eauto 20 with py. Qed.

#[local] Hint Resolve show_records_renders : py.

Lemma show_history_renders result i : renders (show_history result i : ui W unit).
Proof. unfold show_history. eauto 10 with py. Qed.

Lemma history_failed_renders e : renders (history_failed e : ui W unit).
Proof. unfold history_failed. eauto 10 with py. Qed.

#[local] Hint Resolve show_history_renders history_failed_renders : py.

Lemma start_date_of_behaves d : behaves 0 (start_date_of d : ui W pystr).
Proof.
  unfold start_date_of. apply behaves_before_render; [auto with py|].
  intros now. destruct (_ <? _)%Z; auto with py.
Qed.

Lemma history_form_behaves i : behaves 0 (history_form i : ui W pystr).
Proof.
  unfold history_form. do 3 (apply behaves_after_render; [auto with py|intros _]).
  apply behaves_before_render; [|eauto 10 with py].
  apply behaves_within, behaves_after_render; [auto with py|intros _].
  apply start_date_of_behaves.
Qed.

Lemma query_history_behaves i d : behaves 1 (query_history i d : ui W unit).
Proof.
  unfold query_history. apply behaves_after_render; [auto with py|]. intros svc.
  apply behaves_before_render; auto with py.
Qed.

Lemma show_history_page_behaves i : behaves 1 (show_history_page i : ui W unit).
Proof.
  unfold show_history_page. apply (behaves_bind 0 1); [apply history_form_behaves|].
  intros d. destruct (query_clicked i); [|apply (behaves_mono 0); auto with py].
  apply behaves_spinner. rewrite <- (Nat.add_0_r 1).
  apply behaves_try; [apply query_history_behaves | auto with py].
Qed.

Lemma show_history_page_calls i : calls_in page_call (show_history_page i : ui W unit).
Proof.
  unfold show_history_page.
  apply calls_in_bind; [apply calls_in_quiet, history_form_behaves|]. intros d.
  destruct (query_clicked i); [|auto with py].
  apply calls_in_spinner, calls_in_try;
    [|intros e; apply calls_in_renders, history_failed_renders].
  unfold query_history. apply calls_in_call; [done|].
  intros v. apply calls_in_renders, show_history_renders.
Qed.

(** One run of the history page performs at most one collaborator
    call, and removes the busy indicator on every path. *)
Theorem history_one_call_and_tidy (i : history_input) (s : state W) :
  length (calls (trace_of (show_history_page i s))) <= 1
  /\ balanced (trace_of (show_history_page i s))
  /\ sess (state_of (show_history_page i s)) = sess s.
Proof. destruct (show_history_page_behaves i s) as (? & ? & ? & ?). done. Qed.

(** ** One run, step by step *)

(** The start date, when the clock is late enough. *)
Lemma run_start_date_of d (s : state W) now w :
  today (world s) = (now, w) -> (1 <= now - d)%Z ->
  start_date_of d s = (State w (sess s), [], Ok (strftime_ymd (now - d))).
Proof.
  intros Ht Hd. unfold start_date_of.
  rewrite (run_bind_ok _ _ _ _ _ _ (run_read_today _ _ _ Ht)), prepend_nil.
  by rewrite (proj2 (Z.ltb_ge _ _) Hd).
Qed.

(** The widgets the form renders; they do not depend on the state. *)
Definition history_widgets : trace :=
  [leaf (st_title (lit "📚 历史记录"));
   leaf (st_markdown (lit "查看历史分析记录"));
   box (in_column 1) [leaf (st_text_input (u8 "股票代码筛选") None false)];
   box (in_column 2)
     [leaf (st_selectbox (u8 "时间范围") ((fun d => [FRepr (VInt d)]) <$> days_options))];
   box (in_column 3)
     [leaf (st_selectbox (u8 "每页数量") ((fun d => [FRepr (VInt d)]) <$> page_sizes))];
   leaf (st_button (u8 "查询"))].

Lemma history_form_run i (s : state W) now w :
  today (world s) = (now, w) -> (1 <= now - days_back i)%Z ->
  history_form i s =
    (State w (sess s), history_widgets, Ok (strftime_ymd (now - days_back i))).
Proof.
  intros Ht Hd. unfold history_form, start_date_of. run_unfold.
  rewrite Ht. cbn. by rewrite (proj2 (Z.ltb_ge _ _) Hd).
Qed.

(** The form raises when the start date would fall before year 1. *)
Lemma history_form_overflow i (s : state W) now w :
  today (world s) = (now, w) -> (now - days_back i < 1)%Z ->
  result_of (history_form i s) = Err (Exn OverflowError)
  /\ calls (trace_of (history_form i s)) = [].
Proof.
  intros Ht Hd. unfold history_form, start_date_of. run_unfold.
  rewrite Ht. cbn. by rewrite (proj2 (Z.ltb_lt _ _) Hd).
Qed.

(** The call the page makes, for handle [svc] on the day [now]. *)
Definition history_call (i : history_input) (now : Z) (svc : pyval) : call :=
  get_history_list svc (filter_of (stock_code_filter i))
    (strftime_ymd (now - days_back i)) 1 (page_size i).

(** What follows the collaborator's answer [r] inside the [try]. *)
Definition after_history (r : res pyexn pyval) (i : history_input) : ui W unit :=
  answered r (fun v => show_history v i) history_failed.

Lemma after_history_renders r i : renders (after_history r i).
Proof. unfold after_history. auto with py. Qed.

(** A run with the button pressed: the form, the indicator, the call,
    what follows the answer, the end of the indicator. *)
Lemma history_run i (s : state W) now w1 svc r w2 :
  query_clicked i = true ->
  today (world s) = (now, w1) -> (1 <= now - days_back i)%Z ->
  history_service (sess s) = Some svc ->
  backend_call (history_call i now svc) w1 = (r, w2) ->
  show_history_page i s =
    (State w2 (sess s),
     history_widgets ++
       [leaf (spinner_on (lit "正在加载历史记录...")); leaf (called (history_call i now svc) r)] ++
       trace_of (after_history r i (State w2 (sess s))) ++ [leaf spinner_off],
     result_of (after_history r i (State w2 (sess s)))).
Proof.
  intros Hc Ht Hd Hs Hb. unfold show_history_page.
  rewrite (run_bind_ok _ _ _ _ _ _ (history_form_run i s now w1 Ht Hd)), Hc.
  rewrite run_spinner. unfold query_history.
  rewrite (run_call_in_try history_service _ (history_call i now) _ _
             (State w1 (sess s)) svc r w2 Hs Hb).
  fold (after_history r i). unfold prepend.
  by rewrite !state_of_mk, !trace_of_mk, !result_of_mk,
    (renders_state _ _ (after_history_renders r i)).
Qed.

(** The widgets show no error, make no call and log nothing. *)
Lemma history_widgets_quiet :
  calls history_widgets = [] /\ errors history_widgets = []
  /\ logs history_widgets = [].
Proof. by vm_compute. Qed.

(** ** The request *)

(** C10: the run after the button makes exactly one call: the first
    page, the page size as the limit, the filter as [filter_of] gives
    it, and the start date printed from the one reading of the clock of
    this run, [days_back] days earlier. *)
Theorem history_query_shape (i : history_input) (s : state W) now w1 svc :
  query_clicked i = true ->
  today (world s) = (now, w1) -> (1 <= now - days_back i)%Z ->
  history_service (sess s) = Some svc ->
  calls (trace_of (show_history_page i s)) =
    [get_history_list svc (filter_of (stock_code_filter i))
       (strftime_ymd (now - days_back i)) 1 (page_size i)].
Proof.
  intros Hc Ht Hd Hs.
  destruct (backend_call (history_call i now svc) w1) as [r w2] eqn:Hb.
  rewrite (history_run i s now w1 svc r w2) by done.
  rewrite trace_of_mk, !calls_app.
  destruct history_widgets_quiet as (-> & _).
  destruct (after_history_renders r i (State w2 (sess s))) as (_ & Hp & _).
  by rewrite (plain_calls _ Hp).
Qed.

(** C36: the start date of the query reads back as the day [d] days before
    today: while that day lies in a year of four digits, the string the
    page computes has the ten characters of [YYYY-MM-DD] and denotes
    the ordinal [now - d], so that two different days never give the
    same start date. *)
Theorem start_date_reads_back (d : Z) (s : state W) now w :
  today (world s) = (now, w) ->
  (MINORDINAL4 <= now - d <= MAXORDINAL)%Z ->
  exists start,
    result_of (start_date_of d s) = Ok start
    /\ ordinal_of start = Some (now - d)%Z
    /\ length start = 10%nat.
Proof.
  intros Ht Hd. exists (strftime_ymd (now - d)).
  rewrite (run_start_date_of d s now w Ht) by (unfold MINORDINAL4 in Hd; lia).
  auto using ordinal_of_strftime, strftime_ymd_length.
Qed.

(** The filter is [None] for an empty input only: an input of white
    space is sent as the empty string. *)
Theorem filter_of_spec (f : pystr) :
  filter_of f = match f with [] => None | _ => Some (strip f) end
  /\ (f <> [] -> all_space f -> filter_of f = Some []).
Proof.
  split; [by destruct f|]. intros Hne Hsp. destruct f; [done|].
  unfold filter_of. simpl. by rewrite (proj2 (strip_nil_iff _) Hsp).
Qed.

(** ** Empty results and failures *)

(** An answer without records ([None], no ["items"], an empty list)
    is shown as information, not as an error, and nothing is logged. *)
Theorem history_empty_is_info (i : history_input) (s : state W) now w1 svc v w2 :
  query_clicked i = true ->
  today (world s) = (now, w1) -> (1 <= now - days_back i)%Z ->
  history_service (sess s) = Some svc ->
  backend_call (history_call i now svc) w1 = (Ok v, w2) ->
  has_records v = Ok false ->
  let o := show_history_page i s in
  shows (st_info (lit "暂无历史记录")) (trace_of o)
  /\ errors (trace_of o) = [] /\ logs (trace_of o) = [] /\ result_of o = Ok tt.
Proof.
  intros Hc Ht Hd Hs Hb Hv o. subst o.
  rewrite (history_run i s now w1 svc (Ok v) w2) by done.
  assert (after_history (Ok v) i (State w2 (sess s)) =
          (State w2 (sess s), [leaf (st_info (lit "暂无历史记录"))], Ok tt)) as ->.
  { unfold after_history. rewrite answered_ok. unfold show_history, try_except.
    rewrite (run_bind_ok _ _ _ (State w2 (sess s)) [] false); [done|].
    unfold lift. by rewrite Hv. }
  rewrite !trace_of_mk, result_of_mk, !errors_app, !logs_app.
  destruct history_widgets_quiet as (_ & -> & ->).
  split_and!; try done. rewrite !shows_app. right. right. left.
  by constructor.
Qed.

(** When the collaborator raises, the page shows one error with
    the exception's message, logs it, and returns. *)
Theorem history_failure_shown (i : history_input) (s : state W) now w1 svc e w2 :
  query_clicked i = true ->
  today (world s) = (now, w1) -> (1 <= now - days_back i)%Z ->
  history_service (sess s) = Some svc ->
  backend_call (history_call i now svc) w1 = (Err e, w2) ->
  let o := show_history_page i s in
  errors (trace_of o) = [[FLit (u8 "查询失败: "); fexn e]]
  /\ logs (trace_of o) = [e] /\ result_of o = Ok tt.
Proof.
  intros Hc Ht Hd Hs Hb o. subst o.
  rewrite (history_run i s now w1 svc (Err e) w2) by done.
  unfold after_history. rewrite answered_err.
  assert (history_failed e (State w2 (sess s)) =
          (State w2 (sess s),
           [leaf (st_error [FLit (u8 "查询失败: "); fexn e]);
            leaf (logged (u8 "History query error") e)], Ok tt)) as -> by done.
  rewrite !trace_of_mk, result_of_mk, !errors_app, !logs_app.
  by destruct history_widgets_quiet as (_ & -> & ->).
Qed.

(** The page returns when the start date exists. *)
Lemma show_history_page_returns (i : history_input) (s : state W) now w1 :
  today (world s) = (now, w1) -> (1 <= now - days_back i)%Z ->
  result_of (show_history_page i s) = Ok tt.
Proof.
  intros Ht Hd. unfold show_history_page.
  rewrite (run_bind_ok _ _ _ _ _ _ (history_form_run i s now w1 Ht Hd)).
  destruct (query_clicked i); [|done].
  assert (returns (with_spinner (lit "正在加载历史记录...")
            (try_except (query_history i (strftime_ymd (now - days_back i)))
               history_failed) : ui W unit)) as Hr.
  { apply returns_spinner, returns_try.
    - intros s'. apply (behaves_no_rerun 1), query_history_behaves.
    - intros e. unfold history_failed. auto with py. }
  specialize (Hr (State w1 (sess s))). unfold prepend. rewrite result_of_mk.
  by destruct (result_of _) as [[]|].
Qed.

(** When the clock is late enough for the start date to exist, no
    exception leaves the history page, whatever the collaborator
    answers. *)
Theorem history_never_raises (i : history_input) (s : state W) now w1 :
  today (world s) = (now, w1) -> (1 <= now - days_back i)%Z ->
  result_of (show_history_page i s) = Ok tt.
Proof. apply show_history_page_returns. Qed.

(** ** Records of the expected shape *)

Lemma history_row_meta item m : meta_of item = Some m -> history_row item = Ok (row_of m).
Proof.
  destruct item as [| | | | | |d|]; try done. unfold meta_of, history_row. simpl.
  destruct (assoc (u8 "meta") d) as [[| | | | | |m'|]|]; try done. by intros [= ->].
Qed.

Lemma record_label_meta its x item m :
  its !! x = Some item -> meta_of item = Some m ->
  record_label (VList its) x = Ok (label_text m).
Proof.
  intros Hx Hm. unfold record_label. simpl. rewrite Hx. simpl.
  destruct item as [| | | | | |d|]; try done. unfold meta_of in Hm. simpl.
  destruct (assoc (u8 "meta") d) as [[| | | | | |m'|]|]; try done. by simplify_eq.
Qed.

Lemma record_labels its metas :
  Forall2 (fun item m => meta_of item = Some m) its metas ->
  Forall2 (fun x y => record_label (VList its) x = Ok y)
    (seq 0 (length its)) (label_text <$> metas).
Proof.
  intros H. pose proof H as Hlen. apply Forall2_length in Hlen.
  apply Forall2_same_length_lookup_2.
  - by rewrite length_seq, length_fmap.
  - intros k x y [-> _]%lookup_seq (m & -> & Hm)%list_lookup_fmap_Some.
    destruct (Forall2_lookup_r _ _ _ _ _ H Hm) as (item & Hi & Hmeta).
    by apply (record_label_meta its k item).
Qed.

(** The record the selector returns exists. *)
Lemma selected_record (its : list pyval) idx :
  its <> [] -> exists x item,
    selectbox_value (length its) idx = Some x /\ its !! x = Some item.
Proof.
  intros Hne. unfold selectbox_value. destruct (Nat.ltb_spec idx (length its)) as [Hlt|_].
  - destruct (lookup_lt_is_Some_2 its idx Hlt) as [item Hi]. by exists idx, item.
  - destruct its as [|item its]; [done|]. by exists 0, item.
Qed.

(** The report of a record, step by step. *)
Lemma report_run item m (s : state W) :
  meta_of item = Some m ->
  when_key "report" item (fun report => emit (st_markdown [fstr report])) s =
  (s, report_shown item, Ok tt).
Proof.
  destruct item as [| | | | | |d|]; try done. intros _. unfold report_shown.
  run_unfold. simpl. case_bool_decide as Hr.
  - destruct Hr as [r Hr]. by rewrite Hr.
  - by destruct (assoc (u8 "report") d) as [r|]; [destruct Hr; eexists|].
Qed.

(** C37: a result whose records have their [meta] is rendered as the
    count, the table with one row per record in the order of the
    result, the selector with one label per record, and the report of
    the selected record; a missing field of a [meta] is "N/A". *)
Theorem history_records_shown (d : items) (its : list pyval) (metas : list items)
    (i : history_input) (s : state W) :
  assoc (u8 "items") d = Some (VList its) -> its <> [] ->
  Forall2 (fun item m => meta_of item = Some m) its metas ->
  show_records (VDict d) i s =
  (s,
   [leaf (st_success [FLit (u8 "找到 "); fstr (default (VInt 0) (assoc (u8 "total") d));
                      FLit (u8 " 条记录")]);
    leaf (st_dataframe (row_of <$> metas));
    leaf (st_markdown (lit "---"));
    leaf (st_subheader (lit "📄 查看详细报告"));
    leaf (st_selectbox (u8 "选择记录") (label_text <$> metas))]
   ++ from_option report_shown []
        (selectbox_value (length its) (selected_idx i) ≫= (its !!.)),
   Ok tt).
Proof.
  intros Hi Hne Hm. unfold show_records, show_details.
  rewrite (run_bind_ok _ _ s s [] (default (VInt 0) (assoc (u8 "total") d))) by done.
  rewrite (run_bind_ok _ _ s s [leaf (st_success _)] tt) by done.
  rewrite (run_bind_ok _ _ s s [] (VList its)) by (unfold lift; simpl; by rewrite Hi).
  rewrite (run_bind_ok _ _ s s [] its) by done.
  rewrite (run_bind_ok _ _ s s [] (row_of <$> metas)).
  2:{ apply map_m_lift, Forall2_fmap_r. eapply list.Forall2_impl; [exact Hm|].
      intros item m. apply history_row_meta. }
  destruct (selected_record its (selected_idx i) Hne) as (x & item & Hsel & Hx).
  destruct (Forall2_lookup_l _ _ _ _ _ Hm Hx) as (m & _ & Hmeta).
  destruct Hm as [|item0 m0 its0 metas0 H0 Hm]; [done|]. rewrite fmap_cons. cbv iota.
  rewrite (run_bind_ok _ _ s s [leaf (st_dataframe _)] tt) by done.
  rewrite (run_bind_ok _ _ s s [leaf (st_markdown _)] tt) by done.
  rewrite (run_bind_ok _ _ s s [leaf (st_subheader _)] tt) by done.
  rewrite (run_bind_ok _ _ s s [] (length (item0 :: its0))) by done.
  rewrite (run_bind_ok _ _ s s [] (label_text <$> m0 :: metas0))
    by (apply map_m_lift, record_labels; by constructor).
  rewrite (run_bind_ok _ _ s s [leaf (st_selectbox _ _)] tt) by done.
  rewrite Hsel. simpl mbind. rewrite Hx. simpl from_option.
  rewrite (run_bind_ok _ _ s s [] item) by done.
  rewrite (report_run item m s Hmeta). by autorewrite with pysimpl.
Qed.

End page_props.

(** ** Records without [meta] *)

(** C38: A record that lacks the ["meta"] key gets a row of "N/A" in the
    table, but its label in the selector cannot be computed: the
    selector raises [KeyError]. *)
Theorem record_without_meta (d : items) (rest : list pyval) :
  assoc (u8 "meta") d = None ->
  history_row (VDict d) =
    Ok [(u8 "股票代码", NA); (u8 "股票名称", NA); (u8 "分析时间", NA);
        (u8 "操作建议", NA); (u8 "情绪评分", NA)]
  /\ record_label (VList (VDict d :: rest)) 0 = Err (KeyError (VStr (u8 "meta"))).
Proof.
  intros H. unfold history_row, record_label. simpl. by rewrite H.
Qed.

(** ** Witnesses in the scripted world *)

(** An input with the button pressed: all records of the last 30 days,
    20 per page. *)
Definition queried (f : pystr) : history_input := HistoryInput f 30 20 true 0.

(** One record with its [meta] and its report. *)
Definition a_record : pyval :=
  VDict [(u8 "meta", VDict [(u8 "stock_code", VStr (u8 "600519"));
                            (u8 "stock_name", VStr (u8 "Moutai"))]);
         (u8 "report", VStr (u8 "# report"))].

Lemma history_query_shape_witness :
  calls (trace_of (show_history_page (queried (u8 " ")) (scripted_state [Ok VNone]))) =
    [get_history_list (VObj 2) (Some []) (strftime_ymd (739000 - 30)) 1 20].
Proof.
  apply (history_query_shape (queried (u8 " ")) (scripted_state [Ok VNone])
           739000%Z (Script [Ok VNone] 0 739000) (VObj 2));
    [reflexivity | reflexivity | by vm_compute | reflexivity].
Defined.

Lemma start_date_reads_back_witness :
  exists start,
    result_of (start_date_of 30 (scripted_state [])) = Ok start
    /\ ordinal_of start = Some (739000 - 30)%Z
    /\ length start = 10%nat.
Proof.
  apply (start_date_reads_back 30 (scripted_state []) 739000%Z (Script [] 0 739000));
    [reflexivity | by vm_compute].
Defined.

Lemma history_records_shown_witness :
  show_records (VDict [(u8 "total", VInt 1); (u8 "items", VList [a_record])])
    (queried []) (scripted_state []) =
  (scripted_state [],
   [leaf (st_success [FLit (u8 "找到 "); fstr (VInt 1); FLit (u8 " 条记录")]);
    leaf (st_dataframe [row_of [(u8 "stock_code", VStr (u8 "600519"));
                                (u8 "stock_name", VStr (u8 "Moutai"))]]);
    leaf (st_markdown (lit "---"));
    leaf (st_subheader (lit "📄 查看详细报告"));
    leaf (st_selectbox (u8 "选择记录")
            [label_text [(u8 "stock_code", VStr (u8 "600519"));
                         (u8 "stock_name", VStr (u8 "Moutai"))]])]
   ++ [leaf (st_markdown [fstr (VStr (u8 "# report"))])],
   Ok tt).
Proof.
  apply (history_records_shown
           [(u8 "total", VInt 1); (u8 "items", VList [a_record])] [a_record]
           [[(u8 "stock_code", VStr (u8 "600519")); (u8 "stock_name", VStr (u8 "Moutai"))]]
           (queried []) (scripted_state [])); [reflexivity | discriminate |].
  by repeat constructor.
Defined.

Lemma filter_of_spec_witness :
  filter_of (u8 "  ") = Some (strip (u8 "  "))
  /\ (u8 "  " <> [] -> all_space (u8 "  ") -> filter_of (u8 "  ") = Some []).
Proof. apply (filter_of_spec (u8 "  ")). Defined.

Lemma history_empty_is_info_witness :
  let o := show_history_page (queried []) (scripted_state [Ok (VDict [(u8 "items", VList [])])]) in
  shows (st_info (lit "暂无历史记录")) (trace_of o)
  /\ errors (trace_of o) = [] /\ logs (trace_of o) = [] /\ result_of o = Ok tt.
Proof.
  apply (history_empty_is_info (queried [])
           (scripted_state [Ok (VDict [(u8 "items", VList [])])])
           739000%Z (Script [Ok (VDict [(u8 "items", VList [])])] 0 739000)
           (VObj 2) (VDict [(u8 "items", VList [])]) (Script [] 0 739000));
    [reflexivity | reflexivity | by vm_compute | reflexivity | reflexivity | reflexivity].
Defined.

Lemma history_failure_shown_witness :
  let o := show_history_page (queried []) (scripted_state [Err (Raised (u8 "db locked"))]) in
  errors (trace_of o) = [[FLit (u8 "查询失败: "); FLit (u8 "db locked")]]
  /\ logs (trace_of o) = [Raised (u8 "db locked")] /\ result_of o = Ok tt.
Proof.
  apply (history_failure_shown (queried [])
           (scripted_state [Err (Raised (u8 "db locked"))])
           739000%Z (Script [Err (Raised (u8 "db locked"))] 0 739000)
           (VObj 2) (Raised (u8 "db locked")) (Script [] 0 739000));
    [reflexivity | reflexivity | by vm_compute | reflexivity | reflexivity].
Defined.

Lemma history_never_raises_witness :
  result_of (show_history_page (queried [])
               (scripted_state [Ok (VDict [(u8 "items", VList [a_record])])])) = Ok tt.
Proof.
  apply (history_never_raises (queried []) (scripted_state _) 739000%Z
           (Script [Ok (VDict [(u8 "items", VList [a_record])])] 0 739000));
    [reflexivity | by vm_compute].
Defined.

Lemma record_without_meta_witness :
  history_row (VDict [(u8 "report", VStr (u8 "# r"))]) =
    Ok [(u8 "股票代码", NA); (u8 "股票名称", NA); (u8 "分析时间", NA);
        (u8 "操作建议", NA); (u8 "情绪评分", NA)]
  /\ record_label (VList [VDict [(u8 "report", VStr (u8 "# r"))]]) 0
     = Err (KeyError (VStr (u8 "meta"))).
Proof. apply (record_without_meta [(u8 "report", VStr (u8 "# r"))] []). reflexivity. Defined.

(** A page of one record: the table, the selector with the record's
    label, and the report of the record. *)
Example history_one_record :
  let o := show_history_page (queried [])
             (scripted_state [Ok (VDict [(u8 "total", VInt 1); (u8 "items", VList [a_record])])]) in
  shows (st_success [FLit (u8 "找到 "); FRepr (VInt 1); FLit (u8 " 条记录")]) (trace_of o)
  /\ shows (st_selectbox (u8 "选择记录")
             [[FLit (u8 "Moutai"); FLit (u8 " - "); FLit (u8 "N/A")]]) (trace_of o)
  /\ shows (st_markdown [FLit (u8 "# report")]) (trace_of o)
  /\ errors (trace_of o) = [].
Proof.
  intros o. split_and!; [apply (bool_decide_unpack _); by vm_compute..|reflexivity].
Qed.

(** The same page when the record has no [meta]: the table is rendered,
    then the selector raises and the page ends with an error. *)
Example history_record_without_meta :
  let o := show_history_page (queried [])
             (scripted_state [Ok (VDict [(u8 "items", VList [VDict [(u8 "report", VStr (u8 "# r"))]])])]) in
  shows (st_dataframe [[(u8 "股票代码", NA); (u8 "股票名称", NA); (u8 "分析时间", NA);
                        (u8 "操作建议", NA); (u8 "情绪评分", NA)]]) (trace_of o)
  /\ errors (trace_of o) = [[FLit (u8 "查询失败: "); FExn (KeyError (VStr (u8 "meta")))]].
Proof.
  intros o. split; [apply (bool_decide_unpack _); by vm_compute|reflexivity].
Qed.

(** ** The page keeps the contract of a page *)

#[export] Instance history_page `{!Backend W} i : Page (show_history_page i : ui W unit).
Proof.
  apply (behaves_page 1); [lia|apply show_history_page_behaves|apply show_history_page_calls].
Qed.
