(* ===== verification/QuotePage.v ===== *)
(** * The quote page: [show_stock_quote_page]

    The page reads a stock code and on the button asks the stock
    collaborator for the realtime quote, which it renders as metrics and
    text; a check box asks for the price history, fetched in a [try] of
    its own and drawn as a line chart.  The definitions follow
    [show_stock_quote_page] of [src/streamlit_app.py]. *)

From Stdlib Require Import String QArith.
From S2P Require Import Prelude PyStr PyVal Ui Scripted.
Open Scope py_scope.

(** ** What the user entered *)

Record quote_input : Type := QuoteInput {
  quote_code : pystr;          (* the text input *)
  quote_clicked : bool;        (* the button *)
  show_kline : bool            (* the check box *)
}.

(** The text shown for a missing field. *)
Definition na : pyval := VStr (u8 "N/A").

Section page.
Context {W : Type} `{!Backend W}.

(** [st.metric(label, f"{quote.get(key, 'N/A')}")]. *)
Definition metric_of (quote : pyval) (label : string) (key : string) : ui W unit :=
  v ← lift (py_get quote (utf8 key) na);
  emit (st_metric (utf8 label) [fstr v] None).

(** The change and its percentage, both printed with two decimals. *)
Definition change_metric (quote : pyval) : ui W unit :=
  change ← lift (py_get quote (u8 "change") (VInt 0));
  change_pct ← lift (py_get quote (u8 "change_percent") (VInt 0));
  c ← lift (py_fixed2 change);
  p ← lift (py_fixed2 change_pct);
  emit (st_metric (u8 "涨跌") [FFixed2 c] (Some [FFixed2 p; FLit (u8 "%")])).

(** [st.markdown(f"**label**: {quote.get(key, 'N/A')}")]. *)
Definition field_of (quote : pyval) (label : string) (key : string) : ui W unit :=
  v ← lift (py_get quote (utf8 key) na);
  emit (st_markdown [FLit (utf8 label); fstr v]).

(** [history and "data" in history and history["data"]]. *)
Definition has_data (history : pyval) : res pyexn bool :=
  if py_truthy history then
    res_bind (py_in (u8 "data") history) (fun has =>
    if has : bool then
      res_bind (py_getitem history (u8 "data")) (fun d => Ok (py_truthy d))
    else Ok false)
  else Ok false.

(** The body of the inner [try]: the price history as a line chart. *)
Definition fetch_kline (i : quote_input) : ui W unit :=
  svc ← session_get stock_service "stock_service";
  history ← invoke (get_history_data svc (strip (quote_code i)) (u8 "daily") 30);
  found ← lift (has_data history);
  if found : bool then
    data ← lift (py_getitem history (u8 "data"));
    series ← lift (chart_series data);
    emit (st_line_chart series)
  else mret tt.

(** The inner [except Exception as e] branch. *)
Definition kline_failed (e : pyexn) : ui W unit :=
  emit (st_warning [FLit (u8 "获取历史数据失败: "); fexn e]).

(** A truthy quote: the metrics, the fields, the check box. *)
Definition show_quote (quote : pyval) (i : quote_input) : ui W unit :=
  emit (st_success (lit "行情数据获取成功"));;
  within (in_column 1) (metric_of quote "当前价" "current_price");;
  within (in_column 2) (change_metric quote);;
  within (in_column 3) (metric_of quote "今日开盘" "open");;
  within (in_column 4) (metric_of quote "昨日收盘" "prev_close");;
  emit (st_markdown (lit "---"));;
  within (in_column 5)
    (field_of quote "**最高价**: " "high";;
     field_of quote "**最低价**: " "low";;
     field_of quote "**成交量**: " "volume");;
  within (in_column 6)
    (field_of quote "**成交额**: " "amount";;
     field_of quote "**换手率**: " "turnover_rate");;
  emit (st_checkbox (u8 "显示历史K线数据") false);;
  if show_kline i then try_except (fetch_kline i) kline_failed else mret tt.

(** What follows the collaborator's answer. *)
Definition show_quote_result (quote : pyval) (i : quote_input) : ui W unit :=
  if py_truthy quote then show_quote quote i
  else emit (st_error (lit "获取行情数据失败")).

(** The body of the outer [try]. *)
Definition fetch_quote (i : quote_input) : ui W unit :=
  svc ← session_get stock_service "stock_service";
  quote ← invoke (get_realtime_quote svc (strip (quote_code i)));
  show_quote_result quote i.

(** The outer [except Exception as e] branch. *)
Definition quote_failed (e : pyexn) : ui W unit :=
  emit (st_error [FLit (u8 "查询失败: "); fexn e]);;
  emit (logged (u8 "Stock quote error") e).

(** The widgets of the page, rendered on every run. *)
Definition quote_form : ui W unit :=
  emit (st_title (lit "💹 股票行情"));;
  emit (st_markdown (lit "查看实时股票行情数据"));;
  emit (st_text_input (u8 "股票代码") None false);;
  emit (st_button (u8 "查询行情")).

(** [show_stock_quote_page]. *)
Definition show_stock_quote_page (i : quote_input) : ui W unit :=
  quote_form;;
  if quote_clicked i then
    if negb (str_truthy (quote_code i)) then
      emit (st_error (lit "请输入股票代码"))
    else
      with_spinner [FLit (u8 "正在获取 "); FLit (quote_code i); FLit (u8 " 的行情数据...")]
        (try_except (fetch_quote i) quote_failed)
  else mret tt.

End page.

(** * Properties *)

Section page_props.
Context {W : Type} `{!Backend W}.

(** ** The structure of the page *)

Lemma metric_of_renders quote label key : renders (metric_of quote label key : ui W unit).
Proof. unfold metric_of. eauto 10 with py. Qed.

Lemma change_metric_renders quote : renders (change_metric quote : ui W unit).
Proof. unfold change_metric. eauto 10 with py. Qed.

Lemma field_of_renders quote label key : renders (field_of quote label key : ui W unit).
Proof. unfold field_of. eauto 10 with py. Qed.

Lemma kline_failed_renders e : renders (kline_failed e : ui W unit).
Proof. unfold kline_failed. eauto with py. Qed.

Lemma quote_failed_renders e : renders (quote_failed e : ui W unit).
Proof. unfold quote_failed. eauto 10 with py. Qed.

Lemma quote_form_renders : renders (quote_form : ui W unit).
Proof. unfold quote_form. eauto 10 with py. Qed.

#[local] Hint Resolve metric_of_renders change_metric_renders field_of_renders
  kline_failed_renders quote_failed_renders quote_form_renders : py.

Lemma fetch_kline_behaves i : behaves 1 (fetch_kline i : ui W unit).
Proof. unfold fetch_kline. apply behaves_call. eauto 10 with py. Qed.

#[local] Hint Resolve fetch_kline_behaves : py.

(** The calls that can follow the quote: one if the check box is
    ticked, none otherwise. *)
Definition kline_calls (i : quote_input) : nat := if show_kline i then 1 else 0.

Lemma show_quote_behaves quote i :
  behaves (kline_calls i) (show_quote quote i : ui W unit).
Proof.
  unfold show_quote, kline_calls. destruct (show_kline i); eauto 30 with py.
Qed.

Lemma show_quote_result_behaves quote i :
  behaves (kline_calls i) (show_quote_result quote i : ui W unit).
Proof.
  unfold show_quote_result. destruct (py_truthy quote);
    [apply show_quote_behaves | apply (behaves_mono 0); [lia | auto with py]].
Qed.

Lemma fetch_quote_behaves i : behaves (1 + kline_calls i) (fetch_quote i : ui W unit).
Proof.
  unfold fetch_quote. apply behaves_after_render; [auto with py|]. intros svc.
  apply behaves_bind; [auto with py|]. intros quote.
  apply show_quote_result_behaves.
Qed.

Lemma show_stock_quote_page_behaves i :
  behaves (1 + kline_calls i) (show_stock_quote_page i : ui W unit).
Proof.
  unfold show_stock_quote_page. apply behaves_after_render; [auto with py|].
  intros _. destruct (quote_clicked i); [|auto with py].
  destruct (negb _); [apply (behaves_mono 0); [lia | auto with py]|].
  apply behaves_spinner, behaves_try_render; [apply fetch_quote_behaves|auto with py].
Qed.

Lemma show_stock_quote_page_returns i : returns (show_stock_quote_page i : ui W unit).
Proof.
  unfold show_stock_quote_page. apply returns_bind; [|intros _].
  - unfold quote_form. auto 10 with py.
  - destruct (quote_clicked i); [|auto with py].
    destruct (negb _); [auto with py|].
    apply returns_spinner, returns_try.
    + intros s. apply (behaves_no_rerun (1 + kline_calls i)), fetch_quote_behaves.
    + intros e. unfold quote_failed. auto with py.
Qed.

Lemma fetch_kline_calls i : calls_in page_call (fetch_kline i : ui W unit).
Proof. unfold fetch_kline. apply calls_in_call; [done|]. intros v. eauto 10 with py. Qed.

Lemma show_quote_result_calls quote i :
  calls_in page_call (show_quote_result quote i : ui W unit).
Proof.
  unfold show_quote_result. destruct (py_truthy quote); [|auto with py].
  unfold show_quote. pose proof metric_of_renders. pose proof field_of_renders.
  pose proof change_metric_renders.
  repeat (apply calls_in_bind; [by eauto 10 with py|intros _]).
  destruct (show_kline i); [|auto with py].
  apply calls_in_try; [apply fetch_kline_calls|].
  intros e. apply calls_in_renders, kline_failed_renders.
Qed.

Lemma show_stock_quote_page_calls i :
  calls_in page_call (show_stock_quote_page i : ui W unit).
Proof.
  unfold show_stock_quote_page.
  apply calls_in_bind; [apply calls_in_renders, quote_form_renders|]. intros _.
  destruct (quote_clicked i); [|auto with py]. destruct (negb _); [auto with py|].
  apply calls_in_spinner, calls_in_try;
    [|intros e; apply calls_in_renders, quote_failed_renders].
  unfold fetch_quote. apply calls_in_call; [done|]. intros v. apply show_quote_result_calls.
Qed.

(** One run of the quote page calls the stock collaborator at most
    twice, and at most once when the history check box is not ticked;
    the busy indicator is removed on every path and the session state
    is left as it was. *)
Theorem quote_calls_bound (i : quote_input) (s : state W) :
  length (calls (trace_of (show_stock_quote_page i s)))
    <= (if show_kline i then 2 else 1)
  /\ balanced (trace_of (show_stock_quote_page i s))
  /\ sess (state_of (show_stock_quote_page i s)) = sess s.
Proof.
  destruct (show_stock_quote_page_behaves i s) as (H & ? & ? & ?).
  unfold kline_calls in H. by destruct (show_kline i).
Qed.

(** No exception leaves the quote page. *)
Theorem quote_never_raises (i : quote_input) (s : state W) :
  result_of (show_stock_quote_page i s) = Ok tt.
Proof.
  pose proof (show_stock_quote_page_returns i s) as H.
  by destruct (result_of _) as [[]|].
Qed.

(** ** One run, step by step *)

Definition quote_call (i : quote_input) (svc : pyval) : call :=
  get_realtime_quote svc (strip (quote_code i)).

Definition kline_call (i : quote_input) (svc : pyval) : call :=
  get_history_data svc (strip (quote_code i)) (u8 "daily") 30.

Definition quote_busy (i : quote_input) : text :=
  [FLit (u8 "正在获取 "); FLit (quote_code i); FLit (u8 " 的行情数据...")].

(** What follows the answer [r] to the quote request. *)
Definition after_quote (r : res pyexn pyval) (i : quote_input) : ui W unit :=
  answered r (fun q => show_quote_result q i) quote_failed.

Lemma quote_form_run (s : state W) :
  quote_form s = (s, trace_of (quote_form s), Ok tt).
Proof. reflexivity. Qed.

Lemma quote_form_quiet (s : state W) :
  calls (trace_of (quote_form s)) = [] /\ errors (trace_of (quote_form s)) = []
  /\ logs (trace_of (quote_form s)) = [].
Proof. by vm_compute. Qed.

Lemma quote_run i (s : state W) svc r w1 :
  quote_clicked i = true -> quote_code i <> [] ->
  stock_service (sess s) = Some svc ->
  backend_call (quote_call i svc) (world s) = (r, w1) ->
  show_stock_quote_page i s =
    (state_of (after_quote r i (State w1 (sess s))),
     trace_of (quote_form s) ++
       [leaf (spinner_on (quote_busy i)); leaf (called (quote_call i svc) r)] ++
       trace_of (after_quote r i (State w1 (sess s))) ++ [leaf spinner_off],
     result_of (after_quote r i (State w1 (sess s)))).
Proof.
  intros Hc Hne Hs Hb. unfold show_stock_quote_page.
  rewrite (run_bind_ok _ _ _ _ _ _ (quote_form_run s)), Hc.
  destruct (quote_code i) as [|c code] eqn:Hcode; [done|].
  cbn [str_truthy negb]. rewrite run_spinner, <- Hcode. unfold fetch_quote.
  rewrite (run_call_in_try stock_service _ (quote_call i) _ _ s svc r w1 Hs Hb).
  fold (after_quote r i). unfold prepend.
  by rewrite !state_of_mk, !trace_of_mk, !result_of_mk.
Qed.

(** ** The change metric *)

(** C39: the change and its percentage default to 0, not to "N/A", when
    the quote lacks them, and a value that is not a number ([None], a
    string) makes the formatting raise. *)
Theorem change_metric_spec (d : items) (s : state W) :
  change_metric (VDict d) s =
  match py_fixed2 (default (VInt 0) (assoc (u8 "change") d)),
        py_fixed2 (default (VInt 0) (assoc (u8 "change_percent") d)) with
  | Ok c, Ok p =>
      (s, [leaf (st_metric (u8 "涨跌") [FFixed2 c] (Some [FFixed2 p; FLit (u8 "%")]))],
       Ok tt)
  | Err e, _ => (s, [], Err (Exn e))
  | Ok _, Err e => (s, [], Err (Exn e))
  end.
Proof.
  unfold change_metric. run_unfold. cbn [py_get].
  destruct (py_fixed2 (default _ (assoc (u8 "change") d))) as [c|e]; [|done].
  by destruct (py_fixed2 (default _ (assoc (u8 "change_percent") d))) as [p|e].
Qed.

(** ** Empty results and failures *)

(** A falsy quote is reported with [st.error], the element also
    used for failures; nothing is logged. *)
Theorem quote_empty_is_error (i : quote_input) (s : state W) svc v w1 :
  quote_clicked i = true -> quote_code i <> [] ->
  stock_service (sess s) = Some svc ->
  backend_call (quote_call i svc) (world s) = (Ok v, w1) ->
  py_truthy v = false ->
  let o := show_stock_quote_page i s in
  errors (trace_of o) = [lit "获取行情数据失败"] /\ logs (trace_of o) = []
  /\ calls (trace_of o) = [quote_call i svc].
Proof.
  intros Hc Hne Hs Hb Hv o. subst o.
  rewrite (quote_run i s svc (Ok v) w1) by done.
  assert (after_quote (Ok v) i (State w1 (sess s)) =
          (State w1 (sess s), [leaf (st_error (lit "获取行情数据失败"))], Ok tt)) as ->.
  { unfold after_quote. rewrite answered_ok. unfold show_quote_result. by rewrite Hv. }
  rewrite !trace_of_mk, !errors_app, !logs_app, !calls_app.
  by destruct (quote_form_quiet s) as (-> & -> & ->).
Qed.

(** When the quote request raises, the page shows one error with
    the exception's message and logs it; the history is not asked
    for. *)
Theorem quote_failure_shown (i : quote_input) (s : state W) svc e w1 :
  quote_clicked i = true -> quote_code i <> [] ->
  stock_service (sess s) = Some svc ->
  backend_call (quote_call i svc) (world s) = (Err e, w1) ->
  let o := show_stock_quote_page i s in
  errors (trace_of o) = [[FLit (u8 "查询失败: "); fexn e]] /\ logs (trace_of o) = [e]
  /\ calls (trace_of o) = [quote_call i svc].
Proof.
  intros Hc Hne Hs Hb o. subst o.
  rewrite (quote_run i s svc (Err e) w1) by done.
  unfold after_quote. rewrite answered_err.
  assert (quote_failed e (State w1 (sess s)) =
          (State w1 (sess s),
           [leaf (st_error [FLit (u8 "查询失败: "); fexn e]);
            leaf (logged (u8 "Stock quote error") e)], Ok tt)) as -> by done.
  rewrite !trace_of_mk, !errors_app, !logs_app, !calls_app.
  by destruct (quote_form_quiet s) as (-> & -> & ->).
Qed.

(** A failure of the history request is caught by the inner [try]:
    it is shown as a warning, it is not logged, and it does not reach
    the outer handler. *)
Theorem kline_failure_is_warning (i : quote_input) (s : state W) svc e w :
  stock_service (sess s) = Some svc ->
  backend_call (kline_call i svc) (world s) = (Err e, w) ->
  try_except (fetch_kline i) kline_failed s =
    (State w (sess s),
     [leaf (called (kline_call i svc) (Err e));
      leaf (st_warning [FLit (u8 "获取历史数据失败: "); fexn e])],
     Ok tt).
Proof.
  intros Hs Hb. unfold fetch_kline.
  rewrite (run_call_in_try stock_service _ (kline_call i) _ _ s svc (Err e) w Hs Hb).
  by rewrite answered_err.
Qed.

End page_props.

(** ** Witnesses in the scripted world *)

Definition asked (code : pystr) (kline : bool) : quote_input := QuoteInput code true kline.

(** A quote with a price and a change. *)
Definition a_quote : pyval :=
  VDict [(u8 "current_price", VFloat (1688 # 1)); (u8 "change", VFloat (5 # 2));
         (u8 "change_percent", VFloat (15 # 100))].

Lemma quote_empty_is_error_witness :
  let o := show_stock_quote_page (asked (u8 "600519") false) (scripted_state [Ok VNone]) in
  errors (trace_of o) = [lit "获取行情数据失败"] /\ logs (trace_of o) = []
  /\ calls (trace_of o) = [get_realtime_quote (VObj 3) (u8 "600519")].
Proof.
  apply (quote_empty_is_error (asked (u8 "600519") false) (scripted_state [Ok VNone])
           (VObj 3) VNone (Script [] 0 739000));
    [reflexivity | discriminate | reflexivity | reflexivity | reflexivity].
Defined.

Lemma quote_failure_shown_witness :
  let o := show_stock_quote_page (asked (u8 "600519") true)
             (scripted_state [Err (Raised (u8 "no route"))]) in
  errors (trace_of o) = [[FLit (u8 "查询失败: "); FLit (u8 "no route")]]
  /\ logs (trace_of o) = [Raised (u8 "no route")]
  /\ calls (trace_of o) = [get_realtime_quote (VObj 3) (u8 "600519")].
Proof.
  apply (quote_failure_shown (asked (u8 "600519") true)
           (scripted_state [Err (Raised (u8 "no route"))])
           (VObj 3) (Raised (u8 "no route")) (Script [] 0 739000));
    [reflexivity | discriminate | reflexivity | reflexivity].
Defined.

Lemma kline_failure_is_warning_witness :
  try_except (fetch_kline (asked (u8 "600519") true)) kline_failed
    (scripted_state [Err (Raised (u8 "no data"))]) =
    (scripted_state [],
     [leaf (called (get_history_data (VObj 3) (u8 "600519") (u8 "daily") 30)
              (Err (Raised (u8 "no data"))));
      leaf (st_warning [FLit (u8 "获取历史数据失败: "); FLit (u8 "no data")])],
     Ok tt).
Proof.
  apply (kline_failure_is_warning (asked (u8 "600519") true)
           (scripted_state [Err (Raised (u8 "no data"))]) (VObj 3)
           (Raised (u8 "no data")) (Script [] 0 739000)); reflexivity.
Defined.

(** With the check box ticked the page calls the collaborator twice in
    one run. *)
Example quote_two_calls :
  calls (trace_of (show_stock_quote_page (asked (u8 " 600519 ") true)
                     (scripted_state [Ok a_quote; Ok VNone]))) =
  [get_realtime_quote (VObj 3) (u8 "600519");
   get_history_data (VObj 3) (u8 "600519") (u8 "daily") 30].
Proof. reflexivity. Qed.

(** A quote whose change is [None]: the success message is on the page
    when the formatting raises, and the page ends with an error. *)
Example quote_null_change :
  let q := VDict [(u8 "current_price", VFloat (1688 # 1)); (u8 "change", VNone)] in
  let o := show_stock_quote_page (asked (u8 "600519") false) (scripted_state [Ok q]) in
  shows (st_success (lit "行情数据获取成功")) (trace_of o)
  /\ errors (trace_of o) = [[FLit (u8 "查询失败: "); FExn TypeError]].
Proof.
  intros q o. split; [apply (bool_decide_unpack _); by vm_compute|reflexivity].
Qed.

(** A quote without a change: the metric shows 0 with two decimals. *)
Example quote_missing_change :
  let q := VDict [(u8 "current_price", VFloat (1688 # 1))] in
  let o := show_stock_quote_page (asked (u8 "600519") false) (scripted_state [Ok q]) in
  shows (st_metric (u8 "涨跌") [FFixed2 (VInt 0)] (Some [FFixed2 (VInt 0); FLit (u8 "%")]))
    (trace_of o)
  /\ errors (trace_of o) = [].
Proof.
  intros q o. split; [apply (bool_decide_unpack _); by vm_compute|reflexivity].
Qed.

(** ** The page keeps the contract of a page *)

#[export] Instance quote_page `{!Backend W} i : Page (show_stock_quote_page i : ui W unit).
Proof.
  apply (behaves_page (1 + kline_calls i));
    [unfold kline_calls; destruct (show_kline i); lia
    |apply show_stock_quote_page_behaves|apply show_stock_quote_page_calls].
Qed.
