(* ===== verification/TaskPage.v ===== *)
(** * The task monitor: [show_task_monitor_page]

    The page asks the task queue for its tasks, groups them by status in
    a dict (so in the order in which each status is first seen) and
    renders one expander per group.  The refresh button ends the run
    with [st.rerun()] before anything is fetched.  The definitions
    follow [show_task_monitor_page] of [src/streamlit_app.py]; the
    grouping loop is [group_tasks], and [group_by_status] is the
    reference it is proved equal to. *)

From Stdlib Require Import String QArith.
From S2P Require Import Prelude PyStr PyVal Ui Scripted.
Open Scope py_scope.

(** ** Grouping *)

(** [status_groups]: a dict from status to the list of its tasks, in
    insertion order. *)
Abbreviation groups := (list (pyval * list pyval)) (only parsing).

(** [status_groups[status].append(task)], after
    [status_groups[status] = []] when the status is new. *)
Fixpoint group_add (status task : pyval) (g : groups) : groups :=
  match g with
  | [] => [(status, [task])]
  | (k, l) :: g' =>
      if py_eq k status then (k, l ++ [task]) :: g'
      else (k, l) :: group_add status task g'
  end.

(** [task.get("status", "unknown")]. *)
Definition status_of (task : pyval) : res pyexn pyval :=
  py_get task (u8 "status") (VStr (u8 "unknown")).

(** One turn of the grouping loop.  A status that is not hashable
    cannot be looked up in the dict. *)
Definition group_step (g : groups) (task : pyval) : res pyexn groups :=
  status ← status_of task;
  if py_hashable status then Ok (group_add status task g) else Err TypeError.

(** The grouping loop, from the groups [g] collected so far. *)
Fixpoint group_tasks (tasks : list pyval) (g : groups) : res pyexn groups :=
  match tasks with
  | [] => Ok g
  | task :: rest => g' ← group_step g task; group_tasks rest g'
  end.

(** ** The reference: first-seen statuses, each with its tasks *)

(** The tasks of [l] whose status equals [k], in the order of [l]. *)
Definition with_status (k : pyval) (l : list (pyval * pyval)) : list pyval :=
  (filter (fun st => py_eq k st.1 = true) l).*2.

(** The statuses of [l] without repetition, in first-seen order;
    [seen] holds those already met. *)
Fixpoint first_seen (seen : list pyval) (l : list (pyval * pyval)) : list pyval :=
  match l with
  | [] => []
  | (k, _) :: l' =>
      if existsb (fun k' => py_eq k' k) seen then first_seen seen l'
      else k :: first_seen (seen ++ [k]) l'
  end.

(** The groups of the tasks [l], each paired with its status. *)
Definition group_by_status (l : list (pyval * pyval)) : groups :=
  (fun k => (k, with_status k l)) <$> first_seen [] l.

Section page.
Context {W : Type} `{!Backend W}.

(** ** Rendering *)

(** The third column: the status as a coloured box. *)
Definition show_status (task : pyval) : ui W unit :=
  st ← lift (py_get task (u8 "status") VNone);
  if py_eq st status_running then emit (st_warning (lit "运行中"))
  else if py_eq st status_completed then emit (st_success (lit "已完成"))
  else if py_eq st status_failed then emit (st_error (lit "失败"))
  else
    v ← lift (py_get task (u8 "status") (VStr (u8 "未知")));
    emit (st_info [fstr v]).

(** One task: three columns. *)
Definition show_task (task : pyval) : ui W unit :=
  within (in_column 1)
    (v ← lift (py_get task (u8 "stock_code") (VStr (u8 "N/A")));
     emit (st_text [FLit (u8 "股票: "); fstr v]));;
  within (in_column 2)
    (v ← lift (py_get task (u8 "created_at") (VStr (u8 "N/A")));
     emit (st_text [FLit (u8 "创建时间: "); fstr v]));;
  within (in_column 3) (show_status task).

(** The label of a group's expander: [f"{status} ({len(task_list)})"]. *)
Definition group_label (g : pyval * list pyval) : text :=
  [fstr g.1; FLit (u8 " ("); FRepr (VInt (Z.of_nat (length g.2))); FLit (u8 ")")].

(** One group: an expander with its tasks. *)
Definition show_group (g : pyval * list pyval) : ui W unit :=
  within (in_expander (group_label g) true) (for_each g.2 show_task).

(** A truthy task list: the count, the grouping loop, the groups. *)
Definition show_tasks (tasks : pyval) : ui W unit :=
  n ← lift (py_len tasks);
  emit (st_success [FLit (u8 "当前有 "); FRepr (VInt (Z.of_nat n)); FLit (u8 " 个任务")]);;
  ts ← lift (py_iter tasks);
  g ← lift (group_tasks ts []);
  for_each g show_group.

(** What follows the queue's answer. *)
Definition show_task_list (tasks : pyval) : ui W unit :=
  if py_truthy tasks then show_tasks tasks
  else emit (st_info (lit "当前没有任务")).

(** The body of the [try]. *)
Definition fetch_tasks : ui W unit :=
  task_queue ← invoke get_task_queue;
  tasks ← invoke (list_tasks task_queue 50);
  show_task_list tasks.

(** The [except Exception as e] branch. *)
Definition tasks_failed (e : pyexn) : ui W unit :=
  emit (st_error [FLit (u8 "获取任务列表失败: "); fexn e]);;
  emit (logged (u8 "Task monitor error") e).

(** The widgets above the list. *)
Definition task_header : ui W unit :=
  emit (st_title (lit "⚙️ 任务监控"));;
  emit (st_markdown (lit "监控分析任务执行状态"));;
  emit (st_button (u8 "刷新任务列表")).

(** [show_task_monitor_page]; [refresh] is the button. *)
Definition show_task_monitor_page (refresh : bool) : ui W unit :=
  task_header;;
  (if refresh then rerun else mret tt);;
  try_except fetch_tasks tasks_failed.

End page.

(** * Properties *)

(** ** The grouping loop against its reference *)

(** A task with its status, as the loop reads it. *)
Definition tag (task : pyval) : res pyexn (pyval * pyval) :=
  status ← status_of task;
  if py_hashable status then Ok (status, task) else Err TypeError.

(** The tasks with their statuses, or the exception of the first task
    that has none. *)
Fixpoint tagged (tasks : list pyval) : res pyexn (list (pyval * pyval)) :=
  match tasks with
  | [] => Ok []
  | task :: rest => p ← tag task; l ← tagged rest; Ok (p :: l)
  end.

(** The loop on tasks whose statuses were read. *)
Definition group_all (l : list (pyval * pyval)) (g : groups) : groups :=
  foldl (fun g p => group_add p.1 p.2 g) g l.

(** No two of the keys are equal. *)
Fixpoint distinct (ks : list pyval) : Prop :=
  match ks with
  | [] => True
  | k :: r => existsb (py_eq k) r = false /\ distinct r
  end.

Abbreviation hashable := (Forall (fun k => py_hashable k = true)) (only parsing).

Section grouping.
Implicit Types (k status task : pyval) (g : groups) (l : list (pyval * pyval)).

Lemma group_tasks_all tasks g :
  group_tasks tasks g = l ← tagged tasks; Ok (group_all l g).
Proof.
  revert g. induction tasks as [|task rest IH]; intros g; [done|].
  cbn [group_tasks tagged]. unfold group_step, tag.
  destruct (status_of task) as [st|e]; [|done]. simpl.
  destruct (py_hashable st); [|done]. simpl.
  rewrite IH. by destruct (tagged rest).
Qed.

Lemma tagged_hashable tasks l : tagged tasks = Ok l -> hashable (l.*1).
Proof.
  revert l. induction tasks as [|task rest IH]; intros l H; simplify_eq/=; [constructor|].
  unfold tag in H. destruct (status_of task) as [st|]; [|done]. simpl in H.
  destruct (py_hashable st) eqn:Hh; [|done]. simpl in H.
  destruct (tagged rest) as [l'|]; simplify_eq/=. constructor; auto.
Qed.

Lemma with_status_cons k status task l :
  with_status k ((status, task) :: l) =
  if py_eq k status then task :: with_status k l else with_status k l.
Proof.
  unfold with_status. rewrite filter_cons. simpl.
  destruct (py_eq k status); by rewrite ?decide_True, ?decide_False by done.
Qed.

Lemma group_add_new status task g :
  existsb (fun k => py_eq k status) (g.*1) = false ->
  group_add status task g = g ++ [(status, [task])].
Proof.
  induction g as [|[k ts] g IH]; [done|].
  rewrite fmap_cons. cbn [existsb group_add fst].
  intros [-> H]%orb_false_iff. by rewrite IH.
Qed.

(** Keys after [k0] in a list of distinct keys differ from what [k0]
    equals. *)
Lemma distinct_others k0 ks status :
  py_hashable k0 = true -> hashable ks -> py_hashable status = true ->
  existsb (py_eq k0) ks = false -> py_eq k0 status = true ->
  Forall (fun k => py_eq k status = false) ks.
Proof.
  intros H0 Hks Hs Hd He. apply existsb_false in Hd.
  apply list.Forall_forall. intros k Hk.
  rewrite list.Forall_forall in Hks, Hd.
  destruct (py_eq k status) eqn:E; [|done].
  rewrite <- (Hd k Hk). symmetry.
  apply (py_eq_trans k0 status k); auto.
  rewrite py_eq_sym; auto.
Qed.

Lemma group_add_old status task g :
  hashable (g.*1) -> py_hashable status = true -> distinct (g.*1) ->
  existsb (fun k => py_eq k status) (g.*1) = true ->
  group_add status task g =
  (fun kl => (kl.1, kl.2 ++ if py_eq kl.1 status then [task] else [])) <$> g.
Proof.
  intros Hg Hs. induction g as [|[k ts] g IH]; [done|].
  rewrite fmap_cons in Hg. rewrite !fmap_cons. cbn [distinct existsb group_add fst snd].
  intros [Hk Hd] Hex. apply Forall_cons_iff in Hg as [Hhk Hg]. cbn [fst] in Hhk.
  destruct (py_eq k status) eqn:E.
  - f_equal. symmetry. erewrite list_fmap_ext; [apply list_fmap_id|].
    intros i [k' ts'] Hi. cbn [fst snd].
    assert (py_eq k' status = false) as ->; [|by rewrite app_nil_r].
    pose proof (distinct_others k (g.*1) status Hhk Hg Hs Hk E) as Ho.
    rewrite list.Forall_forall in Ho. apply Ho.
    apply list_elem_of_fmap. exists (k', ts'). split; [done|by eapply list_elem_of_lookup_2].
  - rewrite app_nil_r. f_equal. by apply IH.
Qed.

Lemma distinct_snoc ks k :
  distinct ks -> existsb (fun k' => py_eq k' k) ks = false -> distinct (ks ++ [k]).
Proof.
  induction ks as [|k0 ks IH]; simpl; [done|].
  intros [H0 Hd] [E Hex]%orb_false_iff.
  split; [|by apply IH]. by rewrite existsb_snoc, H0, E.
Qed.

Lemma first_seen_fresh seen l :
  Forall (fun k => existsb (fun k' => py_eq k' k) seen = false) (first_seen seen l).
Proof.
  revert seen. induction l as [|[k t] l IH]; intros seen; simpl; [constructor|].
  destruct (existsb _ seen) eqn:E; [apply IH|].
  constructor; [done|].
  eapply list.Forall_impl; [apply IH|]. simpl. intros k'.
  rewrite existsb_snoc. by intros [? _]%orb_false_iff.
Qed.

Lemma first_seen_hashable seen l : hashable (l.*1) -> hashable (first_seen seen l).
Proof.
  revert seen. induction l as [|[k t] l IH]; intros seen; simpl; [constructor|].
  intros [Hk Hl]%Forall_cons_iff. destruct (existsb _ seen); auto.
Qed.

(** What [first_seen] adds differs from a status a seen key equals. *)
Lemma first_seen_differs seen l status :
  hashable seen -> hashable (l.*1) -> py_hashable status = true ->
  existsb (fun k => py_eq k status) seen = true ->
  Forall (fun k => py_eq k status = false) (first_seen seen l).
Proof.
  intros Hseen Hl Hs [k0 [H0 E0]]%existsb_true%list.Exists_exists.
  pose proof (first_seen_hashable seen l Hl) as Hh.
  pose proof (first_seen_fresh seen l) as Hf.
  rewrite list.Forall_forall in Hseen, Hh, Hf. apply list.Forall_forall. intros k Hk.
  specialize (Hf k Hk). rewrite existsb_false, list.Forall_forall in Hf.
  destruct (py_eq k status) eqn:E; [|done].
  rewrite <- (Hf k0 H0). symmetry.
  apply (py_eq_trans k0 status k); auto. rewrite py_eq_sym; auto.
Qed.

Lemma with_status_skip k status task l :
  py_eq k status = false -> with_status k ((status, task) :: l) = with_status k l.
Proof. intros E. by rewrite with_status_cons, E. Qed.

Lemma with_status_skip_all ks status task l :
  Forall (fun k => py_eq k status = false) ks ->
  (fun k => (k, with_status k ((status, task) :: l))) <$> ks =
  (fun k => (k, with_status k l)) <$> ks.
Proof.
  intros H. apply Forall_fmap_ext. eapply list.Forall_impl; [exact H|].
  intros k E. simpl. by rewrite with_status_skip.
Qed.

Lemma keys_relabel {A} (f : pyval * A -> A) (g : list (pyval * A)) :
  ((fun kl => (kl.1, f kl)) <$> g).*1 = g.*1.
Proof. rewrite <- list_fmap_compose. by apply list_fmap_ext. Qed.

(** The groups after the loop: those it started from, each extended by
    its tasks, then the statuses first seen in [l]. *)
Definition grown (l : list (pyval * pyval)) (g : groups) : groups :=
  ((fun kl => (kl.1, kl.2 ++ with_status kl.1 l)) <$> g)
  ++ ((fun k => (k, with_status k l)) <$> first_seen (g.*1) l).

Lemma grown_nil g : grown [] g = g.
Proof.
  unfold grown. simpl. rewrite app_nil_r.
  erewrite list_fmap_ext; [apply list_fmap_id|].
  intros i [k ts] _. simpl. by rewrite app_nil_r.
Qed.

Lemma grown_old status task l g :
  hashable (g.*1) -> hashable (l.*1) -> py_hashable status = true ->
  existsb (fun k => py_eq k status) (g.*1) = true ->
  grown l ((fun kl => (kl.1, kl.2 ++ if py_eq kl.1 status then [task] else [])) <$> g)
  = grown ((status, task) :: l) g.
Proof.
  intros Hg Hl Hs E. unfold grown. rewrite keys_relabel. cbn [first_seen]. rewrite E.
  rewrite with_status_skip_all by by apply first_seen_differs.
  f_equal. rewrite <- list_fmap_compose. apply list_fmap_ext.
  intros i [k ts] _. simpl. rewrite with_status_cons, <- app_assoc.
  by destruct (py_eq k status).
Qed.

Lemma grown_new status task l g :
  hashable (l.*1) -> py_hashable status = true ->
  existsb (fun k => py_eq k status) (g.*1) = false ->
  grown l (g ++ [(status, [task])]) = grown ((status, task) :: l) g.
Proof.
  intros Hl Hs E. unfold grown. cbn [first_seen]. rewrite E.
  rewrite !fmap_app, <- app_assoc. cbn [fmap list_fmap fst snd app].
  rewrite with_status_cons, py_eq_refl by done. f_equal; [|f_equal].
  - apply Forall_fmap_ext. apply existsb_false in E.
    rewrite list.Forall_forall in E. apply list.Forall_forall.
    intros [k ts] Hk. simpl. rewrite with_status_skip; [done|].
    apply E. by apply (list_elem_of_fmap_2 fst) in Hk.
  - symmetry. apply with_status_skip_all.
    pose proof (first_seen_hashable (g.*1 ++ [status]) l Hl) as Hh.
    pose proof (first_seen_fresh (g.*1 ++ [status]) l) as Hf.
    rewrite list.Forall_forall in Hh, Hf. apply list.Forall_forall. intros k Hk.
    specialize (Hf k Hk). rewrite existsb_snoc in Hf.
    apply orb_false_iff in Hf as [_ Hf]. rewrite py_eq_sym; auto.
Qed.

Lemma group_all_grown l g :
  hashable (g.*1) -> hashable (l.*1) -> distinct (g.*1) -> group_all l g = grown l g.
Proof.
  revert g. induction l as [|[k t] l IH]; intros g Hg Hl Hd; [by rewrite grown_nil|].
  rewrite fmap_cons in Hl. apply Forall_cons_iff in Hl as [Hk Hl]. cbn [fst] in Hk.
  change (group_all l (group_add k t g) = grown ((k, t) :: l) g).
  destruct (existsb (fun k' => py_eq k' k) (g.*1)) eqn:E.
  - rewrite group_add_old by done.
    rewrite IH by (rewrite ?keys_relabel; done). by apply grown_old.
  - rewrite group_add_new by done.
    rewrite IH; [by apply grown_new|..]; rewrite ?fmap_app.
    + apply Forall_app. split; [done|]. by repeat constructor.
    + done.
    + by apply distinct_snoc.
Qed.

Lemma group_tasks_ref tasks :
  group_tasks tasks [] = l ← tagged tasks; Ok (group_by_status l).
Proof.
  rewrite group_tasks_all. destruct (tagged tasks) as [l|e] eqn:E; [|done].
  simpl. f_equal. rewrite group_all_grown; [done| |by eapply tagged_hashable|done].
  constructor.
Qed.

End grouping.

(** C8: the grouping loop computes the reference grouping: the
    statuses in the order in which each is first seen, each with its
    tasks in the order of the input; and it raises what the first task
    without a usable status raises. *)
Theorem group_tasks_spec (tasks : list pyval) :
  group_tasks tasks [] = l ← tagged tasks; Ok (group_by_status l).
Proof. apply group_tasks_ref. Qed.

(** ** Every task is shown once *)

Section partition.
Implicit Types (status task : pyval) (g : groups) (l : list (pyval * pyval)).

Lemma group_add_tasks status task g :
  concat ((group_add status task g).*2) ≡ₚ concat (g.*2) ++ [task].
Proof.
  induction g as [|[k ts] g IH]; [done|]. cbn [group_add].
  destruct (py_eq k status); rewrite !fmap_cons; cbn [snd concat].
  - rewrite <- !app_assoc. f_equiv. apply Permutation_app_comm.
  - by rewrite IH, app_assoc.
Qed.

Lemma group_all_tasks l g : concat ((group_all l g).*2) ≡ₚ concat (g.*2) ++ l.*2.
Proof.
  revert g. induction l as [|[k t] l IH]; intros g; [by rewrite app_nil_r|].
  change (group_all ((k, t) :: l) g) with (group_all l (group_add k t g)).
  rewrite IH, group_add_tasks, <- app_assoc. done.
Qed.

Lemma tagged_tasks tasks l : tagged tasks = Ok l -> l.*2 = tasks.
Proof.
  revert l. induction tasks as [|task rest IH]; intros l H; simplify_eq/=; [done|].
  unfold tag in H. destruct (status_of task) as [st|]; [|done]. simpl in H.
  destruct (py_hashable st); [|done]. simpl in H.
  destruct (tagged rest) as [l'|]; simplify_eq/=. by rewrite (IH l').
Qed.

Lemma group_add_nonempty status task g :
  Forall (fun kl => kl.2 <> []) g -> Forall (fun kl => kl.2 <> []) (group_add status task g).
Proof.
  induction 1 as [|[k ts] g Hk Hg IH]; cbn [group_add]; [by repeat constructor|].
  destruct (py_eq k status); constructor; auto.
  simpl. by destruct ts.
Qed.

Lemma group_all_nonempty l g :
  Forall (fun kl => kl.2 <> []) g -> Forall (fun kl => kl.2 <> []) (group_all l g).
Proof.
  revert g. induction l as [|[k t] l IH]; intros g Hg; [done|].
  apply IH. by apply group_add_nonempty.
Qed.

Lemma tagged_dicts tasks l :
  tagged tasks = Ok l -> Forall (fun t => is_dict t = true) tasks.
Proof.
  revert l. induction tasks as [|task rest IH]; intros l H; [constructor|].
  cbn [tagged] in H. unfold tag, status_of in H.
  destruct task; try done. simpl in H. destruct (py_hashable _); [|done]. simpl in H.
  destruct (tagged rest) as [l'|]; [|done]. constructor; eauto.
Qed.

Lemma Forall_concat_inv {A} (P : A -> Prop) (ls : list (list A)) :
  Forall P (concat ls) -> Forall (Forall P) ls.
Proof.
  induction ls as [|x ls IH]; simpl; [constructor|].
  intros [? ?]%Forall_app. constructor; auto.
Qed.

(** The groups of a list of dicts hold dicts. *)
Lemma group_tasks_dicts tasks g :
  group_tasks tasks [] = Ok g ->
  Forall (fun kl => Forall (fun t => is_dict t = true) kl.2) g.
Proof.
  intros H. pose proof H as Hg. rewrite group_tasks_all in H.
  destruct (tagged tasks) as [l|] eqn:E; [|done]. injection H as <-.
  pose proof (group_all_tasks l []) as Hp. simpl in Hp.
  rewrite (tagged_tasks tasks l E) in Hp.
  apply Forall_fmap, Forall_concat_inv. rewrite Hp. by eapply tagged_dicts.
Qed.

End partition.

(** The groups hold every task exactly once, and no group is
    empty: when the loop completes, the tasks of the groups taken
    together are the input, up to order. *)
Theorem group_tasks_partition (tasks : list pyval) (g : groups) :
  group_tasks tasks [] = Ok g ->
  concat (g.*2) ≡ₚ tasks /\ Forall (fun kl => kl.2 <> []) g.
Proof.
  rewrite group_tasks_all. destruct (tagged tasks) as [l|e] eqn:E; [|done].
  intros [= <-]. split.
  - by rewrite group_all_tasks, (tagged_tasks tasks l).
  - apply group_all_nonempty. constructor.
Qed.

(** ** The page *)

Section page_props.
Context {W : Type} `{!Backend W}.

Lemma show_status_renders task : renders (show_status task : ui W unit).
Proof. unfold show_status. eauto 10 with py. Qed.

Lemma show_task_renders task : renders (show_task task : ui W unit).
Proof. unfold show_task. pose proof show_status_renders. eauto 15 with py. Qed.

Lemma show_group_renders g : renders (show_group g : ui W unit).
Proof. unfold show_group. pose proof show_task_renders. auto with py. Qed.

Lemma show_task_list_renders tasks : renders (show_task_list tasks : ui W unit).
Proof.
  unfold show_task_list, show_tasks. pose proof show_group_renders.
  destruct (py_truthy tasks); eauto 15 with py.
Qed.

Lemma tasks_failed_renders e : renders (tasks_failed e : ui W unit).
Proof. unfold tasks_failed. eauto with py. Qed.

Lemma task_header_renders : renders (task_header : ui W unit).
Proof. unfold task_header. eauto with py. Qed.

Lemma fetch_tasks_behaves : behaves 2 (fetch_tasks : ui W unit).
Proof.
  unfold fetch_tasks. apply (behaves_bind 1 1); [apply behaves_invoke|].
  intros q. apply behaves_before_render; [apply behaves_invoke|].
  apply show_task_list_renders.
Qed.

Lemma task_list_behaves : behaves 2 (try_except fetch_tasks tasks_failed : ui W unit).
Proof. apply behaves_try_render; [apply fetch_tasks_behaves | apply tasks_failed_renders]. Qed.

Lemma task_list_returns : returns (try_except fetch_tasks tasks_failed : ui W unit).
Proof.
  apply returns_try.
  - intros s. apply (behaves_no_rerun 2), fetch_tasks_behaves.
  - intros e. unfold tasks_failed. auto with py.
Qed.

(** The page is its header, then the refresh test, then the list. *)
Lemma task_page_run refresh (s : state W) :
  show_task_monitor_page refresh s =
  if refresh then (s, trace_of (task_header s), Err Rerun)
  else prepend (trace_of (task_header s)) (try_except fetch_tasks tasks_failed s).
Proof.
  unfold show_task_monitor_page. destruct refresh; [done|].
  rewrite (run_bind_ok _ _ s s (trace_of (task_header s)) tt) by done.
  by rewrite (run_bind_ok _ _ s s [] tt), prepend_nil by done.
Qed.

Lemma show_task_monitor_page_tidy refresh :
  tidy 2 (show_task_monitor_page refresh : ui W unit).
Proof.
  unfold show_task_monitor_page. apply tidy_after_render; [apply task_header_renders|].
  intros _. apply (tidy_bind 0 2); [|intros _; apply behaves_tidy, task_list_behaves].
  destruct refresh; [apply tidy_rerun | apply renders_tidy, renders_ret].
Qed.

Lemma show_task_monitor_page_calls refresh :
  calls_in page_call (show_task_monitor_page refresh : ui W unit).
Proof.
  unfold show_task_monitor_page.
  apply calls_in_bind; [apply calls_in_renders, task_header_renders|]. intros _.
  apply calls_in_bind; [destruct refresh; auto with py|]. intros _.
  apply calls_in_try; [|intros e; apply calls_in_renders, tasks_failed_renders].
  unfold fetch_tasks. apply calls_in_bind; [by apply calls_in_invoke|]. intros q.
  apply calls_in_bind; [by apply calls_in_invoke|]. intros v.
  apply calls_in_renders, show_task_list_renders.
Qed.

Lemma task_page_result refresh (s : state W) :
  result_of (show_task_monitor_page refresh s) = if refresh then Err Rerun else Ok tt.
Proof.
  rewrite task_page_run. destruct refresh; [done|].
  unfold prepend. rewrite result_of_mk. apply returns_unit, task_list_returns.
Qed.

(** A press of the refresh button ends the run with the rerun
    request before the queue is asked; any other run asks the queue at
    most twice (for the queue, then for its tasks), returns normally
    whatever the queue does, and leaves the session as it was. *)
Theorem task_page_outcome (refresh : bool) (s : state W) :
  let o := show_task_monitor_page refresh s in
  result_of o = (if refresh then Err Rerun else Ok tt)
  /\ length (calls (trace_of o)) <= (if refresh then 0 else 2)
  /\ sess (state_of o) = sess s.
Proof.
  intros o. subst o. rewrite task_page_run. destruct refresh; [by vm_compute|].
  destruct (task_list_behaves s) as (Hc & Hs & _ & _).
  pose proof (task_list_returns s) as Hr.
  unfold prepend. rewrite state_of_mk, trace_of_mk, result_of_mk, calls_app.
  rewrite (plain_calls (trace_of (task_header s))) by apply task_header_renders.
  split_and!; [|done..]. by destruct (result_of _) as [[]|].
Qed.

(** ** The runs of the list *)

Definition after_tasks (r : res pyexn pyval) : ui W unit :=
  answered r show_task_list tasks_failed.

(** The run once the queue was obtained. *)
Lemma task_list_run (s : state W) q w1 r w2 :
  backend_call get_task_queue (world s) = (Ok q, w1) ->
  backend_call (list_tasks q 50) w1 = (r, w2) ->
  try_except fetch_tasks tasks_failed s =
  prepend [leaf (called get_task_queue (Ok q)); leaf (called (list_tasks q 50) r)]
    (after_tasks r (State w2 (sess s))).
Proof.
  intros Hq Hl. unfold after_tasks, answered. apply try_prepend. unfold fetch_tasks.
  assert (invoke get_task_queue s =
          (State w1 (sess s), [leaf (called get_task_queue (Ok q))], Ok q)) as Hi
    by (unfold invoke; by rewrite Hq).
  rewrite (run_bind_ok _ _ _ _ _ _ Hi).
  rewrite (bind_prepend _ (lift r) _ _ (State w2 (sess s)) [leaf (called (list_tasks q 50) r)])
    by exact (run_invoke _ (State w1 (sess s)) r w2 Hl).
  by rewrite prepend_prepend.
Qed.

(** The run when the queue cannot be obtained. *)
Lemma task_queue_failed (s : state W) e w1 :
  backend_call get_task_queue (world s) = (Err e, w1) ->
  try_except fetch_tasks tasks_failed s =
  prepend [leaf (called get_task_queue (Err e))] (tasks_failed e (State w1 (sess s))).
Proof.
  intros Hq. unfold fetch_tasks, try_except.
  rewrite (run_bind_err _ _ s (State w1 (sess s)) [leaf (called get_task_queue (Err e))] (Exn e))
    by (unfold invoke; by rewrite Hq).
  done.
Qed.

Lemma task_header_quiet (s : state W) :
  calls (trace_of (task_header s)) = [] /\ errors (trace_of (task_header s)) = []
  /\ logs (trace_of (task_header s)) = [] /\ expanders (trace_of (task_header s)) = [].
Proof. by vm_compute. Qed.

(** When the queue raises on [list_tasks], the page shows one
    error with the exception's message and logs it. *)
Theorem tasks_failure_shown (s : state W) q w1 e w2 :
  backend_call get_task_queue (world s) = (Ok q, w1) ->
  backend_call (list_tasks q 50) w1 = (Err e, w2) ->
  let o := show_task_monitor_page false s in
  errors (trace_of o) = [[FLit (u8 "获取任务列表失败: "); fexn e]]
  /\ logs (trace_of o) = [e]
  /\ calls (trace_of o) = [get_task_queue; list_tasks q 50]
  /\ world (state_of o) = w2.
Proof.
  intros Hq Hl o. subst o.
  rewrite task_page_run, (task_list_run s q w1 (Err e) w2) by done.
  unfold after_tasks. rewrite answered_err, prepend_prepend. unfold prepend.
  rewrite !trace_of_mk, !state_of_mk, !errors_app, !logs_app, !calls_app.
  by destruct (task_header_quiet s) as (-> & -> & -> & _).
Qed.

(** A falsy task list is an information message, not an error. *)
Theorem tasks_empty_is_info (s : state W) q w1 v w2 :
  backend_call get_task_queue (world s) = (Ok q, w1) ->
  backend_call (list_tasks q 50) w1 = (Ok v, w2) ->
  py_truthy v = false ->
  let o := show_task_monitor_page false s in
  shows (st_info (lit "当前没有任务")) (trace_of o)
  /\ errors (trace_of o) = [] /\ logs (trace_of o) = [].
Proof.
  intros Hq Hl Hv o. subst o.
  rewrite task_page_run, (task_list_run s q w1 (Ok v) w2) by done.
  unfold after_tasks. rewrite answered_ok. unfold show_task_list. rewrite Hv.
  rewrite prepend_prepend. unfold prepend.
  rewrite !trace_of_mk, !errors_app, !logs_app.
  destruct (task_header_quiet s) as (_ & -> & -> & _).
  split; [|done]. apply shows_app. right. by constructor.
Qed.

(** ** The groups on the page *)

Lemma show_task_returns d : returns (show_task (VDict d) : ui W unit).
Proof.
  intros s. unfold show_task, show_status. run_unfold. cbn [py_get].
  by repeat destruct (py_eq _ _).
Qed.

Lemma show_group_returns kl :
  Forall (fun t => is_dict t = true) kl.2 -> returns (show_group kl : ui W unit).
Proof.
  intros H. apply returns_within, returns_for_each_on.
  eapply list.Forall_impl; [exact H|]. intros [] ?; try done. apply show_task_returns.
Qed.

Lemma show_group_run kl (s : state W) :
  Forall (fun t => is_dict t = true) kl.2 ->
  show_group kl s =
  (s, [box (in_expander (group_label kl) true) (trace_of (for_each kl.2 show_task s))],
   Ok tt).
Proof.
  intros H. rewrite (run_renders _ s (show_group_renders kl) (show_group_returns kl H)).
  unfold show_group. by rewrite run_within.
Qed.

(** The groups are rendered one expander each, in their order. *)
Lemma show_groups_run (g : groups) (s : state W) :
  Forall (fun kl => Forall (fun t => is_dict t = true) kl.2) g ->
  let o := for_each g show_group s in
  state_of o = s /\ result_of o = Ok tt
  /\ expanders (trace_of o) = group_label <$> g.
Proof.
  induction 1 as [|kl g Hkl Hg IH]; [done|]. cbn [for_each].
  change (ui_bind ?m ?k) with (m ≫= k).
  rewrite (run_bind_ok _ _ _ _ _ _ (show_group_run kl s Hkl)).
  destruct IH as (Hs & Hr & He). unfold prepend.
  rewrite state_of_mk, trace_of_mk, result_of_mk.
  by rewrite (expanders_app [_]), He.
Qed.

(** The count shown above the groups. *)
Definition task_count (n : nat) : element :=
  st_success [FLit (u8 "当前有 "); FRepr (VInt (Z.of_nat n)); FLit (u8 " 个任务")].

Lemma show_tasks_run (ts : list pyval) (g : groups) (s : state W) :
  group_tasks ts [] = Ok g ->
  show_tasks (VList ts) s =
  prepend [leaf (task_count (length ts))] (for_each g show_group s).
Proof.
  intros Hg. unfold show_tasks. cbn [py_len py_iter].
  rewrite (run_bind_ok _ _ s s [] (length ts)), prepend_nil by done.
  rewrite (run_bind_ok _ _ s s [leaf (task_count (length ts))] tt) by done.
  rewrite (run_bind_ok _ _ s s [] ts), prepend_nil by done. rewrite Hg.
  by rewrite (run_bind_ok _ _ s s [] g), prepend_nil by done.
Qed.

(** A list of tasks is rendered as its count followed by one
    expander per distinct status, in the order in which the statuses
    are first seen, each labelled with the status and the number of its
    tasks; the run returns normally and logs nothing at the page
    level. *)
Theorem task_groups_shown (s : state W) q w1 ts w2 l :
  backend_call get_task_queue (world s) = (Ok q, w1) ->
  backend_call (list_tasks q 50) w1 = (Ok (VList ts), w2) ->
  ts <> [] -> tagged ts = Ok l ->
  let o := show_task_monitor_page false s in
  expanders (trace_of o) = group_label <$> group_by_status l
  /\ shows (task_count (length ts)) (trace_of o)
  /\ result_of o = Ok tt.
Proof.
  intros Hq Hl Hne Ht o. subst o.
  assert (group_tasks ts [] = Ok (group_by_status l)) as Hg
    by by rewrite group_tasks_ref, Ht.
  rewrite task_page_run, (task_list_run s q w1 (Ok (VList ts)) w2) by done.
  unfold after_tasks. rewrite answered_ok. unfold show_task_list.
  assert (py_truthy (VList ts) = true) as -> by by destruct ts.
  destruct (show_groups_run (group_by_status l) (State w2 (sess s))
              (group_tasks_dicts ts _ Hg)) as (Hs & Hr & He).
  unfold try_except. rewrite (show_tasks_run ts _ _ Hg).
  destruct (for_each _ show_group _) as [[s3 t3] r3]; simpl_run; subst.
  unfold prepend; simpl_run. split_and!; [done| |done]. shows_here.
Qed.

End page_props.

(** ** Witnesses in the scripted world *)

(** A task of the queue. *)
Definition a_task (code status : string) : pyval :=
  VDict [(u8 "stock_code", VStr (utf8 code)); (u8 "status", VStr (utf8 status));
         (u8 "created_at", VStr (u8 "2026-11-08 09:30"))].

Definition four_tasks : list pyval :=
  [a_task "600519" "running"; a_task "000001" "completed";
   a_task "300750" "running"; a_task "601318" "failed"].

(** Tasks with statuses running, completed, running, failed are
    grouped as running (twice), completed, failed. *)
Example group_four_tasks :
  group_tasks four_tasks [] =
  Ok [(VStr (u8 "running"), [a_task "600519" "running"; a_task "300750" "running"]);
      (VStr (u8 "completed"), [a_task "000001" "completed"]);
      (VStr (u8 "failed"), [a_task "601318" "failed"])].
Proof. reflexivity. Qed.

(** Statuses that are equal numbers share a group, under the key that
    came first. *)
Example group_equal_numbers :
  (group_by_status [(VInt 1, VNone); (VBool true, VNone); (VFloat 1, VNone)]).*1 = [VInt 1].
Proof. reflexivity. Qed.

(** A status that is a list cannot be a key: the loop raises. *)
Example group_unhashable :
  group_tasks [VDict [(u8 "status", VList [])]] [] = Err TypeError.
Proof. reflexivity. Qed.

Lemma group_tasks_partition_witness :
  concat ([(VStr (u8 "running"), [a_task "600519" "running"; a_task "300750" "running"]);
           (VStr (u8 "completed"), [a_task "000001" "completed"]);
           (VStr (u8 "failed"), [a_task "601318" "failed"])].*2) ≡ₚ four_tasks
  /\ Forall (fun kl : pyval * list pyval => kl.2 <> [])
       [(VStr (u8 "running"), [a_task "600519" "running"; a_task "300750" "running"]);
        (VStr (u8 "completed"), [a_task "000001" "completed"]);
        (VStr (u8 "failed"), [a_task "601318" "failed"])].
Proof. apply (group_tasks_partition four_tasks). reflexivity. Defined.

Lemma tasks_failure_shown_witness :
  let o := show_task_monitor_page false
             (scripted_state [Ok (VObj 9); Err (Raised (u8 "queue closed"))]) in
  errors (trace_of o) = [[FLit (u8 "获取任务列表失败: "); FLit (u8 "queue closed")]]
  /\ logs (trace_of o) = [Raised (u8 "queue closed")]
  /\ calls (trace_of o) = [get_task_queue; list_tasks (VObj 9) 50]
  /\ world (state_of o) = Script [] 0 739000.
Proof.
  apply (tasks_failure_shown
           (scripted_state [Ok (VObj 9); Err (Raised (u8 "queue closed"))])
           (VObj 9) (Script [Err (Raised (u8 "queue closed"))] 0 739000)
           (Raised (u8 "queue closed")) (Script [] 0 739000)); reflexivity.
Defined.

Lemma tasks_empty_is_info_witness :
  let o := show_task_monitor_page false (scripted_state [Ok (VObj 9); Ok (VList [])]) in
  shows (st_info (lit "当前没有任务")) (trace_of o)
  /\ errors (trace_of o) = [] /\ logs (trace_of o) = [].
Proof.
  apply (tasks_empty_is_info (scripted_state [Ok (VObj 9); Ok (VList [])])
           (VObj 9) (Script [Ok (VList [])] 0 739000) (VList []) (Script [] 0 739000));
    reflexivity.
Defined.

Lemma task_groups_shown_witness :
  let o := show_task_monitor_page false
             (scripted_state [Ok (VObj 9); Ok (VList four_tasks)]) in
  expanders (trace_of o) =
    [[FLit (u8 "running"); FLit (u8 " ("); FRepr (VInt 2); FLit (u8 ")")];
     [FLit (u8 "completed"); FLit (u8 " ("); FRepr (VInt 1); FLit (u8 ")")];
     [FLit (u8 "failed"); FLit (u8 " ("); FRepr (VInt 1); FLit (u8 ")")]]
  /\ shows (task_count 4) (trace_of o)
  /\ result_of o = Ok tt.
Proof.
  exact (task_groups_shown (scripted_state [Ok (VObj 9); Ok (VList four_tasks)])
           (VObj 9) (Script [Ok (VList four_tasks)] 0 739000) four_tasks
           (Script [] 0 739000)
           [(VStr (u8 "running"), a_task "600519" "running");
            (VStr (u8 "completed"), a_task "000001" "completed");
            (VStr (u8 "running"), a_task "300750" "running");
            (VStr (u8 "failed"), a_task "601318" "failed")]
           eq_refl eq_refl ltac:(discriminate) eq_refl).
Defined.

(** The queue cannot be obtained: [list_tasks] is not called. *)
Example task_queue_unavailable :
  let o := show_task_monitor_page false (scripted_state [Err (Raised (u8 "down"))]) in
  calls (trace_of o) = [get_task_queue]
  /\ errors (trace_of o) = [[FLit (u8 "获取任务列表失败: "); FLit (u8 "down")]]
  /\ result_of o = Ok tt.
Proof. by vm_compute. Qed.

(** A task list that is not a list of dicts: the count is on the page
    when the loop raises. *)
Example task_list_of_strings :
  let o := show_task_monitor_page false
             (scripted_state [Ok (VObj 9); Ok (VList [VStr (u8 "t1")])]) in
  shows (task_count 1) (trace_of o)
  /\ errors (trace_of o) = [[FLit (u8 "获取任务列表失败: "); FExn (AttributeError (u8 "get"))]].
Proof. split; [apply (bool_decide_unpack _); by vm_compute|reflexivity]. Qed.

(** ** The page keeps the contract of a page *)

#[export] Instance task_page `{!Backend W} refresh :
  Page (show_task_monitor_page refresh : ui W unit).
Proof. split; [apply show_task_monitor_page_tidy|apply show_task_monitor_page_calls]. Qed.
