(* ===== verification/ConfigPage.v ===== *)
(** * The configuration page: [show_config_page]

    The page asks the system configuration collaborator for the
    configuration and renders the keys of a fixed table of four
    sections, each section in an expander, each key in a disabled text
    input.  The value of a key whose name contains [api_key], [token] or
    [password] is masked: its first eight items followed by an
    ellipsis when it is longer than eight, a fixed token otherwise.
    The definitions follow [show_config_page] of
    [src/streamlit_app.py]. *)

From Stdlib Require Import String QArith.
From S2P Require Import Prelude PyStr PyVal Ui Scripted.
Open Scope py_scope.

(** ** The section table *)

(** [sections]: the section names with their keys, in the order of the
    dict literal. *)
Definition sections : list (string * list string) :=
  [("AI 配置", ["gemini_api_key"; "openai_api_key"; "openai_base_url"; "openai_model"]);
   ("通知配置", ["wechat_webhook_url"; "feishu_webhook_url"; "telegram_bot_token"]);
   ("数据源配置", ["tushare_token"; "tavily_api_keys"; "serpapi_keys"]);
   ("股票配置", ["stock_list"])]%string.

(** ** Masking *)

(** ["api_key" in key.lower() or "token" in key.lower() or
    "password" in key.lower()]. *)
Definition is_sensitive (key : pystr) : bool :=
  str_contains (lower key) (u8 "api_key")
  || str_contains (lower key) (u8 "token")
  || str_contains (lower key) (u8 "password").

(** [value[:n]]: a prefix of a string or of a list.  A dict cannot be
    sliced (a [TypeError] before Python 3.12, a [KeyError] from it on;
    the model has the former), nor can the other values. *)
Definition py_slice_to (n : nat) (value : pyval) : res pyexn pyval :=
  match value with
  | VStr s => Ok (VStr (slice_to n s))
  | VList l => Ok (VList (take n l))
  | _ => Err TypeError
  end.

(** The fixed token. *)
Definition stars : text := lit "***".

(** [f"{value[:8]}..." if value and len(value) > 8 else "***"]. *)
Definition mask_secret (value : pyval) : res pyexn text :=
  if py_truthy value then
    n ← py_len value;
    if (8 <? n)%nat then
      shown ← py_slice_to 8 value;
      Ok [fstr shown; FLit (u8 "...")]
    else Ok stars
  else Ok stars.

(** The [value] of the text input for a value that is not masked: the
    widget shows [str(value)], and nothing for [None]. *)
Definition display_of (value : pyval) : option text :=
  match value with
  | VNone => None
  | _ => Some [fstr value]
  end.

(** [display_value]. *)
Definition display_value (key : pystr) (value : pyval) : res pyexn (option text) :=
  if is_sensitive key then t ← mask_secret value; Ok (Some t)
  else Ok (display_of value).

Section page.
Context {W : Type} `{!Backend W}.

(** ** Rendering *)

(** One key of a section: a disabled text input when the configuration
    has the key. *)
Definition show_key (config_dict : pyval) (key : string) : ui W unit :=
  when_key key config_dict (fun value =>
    shown ← lift (display_value (utf8 key) value);
    emit (st_text_input (utf8 key) shown true)).

(** One section: a collapsed expander with its keys. *)
Definition show_section (config_dict : pyval) (sec : string * list string) : ui W unit :=
  within (in_expander (lit sec.1) false) (for_each sec.2 (show_key config_dict)).

(** The configuration, section by section. *)
Definition show_config (config_data : pyval) : ui W unit :=
  config_dict ← lift (py_getitem config_data (u8 "config"));
  emit (st_markdown (lit "### 当前配置"));;
  for_each sections (show_section config_dict);;
  emit (st_info (lit "⚠️ 配置修改需要在 .env 文件中进行，修改后需要重启应用")).

(** [config_data and "config" in config_data]. *)
Definition has_config (config_data : pyval) : res pyexn bool :=
  if py_truthy config_data then py_in (u8 "config") config_data else Ok false.

(** What follows the collaborator's answer. *)
Definition show_config_result (config_data : pyval) : ui W unit :=
  found ← lift (has_config config_data);
  if found : bool then show_config config_data
  else emit (st_warning (lit "无法加载配置信息")).

(** The body of the [try]. *)
Definition load_config : ui W unit :=
  config_service ← session_get system_config_service "system_config_service";
  config_data ← invoke (sys_get_config config_service true);
  show_config_result config_data.

(** The [except Exception as e] branch. *)
Definition config_failed (e : pyexn) : ui W unit :=
  emit (st_error [FLit (u8 "加载配置失败: "); fexn e]);;
  emit (logged (u8 "Config page error") e).

(** The widgets above the sections. *)
Definition config_header : ui W unit :=
  emit (st_title (lit "⚙️ 系统配置"));;
  emit (st_markdown (lit "查看和管理系统配置")).

(** [show_config_page]. *)
Definition show_config_page : ui W unit :=
  config_header;;
  try_except load_config config_failed.

End page.

(** * Properties *)

(** ** The sensitivity predicate *)

Lemma lower_app a b : lower (a ++ b) = lower a ++ lower b.
Proof. apply fmap_app. Qed.

(** The predicate ignores case. *)
Lemma is_sensitive_lower key : is_sensitive (lower key) = is_sensitive key.
Proof. unfold is_sensitive. by rewrite lower_idemp. Qed.

(** A key that contains a sensitive key is sensitive. *)
Lemma is_sensitive_app a key b :
  is_sensitive key = true -> is_sensitive (a ++ key ++ b) = true.
Proof.
  unfold is_sensitive. rewrite !lower_app, !orb_true_iff.
  intros [[H|H]|H]; [left; left | left; right | right]; auto with py.
Qed.

(** The keys of the table, in its order. *)
Definition table_keys : list string := sections ≫= snd.

(** Six of the eleven keys of the table are masked; the two webhook
    addresses, the base address, the model and the stock list are
    not. *)
Example sensitive_keys :
  filter (fun k => is_sensitive (utf8 k) = true) table_keys =
  ["gemini_api_key"; "openai_api_key"; "telegram_bot_token"; "tushare_token";
   "tavily_api_keys"; "serpapi_keys"]%string.
Proof. reflexivity. Qed.

(** ** Masking *)

(** The mask shown for a string. *)
Definition mask_of (s : pystr) : text :=
  if (8 <? length s)%nat then [FLit (slice_to 8 s); FLit (u8 "...")] else stars.

Lemma mask_str s : mask_secret (VStr s) = Ok (mask_of s).
Proof.
  unfold mask_secret, mask_of. destruct s as [|c s]; [done|].
  cbn [py_truthy str_truthy py_len]. simpl. by destruct (8 <? _)%nat.
Qed.

(** The mask of a string: longer than eight code points, its first
    eight and an ellipsis; otherwise, the empty string included, the
    fixed token; [None] has the fixed token too. *)
Theorem mask_secret_str (s : pystr) :
  mask_secret (VStr s) =
    Ok (if (8 <? length s)%nat then [FLit (slice_to 8 s); FLit (u8 "...")] else stars)
  /\ mask_secret VNone = Ok stars.
Proof. split; [apply mask_str | reflexivity]. Qed.

(** C9: the mask of a string depends on its first eight code points
    and on whether it is longer than eight, and on nothing else: two
    secrets that agree on these are shown alike. *)
Theorem mask_secret_hides (s s' : pystr) :
  slice_to 8 s = slice_to 8 s' ->
  (8 < length s <-> 8 < length s') ->
  mask_secret (VStr s) = mask_secret (VStr s').
Proof.
  intros Hp Hl. rewrite !mask_str. unfold mask_of. rewrite Hp.
  destruct (Nat.ltb_spec 8 (length s)), (Nat.ltb_spec 8 (length s')); try done; lia.
Qed.

(** C40: the mask of a list of more than eight secrets is its first
    eight elements, each of them in full. *)
Theorem mask_secret_list (l : list pyval) :
  8 < length l ->
  mask_secret (VList l) = Ok [FRepr (VList (take 8 l)); FLit (u8 "...")].
Proof.
  intros Hl. unfold mask_secret. destruct l as [|x l]; [simpl in Hl; lia|].
  cbn [py_truthy py_len]. simpl.
  by destruct (Nat.ltb_spec 8 (S (length l))); [|simpl in Hl; lia].
Qed.

(** A number other than zero has no length: masking raises. *)
Example mask_secret_number : mask_secret (VInt 12345678901) = Err TypeError.
Proof. reflexivity. Qed.

Example mask_secret_key :
  mask_secret (VStr (u8 "sk-1234567890")) = Ok [FLit (u8 "sk-12345"); FLit (u8 "...")].
Proof. reflexivity. Qed.

(** The values on which masking does not raise. *)
Definition maskable (value : pyval) : bool :=
  match value with
  | VNone | VStr _ | VList _ => true
  | _ => negb (py_truthy value)
  end.

Lemma mask_secret_maskable value : maskable value = true -> is_ok (mask_secret value) = true.
Proof.
  unfold mask_secret. destruct value as [|b|z|q|s|l|d|o]; simpl; try done;
    try (by intros ->%negb_true_iff).
  - destruct s; [done|]. simpl. by destruct (8 <? _)%nat.
  - destruct l; [done|]. simpl. by destruct (8 <? _)%nat.
Qed.

Lemma mask_secret_hides_witness :
  mask_secret (VStr (u8 "sk-1234567890")) = mask_secret (VStr (u8 "sk-12345XXXXXXXXXXXX")).
Proof.
  apply (mask_secret_hides (u8 "sk-1234567890") (u8 "sk-12345XXXXXXXXXXXX"));
    [reflexivity | vm_compute; lia].
Defined.

Lemma mask_secret_list_witness :
  mask_secret (VList (VStr <$> [u8 "k1"; u8 "k2"; u8 "k3"; u8 "k4"; u8 "k5"; u8 "k6";
                                u8 "k7"; u8 "k8"; u8 "k9"])) =
  Ok [FRepr (VList (VStr <$> [u8 "k1"; u8 "k2"; u8 "k3"; u8 "k4"; u8 "k5"; u8 "k6";
                              u8 "k7"; u8 "k8"]));
      FLit (u8 "...")].
Proof.
  exact (mask_secret_list (VStr <$> [u8 "k1"; u8 "k2"; u8 "k3"; u8 "k4"; u8 "k5"; u8 "k6";
                                      u8 "k7"; u8 "k8"; u8 "k9"])
           (le_n 9)).
Defined.

(** ** The page *)

(** What the page shows of a key: nothing when the configuration lacks
    it, its display value otherwise. *)
Definition view (c : items) (key : string) : option (res pyexn (option text)) :=
  display_value (utf8 key) <$> assoc (utf8 key) c.

(** A configuration whose values can all be displayed. *)
Definition displayable (c : items) : Prop := Forall (fun kv => maskable kv.2 = true) c.

Lemma assoc_Forall (P : pyval -> Prop) (c : items) k v :
  Forall (fun kv => P kv.2) c -> assoc k c = Some v -> P v.
Proof.
  induction 1 as [|[k' v'] c Hv _ IH]; simpl; [done|].
  destruct (decide (k = k')); [by intros [= <-]|done].
Qed.

Lemma view_displayable c key :
  displayable c -> from_option (fun r => is_ok r) true (view c key) = true.
Proof.
  intros Hc. unfold view. destruct (assoc _ c) as [v|] eqn:E; [|done]. simpl.
  unfold display_value. destruct (is_sensitive _); [|done].
  pose proof (mask_secret_maskable v
    (assoc_Forall (fun v => maskable v = true) c _ v Hc E)) as Hm.
  by destruct (mask_secret v).
Qed.

Section page_props.
Context {W : Type} `{!Backend W}.

(** The run of one key on a dict. *)
Lemma show_key_dict c key (s : state W) :
  show_key (VDict c) key s =
  match view c key with
  | None => (s, [], Ok tt)
  | Some (Ok shown) => (s, [leaf (st_text_input (utf8 key) shown true)], Ok tt)
  | Some (Err e) => (s, [], Err (Exn e))
  end.
Proof.
  unfold show_key, view. run_unfold. cbn [py_in py_getitem].
  destruct (assoc (utf8 key) c) as [v|]; [|done]. simpl.
  by destruct (display_value (utf8 key) v).
Qed.

Lemma show_key_renders d key : renders (show_key d key : ui W unit).
Proof. unfold show_key. eauto 10 with py. Qed.

Lemma show_section_renders d sec : renders (show_section d sec : ui W unit).
Proof. unfold show_section. pose proof (show_key_renders d). auto with py. Qed.

Lemma show_config_result_renders v : renders (show_config_result v : ui W unit).
Proof.
  unfold show_config_result, show_config.
  pose proof show_section_renders. eauto 15 with py.
Qed.

Lemma config_failed_renders e : renders (config_failed e : ui W unit).
Proof. unfold config_failed. eauto with py. Qed.

Lemma config_header_renders : renders (config_header : ui W unit).
Proof. unfold config_header. eauto with py. Qed.

Lemma load_config_behaves : behaves 1 (load_config : ui W unit).
Proof. apply behaves_call, show_config_result_renders. Qed.

Lemma show_config_page_behaves : behaves 1 (show_config_page : ui W unit).
Proof.
  unfold show_config_page. apply behaves_after_render; [apply config_header_renders|].
  intros _. apply behaves_try_render; [apply load_config_behaves | apply config_failed_renders].
Qed.

Lemma show_config_page_returns : returns (show_config_page : ui W unit).
Proof.
  unfold show_config_page. apply returns_bind; [unfold config_header; auto with py|].
  intros _. apply returns_try.
  - intros s. apply (behaves_no_rerun 1), load_config_behaves.
  - intros e. unfold config_failed. auto with py.
Qed.

Lemma show_config_page_calls : calls_in page_call (show_config_page : ui W unit).
Proof.
  unfold show_config_page.
  apply calls_in_bind; [apply calls_in_renders, config_header_renders|]. intros _.
  apply calls_in_try; [|intros e; apply calls_in_renders, config_failed_renders].
  unfold load_config. apply calls_in_call; [done|].
  intros v. apply calls_in_renders, show_config_result_renders.
Qed.

(** A run of the page asks the collaborator at most once, returns
    normally whatever the collaborator answers or raises, and leaves
    the session as it was. *)
Theorem config_page_outcome (s : state W) :
  let o := show_config_page s in
  result_of o = Ok tt /\ length (calls (trace_of o)) <= 1
  /\ sess (state_of o) = sess s.
Proof.
  intros o. subst o. destruct (show_config_page_behaves s) as (Hc & Hs & _ & _).
  pose proof (show_config_page_returns s) as Hr.
  split_and!; [|done..]. by destruct (result_of _) as [[]|].
Qed.

(** ** The runs of the page *)

Definition config_call (svc : pyval) : call := sys_get_config svc true.

Definition after_config (r : res pyexn pyval) : ui W unit :=
  answered r show_config_result config_failed.

Lemma config_header_run (s : state W) :
  config_header s = (s, trace_of (config_header s), Ok tt).
Proof. reflexivity. Qed.

Lemma config_header_quiet (s : state W) :
  calls (trace_of (config_header s)) = [] /\ errors (trace_of (config_header s)) = []
  /\ logs (trace_of (config_header s)) = [] /\ expanders (trace_of (config_header s)) = [].
Proof. by vm_compute. Qed.

Lemma config_run (s : state W) svc r w :
  system_config_service (sess s) = Some svc ->
  backend_call (config_call svc) (world s) = (r, w) ->
  show_config_page s =
  prepend (trace_of (config_header s) ++ [leaf (called (config_call svc) r)])
    (after_config r (State w (sess s))).
Proof.
  intros Hs Hb. unfold show_config_page, load_config.
  rewrite (run_bind_ok _ _ _ _ _ _ (config_header_run s)).
  rewrite (run_call_in_try system_config_service _ config_call _ _ s svc r w Hs Hb).
  by rewrite prepend_prepend.
Qed.

(** When the collaborator raises, the page shows one error with
    the exception's message and logs it. *)
Theorem config_failure_shown (s : state W) svc e w :
  system_config_service (sess s) = Some svc ->
  backend_call (config_call svc) (world s) = (Err e, w) ->
  let o := show_config_page s in
  errors (trace_of o) = [[FLit (u8 "加载配置失败: "); fexn e]]
  /\ logs (trace_of o) = [e] /\ expanders (trace_of o) = [].
Proof.
  intros Hs Hb o. subst o. rewrite (config_run s svc (Err e) w) by done.
  unfold after_config. rewrite answered_err. unfold prepend.
  rewrite !trace_of_mk, !errors_app, !logs_app, !expanders_app.
  by destruct (config_header_quiet s) as (_ & -> & -> & ->).
Qed.

(** An answer that is falsy or has no ["config"] is reported as a
    warning; no error is shown and nothing is logged. *)
Theorem config_missing_is_warning (s : state W) svc v w :
  system_config_service (sess s) = Some svc ->
  backend_call (config_call svc) (world s) = (Ok v, w) ->
  has_config v = Ok false ->
  let o := show_config_page s in
  shows (st_warning (lit "无法加载配置信息")) (trace_of o)
  /\ errors (trace_of o) = [] /\ logs (trace_of o) = [] /\ expanders (trace_of o) = [].
Proof.
  intros Hs Hb Hv o. subst o. rewrite (config_run s svc (Ok v) w) by done.
  unfold after_config. rewrite answered_ok.
  assert (try_except (show_config_result v) config_failed (State w (sess s)) =
          (State w (sess s), [leaf (st_warning (lit "无法加载配置信息"))], Ok tt)) as ->
    by (unfold show_config_result; by rewrite Hv).
  unfold prepend. rewrite !trace_of_mk, !errors_app, !logs_app, !expanders_app.
  destruct (config_header_quiet s) as (_ & -> & -> & ->).
  split; [|done]. apply shows_app. right. by repeat constructor.
Qed.

(** ** The sections on the page *)

Lemma show_key_quiet c key (s : state W) :
  displayable c ->
  show_key (VDict c) key s = (s, trace_of (show_key (VDict c) key s), Ok tt)
  /\ quiet (trace_of (show_key (VDict c) key s)).
Proof.
  intros Hc. pose proof (view_displayable c key Hc) as Hv.
  rewrite show_key_dict. by destruct (view c key) as [[shown|e]|].
Qed.

Lemma show_section_quiet c sec (s : state W) :
  displayable c ->
  show_section (VDict c) sec s =
    (s, [box (in_expander (lit sec.1) false)
           (trace_of (for_each sec.2 (show_key (VDict c)) s))], Ok tt)
  /\ quiet (trace_of (show_section (VDict c) sec s)).
Proof.
  intros Hc. unfold show_section. rewrite run_within.
  destruct (for_each_run sec.2 (show_key (VDict c)) quiet s quiet_nil quiet_app) as [Hr Hq].
  { apply Forall_true. intros key. by apply show_key_quiet. }
  rewrite Hr, state_of_mk, !trace_of_mk, result_of_mk. split; [done|].
  by apply quiet_box.
Qed.

(** The sections are rendered one expander each, in the order of the
    table. *)
Lemma show_sections_run c (secs : list (string * list string)) (s : state W) :
  displayable c ->
  let o := for_each secs (show_section (VDict c)) s in
  o = (s, trace_of o, Ok tt) /\ quiet (trace_of o)
  /\ expanders (trace_of o) = (fun sec => lit sec.1) <$> secs.
Proof.
  intros Hc. induction secs as [|sec secs IH]; [done|]. cbn [for_each].
  change (ui_bind ?m ?k) with (m ≫= k).
  destruct (show_section_quiet c sec s Hc) as [Hr Hq]. rewrite Hr, trace_of_mk in Hq.
  rewrite (run_bind_ok _ _ _ _ _ _ Hr). destruct IH as (Hs & Hq' & He).
  rewrite Hs. unfold prepend. rewrite !state_of_mk, !trace_of_mk, !result_of_mk.
  split_and!; [done | by apply quiet_app|].
  by rewrite (expanders_app [_]), He.
Qed.

(** The run of [show_config] on an answer with a displayable
    configuration. *)
Lemma show_config_run d c (s : state W) :
  assoc (u8 "config") d = Some (VDict c) ->
  show_config (VDict d) s =
  prepend [leaf (st_markdown (lit "### 当前配置"))]
    ((for_each sections (show_section (VDict c));;
      emit (st_info (lit "⚠️ 配置修改需要在 .env 文件中进行，修改后需要重启应用"))) s).
Proof.
  intros Hd. unfold show_config. cbn [py_getitem]. rewrite Hd.
  rewrite (run_bind_ok _ _ s s [] (VDict c)), prepend_nil by done.
  by rewrite (run_bind_ok _ _ s s [leaf (st_markdown (lit "### 当前配置"))] tt) by done.
Qed.

(** The banner under the sections. *)
Definition restart_note : element :=
  st_info (lit "⚠️ 配置修改需要在 .env 文件中进行，修改后需要重启应用").

Lemma show_config_result_run d c (s : state W) :
  assoc (u8 "config") d = Some (VDict c) -> displayable c ->
  show_config_result (VDict d) s =
  (s, [leaf (st_markdown (lit "### 当前配置"))]
      ++ trace_of (for_each sections (show_section (VDict c)) s)
      ++ [leaf restart_note], Ok tt).
Proof.
  intros Hd Hc. unfold show_config_result, has_config.
  assert (py_truthy (VDict d) = true) as -> by by destruct d.
  cbn [py_in]. rewrite Hd.
  rewrite (run_bind_ok _ _ s s [] true), prepend_nil by done.
  rewrite (show_config_run d c _ Hd).
  destruct (show_sections_run c sections s Hc) as (Hr & _).
  by rewrite (run_bind_ok _ _ _ _ _ _ Hr).
Qed.

(** A configuration whose values can be displayed is rendered as
    the four sections of the table, in the order of the table, with no
    error and no log record. *)
Theorem config_sections_shown (s : state W) svc d c w :
  system_config_service (sess s) = Some svc ->
  backend_call (config_call svc) (world s) = (Ok (VDict d), w) ->
  assoc (u8 "config") d = Some (VDict c) -> displayable c ->
  let o := show_config_page s in
  expanders (trace_of o) = (fun sec => lit sec.1) <$> sections
  /\ quiet (trace_of o) /\ result_of o = Ok tt.
Proof.
  intros Hs Hb Hd Hc o. subst o. rewrite (config_run s svc (Ok (VDict d)) w) by done.
  unfold after_config. rewrite answered_ok. unfold try_except.
  rewrite (show_config_result_run d c _ Hd Hc).
  destruct (show_sections_run c sections (State w (sess s)) Hc) as (_ & Hq & He).
  unfold prepend. rewrite !state_of_mk, !trace_of_mk, !result_of_mk, !expanders_app, He.
  destruct (config_header_quiet s) as (_ & He' & Hl' & ->).
  split_and!; [done| |done].
  repeat apply quiet_app; try done.
Qed.

(** The page depends on the configuration through the display
    values of the keys of the table only: two configurations with the
    same display values are rendered alike. *)
Theorem config_view_only (d d' c c' : items) (s : state W) :
  assoc (u8 "config") d = Some (VDict c) ->
  assoc (u8 "config") d' = Some (VDict c') ->
  Forall (fun key => view c key = view c' key) table_keys ->
  show_config (VDict d) s = show_config (VDict d') s.
Proof.
  intros Hd Hd' Hv. rewrite (show_config_run d c s Hd), (show_config_run d' c' s Hd').
  f_equal. rewrite !run_bind.
  rewrite (for_each_ext sections (show_section (VDict c)) (show_section (VDict c'))); [done|].
  apply list.Forall_forall. intros sec Hsec st. apply within_ext, for_each_ext.
  apply list.Forall_forall. intros key Hkey st'. rewrite !show_key_dict.
  rewrite list.Forall_forall in Hv. rewrite (Hv key); [done|].
  apply list_elem_of_bind. by exists sec.
Qed.

End page_props.

(** ** Witnesses in the scripted world *)

(** A configuration: two secrets, an address and the stock list. *)
Definition some_keys (secret : string) : items :=
  [(u8 "gemini_api_key", VStr (utf8 secret));
   (u8 "openai_base_url", VStr (u8 "https://api.example.com/v1"));
   (u8 "tushare_token", VStr (u8 "short"));
   (u8 "stock_list", VList [VStr (u8 "600519"); VStr (u8 "000001")])].

Definition a_config (secret : string) : pyval :=
  VDict [(u8 "config", VDict (some_keys secret))].

Lemma config_failure_shown_witness :
  let o := show_config_page (scripted_state [Err (Raised (u8 "no config"))]) in
  errors (trace_of o) = [[FLit (u8 "加载配置失败: "); FLit (u8 "no config")]]
  /\ logs (trace_of o) = [Raised (u8 "no config")] /\ expanders (trace_of o) = [].
Proof.
  apply (config_failure_shown (scripted_state [Err (Raised (u8 "no config"))])
           (VObj 4) (Raised (u8 "no config")) (Script [] 0 739000)); reflexivity.
Defined.

Lemma config_missing_is_warning_witness :
  let o := show_config_page (scripted_state [Ok (VDict [(u8 "schema", VNone)])]) in
  shows (st_warning (lit "无法加载配置信息")) (trace_of o)
  /\ errors (trace_of o) = [] /\ logs (trace_of o) = [] /\ expanders (trace_of o) = [].
Proof.
  apply (config_missing_is_warning (scripted_state [Ok (VDict [(u8 "schema", VNone)])])
           (VObj 4) (VDict [(u8 "schema", VNone)]) (Script [] 0 739000)); reflexivity.
Defined.

Lemma config_sections_shown_witness :
  let o := show_config_page (scripted_state [Ok (a_config "sk-1234567890")]) in
  expanders (trace_of o) =
    [lit "AI 配置"; lit "通知配置"; lit "数据源配置"; lit "股票配置"]
  /\ quiet (trace_of o) /\ result_of o = Ok tt.
Proof.
  refine (config_sections_shown (scripted_state [Ok (a_config "sk-1234567890")])
            (VObj 4) [(u8 "config", VDict (some_keys "sk-1234567890"))]
            (some_keys "sk-1234567890") (Script [] 0 739000) eq_refl eq_refl eq_refl _).
  repeat constructor.
Defined.

Lemma config_view_only_witness :
  show_config (a_config "sk-1234567890") (scripted_state []) =
  show_config (a_config "sk-12345XXXXXXXXXXXX") (scripted_state []).
Proof.
  refine (config_view_only
            [(u8 "config", VDict (some_keys "sk-1234567890"))]
            [(u8 "config", VDict (some_keys "sk-12345XXXXXXXXXXXX"))]
            (some_keys "sk-1234567890") (some_keys "sk-12345XXXXXXXXXXXX")
            (scripted_state []) eq_refl eq_refl _).
  repeat constructor.
Defined.

(** The page for [a_config]: the secret is shown by its first eight
    code points, the short token by the fixed token, the address and
    the stock list as they are. *)
Example config_page_example :
  let o := show_config_page (scripted_state [Ok (a_config "sk-1234567890")]) in
  shows (st_text_input (u8 "gemini_api_key") (Some [FLit (u8 "sk-12345"); FLit (u8 "...")]) true)
    (trace_of o)
  /\ shows (st_text_input (u8 "tushare_token") (Some stars) true) (trace_of o)
  /\ shows (st_text_input (u8 "stock_list")
             (Some [FRepr (VList [VStr (u8 "600519"); VStr (u8 "000001")])]) true)
       (trace_of o).
Proof. split_and!; apply (bool_decide_unpack _); by vm_compute. Qed.

(** A secret that is a number makes the page fail after two sections
    were opened. *)
Example config_number_secret :
  let o := show_config_page
             (scripted_state [Ok (VDict [(u8 "config",
                                          VDict [(u8 "tushare_token", VInt 12345678901)])])]) in
  errors (trace_of o) = [[FLit (u8 "加载配置失败: "); FExn TypeError]]
  /\ expanders (trace_of o) = [lit "AI 配置"; lit "通知配置"; lit "数据源配置"].
Proof. by vm_compute. Qed.

(** ** The page keeps the contract of a page *)

#[export] Instance config_page `{!Backend W} : Page (show_config_page : ui W unit).
Proof.
  apply (behaves_page 1); [lia|apply show_config_page_behaves|apply show_config_page_calls].
Qed.
