(* ===== verification/App.v ===== *)
(** * The script: page configuration, session, navigation

    One run of [src/streamlit_app.py]: the page configuration, the
    initialisation of the session, and [main], which renders the
    sidebar and the page the navigation radio selects.  A session is a
    sequence of runs on the same session state ([session_runs]). *)

From Stdlib Require Import String QArith.
From S2P Require Import Prelude PyStr PyVal PyDate Ui Scripted Session.
From S2P Require Import AnalysisPage HistoryPage QuotePage TaskPage ConfigPage.
Open Scope py_scope.

(** ** What the user entered in one run *)

Record app_input : Type := AppInput {
  page : pystr;                  (* the navigation radio *)
  on_analysis : analysis_input;  (* the widgets of each page *)
  on_history : history_input;
  on_quote : quote_input;
  on_tasks : bool
}.

(** The options of the navigation radio. *)
Definition labels : list string :=
  ["股票分析"; "历史记录"; "股票行情"; "任务监控"; "系统配置"]%string.

Section app.
Context {W : Type} `{!Backend W}.

(** [st.sidebar.f(...)]: one element in the sidebar. *)
Definition in_side (e : element) : ui W unit := within in_sidebar (emit e).

(** The sidebar, up to the read of the configuration. *)
Definition sidebar : ui W unit :=
  in_side (st_title (lit "📈 股票智能分析系统"));;
  in_side (st_markdown (lit "---"));;
  in_side (st_radio (u8 "导航") (utf8 <$> labels));;
  in_side (st_markdown (lit "---"));;
  in_side (st_markdown (lit "### 系统信息")).

(** The [if]/[elif] chain of [main]: the page of the selected label,
    and nothing for any other value. *)
Definition dispatch (i : app_input) : ui W unit :=
  if bool_decide (page i = u8 "股票分析") then show_analysis_page (on_analysis i)
  else if bool_decide (page i = u8 "历史记录") then show_history_page (on_history i)
  else if bool_decide (page i = u8 "股票行情") then show_stock_quote_page (on_quote i)
  else if bool_decide (page i = u8 "任务监控") then show_task_monitor_page (on_tasks i)
  else if bool_decide (page i = u8 "系统配置") then show_config_page
  else mret tt.

(** [main]. *)
Definition main (i : app_input) : ui W unit :=
  sidebar;;
  _ ← session_get config "config";
  in_side (st_info (lit "**运行模式**: Streamlit Web UI"));;
  dispatch i.

(** [st.set_page_config(...)]. *)
Definition set_page_config : ui W unit :=
  emit (st_page_config (u8 "股票智能分析系统") (u8 "📈") (u8 "wide") (u8 "expanded")).

(** One run of the script. *)
Definition streamlit_app (i : app_input) : ui W unit :=
  set_page_config;;
  init_session;;
  main i.

(** A session: the runs of the script on [inputs], each from
    the state the one before left; with the trace and the result of
    each. *)
Fixpoint session_runs (inputs : list app_input) (s : state W) :
    state W * list (trace * res signal unit) :=
  match inputs with
  | [] => (s, [])
  | i :: rest =>
      let '(s1, t, r) := streamlit_app i s in
      let '(s2, l) := session_runs rest s1 in
      (s2, (t, r) :: l)
  end.

End app.

(** * Properties *)

(** [clash] closes a goal in which the radio has two values. *)
Ltac clash :=
  match goal with
  | H : page ?i = _, H' : page ?i = _ |- _ =>
      rewrite H in H'; vm_compute in H'; discriminate
  end.

Section app_props.
Context {W : Type} `{!Backend W}.

(** ** Navigation *)

Lemma in_side_renders e : plain e = true -> renders (in_side e : ui W unit).
Proof. intros He. apply renders_within. by apply renders_emit. Qed.

Lemma sidebar_renders : renders (sidebar : ui W unit).
Proof. unfold sidebar. pose proof in_side_renders. eauto 10 with py. Qed.

Lemma sidebar_run (s : state W) : sidebar s = (s, trace_of (sidebar s), Ok tt).
Proof. reflexivity. Qed.

(** The dispatch chain is a page, as each of its branches is. *)
#[export] Instance dispatch_page i : Page (dispatch i : ui W unit).
Proof. unfold dispatch. repeat case_bool_decide; apply _. Qed.

(** So is [main]: the sidebar and the read of the configuration render. *)
#[export] Instance main_page i : Page (main i : ui W unit).
Proof.
  unfold main. apply page_after_render; [apply sidebar_renders|]. intros _.
  apply page_after_render; [apply renders_session_get|]. intros _.
  apply page_after_render; [by apply in_side_renders|]. intros _. apply _.
Qed.

Lemma main_tidy i : tidy 2 (main i : ui W unit).
Proof. apply page_tidy. Qed.

Lemma main_calls i : calls_in page_call (main i : ui W unit).
Proof. apply page_calls. Qed.

(** Whichever page is selected, one run of [main] makes at most
    two collaborator calls, leaves the session state as it was and
    removes every busy indicator it showed. *)
Theorem main_calls_bound (i : app_input) (s : state W) :
  length (calls (trace_of (main i s))) <= 2
  /\ sess (state_of (main i s)) = sess s
  /\ balanced (trace_of (main i s)).
Proof. apply main_tidy. Qed.

(** A value of the radio that is none of the five labels renders
    no page at all: no fallback view, no message, no log record. *)
Theorem dispatch_unknown (i : app_input) (s : state W) :
  page i ∉ utf8 <$> labels -> dispatch i s = (s, [], Ok tt).
Proof.
  intros Hp. unfold dispatch.
  repeat case_bool_decide; try done; exfalso; apply Hp;
    match goal with H : page i = _ |- _ => rewrite H end;
    by apply (bool_decide_unpack _).
Qed.

(** ** One run *)

(** The last element of the sidebar. *)
Definition mode_note : event :=
  box in_sidebar [leaf (st_info (lit "**运行模式**: Streamlit Web UI"))].

Lemma main_run i (s : state W) c :
  config (sess s) = Some c ->
  main i s = prepend (trace_of (sidebar s) ++ [mode_note]) (dispatch i s).
Proof.
  intros Hc. unfold main.
  rewrite (run_bind_ok _ _ _ _ _ _ (sidebar_run s)).
  rewrite (run_bind_ok _ _ _ _ _ _ (run_session_get config "config" s c Hc)), prepend_nil.
  rewrite (run_bind_ok _ _ s s [mode_note] tt) by done.
  by rewrite prepend_prepend.
Qed.

Lemma main_run_without_config i (s : state W) :
  config (sess s) = None ->
  main i s = (s, trace_of (sidebar s), Err (Exn (AttributeError (u8 "config")))).
Proof.
  intros Hc. unfold main. rewrite (run_bind_ok _ _ _ _ _ _ (sidebar_run s)).
  rewrite (run_bind_err _ _ _ _ _ _ (run_session_get_none config "config" s Hc)).
  unfold prepend. by rewrite app_nil_r.
Qed.

(** Without the configuration in the session state, [main] raises
    [AttributeError] after the sidebar, outside any [try]: no page is
    rendered. *)
Theorem main_without_config (i : app_input) (s : state W) :
  config (sess s) = None ->
  main i s = (s, trace_of (sidebar s), Err (Exn (AttributeError (u8 "config")))).
Proof. apply main_run_without_config. Qed.

Lemma dispatch_result i (s : state W) now w1 :
  today (world s) = (now, w1) -> (1 <= now - days_back (on_history i))%Z ->
  result_of (dispatch i s) =
  if bool_decide (page i = u8 "任务监控") && on_tasks i then Err Rerun else Ok tt.
Proof.
  intros Ht Hd. unfold dispatch. repeat case_bool_decide; try clash; simpl.
  - apply returns_unit, show_analysis_page_returns.
  - by apply (show_history_page_returns _ _ now w1).
  - apply returns_unit, show_stock_quote_page_returns.
  - apply task_page_result.
  - apply returns_unit, show_config_page_returns.
  - done.
Qed.

(** In a session that holds the configuration, and with a clock
    late enough for the history page's start date, no exception leaves
    [main], whatever the user entered and whatever the collaborators
    do; the run ends with a rerun request exactly when the refresh
    button of the task monitor was pressed. *)
Theorem main_outcome (i : app_input) (s : state W) c now w1 :
  config (sess s) = Some c ->
  today (world s) = (now, w1) -> (1 <= now - days_back (on_history i))%Z ->
  result_of (main i s) =
  if bool_decide (page i = u8 "任务监控") && on_tasks i then Err Rerun else Ok tt.
Proof.
  intros Hc Ht Hd. rewrite (main_run i s c Hc). unfold prepend.
  rewrite result_of_mk. by apply (dispatch_result i s now w1).
Qed.

(** ** A session: run after run *)

Lemma app_run i (s : state W) :
  flagged (sess s) ->
  streamlit_app i s = prepend (trace_of (set_page_config s)) (main i s).
Proof.
  intros Hf. unfold streamlit_app.
  rewrite (run_bind_ok _ _ s s (trace_of (set_page_config s)) tt) by done.
  by rewrite (run_bind_ok _ _ _ _ _ _ (init_session_idempotent_run s Hf)), prepend_nil.
Qed.

Lemma app_keeps_session i (s : state W) :
  flagged (sess s) -> sess (state_of (streamlit_app i s)) = sess s.
Proof.
  intros Hf. rewrite app_run by done. unfold prepend. rewrite state_of_mk.
  apply main_tidy.
Qed.

(** After a run the session carries the flag, however the run ended. *)
Lemma app_flagged i (s : state W) : flagged (sess (state_of (streamlit_app i s))).
Proof.
  unfold streamlit_app.
  rewrite (run_bind_ok _ _ s s (trace_of (set_page_config s)) tt) by done.
  unfold prepend. rewrite state_of_mk. rewrite run_bind.
  pose proof (init_session_flagged s) as Hf.
  destruct (init_session s) as [[s1 t1] [[]|x]]; simpl_run; [|done].
  pose proof (main_tidy i s1) as (_ & Hs & _).
  destruct (main i s1) as [[s2 t2] r]; simpl_run. by rewrite Hs.
Qed.

(** A run in a session that carries the flag constructs nothing. *)
Lemma app_constructs_nothing i (s : state W) :
  flagged (sess s) ->
  Forall (fun c => constructor_call c = false) (calls (trace_of (streamlit_app i s))).
Proof.
  intros Hf. rewrite app_run by done. unfold prepend. rewrite trace_of_mk, calls_app.
  apply Forall_app. split; [by constructor|].
  eapply list.Forall_impl; [apply main_calls|]. by intros c ->%negb_true_iff.
Qed.

Lemma session_runs_cons i rest (s : state W) :
  session_runs (i :: rest) s =
  ((session_runs rest (state_of (streamlit_app i s))).1,
   (trace_of (streamlit_app i s), result_of (streamlit_app i s))
     :: (session_runs rest (state_of (streamlit_app i s))).2).
Proof.
  cbn [session_runs]. destruct (streamlit_app i s) as [[s1 t] r]. simpl_run.
  by destruct (session_runs rest s1).
Qed.

(** C7: the session state is written once: in a session that carries
    the flag, no sequence of runs changes it, and no run constructs a
    service again. *)
Theorem session_written_once (inputs : list app_input) (s : state W) :
  flagged (sess s) ->
  sess (session_runs inputs s).1 = sess s
  /\ Forall (fun run => Forall (fun c => constructor_call c = false) (calls run.1))
       (session_runs inputs s).2.
Proof.
  revert s. induction inputs as [|i rest IH]; intros s Hf; [by split|].
  rewrite session_runs_cons. cbn [fst snd].
  pose proof (app_keeps_session i s Hf) as Hs.
  destruct (IH (state_of (streamlit_app i s))) as [IH1 IH2]; [by rewrite Hs|].
  split; [by rewrite IH1|]. constructor; [|done]. by apply app_constructs_nothing.
Qed.

(** A run in a session that carries the flag and lacks the
    configuration. *)
Lemma app_without_config i (s : state W) :
  flagged (sess s) -> config (sess s) = None ->
  result_of (streamlit_app i s) = Err (Exn (AttributeError (u8 "config")))
  /\ calls (trace_of (streamlit_app i s)) = []
  /\ sess (state_of (streamlit_app i s)) = sess s.
Proof.
  intros Hf Hc. rewrite app_run, main_run_without_config by done. unfold prepend.
  rewrite !state_of_mk, !trace_of_mk, !result_of_mk, calls_app.
  by rewrite (plain_calls (trace_of (sidebar s))) by apply sidebar_renders.
Qed.

(** C30: A failed initialisation is never retried.  When the first
    constructor raises in the first run of a session, every later run
    of the session ends with [AttributeError], renders no page and
    asks no collaborator. *)
Theorem failed_init_is_permanent (i : app_input) (inputs : list app_input)
    (s : state W) e w :
  sess s = empty_session ->
  backend_call get_config (world s) = (Err e, w) ->
  Forall (fun run => run.2 = Err (Exn (AttributeError (u8 "config"))) /\ calls run.1 = [])
    (session_runs inputs (state_of (streamlit_app i s))).2.
Proof.
  intros Hs Hb.
  assert (flagged (sess (state_of (streamlit_app i s)))
          /\ config (sess (state_of (streamlit_app i s))) = None) as [Hf Hc].
  { split; [apply app_flagged|]. unfold streamlit_app.
    rewrite (run_bind_ok _ _ s s (trace_of (set_page_config s)) tt) by done.
    rewrite (run_bind_err _ _ s (State w (set_initialized (VBool true) (sess s)))
               [leaf (called get_config (Err e))] (Exn e)); [by rewrite Hs|].
    rewrite init_session_first by by rewrite Hs. unfold build.
    erewrite run_bind_err; [done|]. by apply run_construct_err. }
  revert Hf Hc. generalize (state_of (streamlit_app i s)). clear.
  induction inputs as [|i rest IH]; intros s Hf Hc; [constructor|].
  rewrite session_runs_cons. cbn [snd].
  destruct (app_without_config i s Hf Hc) as (Hr & Hcalls & Hs).
  constructor; [done|]. apply IH; by rewrite Hs.
Qed.

End app_props.

(** ** Witnesses in the scripted world *)

(** The user on a page, with nothing pressed. *)
Definition idle : app_input :=
  AppInput (u8 "股票分析")
    (AnalysisInput [] (u8 "detailed") false true false)
    (HistoryInput [] 30 20 false 0)
    (QuoteInput [] false false)
    false.

Definition on_page (label : string) (i : app_input) : app_input :=
  AppInput (utf8 label) (on_analysis i) (on_history i) (on_quote i) (on_tasks i).

Definition refreshing : app_input :=
  AppInput (u8 "任务监控") (on_analysis idle) (on_history idle) (on_quote idle) true.

Lemma dispatch_unknown_witness :
  dispatch (on_page "帮助" idle) (scripted_state []) = (scripted_state [], [], Ok tt).
Proof.
  apply (dispatch_unknown (on_page "帮助" idle) (scripted_state [])).
  intros H. by apply (bool_decide_pack _) in H.
Defined.

Lemma main_without_config_witness :
  main idle (fresh_state []) =
  (fresh_state [], trace_of (sidebar (fresh_state [])),
   Err (Exn (AttributeError (u8 "config")))).
Proof. by apply (main_without_config idle (fresh_state [])). Defined.

Lemma main_outcome_witness :
  result_of (main refreshing (scripted_state [])) = Err Rerun
  /\ result_of (main (on_page "历史记录" idle) (scripted_state [])) = Ok tt.
Proof.
  split.
  - exact (main_outcome refreshing (scripted_state []) (VObj 0) 739000%Z
             (Script [] 0 739000) eq_refl eq_refl ltac:(by vm_compute)).
  - exact (main_outcome (on_page "历史记录" idle) (scripted_state []) (VObj 0) 739000%Z
             (Script [] 0 739000) eq_refl eq_refl ltac:(by vm_compute)).
Defined.

Lemma session_written_once_witness :
  sess (session_runs [idle; on_page "系统配置" idle; refreshing] (scripted_state [])).1 = ready
  /\ Forall (fun run => Forall (fun c => constructor_call c = false) (calls run.1))
       (session_runs [idle; on_page "系统配置" idle; refreshing] (scripted_state [])).2.
Proof.
  apply (session_written_once [idle; on_page "系统配置" idle; refreshing] (scripted_state [])).
  by eexists.
Defined.

Lemma failed_init_is_permanent_witness :
  Forall (fun run => run.2 = Err (Exn (AttributeError (u8 "config"))) /\ calls run.1 = [])
    (session_runs [idle; on_page "系统配置" idle]
       (state_of (streamlit_app idle (fresh_state [Err (Raised (u8 "no .env"))])))).2.
Proof.
  apply (failed_init_is_permanent idle [idle; on_page "系统配置" idle]
           (fresh_state [Err (Raised (u8 "no .env"))]) (Raised (u8 "no .env"))
           (Script [] 0 739000)); reflexivity.
Defined.

(** The first run of a session in the steady world: the five
    constructors, then the page. *)
Example first_run :
  let o := streamlit_app idle (State tt empty_session) in
  calls (trace_of o) = constructors /\ result_of o = Ok tt
  /\ sess (state_of o) =
     Session (Some (VBool true)) (Some (VObj 0)) (Some (VObj 1)) (Some (VObj 2))
       (Some (VObj 3)) (Some (VObj 4)).
Proof. by vm_compute. Qed.

(** A failure of the third constructor: the configuration is there, the
    later handles are not, and the pages that need them report the
    missing attribute on every later run. *)
Example half_initialised :
  let s1 := state_of (streamlit_app idle
                        (fresh_state [Ok (VObj 0); Ok (VObj 1); Err (Raised (u8 "db locked"))])) in
  let o := streamlit_app (on_page "系统配置" idle) s1 in
  result_of o = Ok tt
  /\ errors (trace_of o) =
     [[FLit (u8 "加载配置失败: "); FExn (AttributeError (u8 "system_config_service"))]].
Proof. by vm_compute. Qed.
