(* ===== verification/Protocol.v ===== *)
(** * The rerun protocol: widgets between the runs of a session

    Streamlit keeps the value of a widget from one run of the script to
    the next for as long as the script creates the widget: a value set
    by the user is read by the next run, and a widget that a run does
    not create loses its value when the run ends.  A button is true in
    the run its press causes and in no other.  [st.rerun()] ends the run
    and starts another with the same values and no button pressed.

    This file models that protocol as a step relation on the
    configurations of a session (the state of the server, the values
    kept for the widgets, the widgets on the page), with the runs of
    [App.streamlit_app] as its steps, and proves what holds in every
    configuration a user can reach.  The widgets that
    [src/streamlit_app.py] creates under [if st.button(...)] (the
    detail selector of the history page, the K-line check box of the
    quote page) are on the page only in a run caused by the button, so
    a value set for them is never read.  The values that are kept are
    values their widgets accept ([typed]), so a run reads the radio and
    the select boxes at one of their options. *)

From Stdlib Require Import String QArith.
From stdpp Require Import countable gmap.
From S2P Require Import Prelude PyStr PyVal PyDate Ui Scripted Session.
From S2P Require Import AnalysisPage HistoryPage QuotePage TaskPage ConfigPage App.
Open Scope py_scope.

(** ** Widgets and their values *)

(** The input widgets of the script. *)
Inductive widget : Type :=
| nav_radio
| code_input | report_select | force_check | notify_check | start_button
| filter_input | days_select | size_select | query_button | record_select
| quote_code_input | quote_button | kline_check
| refresh_button.

#[export] Instance widget_eq_dec : EqDecision widget.
Proof. solve_decision. Defined.

Definition widget_code (w : widget) : nat :=
  match w with
  | nav_radio => 0
  | code_input => 1 | report_select => 2 | force_check => 3 | notify_check => 4
  | start_button => 5
  | filter_input => 6 | days_select => 7 | size_select => 8 | query_button => 9
  | record_select => 10
  | quote_code_input => 11 | quote_button => 12 | kline_check => 13
  | refresh_button => 14
  end.

Definition widget_of_code (n : nat) : widget :=
  match n with
  | 0 => nav_radio
  | 1 => code_input | 2 => report_select | 3 => force_check | 4 => notify_check
  | 5 => start_button
  | 6 => filter_input | 7 => days_select | 8 => size_select | 9 => query_button
  | 10 => record_select
  | 11 => quote_code_input | 12 => quote_button | 13 => kline_check
  | _ => refresh_button
  end.

#[export] Instance widget_countable : Countable widget.
Proof. apply (inj_countable' widget_code widget_of_code). by intros []. Defined.

(** What a widget holds. *)
Inductive wvalue : Type :=
| WStr (s : pystr)
| WBool (b : bool)
| WInt (z : Z)
| WNat (n : nat).

#[export] Instance wvalue_eq_dec : EqDecision wvalue.
Proof. solve_decision. Defined.

(** The values kept for the widgets: those the user set, for the
    widgets that are still on the page. *)
Abbreviation store := (gmap widget wvalue) (only parsing).

Definition is_button (w : widget) : bool :=
  match w with
  | start_button | query_button | quote_button | refresh_button => true
  | _ => false
  end.

(** ** From the store to the input of a run *)

Definition str_at (st : store) (w : widget) (dflt : pystr) : pystr :=
  match st !! w with Some (WStr s) => s | _ => dflt end.

Definition bool_at (st : store) (w : widget) (dflt : bool) : bool :=
  match st !! w with Some (WBool b) => b | _ => dflt end.

Definition int_at (st : store) (w : widget) (dflt : Z) : Z :=
  match st !! w with Some (WInt z) => z | _ => dflt end.

Definition nat_at (st : store) (w : widget) (dflt : nat) : nat :=
  match st !! w with Some (WNat n) => n | _ => dflt end.

(** The value each widget returns in a run: the stored value, or the
    default the script gives the widget; a button returns true when the
    run was caused by its press. *)
Definition input_of (st : store) (pressed : option widget) : app_input :=
  AppInput (str_at st nav_radio (u8 "股票分析"))
    (AnalysisInput (str_at st code_input []) (str_at st report_select (u8 "detailed"))
       (bool_at st force_check false) (bool_at st notify_check true)
       (bool_decide (pressed = Some start_button)))
    (HistoryInput (str_at st filter_input []) (int_at st days_select 30)
       (int_at st size_select 20) (bool_decide (pressed = Some query_button))
       (nat_at st record_select 0))
    (QuoteInput (str_at st quote_code_input [])
       (bool_decide (pressed = Some quote_button)) (bool_at st kline_check false))
    (bool_decide (pressed = Some refresh_button)).

(** ** From the page to its widgets *)

(** The widget an element of the page [p] is.  The two text inputs
    labelled alike are told apart by the page; the disabled inputs of
    the configuration page take no input. *)
Definition widget_of (p : pystr) (e : element) : option widget :=
  match e with
  | st_radio _ _ => Some nav_radio
  | st_text_input l _ false =>
      if bool_decide (l = u8 "股票代码筛选") then Some filter_input
      else if bool_decide (l = u8 "股票代码") then
        if bool_decide (p = u8 "股票行情") then Some quote_code_input else Some code_input
      else None
  | st_selectbox l _ =>
      if bool_decide (l = u8 "报告类型") then Some report_select
      else if bool_decide (l = u8 "时间范围") then Some days_select
      else if bool_decide (l = u8 "每页数量") then Some size_select
      else if bool_decide (l = u8 "选择记录") then Some record_select
      else None
  | st_checkbox l _ =>
      if bool_decide (l = u8 "强制刷新") then Some force_check
      else if bool_decide (l = u8 "发送通知") then Some notify_check
      else if bool_decide (l = u8 "显示历史K线数据") then Some kline_check
      else None
  | st_button l =>
      if bool_decide (l = u8 "开始分析") then Some start_button
      else if bool_decide (l = u8 "查询") then Some query_button
      else if bool_decide (l = u8 "查询行情") then Some quote_button
      else if bool_decide (l = u8 "刷新任务列表") then Some refresh_button
      else None
  | _ => None
  end.

(** The widgets on a page. *)
Definition visible_of (p : pystr) (tr : trace) : gset widget :=
  list_to_set (omap (widget_of p) (flat tr)).

(** An element that is not one of the two widgets created under a
    button. *)
Definition top_level (e : element) : bool :=
  match e with
  | st_selectbox l _ => negb (bool_decide (l = u8 "选择记录"))
  | st_checkbox l _ => negb (bool_decide (l = u8 "显示历史K线数据"))
  | _ => true
  end.

(** The widgets created under a button. *)
Definition nested (w : widget) : bool :=
  match w with record_select | kline_check => true | _ => false end.

(** ** What the user does *)

(** The user sets the value of a widget, or presses a button. *)
Inductive action : Type :=
| Enter (w : widget) (v : wvalue)
| Press (w : widget).

(** The values a widget accepts. *)
Definition fits (w : widget) (v : wvalue) : bool :=
  match w, v with
  | nav_radio, WStr l => bool_decide (l ∈ utf8 <$> labels)
  | (code_input | filter_input | quote_code_input), WStr _ => true
  | report_select, WStr r => bool_decide (r ∈ utf8 <$> ["detailed"; "simple"]%string)
  | (force_check | notify_check | kline_check), WBool _ => true
  | days_select, WInt d => bool_decide (d ∈ [7; 30; 90; 180; 365]%Z)
  | size_select, WInt n => bool_decide (n ∈ [10; 20; 50; 100]%Z)
  | record_select, WNat _ => true
  | _, _ => false
  end.

(** An action needs its widget on the page. *)
Definition enabled (a : action) (on_page : gset widget) : Prop :=
  match a with
  | Enter w v => w ∈ on_page /\ is_button w = false /\ fits w v = true
  | Press w => w ∈ on_page /\ is_button w = true
  end.

#[export] Instance enabled_dec a on_page : Decision (enabled a on_page).
Proof. destruct a; apply _. Defined.

(** The button that causes the next run, and the store after the
    action. *)
Definition cause (a : action) : option widget :=
  match a with Press w => Some w | Enter _ _ => None end.

Definition record (a : action) (st : store) : store :=
  match a with Enter w v => <[w := v]> st | Press _ => st end.

(** ** Render cycles *)

Section protocol.
Context {W : Type} `{!Backend W}.

(** A configuration of a session between two interactions. *)
Record config : Type := Config {
  server : state W;          (* the world and the session state *)
  widgets : store;           (* the values kept for the widgets *)
  visible : gset widget;     (* the widgets on the page *)
  shown : trace;             (* the page *)
  ended : res signal unit    (* how the last run ended *)
}.

(** One render cycle: a run of the script, followed by a second run
    with no button pressed when the first asks for a rerun. *)
Definition cycle (st : store) (pressed : option widget) (s : state W) :
    state W * trace * res signal unit :=
  let o := streamlit_app (input_of st pressed) s in
  match result_of o with
  | Err Rerun => streamlit_app (input_of st None) (state_of o)
  | _ => o
  end.

(** The configuration a render cycle leaves: the values of the widgets
    that are not on the new page are dropped. *)
Definition settle (st : store) (pressed : option widget) (s : state W) : config :=
  let o := cycle st pressed s in
  let on_page := visible_of (page (input_of st None)) (trace_of o) in
  Config (state_of o) (filter (fun kv => kv.1 ∈ on_page) st) on_page
    (trace_of o) (result_of o).

(** The first page of a session. *)
Definition start (s : state W) : config := settle ∅ None s.

(** One interaction: an enabled action, then the render cycle it
    causes. *)
Inductive step : config -> config -> Prop :=
| step_act c a :
    enabled a (visible c) ->
    step c (settle (record a (widgets c)) (cause a) (server c)).

(** What a user can reach from a new session on the server state [s]. *)
Definition reachable (s : state W) (c : config) : Prop := rtc step (start s) c.

(** The interactions [acts] in turn, as far as they are enabled. *)
Fixpoint interact (acts : list action) (c : config) : config :=
  match acts with
  | [] => c
  | a :: rest =>
      if decide (enabled a (visible c))
      then interact rest (settle (record a (widgets c)) (cause a) (server c))
      else c
  end.

End protocol.

Arguments config W : clear implicits.

(** ** The values in the store *)

(** Every value kept is one its widget accepts. *)
Definition typed (st : store) : Prop :=
  map_Forall (fun w v => fits w v = true) st.

(** An input the widgets of the script can produce: the radio and the
    select boxes return one of their options. *)
Definition well_formed (i : app_input) : Prop :=
  page i ∈ utf8 <$> labels /\ input_ok (on_analysis i)
  /\ history_input_ok (on_history i).

(** * Properties *)

(** ** Where the nested widgets are created *)

Section pages.
Context {W : Type} `{!Backend W}.

Lemma analysis_top_level i : emits top_level (show_analysis_page i : ui W unit).
Proof. emits_auto. Qed.

Lemma history_top_level i :
  query_clicked i = false -> emits top_level (show_history_page i : ui W unit).
Proof. intros Hq. unfold show_history_page. rewrite Hq. emits_auto. Qed.

Lemma quote_top_level i :
  quote_clicked i = false -> emits top_level (show_stock_quote_page i : ui W unit).
Proof. intros Hq. unfold show_stock_quote_page. rewrite Hq. emits_auto. Qed.

Lemma tasks_top_level refresh : emits top_level (show_task_monitor_page refresh : ui W unit).
Proof. emits_auto. Qed.

Lemma config_top_level : emits top_level (show_config_page : ui W unit).
Proof. emits_auto. Qed.

End pages.

(** ** The script *)

Section script.
Context {W : Type} `{!Backend W}.

Lemma init_session_emits P :
  (forall c r, constructor_call c = true -> P (called c r) = true) ->
  emits P (init_session : ui W unit).
Proof.
  intros HP. unfold init_session. apply emits_bind; [by apply emits_nothing|].
  intros [|]; [apply emits_ret|]. unfold construct.
  repeat (apply emits_bind; [|intros ?]);
    first [apply emits_session_set | apply emits_invoke; intros r; by apply HP].
Qed.

(** A run not caused by the query or the quote button creates no
    nested widget. *)
Lemma app_top_level i :
  query_clicked (on_history i) = false -> quote_clicked (on_quote i) = false ->
  emits top_level (streamlit_app i : ui W unit).
Proof.
  intros Hh Hq. unfold streamlit_app.
  apply emits_bind; [emits_auto|intros _].
  apply emits_bind; [by apply init_session_emits|intros _].
  unfold main. do 3 (apply emits_bind; [emits_auto|intros ?]).
  unfold dispatch. repeat case_bool_decide.
  - apply analysis_top_level.
  - by apply history_top_level.
  - by apply quote_top_level.
  - apply tasks_top_level.
  - apply config_top_level.
  - apply emits_ret.
Qed.

End script.

(** A page of top-level elements shows no nested widget. *)
Lemma visible_top_level p tr w :
  Forall (fun x => top_level x = true) (flat tr) -> nested w = true ->
  w ∉ visible_of p tr.
Proof.
  intros Htr Hw. unfold visible_of.
  rewrite elem_of_list_to_set, list_elem_of_omap. intros (x & Hx & Hwx).
  rewrite list.Forall_forall in Htr. specialize (Htr x Hx).
  destruct w; try done;
    (destruct x; try done;
     repeat match goal with b : bool |- _ => destruct b end;
     simpl in Hwx, Htr; repeat case_bool_decide; by simplify_eq).
Qed.

(** ** Reruns *)

Section reruns.
Context {W : Type} `{!Backend W}.

Lemma init_session_settles : settles (init_session : ui W unit).
Proof.
  unfold init_session. apply settles_bind; [by intros s|].
  intros [|]; [by intros s|]. unfold construct.
  repeat (apply settles_bind; [|intros ?]);
    first [apply settles_session_set | apply (behaves_settles 1), behaves_invoke].
Qed.

(** Only the refresh button makes the script ask for a rerun. *)
Lemma app_settles i : on_tasks i = false -> settles (streamlit_app i : ui W unit).
Proof.
  intros Hr. unfold streamlit_app.
  apply settles_bind; [by intros s|intros _].
  apply settles_bind; [apply init_session_settles|intros _].
  unfold main.
  apply settles_bind; [apply renders_settles, sidebar_renders|intros _].
  apply settles_bind; [apply renders_settles, renders_session_get|intros _].
  apply settles_bind; [by apply renders_settles, in_side_renders|intros _].
  unfold dispatch. repeat case_bool_decide.
  - apply (behaves_settles 1), show_analysis_page_behaves.
  - apply (behaves_settles 1), show_history_page_behaves.
  - eapply behaves_settles, show_stock_quote_page_behaves.
  - rewrite Hr. intros s. by rewrite task_page_result.
  - apply (behaves_settles 1), show_config_page_behaves.
  - by intros s.
Qed.

Lemma cycle_cases st pressed (s : state W) :
  cycle st pressed s = streamlit_app (input_of st pressed) s
  \/ cycle st pressed s =
     streamlit_app (input_of st None) (state_of (streamlit_app (input_of st pressed) s)).
Proof. unfold cycle. destruct (result_of _) as [|[|]]; auto. Qed.

Lemma cycle_settles st pressed (s : state W) : result_of (cycle st pressed s) <> Err Rerun.
Proof.
  unfold cycle.
  destruct (result_of (streamlit_app (input_of st pressed) s)) as [|[|]] eqn:E;
    [by rewrite E..|]. by apply app_settles.
Qed.

End reruns.

(** ** What every reachable configuration satisfies *)

(** A call other than the request for the price history. *)
Definition not_kline (c : call) : bool :=
  match c with get_history_data _ _ _ _ => false | _ => true end.

Section invariants.
Context {W : Type} `{!Backend W}.

(** A configuration that keeps no value for a nested widget. *)
Definition clean (c : config W) : Prop :=
  forall w, nested w = true -> widgets c !! w = None.

(** The button that creates nested widgets was pressed. *)
Definition opens (pressed : option widget) : Prop :=
  pressed = Some query_button \/ pressed = Some quote_button.

Lemma cycle_top_level st pressed (s : state W) :
  ~ opens pressed -> Forall (fun x => top_level x = true) (flat (trace_of (cycle st pressed s))).
Proof.
  intros Hp. destruct (cycle_cases st pressed s) as [-> | ->].
  - apply app_top_level; apply bool_decide_eq_false; intros ->; apply Hp; by constructor.
  - by apply app_top_level.
Qed.

Lemma settle_keeps_none st pressed (s : state W) w :
  st !! w = None -> widgets (settle st pressed s) !! w = None.
Proof. intros Hw. apply map_lookup_filter_None. by left. Qed.

Lemma settle_drops st pressed (s : state W) w :
  ~ opens pressed -> nested w = true -> widgets (settle st pressed s) !! w = None.
Proof.
  intros Hp Hw. apply map_lookup_filter_None. right. intros x _.
  by apply visible_top_level; [apply cycle_top_level|].
Qed.

Lemma step_clean (c c' : config W) : step c c' -> clean c -> clean c'.
Proof.
  intros [c0 a _] Hc w Hw. destruct a as [w' v|w']; simpl.
  - apply settle_drops; [by intros [|]|done].
  - by apply settle_keeps_none, Hc.
Qed.

Lemma reachable_clean (s : state W) (c : config W) : reachable s c -> clean c.
Proof.
  revert c. apply rtc_ind_r; [|intros c c' _ Hs Hc; by eapply step_clean].
  intros w _. by apply settle_keeps_none.
Qed.

(** The inputs of a run read nested widgets only at their defaults. *)
Definition at_defaults (i : app_input) : Prop :=
  (query_clicked (on_history i) = true -> selected_idx (on_history i) = 0)
  /\ (quote_clicked (on_quote i) = true -> show_kline (on_quote i) = false).

Lemma input_at_defaults (st : store) pressed :
  (opens pressed -> forall w, nested w = true -> st !! w = None) ->
  at_defaults (input_of st pressed).
Proof.
  intros Hst. split; simpl; intros Hp%bool_decide_eq_true.
  - unfold nat_at. rewrite Hst; [done | by left | done].
  - unfold bool_at. rewrite Hst; [done | by right | done].
Qed.

Lemma next_input_at_defaults (c : config W) a :
  clean c -> at_defaults (input_of (record a (widgets c)) (cause a)).
Proof.
  intros Hc. apply input_at_defaults. destruct a as [w v|w]; simpl; [by intros [|]|].
  intros _. apply Hc.
Qed.

(** No configuration a user can reach keeps a value for a widget
    created under a button: the value is dropped by the run that
    follows its entry, which does not create the widget. *)
Theorem nested_values_dropped (s : state W) (c : config W) :
  reachable s c -> forall w, nested w = true -> widgets c !! w = None.
Proof. apply reachable_clean. Qed.

(** C13: in every run a user can cause, the detail selector of the
    history page is read at its first record and the K-line check box
    of the quote page as not ticked. *)
Theorem nested_inputs_default (s : state W) (c : config W) (a : action) :
  reachable s c -> enabled a (visible c) ->
  let i := input_of (record a (widgets c)) (cause a) in
  (query_clicked (on_history i) = true -> selected_idx (on_history i) = 0)
  /\ (quote_clicked (on_quote i) = true -> show_kline (on_quote i) = false).
Proof. intros Hc _. by apply next_input_at_defaults, (reachable_clean s). Qed.

(** C16: a render cycle ends: the run that follows a rerun request asks
    for none, so no configuration is left with a pending rerun. *)
Theorem rerun_settles (s : state W) (c : config W) :
  reachable s c -> ended c <> Err Rerun.
Proof.
  revert c. apply rtc_ind_r; [apply cycle_settles|].
  intros c c' _ [c0 a _] _. apply cycle_settles.
Qed.

End invariants.

(** ** The price history is never requested *)

Section kline.
Context {W : Type} `{!Backend W}.

Lemma quote_no_kline i :
  (quote_clicked i = true -> show_kline i = false) ->
  emits (calling not_kline) (show_stock_quote_page i : ui W unit).
Proof.
  intros Hk. unfold show_stock_quote_page.
  destruct (quote_clicked i); [|emits_auto].
  unfold fetch_quote, show_quote_result, show_quote. rewrite (Hk eq_refl). emits_auto.
Qed.

Lemma app_no_kline i : at_defaults i -> emits (calling not_kline) (streamlit_app i : ui W unit).
Proof.
  intros [_ Hk]. unfold streamlit_app.
  apply emits_bind; [emits_auto|intros _].
  apply emits_bind; [by apply init_session_emits; intros []|intros _].
  unfold main. do 3 (apply emits_bind; [emits_auto|intros ?]).
  unfold dispatch. repeat case_bool_decide; [emits_auto..|by apply quote_no_kline| | |];
    emits_auto.
Qed.

Lemma cycle_no_kline st pressed (s : state W) :
  (opens pressed -> forall w, nested w = true -> st !! w = None) ->
  Forall (fun c => not_kline c = true) (calls (trace_of (cycle st pressed s))).
Proof.
  intros Hst. destruct (cycle_cases st pressed s) as [-> | ->];
    apply emits_calls_in, app_no_kline, input_at_defaults; [done|].
  by intros [|].
Qed.

(** C12: however the user interacts, no run requests the price
    history: the check box that asks for it is created in a run caused
    by the quote button, and ticking it causes a run in which the
    button is not pressed. *)
Theorem kline_never_requested (s : state W) (c : config W) :
  reachable s c -> Forall (fun call => not_kline call = true) (calls (shown c)).
Proof.
  revert c. apply rtc_ind_r; [apply cycle_no_kline; by intros [|]|].
  intros c c' Hc Hs _. destruct Hs as [c a _]. apply cycle_no_kline.
  destruct a as [w v|w]; simpl; [by intros [|]|].
  intros _. by apply (reachable_clean s).
Qed.

(** The interactions a user performs lead to a reachable
    configuration. *)
Lemma interact_reachable acts (s : state W) (c : config W) :
  reachable s c -> reachable s (interact acts c).
Proof.
  revert c. induction acts as [|a rest IH]; intros c Hc; [done|]. simpl.
  destruct (decide _) as [Ha|]; [|done].
  apply IH. eapply rtc_r; [exact Hc|]. by constructor.
Qed.

End kline.

(** ** The store is typed *)

Section typing.
Context {W : Type} `{!Backend W}.

Lemma typed_record a st on_page : enabled a on_page -> typed st -> typed (record a st).
Proof.
  destruct a as [w v|w]; simpl; [|done].
  intros (_ & _ & Hv) Hst. by apply map_Forall_insert_2.
Qed.

Lemma typed_settle st pressed (s : state W) :
  typed st -> typed (widgets (settle st pressed s)).
Proof. intros Hst w v [Hw _]%map_lookup_filter_Some. by apply Hst. Qed.

Lemma reachable_typed (s : state W) (c : config W) : reachable s c -> typed (widgets c).
Proof.
  revert c. apply rtc_ind_r; [apply typed_settle, map_Forall_empty|].
  intros c c' _ [c0 a Ha] Hc. by eapply typed_settle, typed_record.
Qed.

(** A typed store gives each run an input of the right shape. *)
Lemma typed_input st pressed : typed st -> well_formed (input_of st pressed).
Proof.
  intros Hst. unfold well_formed, input_ok, history_input_ok. simpl.
  unfold str_at, int_at. repeat split;
    (destruct (st !! _) as [[]|] eqn:E; try (by apply (bool_decide_unpack _));
     apply Hst in E; by apply bool_decide_eq_true in E).
Qed.


End typing.

(** ** Witnesses in the scripted world *)

(** A user opens the quote page, enters a code, asks for the quote and
    ticks the K-line check box. *)
Definition to_quote : list action :=
  [Enter nav_radio (WStr (u8 "股票行情")); Enter quote_code_input (WStr (u8 "600519"));
   Press quote_button].

Definition tick_kline : list action := to_quote ++ [Enter kline_check (WBool true)].

(** The server: a ready session whose collaborators answer a quote,
    then a price history. *)
Definition quote_server : state script :=
  scripted_state [Ok a_quote; Ok (VDict [(u8 "data", VList [])])].

(** After the quote the check box is on the page; after the tick it is
    gone with its value, no collaborator was asked, and the second
    answer is still waiting. *)
Example kline_tick_is_lost :
  kline_check ∈ visible (interact to_quote (start quote_server))
  /\ (let c := interact tick_kline (start quote_server) in
      (kline_check ∉ visible c) /\ widgets c !! kline_check = None
      /\ calls (shown c) = []
      /\ responses (world (server c)) = [Ok (VDict [(u8 "data", VList [])])]).
Proof. split; [|split_and!]; by vm_compute. Qed.

Lemma nested_values_dropped_witness :
  widgets (interact tick_kline (start quote_server)) !! kline_check = None
  /\ widgets (interact tick_kline (start quote_server)) !! record_select = None.
Proof.
  split.
  - apply (nested_values_dropped quote_server _ (interact_reachable _ _ _ (rtc_refl _ _))
             kline_check eq_refl).
  - apply (nested_values_dropped quote_server _ (interact_reachable _ _ _ (rtc_refl _ _))
             record_select eq_refl).
Defined.

Lemma nested_inputs_default_witness :
  let c := interact tick_kline (start quote_server) in
  let i := input_of (record (Press quote_button) (widgets c)) (cause (Press quote_button)) in
  (query_clicked (on_history i) = true -> selected_idx (on_history i) = 0)
  /\ (quote_clicked (on_quote i) = true -> show_kline (on_quote i) = false).
Proof.
  apply (nested_inputs_default quote_server).
  - apply interact_reachable, rtc_refl.
  - by vm_compute.
Defined.

Lemma rerun_settles_witness :
  ended (interact [Enter nav_radio (WStr (u8 "任务监控")); Press refresh_button]
           (start (scripted_state []))) <> Err Rerun.
Proof. apply (rerun_settles (scripted_state [])), interact_reachable, rtc_refl. Defined.

Lemma kline_never_requested_witness :
  Forall (fun call => not_kline call = true)
    (calls (shown (interact tick_kline (start quote_server)))).
Proof. apply (kline_never_requested quote_server), interact_reachable, rtc_refl. Defined.


(** A press of the refresh button: the first run asks for a rerun, the
    second asks the queue. *)
Example refresh_cycle :
  let c := interact [Enter nav_radio (WStr (u8 "任务监控")); Press refresh_button]
             (start (scripted_state [Ok (VObj 8); Ok (VList []); Ok (VObj 9); Ok (VList [])])) in
  ended c = Ok tt /\ calls (shown c) = [get_task_queue; list_tasks (VObj 9) 50].
Proof. by vm_compute. Qed.
