(* ===== verification/Contract.v ===== *)
(** * The contract of the controller, and the script as its implementation

    The design of the dashboard names four parts beside the views: a
    view router, a session state, a request builder and the error
    policy of a session.  The script has no function for any of them:
    the router is the [if]/[elif] chain of [main], the session state is
    the block at the top of the script, the requests are built where
    the pages call their collaborator.  This file states each part as a
    definition of its own, typed and free of the script's monad, and
    proves where [src/streamlit_app.py] implements it and where it
    departs from it:

    - [route] is the mapping from the labels of the navigation radio to
      the five views, and [dispatch] renders the view [route] selects;
    - [phase] is the life of a session, [evolves] the steps the design
      allows and the one it does not, and every run of the script is
      one of them;
    - [buildAnalysisRequest], [buildHistoryQuery] and
      [buildQuoteRequest] are the requests of the design, and the calls
      of the pages are compared with them;
    - no exception and no pending rerun is left by any run a user can
      cause in a session that has its configuration, and the user can
      always choose any of the five views. *)

From Stdlib Require Import String QArith.
From stdpp Require Import gmap.
From S2P Require Import Prelude PyStr PyVal PyDate Ui Scripted Session.
From S2P Require Import AnalysisPage HistoryPage QuotePage TaskPage ConfigPage App.
From S2P Require Import Protocol.
Open Scope py_scope.

(** ** The view router *)

(** The five views. *)
Inductive screen : Type :=
| AnalysisView | HistoryView | QuoteView | TaskMonitorView | ConfigView.

#[export] Instance screen_eq_dec : EqDecision screen.
Proof. solve_decision. Defined.

Definition screens : list screen :=
  [AnalysisView; HistoryView; QuoteView; TaskMonitorView; ConfigView].

(** The label of a view in the navigation radio. *)
Definition label_of (v : screen) : pystr :=
  match v with
  | AnalysisView => u8 "股票分析"
  | HistoryView => u8 "历史记录"
  | QuoteView => u8 "股票行情"
  | TaskMonitorView => u8 "任务监控"
  | ConfigView => u8 "系统配置"
  end.

(** [route(selection)]: the view of a label, and [None] (the routing
    error of the design) for any other value. *)
Definition route (selection : pystr) : option screen :=
  find (fun v => bool_decide (selection = label_of v)) screens.

(** ** The life of a session *)

(** A session is new, or holds its configuration and its four handles,
    or carries the flag without all of them. *)
Inductive phase : Type :=
| Fresh
| Ready (config analysis history stock system_config : pyval)
| Broken.

(** The phase of a session state. *)
Definition phase_of (x : session) : phase :=
  match initialized x with
  | None => Fresh
  | Some _ =>
      match Ui.config x, analysis_service x, history_service x, stock_service x,
            system_config_service x with
      | Some c, Some a, Some h, Some q, Some y => Ready c a h q y
      | _, _, _, _, _ => Broken
      end
  end.

(** The steps of a session: it is initialised once and kept as it is
    from then on.  The design has the first two rules; [breaks] is the
    step the script adds by setting the flag before it constructs. *)
Inductive evolves : phase -> phase -> Prop :=
| initialises c a h q y : evolves Fresh (Ready c a h q y)
| keeps p : p <> Fresh -> evolves p p
| breaks : evolves Fresh Broken.

(** ** The requests *)

(** The request of an analysis. *)
Record AnalysisRequest : Type := {
  stockCode : pystr;
  reportType : pystr;
  forceRefresh : bool;
  queryId : pystr;
  notify : bool
}.

(** [buildAnalysisRequest]: [None] (the validation error of the design)
    when the code trims to the empty string. *)
Definition buildAnalysisRequest (rawCode type : pystr) (force notify : bool)
    (id : pystr) : option AnalysisRequest :=
  let code := strip rawCode in
  if str_truthy code then Some (Build_AnalysisRequest code type force id notify)
  else None.

(** The query of the history page; the start date is a day. *)
Record HistoryQuery : Type := {
  stockCodeFilter : option pystr;
  startDate : Z;
  pageNumber : Z;
  pageSize : Z
}.

(** [buildHistoryQuery]: no filter when the input trims to the empty
    string, the first page, the day [daysBack] days before [now]. *)
Definition buildHistoryQuery (rawFilter : pystr) (daysBack size now : Z) : HistoryQuery :=
  let f := strip rawFilter in
  Build_HistoryQuery (if str_truthy f then Some f else None) (now - daysBack) 1 size.

(** [buildQuoteRequest]: the trimmed code, [None] when it is empty. *)
Definition buildQuoteRequest (rawCode : pystr) : option pystr :=
  let code := strip rawCode in
  if str_truthy code then Some code else None.

(** The calls that carry the requests to the collaborators. *)
Definition analysis_call (svc : pyval) (r : AnalysisRequest) : call :=
  analyze_stock svc (stockCode r) (reportType r) (forceRefresh r) (queryId r) (notify r).

Definition history_query_call (svc : pyval) (q : HistoryQuery) : call :=
  get_history_list svc (stockCodeFilter q) (strftime_ymd (startDate q))
    (pageNumber q) (pageSize q).

Section contract.
Context {W : Type} `{!Backend W}.

(** The view-render call of a view. *)
Definition render_view (v : screen) (i : app_input) : ui W unit :=
  match v with
  | AnalysisView => show_analysis_page (on_analysis i)
  | HistoryView => show_history_page (on_history i)
  | QuoteView => show_stock_quote_page (on_quote i)
  | TaskMonitorView => show_task_monitor_page (on_tasks i)
  | ConfigView => show_config_page
  end.

End contract.

(** * Properties *)

(** ** The router *)

Lemma labels_of_screens : label_of <$> screens = utf8 <$> labels.
Proof. reflexivity. Qed.

(** The labels are distinct: a label is the label of one view. *)
Lemma label_of_inj : Inj (=) (=) label_of.
Proof. intros [] [] H; try done; by vm_compute in H. Qed.

Lemma route_label v : route (label_of v) = Some v.
Proof. by destruct v. Qed.

Lemma route_Some selection v : route selection = Some v <-> selection = label_of v.
Proof.
  split; [|intros ->; apply route_label].
  unfold route. simpl. repeat case_bool_decide; naive_solver.
Qed.

Lemma route_None selection : route selection = None <-> selection ∉ utf8 <$> labels.
Proof.
  rewrite <- labels_of_screens, list_elem_of_fmap, eq_None_not_Some. split.
  - intros Hn (v & -> & _). apply Hn. by rewrite route_label.
  - intros Hn [v Hv%route_Some]. apply Hn. exists v. split; [done|].
    destruct v; set_solver.
Qed.

Section router.
Context {W : Type} `{!Backend W}.

(** C21: the [if]/[elif] chain of [main] implements the router: it
    renders the view that [route] gives for the selection, exactly one
    for each of the five labels, and nothing where [route] fails. *)
Theorem dispatch_refines_route (i : app_input) :
  dispatch i = from_option (fun v => render_view v i) (mret tt) (route (page i))
  /\ (forall v, route (page i) = Some v <-> page i = label_of v).
Proof.
  split; [|intros v; apply route_Some].
  unfold dispatch, route. simpl. by repeat case_bool_decide.
Qed.

End router.

(** ** The session *)

Section session.
Context {W : Type} `{!Backend W}.

Lemma phase_of_flagged x : flagged x <-> phase_of x <> Fresh.
Proof.
  unfold flagged, phase_of. destruct (initialized x); [|split; [by intros [? ?]|done]].
  split; [|by eexists]. intros _. by repeat case_match.
Qed.

(** The first run of a session in which no constructor raises leaves
    the session ready. *)
Lemma first_run_ready i (s : state W) :
  never_fails constructors -> initialized (sess s) = None ->
  exists c a h q y, phase_of (sess (state_of (streamlit_app i s))) = Ready c a h q y.
Proof.
  intros Hnf Hs. unfold streamlit_app.
  rewrite (run_bind_ok _ _ s s (trace_of (set_page_config s)) tt) by done.
  unfold prepend. rewrite state_of_mk, run_bind, init_session_first by done.
  destruct (build_complete (State (world s) (set_initialized (VBool true) (sess s))) Hnf)
    as (Hr & _ & Hi & (c & Hc) & (a & Ha) & (h & Hh) & (q & Hq) & (y & Hy)).
  destruct (build _) as [[s1 t1] r1]; simpl_run. subst r1.
  pose proof (main_tidy i s1) as (_ & Hm & _).
  destruct (main i s1) as [[s2 t2] r2]; simpl_run.
  exists c, a, h, q, y. unfold phase_of. by rewrite Hm, Hi, Hc, Ha, Hh, Hq, Hy.
Qed.

(** C17: every run of the script is a step of the session: a new session
    is initialised, with its five attributes when no constructor
    raises; a session that carries the flag is left as it is, ready or
    broken, with the same handles. *)
Theorem session_evolves (i : app_input) (s : state W) :
  evolves (phase_of (sess s)) (phase_of (sess (state_of (streamlit_app i s))))
  /\ (never_fails constructors ->
      phase_of (sess (state_of (streamlit_app i s))) = Broken ->
      phase_of (sess s) = Broken).
Proof.
  destruct (initialized (sess s)) as [v|] eqn:Hv.
  - assert (Hf : flagged (sess s)) by (unfold flagged; rewrite Hv; by eexists).
    rewrite (app_keeps_session i s Hf). split; [|done].
    by apply keeps, phase_of_flagged.
  - replace (phase_of (sess s)) with Fresh by (unfold phase_of; by rewrite Hv).
    split.
    + pose proof (proj1 (phase_of_flagged _) (app_flagged i s)) as Hp.
      destruct (phase_of _); [done|constructor..].
    + intros Hnf Hb. destruct (first_run_ready i s Hnf Hv) as (c & a & h & q & y & Hr).
      congruence.
Qed.

End session.

(** ** The requests *)

Section requests.
Context {W : Type} `{!Backend W}.

Lemma strip_falsy s : str_truthy (strip s) = false -> strip s = [].
Proof. by destruct (strip s). Qed.

(** The calls of the analysis page after the button, with a code that
    is not empty. *)
Lemma analysis_calls i (s : state W) svc u w1 :
  start_clicked i = true -> stock_code i <> [] ->
  analysis_service (sess s) = Some svc ->
  uuid4_hex (world s) = (u, w1) ->
  calls (trace_of (show_analysis_page i s)) = [the_call i svc u].
Proof.
  intros Hc Hne Hs Hu.
  destruct (backend_call (the_call i svc u) w1) as [r w2] eqn:Hb.
  rewrite (analysis_run i s svc u w1 r w2) by done.
  rewrite trace_of_mk, !calls_app.
  destruct (analysis_form_quiet s) as (-> & _).
  destruct (after_answer_renders r u (State w2 (sess s))) as (_ & Hp & _).
  by rewrite (plain_calls _ Hp).
Qed.

(** C19: the analysis page sends the request that [buildAnalysisRequest]
    builds, with the trimmed code and the id drawn in this run, and
    sends nothing for an empty code; for a code of white space, which
    the builder rejects, it sends a request with the empty code. *)
Theorem analysis_refines_builder (i : analysis_input) (s : state W) svc u w1 :
  start_clicked i = true ->
  analysis_service (sess s) = Some svc ->
  uuid4_hex (world s) = (u, w1) ->
  calls (trace_of (show_analysis_page i s)) =
  match buildAnalysisRequest (stock_code i) (report_type i) (force_refresh i)
          (send_notification i) u with
  | Some r => [analysis_call svc r]
  | None =>
      if str_truthy (stock_code i)
      then [analyze_stock svc [] (report_type i) (force_refresh i) u (send_notification i)]
      else []
  end.
Proof.
  intros Hc Hs Hu. unfold buildAnalysisRequest.
  destruct (stock_code i) as [|c code] eqn:Hcode.
  - unfold show_analysis_page.
    erewrite run_bind_ok by apply analysis_form_run. rewrite Hc, Hcode.
    by vm_compute.
  - rewrite <- Hcode, (analysis_calls i s svc u w1) by (done || by rewrite Hcode).
    unfold the_call. destruct (str_truthy (strip _)) eqn:Ht; [done|].
    rewrite (strip_falsy _ Ht). by rewrite Hcode.
Qed.

(** The call of the history page after the button. *)
Lemma history_calls i (s : state W) now w1 svc :
  query_clicked i = true ->
  today (world s) = (now, w1) -> (1 <= now - days_back i)%Z ->
  history_service (sess s) = Some svc ->
  calls (trace_of (show_history_page i s)) = [history_call i now svc].
Proof.
  intros Hc Ht Hd Hs.
  destruct (backend_call (history_call i now svc) w1) as [r w2] eqn:Hb.
  rewrite (history_run i s now w1 svc r w2) by done.
  rewrite trace_of_mk, !calls_app.
  destruct history_widgets_quiet as (-> & _).
  destruct (after_history_renders r i (State w2 (sess s))) as (_ & Hp & _).
  by rewrite (plain_calls _ Hp).
Qed.

(** C20: the history page sends the query that [buildHistoryQuery]
    builds (the first page, the chosen size, the day [days_back] days
    before the day of this run) except for its filter when the input is
    white space: the builder has no filter then, the page sends the
    empty string. *)
Theorem history_refines_builder (i : history_input) (s : state W) now w1 svc :
  query_clicked i = true ->
  today (world s) = (now, w1) -> (1 <= now - days_back i)%Z ->
  history_service (sess s) = Some svc ->
  let q := buildHistoryQuery (stock_code_filter i) (days_back i) (page_size i) now in
  calls (trace_of (show_history_page i s)) =
  [if str_truthy (stock_code_filter i) && negb (str_truthy (strip (stock_code_filter i)))
   then get_history_list svc (Some []) (strftime_ymd (startDate q)) (pageNumber q) (pageSize q)
   else history_query_call svc q].
Proof.
  intros Hc Ht Hd Hs q. rewrite (history_calls i s now w1 svc) by done.
  unfold history_call, history_query_call, q, buildHistoryQuery, filter_of. simpl.
  destruct (stock_code_filter i) as [|c f] eqn:Hf; [done|]. simpl.
  destruct (str_truthy (strip _)) eqn:Hst; [done|]. simpl.
  by rewrite (strip_falsy _ Hst).
Qed.

(** The first call of the quote page is the request that
    [buildQuoteRequest] builds, with the trimmed code; no call is made
    for an empty code, and a code of white space, which the builder
    rejects, is asked for as the empty code. *)
Theorem quote_refines_builder (i : quote_input) (s : state W) svc :
  quote_clicked i = true ->
  stock_service (sess s) = Some svc ->
  head (calls (trace_of (show_stock_quote_page i s))) =
  match buildQuoteRequest (quote_code i) with
  | Some code => Some (get_realtime_quote svc code)
  | None => if str_truthy (quote_code i) then Some (get_realtime_quote svc []) else None
  end.
Proof.
  intros Hc Hs. unfold buildQuoteRequest.
  destruct (quote_code i) as [|c code] eqn:Hcode.
  - unfold show_stock_quote_page.
    rewrite (run_bind_ok _ _ _ _ _ _ (quote_form_run s)), Hc, Hcode. by vm_compute.
  - rewrite <- Hcode.
    destruct (backend_call (quote_call i svc) (world s)) as [r w1] eqn:Hb.
    rewrite (quote_run i s svc r w1) by (done || by rewrite Hcode).
    rewrite trace_of_mk, !calls_app.
    destruct (quote_form_quiet s) as (-> & _). cbn [app calls head].
    unfold quote_call. destruct (str_truthy (strip _)) eqn:Ht.
    + by rewrite Hcode.
    + rewrite (strip_falsy _ Ht). by rewrite Hcode.
Qed.

End requests.

(** ** The error policy: no failure ends a session *)

Section policy.
Context {W : Type} `{!Backend W}.

(** The clock of the server is past the first year, so that the start
    date of the history page exists for each of its day counts. *)
Hypothesis clock_late : forall w : W, (366 <= (today w).1)%Z.

(** A run in a session that has its configuration. *)
Lemma run_ends i (s : state W) c0 :
  flagged (sess s) -> Ui.config (sess s) = Some c0 -> well_formed i ->
  result_of (streamlit_app i s) =
    (if bool_decide (page i = u8 "任务监控") && on_tasks i then Err Rerun else Ok tt)
  /\ sess (state_of (streamlit_app i s)) = sess s.
Proof.
  intros Hf Hc (_ & _ & Hd & _). split; [|by apply app_keeps_session].
  rewrite app_run, (main_run i s c0) by done. unfold prepend. rewrite !result_of_mk.
  pose proof (clock_late (world s)) as Hnow.
  destruct (today (world s)) as [now w1] eqn:Ht.
  apply (dispatch_result i s now w1 Ht). simpl in Hnow.
  unfold days_options in Hd. set_unfold in Hd. lia.
Qed.

(** A render cycle in such a session ends normally and keeps the
    session. *)
Lemma cycle_ends st pressed (s : state W) c0 :
  flagged (sess s) -> Ui.config (sess s) = Some c0 -> typed st ->
  result_of (cycle st pressed s) = Ok tt
  /\ sess (state_of (cycle st pressed s)) = sess s.
Proof.
  intros Hf Hc Hst. unfold cycle.
  destruct (run_ends (input_of st pressed) s c0 Hf Hc (typed_input st pressed Hst))
    as [Hr Hs].
  rewrite Hr. destruct (_ && _); [|by rewrite Hr].
  destruct (run_ends (input_of st None) (state_of (streamlit_app (input_of st pressed) s)) c0)
    as [Hr' Hs']; [by rewrite Hs..|by apply typed_input|].
  rewrite Hr', Hs', Hs. by rewrite andb_false_r.
Qed.


End policy.

(** ** Navigation: every view stays within reach *)

Section navigation.
Context {W : Type} `{!Backend W}.

(** The radio of the sidebar is on the page of every run that reaches
    [main]. *)
Lemma radio_on_page p i (s : state W) :
  flagged (sess s) -> nav_radio ∈ visible_of p (trace_of (streamlit_app i s)).
Proof.
  intros Hf. rewrite app_run by done. unfold prepend, main. rewrite trace_of_mk.
  rewrite (run_bind_ok _ _ _ _ _ _ (sidebar_run s)). unfold prepend.
  rewrite trace_of_mk. unfold visible_of.
  rewrite elem_of_list_to_set, !flat_app, !omap_app, !elem_of_app.
  right. left. by apply (bool_decide_unpack _).
Qed.

(** A render cycle keeps the session and shows the radio. *)
Lemma cycle_keeps st pressed (s : state W) :
  flagged (sess s) ->
  sess (server (settle st pressed s)) = sess s
  /\ nav_radio ∈ visible (settle st pressed s).
Proof.
  intros Hf. unfold settle, cycle. cbn [server visible].
  pose proof (app_keeps_session (input_of st pressed) s Hf) as Hs.
  destruct (result_of (streamlit_app (input_of st pressed) s)) as [|[|]];
    try (split; [done|by apply radio_on_page]).
  assert (Hf' : flagged (sess (state_of (streamlit_app (input_of st pressed) s))))
    by by rewrite Hs.
  split; [by rewrite app_keeps_session|by apply radio_on_page].
Qed.

Lemma reachable_keeps (s : state W) (c : config W) :
  flagged (sess s) -> reachable s c ->
  sess (server c) = sess s /\ nav_radio ∈ visible c.
Proof.
  intros Hf. revert c. apply rtc_ind_r; [by apply cycle_keeps|].
  intros c c' _ Hstep [Hs _]. destruct Hstep as [c a _].
  destruct (cycle_keeps (record a (widgets c)) (cause a) (server c)) as [Hs' Hon];
    [by rewrite Hs|]. split; [congruence|done].
Qed.

(** C18: every view stays within reach.  In a session that is past its
    initialisation, in every configuration a user can reach the
    navigation radio is on the page, each of the five labels can be
    chosen, and the choice is the page of the runs that follow. *)
Theorem every_view_reachable (s : state W) (c : config W) (v : screen) :
  phase_of (sess s) <> Fresh -> reachable s c ->
  let a := Enter nav_radio (WStr (label_of v)) in
  let c' := settle (record a (widgets c)) (cause a) (server c) in
  enabled a (visible c) /\ reachable s c'
  /\ page (input_of (widgets c') None) = label_of v.
Proof.
  intros Hf%phase_of_flagged Hr a c'.
  destruct (reachable_keeps s c Hf Hr) as [Hs Hon].
  assert (Ha : enabled a (visible c)).
  { split_and!; [done|done|]. apply bool_decide_eq_true.
    rewrite <- labels_of_screens. apply list_elem_of_fmap_2. destruct v; set_solver. }
  assert (Hr' : reachable s c') by (eapply rtc_r; [exact Hr|by constructor]).
  split_and!; [done..|].
  destruct (reachable_keeps s c' Hf Hr') as [_ Hon'].
  cbn [input_of page]. unfold str_at, c', settle. cbn [widgets].
  rewrite map_lookup_filter_Some_2 with (x := WStr (label_of v)); [done| |done].
  apply lookup_insert_eq.
Qed.

End navigation.

(** ** Witnesses *)

(** The code of the specification's test list, with white space around
    it. *)
Definition padded : analysis_input :=
  AnalysisInput (u8 " 600519 ") (u8 "detailed") false true true.

Lemma analysis_refines_builder_witness :
  calls (trace_of (show_analysis_page padded (scripted_state [Ok VNone]))) =
  match buildAnalysisRequest (u8 " 600519 ") (u8 "detailed") false true (hex 32 0) with
  | Some r => [analysis_call (VObj 1) r]
  | None =>
      if str_truthy (u8 " 600519 ")
      then [analyze_stock (VObj 1) [] (u8 "detailed") false (hex 32 0) true]
      else []
  end.
Proof.
  exact (analysis_refines_builder padded (scripted_state [Ok VNone]) (VObj 1) (hex 32 0)
           (Script [Ok VNone] 1 739000) eq_refl eq_refl eq_refl).
Defined.

(** The request is built with the trimmed code. *)
Example padded_request :
  buildAnalysisRequest (u8 " 600519 ") (u8 "detailed") false true (hex 32 0) =
  Some (Build_AnalysisRequest (u8 "600519") (u8 "detailed") false (hex 32 0) true).
Proof. reflexivity. Qed.

(** The builders reject white space; the pages do not. *)
Example blank_rejected :
  buildAnalysisRequest (u8 "  ") (u8 "simple") false true (hex 32 0) = None
  /\ buildQuoteRequest (u8 "  ") = None
  /\ stockCodeFilter (buildHistoryQuery (u8 "  ") 30 20 739000) = None.
Proof. by vm_compute. Qed.

Lemma history_refines_builder_witness :
  let q := buildHistoryQuery (u8 " ") 30 20 739000 in
  calls (trace_of (show_history_page (queried (u8 " ")) (scripted_state [Ok VNone]))) =
  [if str_truthy (u8 " ") && negb (str_truthy (strip (u8 " ")))
   then get_history_list (VObj 2) (Some []) (strftime_ymd (startDate q))
          (pageNumber q) (pageSize q)
   else history_query_call (VObj 2) q].
Proof.
  exact (history_refines_builder (queried (u8 " ")) (scripted_state [Ok VNone])
           739000%Z (Script [Ok VNone] 0 739000) (VObj 2) eq_refl eq_refl
           ltac:(by vm_compute) eq_refl).
Defined.

Lemma quote_refines_builder_witness :
  head (calls (trace_of (show_stock_quote_page (asked (u8 "AAPL ") false)
                           (scripted_state [Ok VNone])))) =
  match buildQuoteRequest (u8 "AAPL ") with
  | Some code => Some (get_realtime_quote (VObj 3) code)
  | None => if str_truthy (u8 "AAPL ") then Some (get_realtime_quote (VObj 3) []) else None
  end.
Proof.
  exact (quote_refines_builder (asked (u8 "AAPL ") false) (scripted_state [Ok VNone])
           (VObj 3) eq_refl eq_refl).
Defined.

(** A user of the steady world who visits the history page, asks for
    the records of the last 365 days and refreshes the task list. *)
Definition a_visit : list action :=
  [Enter nav_radio (WStr (u8 "历史记录")); Enter days_select (WInt 365);
   Press query_button; Enter nav_radio (WStr (u8 "任务监控")); Press refresh_button].

(** The clock of the steady world is late enough. *)
Lemma steady_clock_late (w : unit) : (366 <= (today w).1)%Z.
Proof. simpl. lia. Qed.


Lemma every_view_reachable_witness :
  let a := Enter nav_radio (WStr (label_of ConfigView)) in
  let c := interact a_visit (start (State tt ready)) in
  let c' := settle (record a (widgets c)) (cause a) (server c) in
  enabled a (visible c) /\ reachable (State tt ready) c'
  /\ page (input_of (widgets c') None) = label_of ConfigView.
Proof.
  apply (every_view_reachable (State tt ready) (interact a_visit (start (State tt ready)))
           ConfigView).
  - discriminate.
  - apply interact_reachable, rtc_refl.
Defined.

(** A session whose second constructor raises is broken, and stays so. *)
Example broken_session :
  let s1 := state_of (streamlit_app idle
                        (fresh_state [Ok (VObj 0); Err (Raised (u8 "no model"))])) in
  phase_of (sess s1) = Broken
  /\ phase_of (sess (state_of (streamlit_app idle s1))) = Broken.
Proof. by vm_compute. Qed.

(** A session whose constructors answer is ready. *)
Example ready_session :
  phase_of (sess (state_of (streamlit_app idle (State tt empty_session)))) =
  Ready (VObj 0) (VObj 1) (VObj 2) (VObj 3) (VObj 4).
Proof. by vm_compute. Qed.
