(* ===== verification/Outcome.v ===== *)
(** * The outcome of a view, and what the page shows of it

    The design gives every view the same protocol: validate the input,
    ask one collaborator inside a boundary that isolates failures,
    and show a failure as an error, an empty answer as a "no data"
    state that is not an error, and data as data.  A run is then idle,
    rejected, failed, without data, or shown.

    What happened in a run is read off its trace by marks that do not
    depend on any text: the answers of the collaborators and the
    records written to the log ([happened]).  What the user sees of it
    is the framing of the messages: [st.success], [st.info],
    [st.warning], [st.error] ([frames]).  [framed] is the table that
    gives the frames of each outcome for each of the five views of
    [src/streamlit_app.py], and every run of every view is proved to
    follow it.  The table shows where the script leaves the design: on
    the analysis and the quote page an empty answer has the frame of a
    failure. *)

From Stdlib Require Import String QArith.
From stdpp Require Import gmap.
From S2P Require Import Prelude PyStr PyVal PyDate Ui Scripted Session.
From S2P Require Import AnalysisPage HistoryPage QuotePage TaskPage ConfigPage App.
From S2P Require Import Protocol Contract.
Open Scope py_scope.

(** ** Marks *)

(** The framing of a message. *)
Inductive frame : Type := Success | Information | Warning | Error.

#[export] Instance frame_eq_dec : EqDecision frame.
Proof. solve_decision. Defined.

(** What a test of the page can see without reading any text: the
    frame of a message, that a record was written to the log, the
    answer of a collaborator. *)
Inductive mark : Type :=
| Framed (f : frame)
| Logged
| Answer (r : res pyexn pyval).

Definition mark_of (x : element) : option mark :=
  match x with
  | st_success _ => Some (Framed Success)
  | st_info _ => Some (Framed Information)
  | st_warning _ => Some (Framed Warning)
  | st_error _ => Some (Framed Error)
  | logged _ _ => Some Logged
  | called _ r => Some (Answer r)
  | _ => None
  end.

Definition marks (tr : trace) : list mark := omap mark_of (flat tr).

Definition frame_in (m : mark) : option frame :=
  match m with Framed f => Some f | _ => None end.

Definition answer_in (m : mark) : option (res pyexn pyval) :=
  match m with Answer r => Some r | _ => None end.

Definition is_logged (m : mark) : bool :=
  match m with Logged => true | _ => false end.

(** The frames, the answers, and whether the log was written. *)
Definition frames_in (ms : list mark) : list frame := omap frame_in ms.
Definition answers_in (ms : list mark) : list (res pyexn pyval) := omap answer_in ms.
Definition logged_in (ms : list mark) : bool := existsb is_logged ms.

Definition frames (tr : trace) : list frame := frames_in (marks tr).

(** An element that writes no record to the log. *)
Definition unlogged (x : element) : bool :=
  match x with logged _ _ => false | _ => true end.

(** An element without a mark. *)
Definition unmarked (x : element) : bool :=
  match mark_of x with None => true | Some _ => false end.

(** ** Outcomes *)

Inductive outcome : Type := Idle | Rejected | Failed | NoData | Shown.

#[export] Instance outcome_eq_dec : EqDecision outcome.
Proof. solve_decision. Defined.

(** Whether the user asked the view for its data: the button of the
    first three pages; the task monitor and the configuration page ask
    on every run, except that the refresh button ends the run with a
    rerun request first. *)
Definition submitted (v : screen) (i : app_input) : bool :=
  match v with
  | AnalysisView => start_clicked (on_analysis i)
  | HistoryView => query_clicked (on_history i)
  | QuoteView => quote_clicked (on_quote i)
  | TaskMonitorView => negb (on_tasks i)
  | ConfigView => true
  end.

(** Whether the input passes the validation of the view. *)
Definition valid (v : screen) (i : app_input) : bool :=
  match v with
  | AnalysisView => str_truthy (stock_code (on_analysis i))
  | QuoteView => str_truthy (quote_code (on_quote i))
  | _ => true
  end.

(** The test each view makes on the answer: [Ok true] for data,
    [Ok false] for an empty answer, and what the test raises on an
    answer of another shape. *)
Definition view_test (v : screen) (a : pyval) : res pyexn bool :=
  match v with
  | AnalysisView | QuoteView => Ok (py_truthy a)
  | HistoryView => has_records a
  | TaskMonitorView =>
      if py_truthy a then res_bind (py_len a) (fun _ => Ok true) else Ok false
  | ConfigView => has_config a
  end.

Definition empty_answer (v : screen) (a : pyval) : bool :=
  bool_decide (view_test v a = Ok false).

(** The position, among the calls of a run, of the call whose answer
    the view shows: the task monitor obtains the queue first. *)
Definition answer_at (v : screen) : nat :=
  match v with TaskMonitorView => 1 | _ => 0 end.

(** What happened in a run of view [v] with the marks [ms]. *)
Definition happened (v : screen) (i : app_input) (ms : list mark) : outcome :=
  if negb (submitted v i) then Idle
  else if negb (valid v i) then Rejected
  else if logged_in ms then Failed
  else match answers_in ms !! answer_at v with
       | Some (Ok a) => if empty_answer v a then NoData else Shown
       | _ => Failed
       end.

(** The frame of an empty answer and the first frame of data, view by
    view. *)
Definition empty_frame (v : screen) : frame :=
  match v with
  | AnalysisView | QuoteView => Error
  | HistoryView | TaskMonitorView => Information
  | ConfigView => Warning
  end.

Definition shown_frame (v : screen) : frame :=
  match v with ConfigView => Information | _ => Success end.

(** The frames of each outcome: nothing when idle, one error for a
    rejected input, an error as the last frame of a failure, the one
    frame of the empty answer, and the frame that opens the data. *)
Definition framed (v : screen) (o : outcome) (fs : list frame) : Prop :=
  match o with
  | Idle => fs = []
  | Rejected => fs = [Error]
  | Failed => list.last fs = Some Error
  | NoData => fs = [empty_frame v]
  | Shown => head fs = Some (shown_frame v)
  end.

(** The views on which the frames tell an empty answer from a failure,
    as the design asks. *)
Definition tells_apart (v : screen) : bool := bool_decide (empty_frame v <> Error).

(** ** The block that asks and shows

    What the marks of a [try] block say once the collaborator has
    answered [a], for a view with the test [test], the frame [none] of
    an empty answer and the frame [shown] of data. *)
Definition told (test : pyval -> res pyexn bool) (none shown : frame)
    (ms : list mark) (a : option (res pyexn pyval)) : Prop :=
  if logged_in ms then list.last (frames_in ms) = Some Error
  else match a with
       | Some (Ok a) =>
           match test a with
           | Ok false => frames_in ms = [none]
           | Ok true => head (frames_in ms) = Some shown
           | Err _ => False
           end
       | _ => False
       end.

(** The collaborator calls a run of each view may make: one, and a
    second one on the quote page when the K-line box is ticked and on
    the task monitor, which obtains the queue first. *)
Definition call_budget (v : screen) (i : app_input) : nat :=
  match v with
  | QuoteView => 1 + kline_calls (on_quote i)
  | TaskMonitorView => 2
  | _ => 1
  end.

(** The clock is past the first year, so that the start date of the
    history page exists. *)
Definition on_time {W : Type} `{!Backend W} (i : app_input) (s : state W) : Prop :=
  (days_back (on_history i) < (today (world s)).1)%Z.

(** An input with every button pressed and a stock code. *)
Definition asking : app_input :=
  AppInput (u8 "股票分析") (pressed (u8 "600519")) (HistoryInput [] 30 20 true 0)
    (asked (u8 "600519") false) false.

(** Two worlds: the collaborator returns nothing, the collaborator
    raises. *)
Definition nothing_found : state script := scripted_state [Ok VNone; Ok VNone].
Definition out_of_order : state script :=
  scripted_state [Err (Raised (u8 "timeout")); Err (Raised (u8 "timeout"))].

(** * Properties *)

(** ** Marks of a trace *)

Lemma marks_app tr1 tr2 : marks (tr1 ++ tr2) = marks tr1 ++ marks tr2.
Proof. unfold marks. by rewrite flat_app, omap_app. Qed.

Lemma marks_cons x tr : marks (leaf x :: tr) = from_option (fun m => [m]) [] (mark_of x) ++ marks tr.
Proof. unfold marks. rewrite flat_cons. cbn. by destruct (mark_of x). Qed.

Lemma marks_box c b : marks [box c b] = marks b.
Proof. unfold marks. by rewrite flat_box. Qed.

Lemma frames_in_app ms1 ms2 : frames_in (ms1 ++ ms2) = frames_in ms1 ++ frames_in ms2.
Proof. apply omap_app. Qed.

Lemma answers_in_app ms1 ms2 : answers_in (ms1 ++ ms2) = answers_in ms1 ++ answers_in ms2.
Proof. apply omap_app. Qed.

Lemma logged_in_app ms1 ms2 : logged_in (ms1 ++ ms2) = logged_in ms1 || logged_in ms2.
Proof. apply existsb_app. Qed.

(** The log was written exactly when the trace has a log record. *)
Lemma logged_in_logs tr : logged_in (marks tr) = false -> logs tr = [].
Proof.
  unfold marks, logs. induction (flat tr) as [|x l IH]; [done|].
  destruct x; cbn; auto; done.
Qed.

(** A trace of elements that write no record has no [Logged] mark. *)
Lemma unlogged_marks tr :
  Forall (fun x => unlogged x = true) (flat tr) -> logged_in (marks tr) = false.
Proof.
  unfold marks. induction (flat tr) as [|x l IH]; [done|].
  intros [Hx Hl]%Forall_cons_1. cbn. destruct x; try done; cbn; auto.
Qed.

(** A trace of elements without marks has no mark. *)
Lemma unmarked_marks tr :
  Forall (fun x => unmarked x = true) (flat tr) -> marks tr = [].
Proof.
  unfold marks, unmarked. induction (flat tr) as [|x l IH]; [done|].
  intros [Hx Hl]%Forall_cons_1. cbn. destruct (mark_of x); [done|auto].
Qed.

Lemma unmarked_frames tr :
  Forall (fun x => unmarked x = true) (flat tr) -> frames tr = [].
Proof. intros H. unfold frames. by rewrite unmarked_marks. Qed.

Lemma frames_app tr1 tr2 : frames (tr1 ++ tr2) = frames tr1 ++ frames tr2.
Proof. unfold frames. by rewrite marks_app, frames_in_app. Qed.

(** ** What a block tells *)

(** What the design asks of the two parts of a [try] block, the
    rendering [show] of the answer and the handler [h]: the handler
    shows one error and logs the exception; the rendering logs nothing
    and asks for no rerun; it raises when the test of the view does,
    shows the one frame of an empty answer, and opens data with its
    frame. *)
Class Answers {W : Type} `{!Backend W} (test : pyval -> res pyexn bool) (none shown : frame)
    (show : pyval -> ui W unit) (h : pyexn -> ui W unit) : Prop := {
  handler_reports e s :
    exists t msg, h e s = (s, [leaf (st_error t); leaf (logged msg e)], Ok tt);
  show_unlogged a : emits unlogged (show a);
  show_settles a s : result_of (show a s) <> Err Rerun;
  show_raises a e s : test a = Err e -> is_ok (result_of (show a s)) = false;
  show_none a s :
    test a = Ok false -> is_ok (result_of (show a s)) = true ->
    frames (trace_of (show a s)) = [none];
  show_data a s :
    test a = Ok true -> is_ok (result_of (show a s)) = true ->
    head (frames (trace_of (show a s))) = Some shown
}.

Section told.
Context {W : Type} `{!Backend W}.
Context {test : pyval -> res pyexn bool} {none shown : frame}.
Context {show : pyval -> ui W unit} {h : pyexn -> ui W unit}.
Context `{!Answers test none shown show h}.

(** The handler tells a failure, whatever was asked. *)
Lemma handler_told e (s : state W) a :
  told test none shown (marks (trace_of (h e s))) a.
Proof. destruct (handler_reports e s) as (t & msg & ->). by cbn. Qed.

(** A failure after something was shown is a failure. *)
Lemma told_failure ms t msg e a :
  told test none shown (ms ++ marks [leaf (st_error t); leaf (logged msg e)]) a.
Proof.
  unfold told. rewrite logged_in_app, frames_in_app. cbn.
  rewrite orb_true_r. by rewrite last_snoc.
Qed.

(** The block after the answer [r] tells what [r] was. *)
Lemma answered_told r (s : state W) :
  told test none shown (marks (trace_of (answered r show h s))) (Some r).
Proof.
  destruct r as [a|e]; [|rewrite answered_err; apply handler_told].
  rewrite answered_ok. unfold try_except.
  pose proof (show_unlogged a s) as Hu. pose proof (show_settles a s) as Hr.
  pose proof (fun e => show_raises a e s) as He. pose proof (show_none a s) as Hn.
  pose proof (show_data a s) as Hd.
  destruct (show a s) as [[s1 t1] [[]|[e|]]]; simpl_run; [| |done].
  - unfold told. rewrite (unlogged_marks _ Hu).
    destruct (test a) as [[|]|e] eqn:Ht; [by apply Hd|by apply Hn|].
    by specialize (He e eq_refl).
  - destruct (handler_reports e s1) as (t & msg & ->). cbn [fst snd].
    rewrite marks_app. apply told_failure.
Qed.

End told.

(** ** The five views answer as the table says *)

Section views.
Context {W : Type} `{!Backend W}.

(** A page that begins with an element begins with its frame. *)
Lemma head_frames_emit x f (k : ui W unit) (s : state W) :
  mark_of x = Some (Framed f) ->
  head (frames (trace_of ((emit x;; k) s))) = Some f.
Proof.
  intros Hx. rewrite (run_bind_ok _ _ s s [leaf x] tt) by done.
  unfold prepend. rewrite trace_of_mk, frames_app. unfold frames, marks. cbn.
  by rewrite Hx.
Qed.

(** The trace of a sequence that returns: both parts returned. *)
Lemma bind_returns {A B} (m : ui W A) (k : A -> ui W B) (s : state W) :
  is_ok (result_of ((m ≫= k) s)) = true ->
  exists a, result_of (m s) = Ok a
    /\ trace_of ((m ≫= k) s) = trace_of (m s) ++ trace_of (k a (state_of (m s)))
    /\ is_ok (result_of (k a (state_of (m s)))) = true.
Proof.
  rewrite run_bind. destruct (m s) as [[s1 t1] [a|x]]; simpl_run; [|done].
  intros Hk. exists a. by destruct (k a s1) as [[s2 t2] r].
Qed.

#[export] Instance analysis_answers u :
  Answers (view_test AnalysisView) Error Success
    (fun a => show_result a u : ui W unit) analysis_failed.
Proof.
  split.
  - intros e s. by eexists _, _.
  - intros a. emits_auto.
  - intros a s. apply show_result_renders.
  - done.
  - intros a s [= Ha] _. unfold show_result. by rewrite Ha.
  - intros a s [= Ha] _. unfold show_result. rewrite Ha. by apply head_frames_emit.
Qed.

#[export] Instance quote_answers i :
  Answers (view_test QuoteView) Error Success
    (fun a => show_quote_result a i : ui W unit) quote_failed.
Proof.
  split.
  - intros e s. by eexists _, _.
  - intros a. emits_auto.
  - intros a s. apply show_quote_result_behaves.
  - done.
  - intros a s [= Ha] _. unfold show_quote_result. by rewrite Ha.
  - intros a s [= Ha] _. unfold show_quote_result, show_quote. rewrite Ha.
    by apply head_frames_emit.
Qed.

#[export] Instance history_answers i :
  Answers (view_test HistoryView) Information Success
    (fun a => show_history a i : ui W unit) history_failed.
Proof.
  split.
  - intros e s. by eexists _, _.
  - intros a. emits_auto.
  - intros a s. apply show_history_renders.
  - intros a e s Ha. unfold show_history. cbn in Ha.
    by rewrite (run_bind_err _ _ s s [] (Exn e)) by (unfold lift; by rewrite Ha).
  - intros a s Ha _. unfold show_history. cbn in Ha.
    by rewrite (run_bind_ok _ _ s s [] false) by (unfold lift; by rewrite Ha).
  - intros a s Ha. unfold show_history. cbn in Ha.
    rewrite (run_bind_ok _ _ s s [] true), prepend_nil by (unfold lift; by rewrite Ha).
    unfold show_records. intros (total & _ & -> & _)%bind_returns.
    rewrite frames_app, (unmarked_frames (trace_of (lift _ s))) by apply emits_lift.
    by apply head_frames_emit.
Qed.

#[export] Instance tasks_answers :
  Answers (view_test TaskMonitorView) Information Success
    (show_task_list : pyval -> ui W unit) tasks_failed.
Proof.
  split.
  - intros e s. by eexists _, _.
  - intros a. emits_auto.
  - intros a s. apply show_task_list_renders.
  - intros a e s. unfold show_task_list, show_tasks. cbn.
    destruct (py_truthy a); [|done]. destruct (py_len a) as [n|e'] eqn:Hn; [done|].
    intros _. by rewrite (run_bind_err _ _ s s [] (Exn e')).
  - intros a s. unfold show_task_list. cbn.
    destruct (py_truthy a); [by destruct (py_len a)|done].
  - intros a s. unfold show_task_list, show_tasks. cbn.
    destruct (py_truthy a); [|done]. destruct (py_len a) as [n|e'] eqn:Hn; [|done].
    intros _ _. rewrite (run_bind_ok _ _ s s [] n), prepend_nil by done.
    by apply head_frames_emit.
Qed.

(** The sections of the configuration page carry no frame. *)
Lemma sections_unmarked d :
  emits unmarked (for_each sections (show_section d) : ui W unit).
Proof. emits_auto. Qed.

#[export] Instance config_answers :
  Answers (view_test ConfigView) Warning Information
    (show_config_result : pyval -> ui W unit) config_failed.
Proof.
  split.
  - intros e s. by eexists _, _.
  - intros a. emits_auto.
  - intros a s. apply show_config_result_renders.
  - intros a e s Ha. unfold show_config_result. cbn in Ha.
    by rewrite (run_bind_err _ _ s s [] (Exn e)) by (unfold lift; by rewrite Ha).
  - intros a s Ha _. unfold show_config_result. cbn in Ha.
    by rewrite (run_bind_ok _ _ s s [] false) by (unfold lift; by rewrite Ha).
  - intros a s Ha. unfold show_config_result. cbn in Ha.
    rewrite (run_bind_ok _ _ s s [] true), prepend_nil by (unfold lift; by rewrite Ha).
    unfold show_config.
    intros (d & _ & -> & (_ & _ & -> & (_ & _ & -> & _)%bind_returns)%bind_returns)%bind_returns.
    rewrite !frames_app, (unmarked_frames (trace_of (lift _ s))) by apply emits_lift.
    by rewrite (unmarked_frames (trace_of (for_each _ _ _))) by apply sections_unmarked.
Qed.

End views.

(** ** From the block to the page *)

Lemma told_answer test none shown r ms a :
  told test none shown ms a -> told test none shown (Answer r :: ms) a.
Proof. done. Qed.

(** What [told] says is what the table says of what happened. *)
Lemma told_framed v i ms :
  submitted v i = true -> valid v i = true ->
  told (view_test v) (empty_frame v) (shown_frame v) ms (answers_in ms !! answer_at v) ->
  framed v (happened v i ms) (frames_in ms).
Proof.
  unfold told, happened, empty_answer. intros -> ->. cbn [negb].
  destruct (logged_in ms); [done|].
  destruct (answers_in ms !! answer_at v) as [[a|e]|]; [|done..].
  destruct (view_test v a) as [[|]|e]; [|by rewrite bool_decide_eq_true_2|done].
  by rewrite bool_decide_eq_false_2.
Qed.

Section pages.
Context {W : Type} `{!Backend W}.

Lemma marks_spinner {A} t (m : ui W A) (s : state W) :
  marks (trace_of (with_spinner t m s)) = marks (trace_of (m s)).
Proof.
  rewrite run_spinner, trace_of_mk, marks_cons, marks_app. cbn.
  by rewrite app_nil_r.
Qed.

(** A page that starts with elements without marks has the marks of
    what follows. *)
Lemma marks_after {A B} (m : ui W A) (k : A -> ui W B) (s : state W) a :
  emits unmarked m -> m s = (state_of (m s), trace_of (m s), Ok a) ->
  marks (trace_of ((m ≫= k) s)) = marks (trace_of (k a (state_of (m s)))).
Proof.
  intros Hm Hr. rewrite (run_bind_ok _ _ _ _ _ _ Hr). unfold prepend.
  by rewrite trace_of_mk, marks_app, (unmarked_marks _ (Hm s)).
Qed.

Section block.
Context {test : pyval -> res pyexn bool} {none shown : frame}.
Context {show : pyval -> ui W unit} {h : pyexn -> ui W unit}.
Context `{!Answers test none shown show h}.

(** The block [try: v = handle.operation(...); show(v) except: h]:
    its marks tell what the first answer was, and a failure when the
    handle is missing. *)
Lemma try_call_told get name (c : pyval -> call) (s : state W) :
  let ms := marks (trace_of
    (try_except (session_get get name ≫= fun svc => invoke (c svc) ≫= show) h s)) in
  told test none shown ms (answers_in ms !! 0).
Proof.
  destruct (get (sess s)) as [svc|] eqn:Hs.
  - destruct (backend_call (c svc) (world s)) as [r w] eqn:Hb.
    rewrite (run_call_in_try _ _ _ _ _ _ _ _ _ Hs Hb). unfold prepend.
    rewrite trace_of_mk, marks_app. apply told_answer, answered_told.
  - unfold try_except.
    rewrite (run_bind_err _ _ _ _ _ _ (run_session_get_none _ name s Hs)).
    pose proof (handler_told (AttributeError (utf8 name)) s
                  (answers_in (marks (trace_of (h (AttributeError (utf8 name)) s))) !! 0)) as Ht.
    by destruct (h _ s) as [[s2 t2] r2].
Qed.

End block.

End pages.

(** ** The five pages *)

Section protocol.
Context {W : Type} `{!Backend W}.
Implicit Types (i : app_input) (s : state W).

(** The widgets of the pages carry no mark. *)
Lemma analysis_form_unmarked : emits unmarked (analysis_form : ui W unit).
Proof. emits_auto. Qed.

Lemma quote_form_unmarked : emits unmarked (quote_form : ui W unit).
Proof. emits_auto. Qed.

Lemma task_header_unmarked : emits unmarked (task_header : ui W unit).
Proof. emits_auto. Qed.

Lemma config_header_unmarked : emits unmarked (config_header : ui W unit).
Proof. emits_auto. Qed.

Lemma history_form_unmarked j : emits unmarked (history_form j : ui W pystr).
Proof. emits_auto. Qed.

Lemma analysis_told (j : analysis_input) s :
  start_clicked j = true -> str_truthy (stock_code j) = true ->
  let ms := marks (trace_of (show_analysis_page j s)) in
  told (view_test AnalysisView) Error Success ms (answers_in ms !! 0).
Proof.
  intros Hc Hv. unfold show_analysis_page.
  rewrite (marks_after _ _ s tt analysis_form_unmarked eq_refl), Hc, Hv. cbn [negb].
  rewrite marks_spinner. destruct (uuid4_hex (world s)) as [u w1] eqn:Hu.
  erewrite try_prepend; [|unfold analyze; apply run_bind_ok, run_fresh_uuid, Hu].
  rewrite prepend_nil.
  apply (try_call_told analysis_service "analysis_service" (fun svc => the_call j svc u)).
Qed.

Lemma quote_told (j : quote_input) s :
  quote_clicked j = true -> str_truthy (quote_code j) = true ->
  let ms := marks (trace_of (show_stock_quote_page j s)) in
  told (view_test QuoteView) Error Success ms (answers_in ms !! 0).
Proof.
  intros Hc Hv. unfold show_stock_quote_page.
  rewrite (marks_after _ _ s tt quote_form_unmarked eq_refl), Hc, Hv. cbn [negb].
  rewrite marks_spinner. apply (try_call_told stock_service "stock_service" (quote_call j)).
Qed.

Lemma config_told s :
  let ms := marks (trace_of (show_config_page s)) in
  told (view_test ConfigView) Warning Information ms (answers_in ms !! 0).
Proof.
  unfold show_config_page.
  rewrite (marks_after _ _ s tt config_header_unmarked eq_refl).
  apply (try_call_told system_config_service "system_config_service" config_call).
Qed.

Lemma history_told (j : history_input) s :
  query_clicked j = true -> (days_back j < (today (world s)).1)%Z ->
  let ms := marks (trace_of (show_history_page j s)) in
  told (view_test HistoryView) Information Success ms (answers_in ms !! 0).
Proof.
  intros Hc Hd. destruct (today (world s)) as [now w] eqn:Ht. cbn in Hd.
  unfold show_history_page.
  rewrite (marks_after _ _ s (strftime_ymd (now - days_back j))
             (history_form_unmarked j))
    by (by rewrite (history_form_run j s now w Ht) by lia).
  rewrite Hc, marks_spinner.
  apply (try_call_told history_service "history_service"
           (fun svc => get_history_list svc (filter_of (stock_code_filter j))
                         (strftime_ymd (now - days_back j)) 1 (page_size j))).
Qed.

Lemma tasks_told s :
  let ms := marks (trace_of (show_task_monitor_page false s)) in
  told (view_test TaskMonitorView) Information Success ms (answers_in ms !! 1).
Proof.
  rewrite task_page_run. unfold prepend.
  rewrite trace_of_mk, marks_app, (unmarked_marks _ (task_header_unmarked s)).
  cbn [app]. destruct (backend_call get_task_queue (world s)) as [[q|e] w1] eqn:Hq.
  - destruct (backend_call (list_tasks q 50) w1) as [r w2] eqn:Hl.
    rewrite (task_list_run s q w1 r w2 Hq Hl). unfold prepend.
    rewrite trace_of_mk, marks_app. apply told_answer, told_answer, answered_told.
  - rewrite (task_queue_failed s e w1 Hq). unfold prepend.
    rewrite trace_of_mk, marks_app. apply told_answer, handler_told.
Qed.

(** A view that was not asked shows no frame, asks nobody and logs
    nothing. *)
Lemma idle_unmarked v i s :
  submitted v i = false -> marks (trace_of (render_view v i s)) = [].
Proof.
  intros Hs. apply unmarked_marks.
  destruct (decide (v = TaskMonitorView)) as [->|Hv].
  { apply negb_false_iff in Hs. cbn [render_view].
    rewrite Hs, task_page_run, trace_of_mk. apply task_header_unmarked. }
  revert s. change (emits unmarked (render_view v i : ui W unit)).
  destruct v; cbn in Hs; try done; cbn [render_view].
  - unfold show_analysis_page. rewrite Hs. emits_auto.
  - unfold show_history_page. emits_step; [emits_auto|]. rewrite Hs. emits_auto.
  - unfold show_stock_quote_page. rewrite Hs. emits_auto.
Qed.

(** A rejected input is one error. *)
Lemma rejected_marks v i s :
  submitted v i = true -> valid v i = false ->
  marks (trace_of (render_view v i s)) = [Framed Error].
Proof.
  intros Hs Hv. destruct v; cbn in Hs, Hv; try done; cbn [render_view].
  - unfold show_analysis_page.
    by rewrite (marks_after _ _ s tt analysis_form_unmarked eq_refl), Hs, Hv.
  - unfold show_stock_quote_page.
    by rewrite (marks_after _ _ s tt quote_form_unmarked eq_refl), Hs, Hv.
Qed.

(** A run that was asked with a valid input tells what happened. *)
Lemma view_told v i s :
  submitted v i = true -> valid v i = true ->
  (v = HistoryView -> (days_back (on_history i) < (today (world s)).1)%Z) ->
  let ms := marks (trace_of (render_view v i s)) in
  told (view_test v) (empty_frame v) (shown_frame v) ms (answers_in ms !! answer_at v).
Proof.
  intros Hs Hv Hd. destruct v; cbn in Hs, Hv; cbn [render_view].
  - by apply analysis_told.
  - apply history_told; auto.
  - by apply quote_told.
  - apply negb_true_iff in Hs. rewrite Hs. apply tasks_told.
  - apply config_told.
Qed.

Lemma view_framed v i s :
  (v = HistoryView -> (days_back (on_history i) < (today (world s)).1)%Z) ->
  let ms := marks (trace_of (render_view v i s)) in
  framed v (happened v i ms) (frames_in ms).
Proof.
  intros Hd ms. subst ms.
  destruct (submitted v i) eqn:Hs.
  - destruct (valid v i) eqn:Hv; [by apply told_framed, view_told|].
    unfold happened. by rewrite Hs, Hv, rejected_marks.
  - unfold happened. by rewrite Hs, idle_unmarked.
Qed.

(** C22: every view follows the protocol of the design, with the frames
    of the table: whatever the input, the session and the
    collaborators, a run shows no frame when the view was not asked,
    one error for a rejected input, an error as its last frame when it
    failed, the one frame of the view for an empty answer, and the
    frame that opens the data otherwise.  What happened is read off
    the answers and the log, what is shown off the frames. *)
Theorem view_protocol v i s :
  (v = HistoryView -> (days_back (on_history i) < (today (world s)).1)%Z) ->
  framed v (happened v i (marks (trace_of (render_view v i s))))
    (frames (trace_of (render_view v i s))).
Proof. apply view_framed. Qed.

End protocol.

(** ** What every view keeps to *)

(** C24: every run of every view makes at most the calls of its budget,
    removes the busy indicator it showed, leaves the session state as
    it was, and lets no exception out, except that the history page
    raises when the clock stands in the first year. *)
Theorem view_budget {W : Type} `{!Backend W} v i (s : state W) :
  let o := render_view v i s in
  length (calls (trace_of o)) <= call_budget v i
  /\ balanced (trace_of o)
  /\ sess (state_of o) = sess s
  /\ (forall e, result_of o = Err (Exn e) -> v = HistoryView /\ ~ on_time i s).
Proof.
  destruct v; cbn [render_view call_budget]; cbv zeta.
  - destruct (show_analysis_page_behaves (on_analysis i) s) as (? & ? & ? & _).
    split_and!; [done..|]. intros e He.
    pose proof (show_analysis_page_returns (on_analysis i) s) as Hr. by rewrite He in Hr.
  - destruct (show_history_page_behaves (on_history i) s) as (? & ? & ? & _).
    split_and!; [done..|]. intros e He. split; [done|]. unfold on_time.
    destruct (today (world s)) as [now w] eqn:Ht. cbn. intros Hd.
    by rewrite (show_history_page_returns (on_history i) s now w Ht) in He by lia.
  - destruct (show_stock_quote_page_behaves (on_quote i) s) as (? & ? & ? & _).
    split_and!; [done..|]. intros e He.
    pose proof (show_stock_quote_page_returns (on_quote i) s) as Hr. by rewrite He in Hr.
  - destruct (show_task_monitor_page_tidy (on_tasks i) s) as (? & ? & ?).
    split_and!; [done..|]. intros e. rewrite task_page_result. by destruct (on_tasks i).
  - destruct (show_config_page_behaves s) as (? & ? & ? & _).
    split_and!; [done..|]. intros e He.
    pose proof (show_config_page_returns s) as Hr. by rewrite He in Hr.
Qed.

(** ** Validation comes before any call *)

Lemma answers_calls tr : length (answers_in (marks tr)) = length (calls tr).
Proof.
  unfold answers_in, marks, calls. induction (flat tr) as [|x l IH]; [done|].
  destruct x; cbn; auto.
Qed.

(** C26: a view that was not asked, or whose input was rejected, calls
    no collaborator and writes nothing to the log, whatever the
    session and the world are. *)
Theorem unasked_calls_nobody {W : Type} `{!Backend W} v i (s : state W) :
  submitted v i && valid v i = false ->
  calls (trace_of (render_view v i s)) = [] /\ logs (trace_of (render_view v i s)) = []
  /\ happened v i (marks (trace_of (render_view v i s))) <> Shown.
Proof.
  intros Hsv.
  assert (answers_in (marks (trace_of (render_view v i s))) = []
          /\ logged_in (marks (trace_of (render_view v i s))) = false) as [Ha Hl].
  { destruct (submitted v i) eqn:Hs; [|by rewrite idle_unmarked].
    by rewrite rejected_marks. }
  split_and!.
  - apply nil_length_inv. by rewrite <- answers_calls, Ha.
  - by apply logged_in_logs.
  - unfold happened. apply andb_false_iff in Hsv as [-> | ->]; [done|].
    by destruct (submitted v i).
Qed.

(** ** Where an empty answer looks like a failure *)

(** C23: the frames tell an empty answer from a failure exactly on the
    history page, the task monitor and the configuration page.  On
    these no run without data has the frames of a run that failed; on
    the analysis page and the quote page there are two runs, one
    without data and one that failed, with the same frames. *)
Theorem empty_told_from_failure (v : screen) :
  tells_apart v = true <->
  forall i (s s' : state script), on_time i s -> on_time i s' ->
    happened v i (marks (trace_of (render_view v i s))) = NoData ->
    happened v i (marks (trace_of (render_view v i s'))) = Failed ->
    frames (trace_of (render_view v i s)) <> frames (trace_of (render_view v i s')).
Proof.
  split.
  - intros Ht%bool_decide_eq_true i s s' Hs Hs' Hn Hf Heq.
    pose proof (view_framed v i s (fun _ => Hs)) as H1.
    pose proof (view_framed v i s' (fun _ => Hs')) as H2.
    cbv zeta in H1, H2. rewrite Hn in H1. rewrite Hf in H2. unfold frames in Heq.
    cbn in H1, H2. rewrite <- Heq, H1 in H2. by injection H2.
  - intros H. destruct v; try done; exfalso;
      by apply (H asking nothing_found out_of_order).
Qed.

(** The two runs of the analysis page: an answer of [None] and an
    exception are both one error; only the log tells them apart. *)
Example analysis_empty_like_failure :
  let empty := trace_of (show_analysis_page (pressed (u8 "600519")) nothing_found) in
  let failed := trace_of (show_analysis_page (pressed (u8 "600519")) out_of_order) in
  frames empty = [Error] /\ frames failed = [Error]
  /\ logged_in (marks empty) = false /\ logged_in (marks failed) = true.
Proof. by vm_compute. Qed.

(** The same two answers on the history page. *)
Example history_empty_unlike_failure :
  let j := on_history asking in
  frames (trace_of (show_history_page j nothing_found)) = [Information]
  /\ frames (trace_of (show_history_page j out_of_order)) = [Error].
Proof. by vm_compute. Qed.

Lemma view_protocol_witness :
  framed HistoryView
    (happened HistoryView asking (marks (trace_of (render_view HistoryView asking nothing_found))))
    (frames (trace_of (render_view HistoryView asking nothing_found))).
Proof.
  apply (view_protocol HistoryView asking nothing_found). intros _. by vm_compute.
Defined.

Lemma unasked_calls_nobody_witness :
  calls (trace_of (render_view QuoteView idle nothing_found)) = []
  /\ logs (trace_of (render_view QuoteView idle nothing_found)) = []
  /\ happened QuoteView idle (marks (trace_of (render_view QuoteView idle nothing_found)))
     <> Shown.
Proof. apply (unasked_calls_nobody QuoteView idle nothing_found). by vm_compute. Defined.
