(* ===== verification/Ids.v ===== *)
(** * Query ids: drawn once for each submission, never reused

    The analysis page draws [uuid.uuid4().hex] for every submission
    (line 139 of [src/streamlit_app.py]) and sends it with the request
    as [query_id].  The id generator belongs to the world; [FreshIds]
    states what the script relies on of it: an id it returns was not
    returned before, whatever the collaborators and the clock did in
    between.

    [careful] is the property of a computation that the ids it sends
    are ids it drew itself, each sent once.  It is closed under the
    combinators of [Ui], every page has it, and so has every sequence
    of runs of a session. *)

From Stdlib Require Import String QArith.
From S2P Require Import Prelude PyStr PyVal PyDate Ui Scripted Session.
From S2P Require Import AnalysisPage HistoryPage QuotePage TaskPage ConfigPage App.
Open Scope py_scope.

(** ** The ids of a page *)

(** The query id a call carries. *)
Definition query_id_of (c : call) : option pystr :=
  match c with
  | analyze_stock _ _ _ _ query_id _ => Some query_id
  | _ => None
  end.

(** The query ids sent in a trace, in order. *)
Definition query_ids (tr : trace) : list pystr := omap query_id_of (calls tr).

(** ** What the script relies on of the generator *)

(** [issued w u]: the generator has returned [u] in the past of the
    world [w].  An id it returns is new, and stays issued whatever
    happens in the world. *)
Class FreshIds (W : Type) `{!Backend W} : Type := {
  issued : W -> pystr -> Prop;
  uuid4_fresh w : ~ issued w (uuid4_hex w).1;
  uuid4_issued w : issued (uuid4_hex w).2 (uuid4_hex w).1;
  uuid4_keeps w u : issued w u -> issued (uuid4_hex w).2 u;
  call_keeps c w u : issued w u -> issued (backend_call c w).2 u;
  today_keeps w u : issued w u -> issued (today w).2 u
}.

Section careful.
Context {W : Type} `{!Backend W} `{!FreshIds W}.

(** From [s] to [s'] with the page [tr]: no id is forgotten, and the
    ids sent are distinct, were not issued at [s] and are at [s']. *)
Definition careful_at (s s' : state W) (tr : trace) : Prop :=
  (forall u, issued (world s) u -> issued (world s') u)
  /\ NoDup (query_ids tr)
  /\ (forall u, u ∈ query_ids tr -> ~ issued (world s) u /\ issued (world s') u).

Definition careful {A} (m : ui W A) : Prop :=
  forall s, careful_at s (state_of (m s)) (trace_of (m s)).

End careful.

(** ** A world that counts

    The ids are the numbers in unary; the collaborators answer as in
    the steady world. *)
Definition tally_id (n : nat) : pystr := replicate n 102%N.

#[export] Instance tally : Backend nat := {
  backend_call c w := (Ok (steady_answer c), w);
  uuid4_hex w := (tally_id w, S w);
  today w := (739000%Z, w);
  chart_series := closes;
  status_running := VStr (u8 "running");
  status_completed := VStr (u8 "completed");
  status_failed := VStr (u8 "failed")
}.

(** The ids the counting world has issued. *)
Definition tally_issued (w : nat) (u : pystr) : Prop :=
  exists k, k < w /\ u = tally_id k.

(** A session of three submissions of the same code, with a visit of
    the history page in between. *)
Definition three_submissions : list app_input :=
  let submit := AppInput (u8 "股票分析") (pressed (u8 "600519")) (HistoryInput [] 30 20 true 0)
                  (QuoteInput [] false false) false in
  [submit; submit; on_page "历史记录" submit; submit].

(** * Properties *)

(** ** The ids of a trace *)

Lemma query_ids_app tr1 tr2 : query_ids (tr1 ++ tr2) = query_ids tr1 ++ query_ids tr2.
Proof. unfold query_ids. by rewrite calls_app, omap_app. Qed.

Lemma query_ids_box c b : query_ids [box c b] = query_ids b.
Proof. unfold query_ids. by rewrite calls_box. Qed.

Lemma query_ids_spinner t tr :
  query_ids (leaf (spinner_on t) :: tr ++ [leaf spinner_off]) = query_ids tr.
Proof. unfold query_ids. by rewrite calls_spinner. Qed.

Section careful_props.
Context {W : Type} `{!Backend W} `{!FreshIds W}.

(** ** [careful_at] composes *)

Lemma careful_at_same (s s' : state W) tr :
  world s' = world s -> query_ids tr = [] -> careful_at s s' tr.
Proof.
  intros Hw Hi. unfold careful_at. rewrite Hw, Hi.
  split_and!; [done|constructor|by intros u ?%elem_of_nil].
Qed.

Lemma careful_at_trans (s s1 s2 : state W) t1 t2 :
  careful_at s s1 t1 -> careful_at s1 s2 t2 -> careful_at s s2 (t1 ++ t2).
Proof.
  intros (Hg1 & Hn1 & Hi1) (Hg2 & Hn2 & Hi2). unfold careful_at. rewrite query_ids_app.
  split_and!; [by auto| |].
  - apply list.NoDup_app. split_and!; [done| |done].
    intros u [_ Hu]%Hi1 [Hu' _]%Hi2. done.
  - intros u [[Hu Hu']%Hi1 | [Hu Hu']%Hi2]%elem_of_app; split; auto.
Qed.

(** [careful_at] looks at the worlds only. *)
Lemma careful_at_worlds (s s' t t' : state W) tr :
  world t = world s -> world t' = world s' -> careful_at s s' tr -> careful_at t t' tr.
Proof. unfold careful_at. by intros -> ->. Qed.

(** The step of the world alone. *)
Lemma careful_at_world (s s' : state W) :
  (forall u, issued (world s) u -> issued (world s') u) -> careful_at s s' [].
Proof. intros Hg. split_and!; [done|constructor|by intros u ?%elem_of_nil]. Qed.

(** ** The combinators *)

Lemma careful_quiet {A} (m : ui W A) :
  (forall s, world (state_of (m s)) = world s /\ query_ids (trace_of (m s)) = []) ->
  careful m.
Proof. intros Hm s. by apply careful_at_same; apply Hm. Qed.

Lemma careful_ret {A} (a : A) : careful (mret a : ui W A).
Proof. by apply careful_quiet. Qed.

Lemma careful_emit x : plain x = true -> careful (emit x : ui W unit).
Proof. intros Hx. apply careful_quiet. intros s. split; [done|]. by destruct x. Qed.

Lemma careful_raise {A} e : careful (raise e : ui W A).
Proof. by apply careful_quiet. Qed.

Lemma careful_rerun {A} : careful (rerun : ui W A).
Proof. by apply careful_quiet. Qed.

Lemma careful_lift {A} (r : res pyexn A) : careful (lift r : ui W A).
Proof. apply careful_quiet. intros s. by destruct r. Qed.

Lemma careful_session_get f name : careful (session_get f name : ui W pyval).
Proof. apply careful_quiet. intros s. unfold session_get. by destruct (f (sess s)). Qed.

Lemma careful_session_set upd : careful (session_set upd : ui W unit).
Proof. by apply careful_quiet. Qed.

Lemma careful_fresh_uuid : careful (fresh_uuid : ui W pystr).
Proof.
  intros s. unfold fresh_uuid. pose proof (uuid4_keeps (world s)) as Hk.
  destruct (uuid4_hex (world s)) as [u w]. by apply careful_at_world.
Qed.

Lemma careful_read_today : careful (read_today : ui W Z).
Proof.
  intros s. unfold read_today. pose proof (today_keeps (world s)) as Hk.
  destruct (today (world s)) as [d w]. by apply careful_at_world.
Qed.

(** A call that carries no id. *)
Lemma careful_invoke c : query_id_of c = None -> careful (invoke c : ui W pyval).
Proof.
  intros Hc s. unfold invoke. pose proof (call_keeps c (world s)) as Hk.
  destruct (backend_call c (world s)) as [r w]. simpl_run.
  assert (query_ids [leaf (called c r)] = []) as Hq by (unfold query_ids; cbn; by rewrite Hc).
  destruct r; (split_and!; [done|rewrite Hq; constructor|by rewrite Hq; intros u ?%elem_of_nil]).
Qed.

Lemma careful_bind {A B} (m : ui W A) (k : A -> ui W B) :
  careful m -> (forall a, careful (k a)) -> careful (m ≫= k).
Proof.
  intros Hm Hk s. rewrite run_bind. specialize (Hm s).
  destruct (m s) as [[s1 t1] [a|x]]; simpl_run; [|done].
  specialize (Hk a s1). destruct (k a s1) as [[s2 t2] r]. simpl_run.
  by eapply careful_at_trans.
Qed.

Lemma careful_try {A} (m : ui W A) h :
  careful m -> (forall e, careful (h e)) -> careful (try_except m h).
Proof.
  intros Hm Hh s. unfold try_except. specialize (Hm s).
  destruct (m s) as [[s1 t1] [a|[e|]]]; simpl_run; [done| |done].
  specialize (Hh e s1). destruct (h e s1) as [[s2 t2] r]. simpl_run.
  by eapply careful_at_trans.
Qed.

Lemma careful_within {A} c (m : ui W A) : careful m -> careful (within c m).
Proof.
  intros Hm s. rewrite run_within, state_of_mk, trace_of_mk.
  unfold careful_at. rewrite query_ids_box. apply Hm.
Qed.

Lemma careful_spinner {A} t (m : ui W A) : careful m -> careful (with_spinner t m).
Proof.
  intros Hm s. rewrite run_spinner, state_of_mk, trace_of_mk.
  unfold careful_at. rewrite query_ids_spinner. apply Hm.
Qed.

Lemma careful_for_each {A} (l : list A) (f : A -> ui W unit) :
  (forall x, careful (f x)) -> careful (for_each l f).
Proof.
  intros Hf. induction l as [|x l IH]; [apply careful_ret|].
  by apply (careful_bind (f x)).
Qed.

Lemma careful_map_m {A B} (f : A -> ui W B) l :
  (forall x, careful (f x)) -> careful (map_m f l).
Proof.
  intros Hf. induction l as [|x l IH]; [apply (careful_ret [])|].
  apply (careful_bind (f x)); [done|]. intros y.
  apply (careful_bind (map_m f l)); [done|]. intros ys. apply (careful_ret (y :: ys)).
Qed.

Lemma careful_when_key k d (f : pyval -> ui W unit) :
  (forall v, careful (f v)) -> careful (when_key k d f).
Proof.
  intros Hf. unfold when_key. apply (careful_bind (lift _)); [apply careful_lift|].
  intros [|]; [|apply (careful_ret tt)].
  apply (careful_bind (lift _)); [apply careful_lift | done].
Qed.

Lemma careful_progress v : careful (progress v : ui W unit).
Proof. unfold progress. case_match; [by apply careful_emit|apply careful_raise]. Qed.

(** A computation that only renders is careful. *)
Lemma careful_renders {A} (m : ui W A) : renders m -> careful m.
Proof.
  intros Hm. apply careful_quiet. intros s. destruct (Hm s) as (-> & Hp & _).
  split; [done|]. unfold query_ids. by rewrite plain_calls.
Qed.

End careful_props.

(** [careful_auto] proves [careful m] by the structure of [m]. *)
Ltac careful_step :=
  lazymatch goal with
  | |- careful (_ ≫= _) => apply careful_bind; [|intros ?]
  | |- careful (mret _) => apply careful_ret
  | |- careful (ui_ret _) => apply careful_ret
  | |- careful (emit _) => apply careful_emit; reflexivity
  | |- careful (raise _) => apply careful_raise
  | |- careful rerun => apply careful_rerun
  | |- careful (lift _) => apply careful_lift
  | |- careful (session_get _ _) => apply careful_session_get
  | |- careful (session_set _) => apply careful_session_set
  | |- careful fresh_uuid => apply careful_fresh_uuid
  | |- careful read_today => apply careful_read_today
  | |- careful (invoke _) => apply careful_invoke; reflexivity
  | |- careful (try_except _ _) => apply careful_try; [|intros ?]
  | |- careful (within _ _) => apply careful_within
  | |- careful (with_spinner _ _) => apply careful_spinner
  | |- careful (for_each _ _) => apply careful_for_each; intros ?
  | |- careful (map_m _ _) => apply careful_map_m; intros ?
  | |- careful (if ?b then _ else _) => destruct b
  | |- careful (match ?x with _ => _ end) => destruct x
  | |- careful (when_key _ _ _) => apply careful_when_key; intros ?
  | |- careful (progress _) => apply careful_progress
  | |- careful (?f _ _ _ _ _) => unfold f
  | |- careful (?f _ _ _ _) => unfold f
  | |- careful (?f _ _ _) => unfold f
  | |- careful (?f _ _) => unfold f
  | |- careful (?f _) => unfold f
  | |- careful ?f => unfold f
  end.

Ltac careful_auto := repeat careful_step.

Section pages.
Context {W : Type} `{!Backend W} `{!FreshIds W}.

(** ** The analysis page *)

(** The body of the [try]: the id sent is the id drawn, which is new. *)
Lemma analyze_careful (i : analysis_input) : careful (analyze i : ui W unit).
Proof.
  intros s. destruct (uuid4_hex (world s)) as [u w1] eqn:Hu.
  pose proof (uuid4_fresh (world s)) as Hf. pose proof (uuid4_issued (world s)) as Hi.
  pose proof (uuid4_keeps (world s)) as Hk. rewrite Hu in Hf, Hi, Hk. cbn in Hf, Hi, Hk.
  destruct (analysis_service (sess s)) as [svc|] eqn:Hs.
  - destruct (backend_call (the_call i svc u) w1) as [r w2] eqn:Hb.
    pose proof (call_keeps (the_call i svc u) w1) as Hc. rewrite Hb in Hc. cbn in Hc.
    rewrite (analyze_run i s svc u w1 r w2 Hs Hu Hb). unfold prepend.
    rewrite state_of_mk, trace_of_mk. apply (careful_at_trans s (State w2 (sess s))).
    + split_and!; [by auto|by apply NoDup_singleton|].
      intros u' ->%list_elem_of_singleton. auto.
    + apply (careful_renders (v ← lift r; show_result v u)).
      pose proof (show_result_renders (W := W)). auto with py.
  - unfold analyze.
    rewrite (run_bind_ok _ _ _ _ _ _ (run_fresh_uuid _ _ _ Hu)), prepend_nil.
    rewrite (run_bind_err _ _ _ _ _ _
               (run_session_get_none _ "analysis_service" (State w1 (sess s)) Hs)).
    by apply careful_at_world.
Qed.

Lemma is_initialized_careful : careful (is_initialized : ui W bool).
Proof. by apply careful_quiet. Qed.

End pages.

(** [careful_page] is [careful_auto] with the two blocks that are not
    built from the combinators. *)
Ltac careful_page :=
  repeat first [ apply analyze_careful | apply is_initialized_careful | careful_step ].

Section script.
Context {W : Type} `{!Backend W} `{!FreshIds W}.

(** ** The script *)

Lemma main_careful i : careful (main i : ui W unit).
Proof. careful_page. Qed.

Lemma streamlit_app_careful i : careful (streamlit_app i : ui W unit).
Proof. pose proof (main_careful i). unfold streamlit_app. careful_page. Qed.

(** ** A session *)

(** The pages of the runs of a session, one after the other. *)
Lemma session_runs_careful (inputs : list app_input) (s : state W) :
  careful_at s (session_runs inputs s).1 (concat (session_runs inputs s).2.*1).
Proof.
  revert s. induction inputs as [|i rest IH]; intros s; [by apply careful_at_same|].
  rewrite session_runs_cons. cbn [fst snd fmap list_fmap concat].
  eapply careful_at_trans; [apply streamlit_app_careful|apply IH].
Qed.

(** C27: no query id is sent twice in a session, and none that the
    generator had issued before the session: every submission of the
    analysis page, in any run, carries an id of its own. *)
Theorem query_ids_never_reused (inputs : list app_input) (s : state W) :
  NoDup (query_ids (concat (session_runs inputs s).2.*1))
  /\ forall u, u ∈ query_ids (concat (session_runs inputs s).2.*1) -> ~ issued (world s) u.
Proof.
  destruct (session_runs_careful inputs s) as (_ & Hn & Hi). split; [done|].
  intros u Hu. by destruct (Hi u Hu).
Qed.

End script.

(** ** The world that counts *)

Lemma tally_id_inj : Inj (=) (=) tally_id.
Proof.
  intros n m H. apply (f_equal length) in H. unfold tally_id in H.
  by rewrite !length_replicate in H.
Qed.

Lemma tally_new w : ~ tally_issued w (tally_id w).
Proof. intros (k & Hk & H%tally_id_inj). lia. Qed.

Lemma tally_next w u : tally_issued w u -> tally_issued (S w) u.
Proof. intros (k & Hk & ->). exists k. split; [lia|done]. Qed.

#[export] Instance tally_fresh : FreshIds nat := {|
  issued := tally_issued;
  uuid4_fresh := tally_new;
  uuid4_issued w := ex_intro _ w (conj (Nat.lt_succ_diag_r w) eq_refl);
  uuid4_keeps := tally_next;
  call_keeps _ _ _ H := H;
  today_keeps _ _ H := H
|}.

(** Three submissions of the same code carry three ids. *)
Example three_ids :
  query_ids (concat (session_runs three_submissions (State 0 ready)).2.*1)
  = [tally_id 0; tally_id 1; tally_id 2].
Proof. by vm_compute. Qed.
