(* ===== verification/Process.v ===== *)
(** * The process: environment, logging and the sessions it serves

    Streamlit serves every session of the dashboard from one process
    and runs the whole script for each interaction of each session.  A
    run therefore starts with the statements at the top of
    [src/streamlit_app.py]: [setup_env()] and the proxy block on the
    environment of the process (lines 22-33, [Env.script_head]), the
    call of [setup_logging] (line 52), then the page configuration and
    the session block, and at the end of the module the guarded call of
    [main] (lines 430-431).

    The environment, the logging set-up and the collaborators' world
    belong to the process; a session state belongs to one session.  The
    runs of the sessions are interleaved in any order ([process_runs]
    over a schedule). *)

From Stdlib Require Import String QArith.
From stdpp Require Import gmap.
From S2P Require Import Prelude PyStr PyVal Env Ui Scripted Session.
From S2P Require Import AnalysisPage HistoryPage QuotePage TaskPage ConfigPage App Ids.
Open Scope py_scope.

(** ** The state of the process *)

(** A call of [setup_logging], with its two keyword arguments. *)
Record logging_call : Type := LoggingCall { log_prefix : pystr; debug : bool }.

#[export] Instance logging_call_eq_dec : EqDecision logging_call.
Proof. solve_decision. Defined.

(** Line 52. *)
Definition the_logging : logging_call := LoggingCall (u8 "streamlit_ui") false.

(** The process: its environment, the calls of [setup_logging] made so
    far, the world of the collaborators, and the session state of each
    session by its number. *)
Record process (W : Type) : Type := Process {
  proc_env : environ;
  log_setups : list logging_call;
  shared : W;
  sessions : gmap nat session
}.
Arguments Process {W} proc_env log_setups shared sessions.
Arguments proc_env {W} p.
Arguments log_setups {W} p.
Arguments shared {W} p.
Arguments sessions {W} p.

(** The name of the module when Streamlit runs the script. *)
Definition main_module : pystr := u8 "__main__".

Section process.
Context {W : Type} `{!Backend W}.
Variable setup_env : environ -> environ.

(** The session state of session [sid]: empty before its first run. *)
Definition session_of (sid : nat) (p : process W) : session :=
  default empty_session (sessions p !! sid).

(** The state a run of session [sid] works on. *)
Definition state_for (sid : nat) (p : process W) : state W :=
  State (shared p) (session_of sid p).

(** An environment on which the head of the script changes nothing. *)
Definition settled (e : environ) : Prop :=
  env_ok e /\ script_head setup_env e = Ok e.

(** Lines 430-431: [if __name__ == "__main__": main()]. *)
Definition entry (name : pystr) (i : app_input) : ui W unit :=
  if bool_decide (name = main_module) then main i else mret tt.

(** The statements of the module that render: the page configuration,
    the session block, the guarded call of [main]. *)
Definition module_body (name : pystr) (i : app_input) : ui W unit :=
  set_page_config;;
  init_session;;
  entry name i.

(** One run of the script for session [sid].  An exception of the head
    ends the run before anything is rendered: the environment is as
    [setup_env] left it, and nothing else has changed. *)
Definition run_script (name : pystr) (sid : nat) (i : app_input) (p : process W) :
    process W * trace * res signal unit :=
  match script_head setup_env (proc_env p) with
  | Err x =>
      (Process (setup_env (proc_env p)) (log_setups p) (shared p) (sessions p),
       [], Err (Exn x))
  | Ok e =>
      let o := module_body name i (state_for sid p) in
      (Process e (log_setups p ++ [the_logging]) (world (state_of o))
         (<[sid := sess (state_of o)]> (sessions p)),
       trace_of o, result_of o)
  end.

(** The runs of a schedule, each on the process the one before left,
    with the trace and the result of each. *)
Fixpoint process_runs (name : pystr) (schedule : list (nat * app_input))
    (p : process W) : process W * list (trace * res signal unit) :=
  match schedule with
  | [] => (p, [])
  | (sid, i) :: rest =>
      let o := run_script name sid i p in
      let o' := process_runs name rest o.1.1 in
      (o'.1, (o.1.2, o.2) :: o'.2)
  end.

End process.

(** A process of the examples: the developer's environment, no session
    yet. *)
Definition dev_process : process unit := Process dev_env [] tt ∅.

(** Two sessions, interleaved. *)
Definition two_users : list (nat * app_input) :=
  [(1, idle); (2, on_page "系统配置" idle); (1, on_page "任务监控" idle); (2, idle)]%nat.

(** A process in which session 1 is initialised. *)
Definition served : process unit := Process dev_env [] tt {[1%nat := ready]}.

(** A process with an environment no process has. *)
Definition nul_process : process unit := Process nul_env [] tt ∅.

(** * Properties *)

Section process_props.
Context {W : Type} `{!Backend W}.
Context (setup_env : environ -> environ) `{!SetupEnv setup_env}.
Implicit Types (p : process W) (sid : nat) (i : app_input).

(** ** The module under its two names *)

(** Run by Streamlit, the module is the script of [App]. *)
Lemma module_body_main i :
  module_body main_module i = (streamlit_app i : ui W unit).
Proof. unfold module_body, entry. by rewrite bool_decide_eq_true_2. Qed.

(** Under any name the module keeps an initialised session as it is. *)
Lemma module_keeps_session name i (s : state W) :
  flagged (sess s) -> sess (state_of (module_body name i s)) = sess s.
Proof.
  intros Hf. unfold module_body, entry. case_bool_decide; [by apply app_keeps_session|].
  rewrite (run_bind_ok _ _ s s (trace_of (set_page_config s)) tt) by done.
  by rewrite (run_bind_ok _ _ _ _ _ _ (init_session_idempotent_run s Hf)).
Qed.

(** After the module has run the session carries the flag. *)
Lemma module_flagged name i (s : state W) :
  flagged (sess (state_of (module_body name i s))).
Proof.
  unfold module_body, entry. case_bool_decide; [apply app_flagged|].
  rewrite (run_bind_ok _ _ s s (trace_of (set_page_config s)) tt) by done.
  unfold prepend. rewrite state_of_mk, run_bind.
  pose proof (init_session_flagged s) as Hf.
  by destruct (init_session s) as [[s1 t1] [[]|x]].
Qed.

(** In an initialised session the module constructs nothing. *)
Lemma module_constructs_nothing name i (s : state W) :
  flagged (sess s) ->
  Forall (fun c => constructor_call c = false) (calls (trace_of (module_body name i s))).
Proof.
  intros Hf. unfold module_body, entry. case_bool_decide; [by apply app_constructs_nothing|].
  rewrite (run_bind_ok _ _ s s (trace_of (set_page_config s)) tt) by done.
  rewrite (run_bind_ok _ _ _ _ _ _ (init_session_idempotent_run s Hf)).
  by repeat constructor.
Qed.

(** ** One run *)

Lemma run_script_ok name sid i p e :
  script_head setup_env (proc_env p) = Ok e ->
  run_script setup_env name sid i p =
    let o := module_body name i (state_for sid p) in
    (Process e (log_setups p ++ [the_logging]) (world (state_of o))
       (<[sid := sess (state_of o)]> (sessions p)),
     trace_of o, result_of o).
Proof. intros H. unfold run_script. by rewrite H. Qed.

Lemma process_runs_cons name sid i rest p :
  process_runs setup_env name ((sid, i) :: rest) p =
    ((process_runs setup_env name rest (run_script setup_env name sid i p).1.1).1,
     ((run_script setup_env name sid i p).1.2, (run_script setup_env name sid i p).2)
       :: (process_runs setup_env name rest (run_script setup_env name sid i p).1.1).2).
Proof. reflexivity. Qed.

Lemma run_script_settles name sid i p :
  env_ok (proc_env p) -> settled setup_env (proc_env (run_script setup_env name sid i p).1.1).
Proof.
  intros He. destruct (script_head_ok setup_env _ He) as (e & Hh & He' & _).
  rewrite (run_script_ok _ _ _ _ e Hh). cbn. split; [done|].
  by apply (script_head_again setup_env (proc_env p)).
Qed.

Lemma run_script_settled name sid i p :
  settled setup_env (proc_env p) ->
  proc_env (run_script setup_env name sid i p).1.1 = proc_env p.
Proof. intros [_ Hh]. by rewrite (run_script_ok _ _ _ _ _ Hh). Qed.

(** ** The sessions of the process *)

(** A run of any session leaves every initialised session as it is. *)
Lemma run_script_keeps name sid sid' i p :
  flagged (session_of sid p) ->
  session_of sid (run_script setup_env name sid' i p).1.1 = session_of sid p.
Proof.
  intros Hf. unfold run_script. destruct (script_head _ _); [|done].
  unfold session_of. cbn. destruct (decide (sid' = sid)) as [->|Hne].
  - rewrite lookup_insert_eq. by apply module_keeps_session.
  - by rewrite lookup_insert_ne.
Qed.

Lemma process_runs_keep name schedule p sid :
  flagged (session_of sid p) ->
  session_of sid (process_runs setup_env name schedule p).1 = session_of sid p.
Proof.
  revert p. induction schedule as [|[sid' i] rest IH]; intros p Hf; [done|].
  rewrite process_runs_cons. cbn [fst].
  rewrite IH; rewrite run_script_keeps; done.
Qed.


(** On the environment of a process, a run of the script for a
    session is the run of [streamlit_app] on the state of that session:
    the same page, the same result, the same session state and world
    afterwards; the session states of the other sessions are as
    before. *)
Theorem script_refines_app sid i p :
  env_ok (proc_env p) ->
  let o := streamlit_app i (state_for sid p) in
  let o' := run_script setup_env main_module sid i p in
  o'.1.2 = trace_of o /\ o'.2 = result_of o
  /\ state_for sid o'.1.1 = state_of o
  /\ (forall sid', sid' <> sid -> session_of sid' o'.1.1 = session_of sid' p).
Proof.
  intros He. destruct (script_head_ok setup_env _ He) as (e & Hh & _).
  rewrite (run_script_ok _ _ _ _ e Hh), module_body_main. cbn.
  unfold state_for, session_of. cbn. rewrite lookup_insert_eq. cbn.
  split_and!; [done|done|by destruct (state_of _)|].
  intros sid' Hne. by rewrite lookup_insert_ne.
Qed.

(** ** Logging and the environment, run after run *)

Lemma process_runs_settled name schedule p :
  settled setup_env (proc_env p) ->
  proc_env (process_runs setup_env name schedule p).1 = proc_env p
  /\ log_setups (process_runs setup_env name schedule p).1
     = log_setups p ++ replicate (length schedule) the_logging.
Proof.
  revert p. induction schedule as [|[sid i] rest IH]; intros p Hs.
  { cbn. by rewrite app_nil_r. }
  rewrite process_runs_cons. cbn [fst length replicate].
  pose proof (run_script_settled name sid i p Hs) as He.
  destruct (IH (run_script setup_env name sid i p).1.1) as [-> ->]; [by rewrite He|].
  split; [done|]. destruct Hs as [_ Hh]. rewrite (run_script_ok _ _ _ _ _ Hh). cbn.
  by rewrite <- app_assoc.
Qed.

Lemma process_runs_env_ok name schedule p :
  env_ok (proc_env p) -> env_ok (proc_env (process_runs setup_env name schedule p).1).
Proof.
  intros He. destruct schedule as [|[sid i] rest]; [done|].
  rewrite process_runs_cons. cbn [fst].
  destruct (run_script_settles name sid i p He) as [He' Hh].
  by rewrite (proj1 (process_runs_settled name rest _ (conj He' Hh))).
Qed.

(** [setup_logging] is called in every run of every session, with
    the same arguments: after a schedule the process has seen one call
    for each run, where the session block has constructed the services
    once for each session. *)
Theorem logging_every_run name (schedule : list (nat * app_input)) p :
  env_ok (proc_env p) ->
  log_setups (process_runs setup_env name schedule p).1
  = log_setups p ++ replicate (length schedule) the_logging.
Proof.
  intros He. destruct schedule as [|[sid i] rest]; [by rewrite app_nil_r|].
  rewrite process_runs_cons. cbn [fst length replicate].
  rewrite (proj2 (process_runs_settled name rest _ (run_script_settles name sid i p He))).
  destruct (script_head_ok setup_env _ He) as (e & Hh & _).
  rewrite (run_script_ok _ _ _ _ e Hh). cbn. by rewrite <- app_assoc.
Qed.

(** The environment of the process is the one the first run left,
    whatever runs follow. *)
Theorem environment_settles name sid i (rest : list (nat * app_input)) p e :
  script_head setup_env (proc_env p) = Ok e -> env_ok (proc_env p) ->
  proc_env (process_runs setup_env name ((sid, i) :: rest) p).1 = e.
Proof.
  intros Hh He. rewrite process_runs_cons. cbn [fst].
  rewrite (proj1 (process_runs_settled name rest _ (run_script_settles name sid i p He))).
  by rewrite (run_script_ok _ _ _ _ e Hh).
Qed.

(** ** Construction, once for each session *)

Lemma process_runs_app name l1 l2 p :
  (process_runs setup_env name (l1 ++ l2) p).1
  = (process_runs setup_env name l2 (process_runs setup_env name l1 p).1).1.
Proof.
  revert p. induction l1 as [|[sid i] l1 IH]; intros p; [done|].
  cbn [app]. rewrite !process_runs_cons. cbn [fst]. apply IH.
Qed.

Lemma run_script_flagged name sid i p :
  env_ok (proc_env p) -> flagged (session_of sid (run_script setup_env name sid i p).1.1).
Proof.
  intros He. destruct (script_head_ok setup_env _ He) as (e & Hh & _).
  rewrite (run_script_ok _ _ _ _ e Hh). unfold session_of. cbn.
  rewrite lookup_insert_eq. apply module_flagged.
Qed.

Lemma run_script_constructs_nothing name sid i p :
  flagged (session_of sid p) ->
  Forall (fun c => constructor_call c = false) (calls (run_script setup_env name sid i p).1.2).
Proof.
  intros Hf. unfold run_script. destruct (script_head _ _); [|by constructor].
  by apply module_constructs_nothing.
Qed.

(** The services of a session are constructed in its first run and
    never again: after any schedule in which a session has had a run,
    a run of that session calls no constructor, whatever the other
    sessions did in between. *)
Theorem constructed_once_per_session name before sid i between i' p :
  env_ok (proc_env p) ->
  let p1 := (process_runs setup_env name (before ++ (sid, i) :: between) p).1 in
  Forall (fun c => constructor_call c = false)
    (calls (run_script setup_env name sid i' p1).1.2).
Proof.
  intros He p1. apply run_script_constructs_nothing. subst p1.
  rewrite process_runs_app, process_runs_cons. cbn [fst].
  rewrite process_runs_keep; by apply run_script_flagged, process_runs_env_ok.
Qed.

End process_props.

(** ** Query ids across the sessions *)

Section ids.
Context {W : Type} `{!Backend W} `{!FreshIds W}.
Variable setup_env : environ -> environ.

Lemma module_body_careful name i : careful (module_body name i : ui W unit).
Proof.
  pose proof (main_careful i). unfold module_body, entry.
  case_bool_decide; careful_page.
Qed.

(** A run of the script, seen from the world the sessions share. *)
Lemma run_script_careful name sid i (p : process W) x x' :
  careful_at (State (shared p) x)
    (State (shared (run_script setup_env name sid i p).1.1) x')
    (run_script setup_env name sid i p).1.2.
Proof.
  unfold run_script. destruct (script_head _ _); [|by apply careful_at_same].
  cbn. eapply careful_at_worlds; [| |apply (module_body_careful name i (state_for sid p))];
    done.
Qed.

Lemma process_runs_careful name schedule (p : process W) x x' :
  careful_at (State (shared p) x)
    (State (shared (process_runs setup_env name schedule p).1) x')
    (concat (process_runs setup_env name schedule p).2.*1).
Proof.
  revert p x. induction schedule as [|[sid i] rest IH]; intros p x;
    [by apply careful_at_same|].
  rewrite process_runs_cons. cbn [fst snd fmap list_fmap concat].
  eapply careful_at_trans; [apply (run_script_careful name sid i p x x)|apply IH].
Qed.

(** No query id is sent twice in the process: the submissions of
    all sessions, in any interleaving of their runs, carry ids that
    differ from each other and from every id issued before. *)
Theorem ids_unique_across_sessions name (schedule : list (nat * app_input)) (p : process W) :
  NoDup (query_ids (concat (process_runs setup_env name schedule p).2.*1))
  /\ forall u, u ∈ query_ids (concat (process_runs setup_env name schedule p).2.*1) ->
       ~ issued (shared p) u.
Proof.
  destruct (process_runs_careful name schedule p empty_session empty_session)
    as (_ & Hn & Hi).
  split; [done|]. intros u Hu. by destruct (Hi u Hu).
Qed.

End ids.

(** ** Examples *)

(** Two sessions that submit the same code in turn: four ids. *)
Example ids_of_two_sessions :
  query_ids (concat (process_runs (load_dotenv dotenv_file) main_module
                       ((fun sid => (sid, List.hd idle three_submissions)) <$> [1; 2; 1; 2]%nat)
                       (Process dev_env [] 0%nat ∅)).2.*1)
  = tally_id <$> [0; 1; 2; 3]%nat.
Proof. by vm_compute. Qed.

(** A NUL in the address: the run ends with [ValueError] before
    anything is rendered, and no session state is created. *)
Example head_failure :
  let o := run_script (load_dotenv ∅) main_module 1 idle nul_process in
  o.1.2 = [] /\ o.2 = Err (Exn ValueError) /\ sessions o.1.1 = ∅ /\ log_setups o.1.1 = [].
Proof. by vm_compute. Qed.

(** Imported under another name, the module configures the page and
    the session and renders no page. *)
Example imported_module :
  trace_of (module_body (u8 "streamlit_app") idle (state_for 1 served))
  = trace_of (set_page_config (state_for 1 served)).
Proof. by vm_compute. Qed.


Lemma script_refines_app_witness :
  let o := streamlit_app idle (state_for 1 dev_process) in
  let o' := run_script (load_dotenv dotenv_file) main_module 1 idle dev_process in
  o'.1.2 = trace_of o /\ o'.2 = result_of o
  /\ state_for 1 o'.1.1 = state_of o
  /\ (forall sid', sid' <> 1%nat -> session_of sid' o'.1.1 = session_of sid' dev_process).
Proof. exact (script_refines_app (load_dotenv dotenv_file) 1 idle dev_process dev_env_ok). Defined.

Lemma logging_every_run_witness :
  log_setups (process_runs (load_dotenv dotenv_file) main_module two_users dev_process).1
  = [] ++ replicate 4 the_logging.
Proof.
  exact (logging_every_run (load_dotenv dotenv_file) main_module two_users dev_process
           dev_env_ok).
Defined.

Lemma environment_settles_witness :
  proc_env (process_runs (load_dotenv dotenv_file) main_module
              ((1%nat, idle) :: two_users) dev_process).1
  = with_proxy (u8 "http://10.0.0.2:7890") (load_dotenv dotenv_file dev_env).
Proof.
  apply (environment_settles (load_dotenv dotenv_file)); [by vm_compute|apply dev_env_ok].
Defined.

Lemma constructed_once_per_session_witness :
  let p1 := (process_runs (load_dotenv dotenv_file) main_module
               ([] ++ (1%nat, idle) :: [(2%nat, idle)]) dev_process).1 in
  Forall (fun c => constructor_call c = false)
    (calls (run_script (load_dotenv dotenv_file) main_module 1
              (on_page "任务监控" idle) p1).1.2).
Proof.
  exact (constructed_once_per_session (load_dotenv dotenv_file) main_module
           [] 1 idle [(2%nat, idle)] (on_page "任务监控" idle) dev_process dev_env_ok).
Defined.
