(* ===== verification/Rules.v ===== *)
(** * The rules of Streamlit the script keeps

    Streamlit identifies an input widget by its kind and its arguments;
    a run that creates two widgets it cannot tell apart is stopped with
    [DuplicateWidgetID].  [st.set_page_config] must be the first
    Streamlit command of a run, and is called once.  The model of [Ui]
    lets [emit] succeed always; this file shows that the runs of
    [src/streamlit_app.py] stay where that is true of Streamlit.

    [wids tr] is the list of the widgets of a page, each by its kind
    and its label, in the order of creation.  [confined l m] says that
    the widgets of every run of [m] are among [l], in the order of [l]
    and each as often as [l] has it; it is closed under the combinators
    of [Ui], with the bound of a block built from the bounds of its
    parts.  The bound of each page is the list of the widgets its
    source creates, which has no label twice; the two pages that label
    a text input alike are never in the same run. *)

From Stdlib Require Import String QArith.
From stdpp Require Import list.
From S2P Require Import Prelude PyStr PyVal PyDate Ui Scripted Session.
From S2P Require Import AnalysisPage HistoryPage QuotePage TaskPage ConfigPage App.
From S2P Require Import Protocol.
Open Scope py_scope.

(** ** The widgets of a page *)

(** The kinds of input widget the script creates. *)
Inductive widget_kind : Type :=
| TextInput | Selectbox | Checkbox | Button | Radio.

#[export] Instance widget_kind_eq_dec : EqDecision widget_kind.
Proof. solve_decision. Defined.

(** A widget as Streamlit tells it from the others of its run: equal
    kind and label are necessary for two widgets to be confused. *)
Abbreviation wid := (widget_kind * pystr)%type (only parsing).

Definition wid_of (x : element) : option wid :=
  match x with
  | st_text_input l _ _ => Some (TextInput, l)
  | st_selectbox l _ => Some (Selectbox, l)
  | st_checkbox l _ => Some (Checkbox, l)
  | st_button l => Some (Button, l)
  | st_radio l _ => Some (Radio, l)
  | _ => None
  end.

(** The widgets of a page, in the order of creation. *)
Definition wids (tr : trace) : list wid := omap wid_of (flat tr).

Definition no_widget (x : element) : bool := bool_decide (wid_of x = None).

Definition is_page_config (x : element) : bool :=
  match x with st_page_config _ _ _ _ => true | _ => false end.

(** [st.set_page_config] is the first element, and no other is. *)
Definition config_first (l : list element) : bool :=
  match l with
  | x :: rest => is_page_config x && forallb (fun y => negb (is_page_config y)) rest
  | [] => false
  end.

(** ** The widgets the source creates *)

(** Line 80. *)
Definition sidebar_widgets : list wid := [(Radio, u8 "导航")].

(** Lines 112-132. *)
Definition analysis_widgets : list wid :=
  [(TextInput, u8 "股票代码"); (Selectbox, u8 "报告类型"); (Checkbox, u8 "强制刷新");
   (Checkbox, u8 "发送通知"); (Button, u8 "开始分析")].

(** Lines 210-219 and 251. *)
Definition history_widgets : list wid :=
  [(TextInput, u8 "股票代码筛选"); (Selectbox, u8 "时间范围"); (Selectbox, u8 "每页数量");
   (Button, u8 "查询"); (Selectbox, u8 "选择记录")].

(** Lines 274-280 and 318. *)
Definition quote_widgets : list wid :=
  [(TextInput, u8 "股票代码"); (Button, u8 "查询行情"); (Checkbox, u8 "显示历史K线数据")].

(** Line 343. *)
Definition task_widgets : list wid := [(Button, u8 "刷新任务列表")].

(** Line 419, for the keys of lines 402-407. *)
Definition config_widgets : list wid :=
  sections ≫= fun sec => sec.2 ≫= fun key => [(TextInput, utf8 key)].

(** The widgets of the page the radio selects. *)
Definition page_widgets (p : pystr) : list wid :=
  if bool_decide (p = u8 "股票分析") then analysis_widgets
  else if bool_decide (p = u8 "历史记录") then history_widgets
  else if bool_decide (p = u8 "股票行情") then quote_widgets
  else if bool_decide (p = u8 "任务监控") then task_widgets
  else if bool_decide (p = u8 "系统配置") then config_widgets
  else [].

Definition run_widgets (p : pystr) : list wid := sidebar_widgets ++ page_widgets p.

(** ** The widgets of the rerun protocol *)

(** A widget as the script creates it when it takes input. *)
Definition element_of (w : wid) : element :=
  match w.1 with
  | TextInput => st_text_input w.2 None false
  | Selectbox => st_selectbox w.2 []
  | Checkbox => st_checkbox w.2 false
  | Button => st_button w.2
  | Radio => st_radio w.2 []
  end.

(** The widget of [Protocol] that a widget of the page [p] is. *)
Definition named (p : pystr) (w : wid) : option widget := widget_of p (element_of w).

(** ** A run to look at *)

(** The user asks for a quote, with the K-line box ticked. *)
Definition quote_asked : app_input :=
  AppInput (u8 "股票行情") (on_analysis idle) (on_history idle) (asked (u8 "600519") true) false.

(** The collaborator answers with a quote, then with no history. *)
Definition quote_found : state script := scripted_state [Ok a_quote; Ok VNone].

Section rules.
Context {W : Type} `{!Backend W}.

(** Every run of [m] creates widgets of [l] only, in the order of [l],
    none more often than [l] has it. *)
Definition confined {A} (l : list wid) (m : ui W A) : Prop :=
  forall s, wids (trace_of (m s)) `sublist_of` l.

(** ** Traces *)

Lemma wids_app tr1 tr2 : wids (tr1 ++ tr2) = wids tr1 ++ wids tr2.
Proof. unfold wids. by rewrite flat_app, omap_app. Qed.

Lemma wids_box c b : wids [box c b] = wids b.
Proof. unfold wids. by rewrite flat_box. Qed.

Lemma wids_none tr : Forall (fun x => no_widget x = true) (flat tr) -> wids tr = [].
Proof.
  unfold wids. induction 1 as [|x l Hx _ IH]; [done|].
  apply bool_decide_eq_true in Hx. cbn. by rewrite Hx.
Qed.

(** ** [confined] and the combinators *)

Lemma confined_weaken {A} l l' (m : ui W A) :
  confined l m -> l `sublist_of` l' -> confined l' m.
Proof. intros Hm Hl s. by trans l. Qed.

Lemma confined_quiet {A} (m : ui W A) : emits no_widget m -> confined [] m.
Proof. intros Hm s. by rewrite (wids_none _ (Hm s)). Qed.

Lemma confined_emit x w : wid_of x = Some w -> confined [w] (emit x : ui W unit).
Proof. intros Hx s. unfold wids. cbn. by rewrite Hx. Qed.

Lemma confined_bind {A B} l1 l2 (m : ui W A) (k : A -> ui W B) :
  confined l1 m -> (forall a, confined l2 (k a)) -> confined (l1 ++ l2) (m ≫= k).
Proof.
  intros Hm Hk s. rewrite run_bind. specialize (Hm s).
  destruct (m s) as [[s1 t1] [a|x]]; simpl_run; [|by apply sublist_inserts_r].
  specialize (Hk a s1). destruct (k a s1) as [[s2 t2] r]; simpl_run.
  rewrite wids_app. by apply sublist_app.
Qed.

Lemma confined_try {A} l1 l2 (m : ui W A) h :
  confined l1 m -> (forall e, confined l2 (h e)) -> confined (l1 ++ l2) (try_except m h).
Proof.
  intros Hm Hh s. unfold try_except. specialize (Hm s).
  destruct (m s) as [[s1 t1] [a|[e|]]]; simpl_run; try by apply sublist_inserts_r.
  specialize (Hh e s1). destruct (h e s1) as [[s2 t2] r]; simpl_run.
  rewrite wids_app. by apply sublist_app.
Qed.

Lemma confined_within {A} l c (m : ui W A) : confined l m -> confined l (within c m).
Proof.
  intros Hm s. unfold within. specialize (Hm s).
  destruct (m s) as [[s1 t1] r]. unfold trace_of in *. cbn [fst snd] in *.
  by rewrite wids_box.
Qed.

Lemma confined_spinner {A} l t (m : ui W A) : confined l m -> confined l (with_spinner t m).
Proof.
  intros Hm s. unfold with_spinner. specialize (Hm s).
  destruct (m s) as [[s1 t1] r]. unfold trace_of in *. cbn [fst snd] in *.
  change (leaf (spinner_on t) :: t1 ++ [leaf spinner_off])
    with ([leaf (spinner_on t)] ++ t1 ++ [leaf spinner_off]).
  rewrite !wids_app. cbn. by rewrite app_nil_r.
Qed.

Lemma confined_if {A} l1 l2 (b : bool) (m1 m2 : ui W A) :
  confined l1 m1 -> confined l2 m2 -> confined (l1 ++ l2) (if b then m1 else m2).
Proof.
  intros H1 H2 s. destruct b; [by apply sublist_inserts_r | by apply sublist_inserts_l].
Qed.

Lemma confined_for_each {A} (g : A -> list wid) (l : list A) (f : A -> ui W unit) :
  (forall x, confined (g x) (f x)) -> confined (l ≫= g) (for_each l f).
Proof.
  intros Hf. induction l as [|x l IH]; [by apply confined_quiet, (emits_ret _ tt)|].
  change (confined (g x ++ (l ≫= g)) (f x ≫= fun _ => for_each l f)).
  by apply confined_bind.
Qed.

Lemma confined_when_key l k d (f : pyval -> ui W unit) :
  (forall v, confined l (f v)) -> confined l (when_key k d f).
Proof.
  intros Hf. unfold when_key.
  apply (confined_bind [] l (lift _)); [apply confined_quiet, emits_lift|].
  intros [|]; [|apply (confined_weaken []); [apply confined_quiet, (emits_ret _ tt)|]].
  - apply (confined_bind [] l (lift _)); [apply confined_quiet, emits_lift | done].
  - apply sublist_nil_l.
Qed.

Lemma confined_nonempty {A B} l (xs : list A) (m1 m2 : ui W B) :
  confined l m2 -> confined [] m1 ->
  confined l (match xs with [] => m1 | _ => m2 end).
Proof.
  intros H2 H1. destruct xs; [|done].
  apply (confined_weaken [] l); [done | apply sublist_nil_l].
Qed.

Lemma is_initialized_emits P : emits P (is_initialized : ui W bool).
Proof. by apply emits_nothing. Qed.

(** A confined computation with a bound without repetition creates no
    widget twice. *)
Lemma confined_NoDup {A} l (m : ui W A) s :
  confined l m -> NoDup l -> NoDup (wids (trace_of (m s))).
Proof. intros Hm Hl. by apply (sublist_NoDup _ l). Qed.

End rules.

(** [confined_auto] proves [confined l m] by the structure of [m] and
    builds [l] on its way: a block that creates no widget is confined
    to the empty list, and the bound of any other block is made of the
    bounds of its parts. *)
Ltac confined_step :=
  lazymatch goal with
  | |- confined _ (_ ≫= _) => eapply confined_bind; [|intros ?]
  | |- confined _ (emit _) => eapply confined_emit; reflexivity
  | |- confined _ (try_except _ _) => eapply confined_try; [|intros ?]
  | |- confined _ (within _ _) => apply confined_within
  | |- confined _ (with_spinner _ _) => apply confined_spinner
  | |- confined _ (for_each _ _) => eapply confined_for_each; intros ?
  | |- confined _ (when_key _ _ _) => apply confined_when_key; intros ?
  | |- confined _ (match ?x with _ => _ end) =>
      first [ eapply confined_if | eapply (confined_nonempty _ x) ]
  | |- confined _ (?f _ _ _ _) => unfold f
  | |- confined _ (?f _ _ _) => unfold f
  | |- confined _ (?f _ _) => unfold f
  | |- confined _ (?f _) => unfold f
  | |- confined _ ?f => unfold f
  end.

Ltac emits_script := repeat first [ apply is_initialized_emits | emits_step ].

Ltac confined_auto :=
  repeat first [ solve [apply confined_quiet; emits_script] | confined_step ].

(** The same with a block whose bound is known by [lem]. *)
Ltac confined_with lem :=
  repeat first [ simple apply lem | solve [apply confined_quiet; emits_script]
               | confined_step ].

(** [confined_page] proves [confined l m] for the list [l] of the
    widgets of [m] in the source. *)
Ltac confined_page :=
  eapply confined_weaken; [confined_auto | vm_compute; reflexivity].

Section pages.
Context {W : Type} `{!Backend W}.

(** ** The pages *)

Lemma sidebar_confined : confined sidebar_widgets (sidebar : ui W unit).
Proof. confined_page. Qed.

Lemma analysis_confined i : confined analysis_widgets (show_analysis_page i : ui W unit).
Proof. confined_page. Qed.

Lemma history_confined i : confined history_widgets (show_history_page i : ui W unit).
Proof. confined_page. Qed.

Lemma quote_confined i : confined quote_widgets (show_stock_quote_page i : ui W unit).
Proof. confined_page. Qed.

Lemma tasks_confined i : confined task_widgets (show_task_monitor_page i : ui W unit).
Proof. confined_page. Qed.

Lemma config_confined : confined config_widgets (show_config_page : ui W unit).
Proof. confined_page. Qed.

End pages.

Section script.
Context {W : Type} `{!Backend W}.

(** ** The script *)

Lemma dispatch_confined i : confined (page_widgets (page i)) (dispatch i : ui W unit).
Proof.
  unfold dispatch, page_widgets.
  case_bool_decide; [apply analysis_confined|].
  case_bool_decide; [apply history_confined|].
  case_bool_decide; [apply quote_confined|].
  case_bool_decide; [apply tasks_confined|].
  case_bool_decide; [apply config_confined|].
  apply confined_quiet, (emits_ret _ tt).
Qed.

Lemma main_confined i : confined (run_widgets (page i)) (main i : ui W unit).
Proof.
  eapply confined_weaken; [confined_with (dispatch_confined i) | reflexivity].
Qed.

Lemma streamlit_app_confined i :
  confined (run_widgets (page i)) (streamlit_app i : ui W unit).
Proof.
  eapply confined_weaken; [confined_with (main_confined i) | reflexivity].
Qed.

Lemma run_widgets_NoDup p : NoDup (run_widgets p).
Proof.
  unfold run_widgets, page_widgets.
  repeat case_bool_decide; by apply (bool_decide_unpack _); vm_compute.
Qed.

Lemma emits_forallb {A} P (m : ui W A) s :
  emits P m -> forallb P (flat (trace_of (m s))) = true.
Proof.
  intros Hm. apply forallb_forall. intros x Hx.
  by apply (proj1 (list.Forall_forall _ _) (Hm s)), list_elem_of_In.
Qed.

Lemma rest_emits i :
  emits (fun y => negb (is_page_config y)) (init_session;; main i : ui W unit).
Proof. emits_script. Qed.

(** C14: the widgets of a run are those of the sidebar and of the selected
    page, in the order of the source, and no run creates two widgets of
    one kind with one label: no run is stopped with
    [DuplicateWidgetID]. *)
Theorem widgets_unique i (s : state W) :
  wids (trace_of (streamlit_app i s)) `sublist_of` run_widgets (page i)
  /\ NoDup (wids (trace_of (streamlit_app i s))).
Proof.
  split; [apply streamlit_app_confined|].
  apply (confined_NoDup (run_widgets (page i)));
    [apply streamlit_app_confined | apply run_widgets_NoDup].
Qed.

(** [st.set_page_config] is the first element of every run, and the
    only one of its kind. *)
Theorem page_config_first i (s : state W) :
  config_first (flat (trace_of (streamlit_app i s))) = true.
Proof.
  unfold streamlit_app, set_page_config. rewrite run_bind. cbn.
  pose proof (emits_forallb _ _ s (rest_emits i)) as Hr.
  by destruct ((init_session;; main i) s) as [[s2 t2] r].
Qed.

(** ** The widgets of the rerun protocol *)

Lemma omap_sublist {A B} (f : A -> option B) (l1 l2 : list A) :
  l1 `sublist_of` l2 -> omap f l1 `sublist_of` omap f l2.
Proof.
  induction 1 as [|x l1 l2 _ IH|x l1 l2 _ IH]; cbn; [done|..];
    destruct (f x); by repeat constructor.
Qed.

(** [Protocol] names a widget by its kind and its label, and leaves
    out the inputs that are disabled. *)
Lemma widget_of_named p x w :
  widget_of p x = Some w -> exists k, wid_of x = Some k /\ named p k = Some w.
Proof.
  destruct x as [| | | | | | | | | | | | | |l v [|]| | | | | | | |]; try done;
    intros Hw; eexists; (split; [reflexivity | exact Hw]).
Qed.

Lemma widgets_named p (l : list element) :
  omap (widget_of p) l `sublist_of` omap (named p) (omap wid_of l).
Proof.
  induction l as [|x l IH]; [done|]. cbn.
  destruct (widget_of p x) as [w|] eqn:Hw.
  - destruct (widget_of_named p x w Hw) as (k & -> & Hk). cbn. rewrite Hk. by constructor.
  - destruct (wid_of x) as [k|]; [|done]. cbn. destruct (named p k); [by constructor | done].
Qed.

Lemma run_widgets_named p : NoDup (omap (named p) (run_widgets p)).
Proof.
  unfold run_widgets, page_widgets.
  repeat case_bool_decide; subst; by apply (bool_decide_unpack _); vm_compute.
Qed.

(** No run creates a widget of the rerun protocol twice: the store of
    [Protocol], which keeps one value for each widget, and the set of
    the widgets on the page lose nothing of the page. *)
Theorem protocol_widgets_unique i (s : state W) :
  NoDup (omap (widget_of (page i)) (flat (trace_of (streamlit_app i s)))).
Proof.
  eapply sublist_NoDup; [|apply widgets_named].
  eapply sublist_NoDup; [apply run_widgets_named|].
  apply omap_sublist, streamlit_app_confined.
Qed.

End script.

(** The run of [quote_asked] creates the radio and the three widgets
    of the quote page. *)
Example quote_run_widgets :
  wids (trace_of (streamlit_app quote_asked quote_found)) = run_widgets (u8 "股票行情").
Proof. by vm_compute. Qed.

(** The bound of the if/elif chain as a whole would have the text
    input of the analysis page and of the quote page, labelled alike:
    it is the radio that keeps them apart. *)
Example code_input_twice :
  ~ NoDup (analysis_widgets ++ quote_widgets).
Proof. by apply (bool_decide_unpack _); vm_compute. Qed.
