(* ===== verification/Busy.v ===== *)
(** * The busy indicator and the calls it covers

    A collaborator call blocks the run until it returns.  The calls of
    the analysis, the history and the quote page are made inside
    [with st.spinner(...)], so the user sees a busy indicator while
    they are in flight; the task monitor, the configuration page and
    the initialisation of the session call their collaborators with no
    indicator showing.

    [uncovered tr] lists the calls of a page that were made while no
    indicator was showing.  A rule says which calls may be made under
    how many indicators; [cover A n m] is the property of a block that,
    started under [n] indicators, keeps the rule [A] and leaves the [n]
    indicators showing.  It is closed under the combinators of [Ui],
    and [with_spinner] is what takes a block from [S n] to [n].  The
    pages with an indicator keep the rule [under] (no call without an
    indicator); the script as a whole keeps the rule [by_kind] (the
    calls of the analysis, history and stock services under an
    indicator, the others without). *)

From Stdlib Require Import String QArith.
From S2P Require Import Prelude PyStr PyVal PyDate Ui Scripted Session.
From S2P Require Import AnalysisPage HistoryPage QuotePage TaskPage ConfigPage App Contract.
Open Scope py_scope.

(** ** The calls made with no indicator showing *)

(** [bare n l]: the calls of [l] made while no indicator shows, when
    [n] indicators show at the start of [l]. *)
Fixpoint bare (n : nat) (l : list element) : list call :=
  match l with
  | [] => []
  | spinner_on _ :: l' => bare (S n) l'
  | spinner_off :: l' => bare (pred n) l'
  | called c _ :: l' =>
      match n with 0 => c :: bare n l' | S _ => bare n l' end
  | _ :: l' => bare n l'
  end.

Definition uncovered (tr : trace) : list call := bare 0 (flat tr).

(** An element that does not change the busy indicator. *)
Definition calm (x : element) : bool :=
  match x with spinner_on _ | spinner_off => false | _ => true end.

(** The views that call their collaborator inside [st.spinner]. *)
Definition shields (v : screen) : bool :=
  match v with
  | AnalysisView | HistoryView | QuoteView => true
  | TaskMonitorView | ConfigView => false
  end.

(** The calls the script makes inside [st.spinner]: those of the
    analysis, the history and the stock service. *)
Definition shielded (c : call) : bool :=
  match c with
  | analyze_stock _ _ _ _ _ _ | get_history_list _ _ _ _ _
  | get_realtime_quote _ _ | get_history_data _ _ _ _ => true
  | _ => false
  end.

(** A rule: whether the call [c] may be made under [n] indicators. *)
Abbreviation rule := (nat -> call -> bool) (only parsing).

(** No call without an indicator. *)
Definition under : rule := fun n _ => negb (n =? 0)%nat.

(** The shielded calls under an indicator, the others without. *)
Definition by_kind : rule := fun n c => bool_decide (shielded c = negb (n =? 0)%nat).

(** [obeys A n l]: every call of [l] keeps the rule [A], when [n]
    indicators show at the start of [l]. *)
Fixpoint obeys (A : rule) (n : nat) (l : list element) : bool :=
  match l with
  | [] => true
  | spinner_on _ :: l' => obeys A (S n) l'
  | spinner_off :: l' => obeys A (pred n) l'
  | called c _ :: l' => A n c && obeys A n l'
  | _ :: l' => obeys A n l'
  end.

(** ** Runs to look at *)

(** The task queue and its (empty) list of tasks. *)
Definition queue_found : state script := scripted_state [Ok (VObj 9); Ok (VList [])].

Section busy.
Context {W : Type} `{!Backend W}.

(** Started under [n] indicators, [m] keeps the rule [A] and ends
    under [n] indicators. *)
Definition cover {B} (A : rule) (n : nat) (m : ui W B) : Prop :=
  forall s, obeys A n (flat (trace_of (m s))) = true
            /\ spin n (flat (trace_of (m s))) = Some n.

(** [m] shows no indicator. *)
Definition exposed {B} (m : ui W B) : Prop := emits calm m.

(** ** Traces *)

Lemma obeys_app A n k (l1 l2 : list element) :
  spin n l1 = Some k -> obeys A n (l1 ++ l2) = obeys A n l1 && obeys A k l2.
Proof.
  revert n. induction l1 as [|x l1 IH]; intros n; simpl; [by intros [= ->]|].
  destruct x; try apply IH; destruct n; try done; try apply IH.
  - intros Hs. by rewrite (IH _ Hs), andb_assoc.
  - intros Hs. by rewrite (IH _ Hs), andb_assoc.
Qed.

Lemma obeys_plain A n (l : list element) :
  Forall (fun x => plain x = true) l -> obeys A n l = true.
Proof. induction 1 as [|x l Hx _ IH]; [done|]. by destruct x. Qed.

(** Under the rule [under] no call is made without an indicator. *)
Lemma obeys_under n (l : list element) : obeys under n l = true -> bare n l = [].
Proof.
  revert n. induction l as [|x l IH]; intros n; [done|].
  destruct x; simpl; try apply IH. destruct n; [done|]. apply IH.
Qed.

(** Under the rule [by_kind] the calls made without an indicator are
    the calls that are not shielded. *)
Lemma obeys_by_kind n (l : list element) :
  obeys by_kind n l = true ->
  bare n l = filter (fun c => shielded c = false) (omap call_of l).
Proof.
  revert n. induction l as [|x l IH]; intros n; [done|].
  destruct x; simpl; try apply IH. intros [Hc Hl]%andb_prop.
  apply bool_decide_eq_true in Hc. destruct n; simpl in Hc.
  - rewrite filter_cons_True by done. f_equal. by apply IH.
  - rewrite filter_cons_False by (by rewrite Hc). by apply IH.
Qed.

Lemma bare_calm (l : list element) :
  Forall (fun x => calm x = true) l -> bare 0 l = omap call_of l.
Proof. induction 1 as [|x l Hx _ IH]; [done|]. destruct x; try done; simpl; by f_equal. Qed.

Lemma cover_run {B} A n (m : ui W B) s s1 t r :
  cover A n m -> m s = (s1, t, r) ->
  obeys A n (flat t) = true /\ spin n (flat t) = Some n.
Proof. intros Hm Hs. specialize (Hm s). by rewrite Hs in Hm. Qed.

Lemma cover_app A n (t1 t2 : trace) :
  obeys A n (flat t1) = true /\ spin n (flat t1) = Some n ->
  obeys A n (flat t2) = true /\ spin n (flat t2) = Some n ->
  obeys A n (flat (t1 ++ t2)) = true /\ spin n (flat (t1 ++ t2)) = Some n.
Proof.
  intros [Hb1 Hs1] [Hb2 Hs2]. rewrite flat_app, (obeys_app A n n), spin_app, Hs1, Hb1 by done.
  done.
Qed.

(** ** [cover] and the combinators *)

Lemma cover_plain {B} A n (m : ui W B) : emits plain m -> cover A n m.
Proof. intros Hm s. split; [apply obeys_plain, Hm | apply plain_spin, Hm]. Qed.

Lemma cover_invoke A n c : A n c = true -> cover A n (invoke c : ui W pyval).
Proof.
  intros Hc s. unfold invoke. destruct (backend_call c (world s)) as [r w].
  unfold trace_of. cbn. by rewrite Hc.
Qed.

Lemma cover_bind {B C} A n (m : ui W B) (k : B -> ui W C) :
  cover A n m -> (forall a, cover A n (k a)) -> cover A n (m ≫= k).
Proof.
  intros Hm Hk s. rewrite run_bind. destruct (m s) as [[s1 t1] [a|x]] eqn:Hs.
  - destruct (k a s1) as [[s2 t2] r] eqn:Hks. unfold trace_of. cbn [fst snd].
    apply cover_app; [by eapply cover_run | by eapply (cover_run _ _ (k a))].
  - by eapply cover_run.
Qed.

Lemma cover_try {B} A n (m : ui W B) h :
  cover A n m -> (forall e, cover A n (h e)) -> cover A n (try_except m h).
Proof.
  intros Hm Hh s. unfold try_except. destruct (m s) as [[s1 t1] [a|[e|]]] eqn:Hs;
    try by eapply cover_run.
  destruct (h e s1) as [[s2 t2] r] eqn:Hhs. unfold trace_of. cbn [fst snd].
  apply cover_app; [by eapply cover_run | by eapply (cover_run _ _ (h e))].
Qed.

Lemma cover_within {B} A n c (m : ui W B) : cover A n m -> cover A n (within c m).
Proof.
  intros Hm s. unfold within. destruct (m s) as [[s1 t1] r] eqn:Hs.
  unfold trace_of. cbn [fst snd]. rewrite flat_box. by eapply cover_run.
Qed.

(** The indicator of [with st.spinner] covers its block. *)
Lemma cover_spinner {B} A n t (m : ui W B) : cover A (S n) m -> cover A n (with_spinner t m).
Proof.
  intros Hm s. unfold with_spinner. destruct (m s) as [[s1 t1] r] eqn:Hs.
  destruct (cover_run _ _ _ _ _ _ _ Hm Hs) as [Hb Hn].
  unfold trace_of. cbn [fst snd]. rewrite flat_cons, flat_app. cbn [flat_event app obeys spin].
  by rewrite (obeys_app A (S n) (S n)), spin_app, Hb, Hn.
Qed.

Lemma cover_for_each {B} A n (l : list B) (f : B -> ui W unit) :
  (forall x, cover A n (f x)) -> cover A n (for_each l f).
Proof.
  intros Hf. induction l as [|x l IH]; [apply cover_plain, (emits_ret _ tt)|].
  by apply (cover_bind A n (f x)).
Qed.

Lemma cover_when_key A n k d (f : pyval -> ui W unit) :
  (forall v, cover A n (f v)) -> cover A n (when_key k d f).
Proof.
  intros Hf. unfold when_key. apply cover_bind; [apply cover_plain, emits_lift|].
  intros [|]; [|apply cover_plain, (emits_ret _ tt)].
  apply cover_bind; [apply cover_plain, emits_lift | done].
Qed.

(** A block that shows no indicator covers none of its calls. *)
Lemma exposed_uncovered {B} (m : ui W B) s :
  exposed m -> uncovered (trace_of (m s)) = calls (trace_of (m s)).
Proof. intros Hm. apply bare_calm, Hm. Qed.

Lemma cover_uncovered {B} (m : ui W B) s :
  cover under 0 m -> uncovered (trace_of (m s)) = [].
Proof. intros Hm. apply obeys_under, Hm. Qed.

Lemma cover_by_kind {B} (m : ui W B) s :
  cover by_kind 0 m ->
  uncovered (trace_of (m s)) = filter (fun c => shielded c = false) (calls (trace_of (m s))).
Proof. intros Hm. apply obeys_by_kind, Hm. Qed.

End busy.

(** [cover_auto] proves [cover n m] by the structure of [m]: a block
    that makes no call and shows no indicator is covered at every
    depth. *)
Ltac cover_step :=
  lazymatch goal with
  | |- cover _ _ (_ ≫= _) => apply cover_bind; [|intros ?]
  | |- cover _ _ (invoke _) => apply cover_invoke; reflexivity
  | |- cover _ _ (try_except _ _) => apply cover_try; [|intros ?]
  | |- cover _ _ (within _ _) => apply cover_within
  | |- cover _ _ (with_spinner _ _) => apply cover_spinner
  | |- cover _ _ (for_each _ _) => apply cover_for_each; intros ?
  | |- cover _ _ (when_key _ _ _) => apply cover_when_key; intros ?
  | |- cover _ _ (if ?b then _ else _) => destruct b
  | |- cover _ _ (match ?x with _ => _ end) => destruct x
  | |- cover _ _ (?f _ _ _ _) => unfold f
  | |- cover _ _ (?f _ _ _) => unfold f
  | |- cover _ _ (?f _ _) => unfold f
  | |- cover _ _ (?f _) => unfold f
  | |- cover _ _ ?f => unfold f
  end.

Ltac cover_auto := repeat first [ solve [apply cover_plain; emits_auto] | cover_step ].

Section pages.
Context {W : Type} `{!Backend W}.

(** ** The pages *)

Lemma analysis_covered i : cover under 0 (show_analysis_page i : ui W unit).
Proof. cover_auto. Qed.

Lemma history_covered i : cover under 0 (show_history_page i : ui W unit).
Proof. cover_auto. Qed.

Lemma quote_covered i : cover under 0 (show_stock_quote_page i : ui W unit).
Proof. cover_auto. Qed.

Lemma tasks_exposed i : exposed (show_task_monitor_page i : ui W unit).
Proof. unfold exposed. emits_auto. Qed.

Lemma config_exposed : exposed (show_config_page : ui W unit).
Proof. unfold exposed. emits_auto. Qed.

Lemma init_session_exposed : exposed (init_session : ui W unit).
Proof.
  unfold exposed, init_session. apply emits_bind; [by apply emits_nothing|].
  intros ?. emits_auto.
Qed.

(** C25: the calls of a view are made under the busy indicator on the
    analysis, the history and the quote page, and with no indicator on
    the task monitor and the configuration page. *)
Theorem busy_while_calling v i (s : state W) :
  uncovered (trace_of (render_view v i s)) =
  if shields v then [] else calls (trace_of (render_view v i s)).
Proof.
  destruct v; cbn [shields render_view];
    first [ apply cover_uncovered; auto using analysis_covered, history_covered, quote_covered
          | apply exposed_uncovered; auto using tasks_exposed, config_exposed ].
Qed.

(** The constructors of the session run with no indicator. *)
Lemma init_session_uncovered (s : state W) :
  uncovered (trace_of (init_session s)) = calls (trace_of (init_session s)).
Proof. apply exposed_uncovered, init_session_exposed. Qed.

(** ** The script *)

Lemma is_initialized_plain : emits plain (is_initialized : ui W bool).
Proof. by apply emits_nothing. Qed.

Lemma streamlit_app_by_kind i : cover by_kind 0 (streamlit_app i : ui W unit).
Proof.
  repeat first [ solve [apply cover_plain; first [apply is_initialized_plain | emits_auto]]
               | cover_step ].
Qed.

(** The calls a run of the script makes with no indicator showing are
    its calls to the constructors, to the task queue and to the
    configuration service; every call to the analysis, the history and
    the stock service is made under an indicator. *)
Theorem script_uncovered i (s : state W) :
  uncovered (trace_of (streamlit_app i s)) =
  filter (fun c => shielded c = false) (calls (trace_of (streamlit_app i s))).
Proof. apply cover_by_kind, streamlit_app_by_kind. Qed.

End pages.

(** The task monitor asks for the queue and its tasks with no
    indicator showing. *)
Example task_monitor_unshielded :
  uncovered (trace_of (show_task_monitor_page false queue_found)) =
  [get_task_queue; list_tasks (VObj 9) 50].
Proof. by vm_compute. Qed.
