(* ===== verification/Report.v ===== *)
(** * The report of an analysis, section by section

    [show_report] (lines 157-189 of [src/streamlit_app.py]) renders a
    report that is a dict field by field, each field under its heading
    when the dict has it, and any other report as markdown;
    [show_result] puts it between the announcement of success and the
    query id.  What they render depends on the answer alone: this file
    gives the page as a function of the answer ([report_page],
    [result_page]) and proves that the code renders it, the exception
    included when the value of a field cannot be rendered.

    The five blocks of the source are one block, [show_field], at the
    five rows of a table ([fields]); [show_report] is the loop over the
    table up to the equivalence of [Ui]. *)

From Stdlib Require Import String QArith.
From S2P Require Import Prelude PyStr PyVal PyDate Ui Scripted Session AnalysisPage.
Open Scope py_scope.

(** ** The table of the fields *)

Inductive field : Type := Summary | Advice | Score | Trend | FullReport.

#[export] Instance field_eq_dec : EqDecision field.
Proof. solve_decision. Defined.

(** The fields in the order of the source. *)
Definition fields : list field := [Summary; Advice; Score; Trend; FullReport].

Definition key_of (f : field) : string :=
  match f with
  | Summary => "summary"
  | Advice => "operation_advice"
  | Score => "sentiment_score"
  | Trend => "trend_prediction"
  | FullReport => "full_report"
  end.

Definition heading (f : field) : text :=
  match f with
  | Summary => lit "### 📋 分析摘要"
  | Advice => lit "### 💡 操作建议"
  | Score => lit "### 📊 情绪评分"
  | Trend => lit "### 🔮 趋势预测"
  | FullReport => lit "### 📄 完整报告"
  end.

(** ** The page as a function of the answer *)

(** A page and the exception that ended it, if one did. *)
Abbreviation rendering := (list element * option pyexn)%type (only parsing).

(** [p] and then [q], unless [p] ended with an exception. *)
Definition and_then (p q : rendering) : rendering :=
  match p.2 with
  | Some _ => p
  | None => (p.1 ++ q.1, q.2)
  end.

(** The advice in the frame of its classification. *)
Definition advice_element (k : advice_kind) (advice : pyval) : element :=
  let t := [FLit (u8 "**"); fstr advice; FLit (u8 "**")] in
  match k with Buy => st_success t | Sell => st_error t | Neutral => st_warning t end.

(** What a field shows under its heading, or the exception its value
    raises. *)
Definition body (f : field) (v : pyval) : res pyexn (list element) :=
  match f with
  | Summary | Trend => Ok [st_info [fstr v]]
  | Advice => res_bind (classify_advice v) (fun k => Ok [advice_element k v])
  | Score =>
      res_bind (py_div100 v) (fun q =>
      if (Qle_bool 0 q && Qle_bool q 1)%bool
      then Ok [st_progress q; st_caption [FLit (u8 "评分: "); fstr v; FLit (u8 "/100")]]
      else Err StreamlitAPIException)
  | FullReport => Ok [st_markdown [fstr v]]
  end.

(** The section of a field: nothing when the report has no such key;
    the heading alone when the value cannot be rendered. *)
Definition report_part (d : items) (f : field) : rendering :=
  match assoc (utf8 (key_of f)) d with
  | None => ([], None)
  | Some v =>
      match body f v with
      | Ok els => (st_markdown (heading f) :: els, None)
      | Err e => ([st_markdown (heading f)], Some e)
      end
  end.

Definition report_parts (fs : list field) (d : items) : rendering :=
  foldr (fun f => and_then (report_part d f)) ([], None) fs.

Definition report_page (report : pyval) : rendering :=
  match report with
  | VDict d => report_parts fields d
  | _ => ([st_markdown [fstr report]], None)
  end.

(** The title of the result, with [N/A] for what the answer lacks. *)
Definition result_title (d : items) : element :=
  st_subheader [FLit (u8 "📈 "); fstr (default (VStr (u8 "N/A")) (assoc (u8 "stock_name") d));
                FLit (u8 " (");
                fstr (default (VStr (u8 "N/A")) (assoc (u8 "stock_code") d)); FLit (u8 ")")].

Definition result_page (result : pyval) (query_id : pystr) : rendering :=
  if py_truthy result then
    match result with
    | VDict d =>
        and_then ([st_success (lit "分析完成！"); st_markdown (lit "---"); result_title d], None)
          (and_then (from_option report_page ([], None) (assoc (u8 "report") d))
             ([st_caption [FLit (u8 "查询 ID: "); FLit query_id]], None))
    | _ => ([st_success (lit "分析完成！"); st_markdown (lit "---")],
            Some (AttributeError (u8 "get")))
    end
  else ([st_error (lit "分析失败，请检查股票代码是否正确或查看日志")], None).

(** What the [except] branch adds for the exception [e]. *)
Definition failure_elements (e : pyexn) : list element :=
  [st_error [FLit (u8 "分析过程中发生错误: "); fexn e]; logged (u8 "Analysis error") e].

(** The page below the call, for the answer [r] of the collaborator:
    the result, and the failure message under what was rendered of it
    when the rendering raised. *)
Definition answer_page (r : res pyexn pyval) (query_id : pystr) : list element :=
  match r with
  | Err e => failure_elements e
  | Ok v =>
      let p := result_page v query_id in
      p.1 ++ from_option failure_elements [] p.2
  end.

(** A report every field of which can be rendered. *)
Definition renderable (d : items) : Prop :=
  forall f v, assoc (utf8 (key_of f)) d = Some v -> exists els, body f v = Ok els.

(** ** Reports to look at *)

Definition full_report : items :=
  [(u8 "full_report", VStr (u8 "..."));
   (u8 "sentiment_score", VInt 75);
   (u8 "operation_advice", VStr (u8 "建议买入"));
   (u8 "summary", VStr (u8 "稳健"))].

(** A report whose advice is null. *)
Definition null_advice : items :=
  [(u8 "summary", VStr (u8 "稳健")); (u8 "operation_advice", VNone); (u8 "sentiment_score", VInt 75)].

Section report.
Context {W : Type} `{!Backend W}.

(** ** The block of a field *)

(** What the source does with the value of a field, under the
    heading. *)
Definition render_field (f : field) (v : pyval) : ui W unit :=
  match f with
  | Summary | Trend => emit (st_info [fstr v])
  | Advice => show_advice v
  | Score => show_score v
  | FullReport => emit (st_markdown [fstr v])
  end.

(** [if key in report: st.markdown(heading); ...]. *)
Definition show_field (report : pyval) (f : field) : ui W unit :=
  when_key (key_of f) report (fun v => emit (st_markdown (heading f));; render_field f v).

(** The run that renders [p] and changes nothing. *)
Definition ended (p : rendering) (s : state W) : state W * trace * res signal unit :=
  (s, leaf <$> p.1, match p.2 with None => Ok tt | Some e => Err (Exn e) end).

(** ** Pages *)

Lemma and_then_nil_r (p : rendering) : and_then p ([], None) = p.
Proof. destruct p as [els [e|]]; unfold and_then; simpl; [done|]. by rewrite app_nil_r. Qed.

Lemma and_then_nil_l (p : rendering) : and_then ([], None) p = p.
Proof. by destruct p. Qed.

Lemma and_then_assoc (p q r : rendering) :
  and_then (and_then p q) r = and_then p (and_then q r).
Proof.
  destruct p as [a [e|]], q as [b [e'|]]; unfold and_then; simpl; try done.
  by rewrite app_assoc.
Qed.

Lemma report_parts_app fs1 fs2 d :
  report_parts (fs1 ++ fs2) d = and_then (report_parts fs1 d) (report_parts fs2 d).
Proof.
  unfold report_parts. induction fs1 as [|f fs1 IH]; simpl; [by rewrite and_then_nil_l|].
  by rewrite IH, and_then_assoc.
Qed.

(** ** Runs *)

(** A block that renders [p] followed by a block that renders [q]. *)
Lemma ended_seq (p q : rendering) (m k : ui W unit) s :
  (forall s, m s = ended p s) -> (forall s, k s = ended q s) ->
  (m;; k) s = ended (and_then p q) s.
Proof.
  intros Hm Hk. rewrite run_bind, Hm. destruct p as [a [e|]]; [done|].
  unfold ended, and_then. simpl. rewrite Hk. unfold ended. by rewrite fmap_app.
Qed.

Lemma when_key_dict k d (f : pyval -> ui W unit) s :
  when_key k (VDict d) f s =
  match assoc (utf8 k) d with Some v => f v s | None => (s, [], Ok tt) end.
Proof.
  unfold when_key. run_unfold. cbn [py_in py_getitem].
  destruct (assoc (utf8 k) d) as [v|]; [|done].
  rewrite bool_decide_eq_true_2 by done. by destruct (f v s) as [[s1 t1] r].
Qed.

Lemma render_field_run f v s :
  render_field f v s =
  match body f v with
  | Ok els => (s, leaf <$> els, Ok tt)
  | Err e => (s, [], Err (Exn e))
  end.
Proof.
  destruct f; try done; cbn [render_field body].
  - unfold show_advice. run_unfold. destruct (classify_advice v) as [[]|e]; by cbn.
  - unfold show_score. run_unfold. destruct (py_div100 v) as [q|e]; [|done].
    cbn. by destruct (_ && _)%bool.
Qed.

Lemma show_field_run d f s : show_field (VDict d) f s = ended (report_part d f) s.
Proof.
  unfold show_field, report_part. rewrite when_key_dict.
  destruct (assoc (utf8 (key_of f)) d) as [v|]; [|done].
  rewrite (run_bind_ok _ _ _ s [leaf (st_markdown (heading f))] tt) by done.
  rewrite render_field_run. by destruct (body f v).
Qed.

Lemma for_each_fields fs d s :
  for_each fs (show_field (VDict d)) s = ended (report_parts fs d) s.
Proof.
  induction fs as [|f fs IH] in s |- *; [done|].
  apply (ended_seq (report_part d f) (report_parts fs d)); [apply show_field_run | done].
Qed.

End report.

Section report_props.
Context {W : Type} `{!Backend W}.

(** ** The report *)

Lemma bind_ret_tt (m : ui W unit) : (m ≫= fun _ => mret tt) ≡ m.
Proof. intros s. rewrite run_bind. destruct (m s) as [[s1 t1] [[]|x]]; cbn; by rewrite ?app_nil_r. Qed.

(** The five blocks of the source are the block of a field at the five
    rows of the table. *)
Lemma show_report_loop d :
  show_report (VDict d) ≡ (for_each fields (show_field (VDict d)) : ui W unit).
Proof.
  unfold show_report, fields. cbn [is_dict for_each].
  do 4 (apply bind_proper; [intros ?|done]). symmetry. apply bind_ret_tt.
Qed.

Lemma show_report_run report (s : state W) :
  show_report report s = ended (report_page report) s.
Proof.
  destruct report; try done.
  rewrite (show_report_loop _ s). apply for_each_fields.
Qed.

(** C32: [show_report] renders the page [report_page] gives for the report,
    whatever the report is, and changes nothing: the sections of the
    fields the report has, in the order of the source, up to the first
    field whose value cannot be rendered, which ends the page with its
    exception under its heading. *)
Theorem show_report_spec report (s : state W) :
  show_report report s = ended (report_page report) s.
Proof. apply show_report_run. Qed.

(** ** The result *)

Lemma ended_prepend (els : list element) (p : rendering) (s : state W) :
  prepend (leaf <$> els) (ended p s) = ended (els ++ p.1, p.2) s.
Proof. unfold prepend, ended. simpl_run. by rewrite fmap_app. Qed.

Lemma report_key_run d (s : state W) :
  when_key "report" (VDict d) show_report s =
  ended (from_option report_page ([], None) (assoc (u8 "report") d)) s.
Proof.
  rewrite when_key_dict. destruct (assoc _ d) as [r|]; [apply show_report_run | done].
Qed.

(** [show_result] renders the page [result_page] gives for the answer:
    the failure message for a falsy answer; for a dict the
    announcement, the title, the report and the query id; for any
    other answer the announcement and the [AttributeError] of
    [.get]. *)
Theorem show_result_spec result query_id (s : state W) :
  show_result result query_id s = ended (result_page result query_id) s.
Proof.
  unfold show_result, result_page. destruct (py_truthy result) eqn:Ht; [|done].
  rewrite (run_bind_ok _ _ _ s [leaf (st_success (lit "分析完成！"))] tt) by done.
  rewrite (run_bind_ok _ _ _ s [leaf (st_markdown (lit "---"))] tt) by done.
  destruct result as [| | | | | |d|]; try done. rewrite !prepend_prepend.
  rewrite (run_bind_ok _ _ _ s [] (default (VStr (u8 "N/A")) (assoc (u8 "stock_name") d))),
    prepend_nil by done.
  rewrite (run_bind_ok _ _ _ s [] (default (VStr (u8 "N/A")) (assoc (u8 "stock_code") d))),
    prepend_nil by done.
  rewrite (run_bind_ok _ _ _ s [leaf (result_title d)] tt) by reflexivity.
  rewrite prepend_prepend.
  rewrite (ended_seq (from_option report_page ([], None) (assoc (u8 "report") d))
             ([st_caption [FLit (u8 "查询 ID: "); FLit query_id]], None))
    by (first [apply report_key_run | by intros ?]).
  apply (ended_prepend [_; _; _]).
Qed.

(** What follows the answer of the collaborator. *)
Lemma after_answer_spec r query_id (s : state W) :
  after_answer r query_id s = (s, leaf <$> answer_page r query_id, Ok tt).
Proof.
  destruct r as [v|e]; [|done]. unfold after_answer, try_except.
  rewrite (run_bind_ok _ _ _ s [] v), prepend_nil, show_result_spec by done.
  unfold answer_page, ended. destruct (result_page v query_id) as [els [e|]]; simpl.
  - by rewrite fmap_app.
  - by rewrite app_nil_r.
Qed.

(** The analysis page as a function of the input and the answer: the
    form, the busy indicator, the call, the page of the answer, the end
    of the indicator; the run ends normally and the session state is as
    before. *)
Theorem analysis_page_spec i (s : state W) svc u w1 r w2 :
  start_clicked i = true -> stock_code i <> [] ->
  analysis_service (sess s) = Some svc ->
  uuid4_hex (world s) = (u, w1) ->
  backend_call (the_call i svc u) w1 = (r, w2) ->
  show_analysis_page i s =
    (State w2 (sess s),
     trace_of (analysis_form s) ++
       (leaf <$> spinner_on (busy_text i) :: called (the_call i svc u) r ::
                 answer_page r u ++ [spinner_off]),
     Ok tt).
Proof.
  intros Hc Hne Hs Hu Hb. rewrite (analysis_run i s svc u w1 r w2) by done.
  rewrite after_answer_spec, trace_of_mk, result_of_mk. do 2 f_equal.
  cbn. by rewrite fmap_app.
Qed.

(** ** What the page of a report has *)

Lemma renderable_part d f : renderable d -> (report_part d f).2 = None.
Proof.
  intros Hd. unfold report_part. destruct (assoc _ d) as [v|] eqn:Hv; [|done].
  by destruct (Hd f v Hv) as [els ->].
Qed.

(** A report every field of which can be rendered is rendered whole:
    the sections of its fields, and no exception. *)
Lemma renderable_parts fs d :
  renderable d ->
  report_parts fs d = (fs ≫= fun f => (report_part d f).1, None).
Proof.
  intros Hd. induction fs as [|f fs IH]; [done|].
  change (report_parts (f :: fs) d) with (and_then (report_part d f) (report_parts fs d)).
  rewrite IH, bind_cons. pose proof (renderable_part d f Hd) as Hf.
  destruct (report_part d f) as [els o]. simpl in Hf. by subst o.
Qed.

(** A field the report lacks leaves the sections of the others as they
    are. *)
Lemma absent_field_suppressed f fs d :
  assoc (utf8 (key_of f)) d = None ->
  report_parts fs d = report_parts (filter (fun g => g <> f) fs) d.
Proof.
  intros Hf. induction fs as [|g fs IH]; [done|].
  change (report_parts (g :: fs) d) with (and_then (report_part d g) (report_parts fs d)).
  destruct (decide (g = f)) as [->|Hg].
  - rewrite filter_cons_False by naive_solver.
    unfold report_part. by rewrite Hf, and_then_nil_l.
  - rewrite filter_cons_True by done.
    change (report_parts (g :: filter _ fs) d)
      with (and_then (report_part d g) (report_parts (filter (fun g => g <> f) fs) d)).
    by rewrite IH.
Qed.

(** The first field whose value cannot be rendered ends the report
    under its heading: no later field is shown. *)
Lemma first_failure_ends fs1 f fs2 d v e :
  (report_parts fs1 d).2 = None ->
  assoc (utf8 (key_of f)) d = Some v -> body f v = Err e ->
  report_parts (fs1 ++ f :: fs2) d =
    ((report_parts fs1 d).1 ++ [st_markdown (heading f)], Some e).
Proof.
  intros H1 Hv He. rewrite report_parts_app.
  change (report_parts (f :: fs2) d) with (and_then (report_part d f) (report_parts fs2 d)).
  unfold report_part. rewrite Hv, He. unfold and_then at 2. simpl.
  unfold and_then. by rewrite H1.
Qed.

End report_props.

(** The sections come in the order of the source, whatever the order
    of the keys in the answer. *)
Example full_report_page :
  report_page (VDict full_report) =
  ([st_markdown (heading Summary); st_info [FLit (u8 "稳健")];
    st_markdown (heading Advice);
    st_success [FLit (u8 "**"); FLit (u8 "建议买入"); FLit (u8 "**")];
    st_markdown (heading Score); st_progress (75 # 100);
    st_caption [FLit (u8 "评分: "); FRepr (VInt 75); FLit (u8 "/100")];
    st_markdown (heading FullReport); st_markdown [FLit (u8 "...")]], None).
Proof. reflexivity. Qed.

(** A null advice: the summary, the heading of the advice, and the
    [TypeError] of the membership test; the score is not shown. *)
Example null_advice_page :
  report_page (VDict null_advice) =
  ([st_markdown (heading Summary); st_info [FLit (u8 "稳健")];
    st_markdown (heading Advice)], Some TypeError).
Proof. reflexivity. Qed.

(** The page of an answer with that report announces success and ends
    with the failure message. *)
Example null_advice_answer :
  let page := answer_page (Ok (VDict [(u8 "report", VDict null_advice)])) (u8 "id") in
  head page = Some (st_success (lit "分析完成！"))
  /\ list.last page = Some (logged (u8 "Analysis error") TypeError)
  /\ st_caption [FLit (u8 "查询 ID: "); FLit (u8 "id")] ∉ page.
Proof. split_and!; [reflexivity..|]. apply (bool_decide_unpack _). by vm_compute. Qed.
