(* ===== verification/Printing.v ===== *)
(** * What the user reads

    The pages build their texts with f-strings.  [Ui] keeps a text as
    the list of its pieces ([frag]); this file prints the pieces whose
    printed form does not depend on the interpreter: a string, [None],
    a boolean, an integer, and a number formatted with [:.2f].  The
    [str] of a float, of a container and of an exception is left
    unprinted.

    With the printed text the theorems say what stands on the page: a
    field the quote lacks reads [N/A] and a field that is null reads
    [None]; the change and its percentage are shown within half a
    hundredth of the numbers received; an integer count is shown in
    full. *)

From Stdlib Require Import String QArith Qabs.
From S2P Require Import Prelude PyStr PyVal PyDate PyFormat Ui Scripted Session.
From S2P Require Import AnalysisPage HistoryPage QuotePage TaskPage.
Open Scope py_scope.

(** ** Printing the pieces of a text *)

(** [float(z)] is [z]: the integers up to [2 ^ 53]. *)
Definition exact_float (z : Z) : bool := (Z.abs z <=? 2 ^ 53)%Z.

(** [str(v)], the [{v}] of an f-string. *)
Definition print_str (v : pyval) : option pystr :=
  match v with
  | VNone => Some (u8 "None")
  | VBool b => Some (if b then u8 "True" else u8 "False")
  | VInt z => Some (print_int z)
  | VStr s => Some s
  | _ => None
  end.

(** [format(v, ".2f")], the [{v:.2f}] of an f-string: an integer is
    converted to a float first. *)
Definition print_format2 (v : pyval) : option pystr :=
  match v with
  | VFloat q => Some (print_fixed2 q)
  | VInt z => if exact_float z then Some (print_fixed2 (inject_Z z)) else None
  | VBool b => Some (print_fixed2 (inject_Z (Z.b2z b)))
  | _ => None
  end.

Definition print_frag (f : frag) : option pystr :=
  match f with
  | FLit s => Some s
  | FRepr v => print_str v
  | FFixed2 v => print_format2 v
  | FExn _ => None
  end.

(** The text as the user reads it. *)
Fixpoint print_text (t : text) : option pystr :=
  match t with
  | [] => Some []
  | f :: t' => s ← print_frag f; r ← print_text t'; Some (s ++ r)
  end.

(** ** Quotes to look at *)

(** A quote with a null price and no opening price. *)
Definition sparse_quote : items :=
  [(u8 "current_price", VNone); (u8 "change", VFloat (- 1 # 8));
   (u8 "change_percent", VFloat (3 # 8)); (u8 "volume", VInt 120000)].

(** * Properties *)

(** ** Texts *)

Lemma print_text_nil : print_text [] = Some [].
Proof. reflexivity. Qed.

Lemma print_text_cons f t :
  print_text (f :: t) = s ← print_frag f; r ← print_text t; Some (s ++ r).
Proof. reflexivity. Qed.

Lemma print_text_app t1 t2 :
  print_text (t1 ++ t2) = s ← print_text t1; r ← print_text t2; Some (s ++ r).
Proof.
  induction t1 as [|f t1 IH]; cbn [app].
  - rewrite print_text_nil. cbn. by destruct (print_text t2).
  - rewrite !print_text_cons, IH. destruct (print_frag f) as [s|]; [|done]. cbn.
    destruct (print_text t1) as [s1|]; [|done]. cbn.
    destruct (print_text t2) as [s2|]; [|done]. cbn. by rewrite app_assoc.
Qed.

Lemma print_text_lit s : print_text (lit s) = Some (utf8 s).
Proof. unfold lit. cbn. by rewrite app_nil_r. Qed.

(** A string is interpolated as it is. *)
Lemma print_fstr_str s : print_frag (fstr (VStr s)) = Some s.
Proof. reflexivity. Qed.

Lemma print_fstr v : print_frag (fstr v) = print_str v.
Proof. by destruct v. Qed.

(** ** Integers on the page *)

(** A text that interpolates an integer between two literals shows the
    integer in full. *)
Lemma print_count (before after : pystr) z :
  print_text [FLit before; FRepr (VInt z); FLit after] = Some (before ++ print_int z ++ after).
Proof. cbn. by rewrite app_nil_r. Qed.

(** The integer is read back from the text, whatever stands around it. *)
Lemma count_determined (before after : pystr) z1 z2 :
  print_text [FLit before; FRepr (VInt z1); FLit after]
  = print_text [FLit before; FRepr (VInt z2); FLit after] ->
  print_int z1 ++ after = print_int z2 ++ after.
Proof. rewrite !print_count. intros [= H]. by apply app_inv_head in H. Qed.

Section pages.
Context {W : Type} `{!Backend W}.

(** ** The quote page *)

Lemma metric_of_run d label key (s : state W) :
  metric_of (VDict d) label key s =
  (s, [leaf (st_metric (utf8 label) [fstr (default na (assoc (utf8 key) d))] None)], Ok tt).
Proof. reflexivity. Qed.

Lemma field_of_run d label key (s : state W) :
  field_of (VDict d) label key s =
  (s, [leaf (st_markdown [FLit (utf8 label); fstr (default na (assoc (utf8 key) d))])], Ok tt).
Proof. reflexivity. Qed.

(** What a metric of the quote reads: [N/A] for a field the quote
    lacks, [None] for a field that is null, the string or the integer
    the quote has. *)
Theorem metric_reads d key :
  print_text [fstr (default na (assoc (utf8 key) d))] =
  match assoc (utf8 key) d with
  | None => Some (u8 "N/A")
  | Some v => print_str v
  end.
Proof.
  rewrite print_text_cons, print_text_nil, print_fstr.
  destruct (assoc (utf8 key) d) as [v|]; [|reflexivity]. cbn.
  destruct (print_str v); cbn; by rewrite ?app_nil_r.
Qed.

(** A null field does not read [N/A]. *)
Corollary null_field_reads_None d label key (s : state W) :
  assoc (utf8 key) d = Some VNone ->
  exists t, metric_of (VDict d) label key s = (s, [leaf (st_metric (utf8 label) t None)], Ok tt)
            /\ print_text t = Some (u8 "None").
Proof.
  intros Hk. eexists. split; [apply metric_of_run|]. by rewrite metric_reads, Hk.
Qed.

Lemma change_metric_floats d c p (s : state W) :
  assoc (u8 "change") d = Some (VFloat c) ->
  assoc (u8 "change_percent") d = Some (VFloat p) ->
  change_metric (VDict d) s =
  (s, [leaf (st_metric (u8 "涨跌") [FFixed2 (VFloat c)]
               (Some [FFixed2 (VFloat p); FLit (u8 "%")]))], Ok tt).
Proof. intros Hc Hp. unfold change_metric. run_unfold. cbn [py_get]. by rewrite Hc, Hp. Qed.

Lemma print_change c : print_text [FFixed2 (VFloat c)] = Some (print_fixed2 c).
Proof. cbn. by rewrite app_nil_r. Qed.

Lemma print_percent p :
  print_text [FFixed2 (VFloat p); FLit (u8 "%")] = Some (print_fixed2 p ++ u8 "%").
Proof. cbn. by rewrite app_nil_r. Qed.

(** The number a text of two decimals shows is within half a hundredth
    of the number formatted. *)
Lemma shown_close q :
  exists x, read_fixed2 (print_fixed2 q) = Some x /\ (Qabs (x - q) <= 1 # 200)%Q.
Proof. exists (fixed2_value q). split; [apply read_print_fixed2 | apply fixed2_close]. Qed.

(** C34: the change metric of a quote with a change and a percentage shows
    both with two decimals, each within half a hundredth of the number
    the quote has. *)
Theorem change_shown_close d c p (s : state W) :
  assoc (u8 "change") d = Some (VFloat c) ->
  assoc (u8 "change_percent") d = Some (VFloat p) ->
  exists value delta shown_c shown_p x y,
    change_metric (VDict d) s = (s, [leaf (st_metric (u8 "涨跌") value (Some delta))], Ok tt)
    /\ print_text value = Some shown_c
    /\ print_text delta = Some (shown_p ++ u8 "%")
    /\ read_fixed2 shown_c = Some x /\ (Qabs (x - c) <= 1 # 200)%Q
    /\ read_fixed2 shown_p = Some y /\ (Qabs (y - p) <= 1 # 200)%Q.
Proof.
  intros Hc Hp. destruct (shown_close c) as (x & Hx & Hxc), (shown_close p) as (y & Hy & Hyp).
  exists [FFixed2 (VFloat c)], [FFixed2 (VFloat p); FLit (u8 "%")],
    (print_fixed2 c), (print_fixed2 p), x, y.
  split_and!; try done;
    first [by apply change_metric_floats | apply print_change | apply print_percent].
Qed.

(** ** The analysis page *)

(** The caption of the score reads the score in full. *)
Lemma score_caption_reads z :
  print_text [FLit (u8 "评分: "); fstr (VInt z); FLit (u8 "/100")]
  = Some (u8 "评分: " ++ print_int z ++ u8 "/100").
Proof. apply print_count. Qed.

End pages.

(** The quote [sparse_quote] on the page: the null price reads [None],
    the missing opening price [N/A], the change [-0.12] and the
    percentage [0.38%]. *)
Example sparse_quote_reads :
  print_text [fstr (default na (assoc (u8 "current_price") sparse_quote))] = Some (u8 "None")
  /\ print_text [fstr (default na (assoc (u8 "open") sparse_quote))] = Some (u8 "N/A")
  /\ print_text [fstr (default na (assoc (u8 "volume") sparse_quote))] = Some (u8 "120000")
  /\ print_text [FFixed2 (VFloat (- 1 # 8))] = Some (u8 "-0.12")
  /\ print_text [FFixed2 (VFloat (3 # 8)); FLit (u8 "%")] = Some (u8 "0.38%").
Proof. by vm_compute. Qed.

Lemma change_shown_close_witness :
  exists value delta shown_c shown_p x y,
    change_metric (VDict sparse_quote) (scripted_state []) =
      (scripted_state [], [leaf (st_metric (u8 "涨跌") value (Some delta))], Ok tt)
    /\ print_text value = Some shown_c
    /\ print_text delta = Some (shown_p ++ u8 "%")
    /\ read_fixed2 shown_c = Some x /\ (Qabs (x - (- 1 # 8)) <= 1 # 200)%Q
    /\ read_fixed2 shown_p = Some y /\ (Qabs (y - (3 # 8)) <= 1 # 200)%Q.
Proof.
  apply (change_shown_close sparse_quote (- 1 # 8) (3 # 8) (scripted_state [])); reflexivity.
Defined.
